(** * gozlib: the dynamic memory pool of [zwrapper/dyn_mem_pool.h]

    A shallow embedding of the single-size pool ([struct MemPool]), the
    multipool ([struct MultiPool]) and the process-wide multipool, together
    with the properties of the size-class arithmetic, of the free list and of
    construction and teardown.

    Conventions.
    - A [uint32_t] is a [Z] in [0, 2^32); every operation that can leave that
      range is followed by its wrap-around ([wrap32]).
    - A pointer is a [Z]; [NULL] is [0].
    - The C heap is split by the type of the allocated object (nodes, data
      buffers, pools, multipools); each part is a finite map from the address
      returned by [malloc] to the object stored there.
    - Code runs in a state-and-failure monad: a call returns a value and a new
      state, stops at a failed [assert], or has undefined behaviour. *)

From Stdlib Require Import ZArith Lia List Bool.
From stdpp Require Import base decidable option numbers list gmap fin_maps.

Local Open Scope Z_scope.

(** ** Machine integers *)

Definition UINT32_MOD : Z := 2 ^ 32.

Definition wrap32 (x : Z) : Z := x mod UINT32_MOD.

Definition CHAR_BIT : Z := 8.
Definition sizeof_uint32 : Z := 4.

(** [__builtin_clz] on a 32-bit operand: the number of zero bits above the
    most significant one bit, found by scanning from bit 31 downwards. (The
    builtin is undefined at 0; the scan gives 32 there, and the code never
    calls it at 0.) *)
Fixpoint clz_scan (nbits : nat) (x : Z) : Z :=
  match nbits with
  | O => 0
  | S k => if Z.testbit x (Z.of_nat k) then 0 else 1 + clz_scan k x
  end.

Definition builtin_clz (x : Z) : Z := clz_scan 32 x.

(** ** Size classes *)

Definition DynPoolMinMultiPoolMemNodeSizeBits : Z := 9.
Definition MULTIPOOL_ENTRY_COUNT : Z := 14.

(** [uint32_t find_multipool_index_for_size(uint32_t size)] *)
Definition find_multipool_index_for_size (size : Z) : Z :=
  let int32bitcount := sizeof_uint32 * CHAR_BIT in
  let size_value := Z.shiftr (wrap32 (size - 1)) DynPoolMinMultiPoolMemNodeSizeBits in
  if size_value =? 0 then 0
  else wrap32 (int32bitcount - wrap32 (builtin_clz size_value)).

(** The index the specification asks for, written from its words: the least
    [k] with [size / minClassSize <= 2^k], that is [size <= minClassSize * 2^k]
    (which is [ceil (log2 (size / minClassSize))] for a ratio above 1, and 0
    for a ratio of at most 1). The search is bounded by [fuel] classes. *)
Fixpoint ceil_log2_ratio_from (fuel : nat) (k size minClassSize : Z) : Z :=
  match fuel with
  | O => k
  | S f => if size <=? minClassSize * 2 ^ k then k
           else ceil_log2_ratio_from f (k + 1) size minClassSize
  end.

Definition ceil_log2_ratio (size minClassSize : Z) : Z :=
  ceil_log2_ratio_from 64 0 size minClassSize.

(** ** Build configuration

    [assert] is compiled out when [NDEBUG] is defined, and the usage counters
    exist only when [TRACK_POOL_USAGE] is defined. *)
Record Config := mkConfig {
  ndebug : bool;
  track_pool_usage : bool
}.

(** ** Heap objects *)

Definition NULL : Z := 0.

(** [sizeof(ptrdiff_t)], [sizeof(void* )]: an LP64 target. *)
Definition sizeof_ptrdiff : Z := 8.

(** [struct MemNode] *)
Record MemNode := mkMemNode {
  next : Z;
  data : Z;
  pool : Z
}.

(** [struct MemPool]; the two counters are only present (and only touched)
    under [TRACK_POOL_USAGE]. *)
Record MemPool := mkMemPool {
  head : Z;
  mem_size : Z;
  num_allocs : Z;
  num_available : Z
}.

(** [struct MultiPool]: the array [pools[MULTIPOOL_ENTRY_COUNT]]. *)
Record MultiPool := mkMultiPool {
  pools : list Z
}.

(** The allocation behind a data pointer: [malloc(mem_size + sizeof(ptrdiff_t))].
    Its first word holds the address of the owning node; the payload handed to
    the caller starts one word later. *)
Record DataBuf := mkDataBuf {
  owner_word : Z;
  alloc_size : Z
}.

(** ** Program state

    - [brk] is the next address [malloc] hands out (addresses are never
      reused in this model);
    - [malloc_script] says which of the coming [malloc] calls succeed
      ([true]) or fail ([false]); once it is used up every call succeeds;
    - [cas_script] does the same for the weak compare-and-swap on a pool's
      head: [false] is a spurious failure, [true] (or an exhausted script)
      lets the instruction compare and store;
    - [malloc_calls] counts the calls made to [malloc]. *)
Record State := mkState {
  nodes : gmap Z MemNode;
  buffers : gmap Z DataBuf;
  mempools : gmap Z MemPool;
  multipools : gmap Z MultiPool;
  _global_multipool : Z;
  brk : Z;
  malloc_script : list bool;
  cas_script : list bool;
  malloc_calls : nat
}.

Definition set_nodes (f : gmap Z MemNode -> gmap Z MemNode) (s : State) : State :=
  mkState (f (nodes s)) (buffers s) (mempools s) (multipools s)
          (_global_multipool s) (brk s) (malloc_script s) (cas_script s) (malloc_calls s).

Definition set_buffers (f : gmap Z DataBuf -> gmap Z DataBuf) (s : State) : State :=
  mkState (nodes s) (f (buffers s)) (mempools s) (multipools s)
          (_global_multipool s) (brk s) (malloc_script s) (cas_script s) (malloc_calls s).

Definition set_mempools (f : gmap Z MemPool -> gmap Z MemPool) (s : State) : State :=
  mkState (nodes s) (buffers s) (f (mempools s)) (multipools s)
          (_global_multipool s) (brk s) (malloc_script s) (cas_script s) (malloc_calls s).

Definition set_multipools (f : gmap Z MultiPool -> gmap Z MultiPool) (s : State) : State :=
  mkState (nodes s) (buffers s) (mempools s) (f (multipools s))
          (_global_multipool s) (brk s) (malloc_script s) (cas_script s) (malloc_calls s).

Definition set_global_multipool (g : Z) (s : State) : State :=
  mkState (nodes s) (buffers s) (mempools s) (multipools s)
          g (brk s) (malloc_script s) (cas_script s) (malloc_calls s).

Definition set_brk (b : Z) (s : State) : State :=
  mkState (nodes s) (buffers s) (mempools s) (multipools s)
          (_global_multipool s) b (malloc_script s) (cas_script s) (malloc_calls s).

Definition set_malloc_script (l : list bool) (s : State) : State :=
  mkState (nodes s) (buffers s) (mempools s) (multipools s)
          (_global_multipool s) (brk s) l (cas_script s) (malloc_calls s).

Definition set_cas_script (l : list bool) (s : State) : State :=
  mkState (nodes s) (buffers s) (mempools s) (multipools s)
          (_global_multipool s) (brk s) (malloc_script s) l (malloc_calls s).

Definition count_malloc (s : State) : State :=
  mkState (nodes s) (buffers s) (mempools s) (multipools s)
          (_global_multipool s) (brk s) (malloc_script s) (cas_script s) (S (malloc_calls s)).

(** The state at program start: nothing allocated, [_global_multipool = NULL]. *)
Definition initial_state (mscript cscript : list bool) : State :=
  mkState ∅ ∅ ∅ ∅ NULL 4096 mscript cscript 0.

(** ** The monad of C calls *)

Inductive Outcome (A : Type) : Type :=
| Ok (a : A) (s : State)     (* the call returned [a] *)
| AssertFail                 (* an [assert] failed: the process aborts *)
| Undefined                  (* undefined behaviour: a wild or dangling pointer *)
| OutOfFuel.                 (* a loop of the model ran out of fuel *)
Arguments Ok {A} a s.
Arguments AssertFail {A}.
Arguments Undefined {A}.
Arguments OutOfFuel {A}.

Definition M (A : Type) : Type := State -> Outcome A.

Definition ret {A} (a : A) : M A := fun s => Ok a s.

Definition bind {A B} (m : M A) (k : A -> M B) : M B :=
  fun s => match m s with
           | Ok a s' => k a s'
           | AssertFail => AssertFail
           | Undefined => Undefined
           | OutOfFuel => OutOfFuel
           end.

Definition undefined {A} : M A := fun _ => Undefined.
Definition abort {A} : M A := fun _ => AssertFail.
Definition out_of_fuel {A} : M A := fun _ => OutOfFuel.
Definition get : M State := fun s => Ok s s.

Declare Scope c_scope.
Delimit Scope c_scope with C.
Notation "'let*' x := e 'in' k" := (bind e (fun x => k))
  (at level 10, x name, e at level 100, k at level 200) : c_scope.
Notation "e ;; k" := (bind e (fun _ => k))
  (at level 100, k at level 200, right associativity) : c_scope.
Local Open Scope c_scope.

(** ** Memory accesses

    Reading or writing through [NULL], or through an address that holds no
    live object of the expected type, is undefined behaviour. *)

Definition load_node (p : Z) : M MemNode := fun s =>
  if p =? NULL then Undefined
  else match nodes s !! p with Some n => Ok n s | None => Undefined end.

Definition store_node (p : Z) (f : MemNode -> MemNode) : M unit := fun s =>
  if p =? NULL then Undefined
  else match nodes s !! p with
       | Some n => Ok tt (set_nodes <[p := f n]> s)
       | None => Undefined
       end.

Definition load_buffer (p : Z) : M DataBuf := fun s =>
  if p =? NULL then Undefined
  else match buffers s !! p with Some b => Ok b s | None => Undefined end.

Definition store_buffer (p : Z) (f : DataBuf -> DataBuf) : M unit := fun s =>
  if p =? NULL then Undefined
  else match buffers s !! p with
       | Some b => Ok tt (set_buffers <[p := f b]> s)
       | None => Undefined
       end.

Definition load_pool (p : Z) : M MemPool := fun s =>
  if p =? NULL then Undefined
  else match mempools s !! p with Some m => Ok m s | None => Undefined end.

Definition store_pool (p : Z) (f : MemPool -> MemPool) : M unit := fun s =>
  if p =? NULL then Undefined
  else match mempools s !! p with
       | Some m => Ok tt (set_mempools <[p := f m]> s)
       | None => Undefined
       end.

Definition load_multipool (p : Z) : M MultiPool := fun s =>
  if p =? NULL then Undefined
  else match multipools s !! p with Some m => Ok m s | None => Undefined end.

(** [multipool->pools[i]], read and written; the array has
    [MULTIPOOL_ENTRY_COUNT] entries and an index outside it is undefined
    behaviour. *)
Definition load_multipool_slot (p i : Z) : M Z :=
  let* m := load_multipool p in
  if (0 <=? i) && (i <? MULTIPOOL_ENTRY_COUNT) then
    match pools m !! Z.to_nat i with
    | Some q => ret q
    | None => undefined
    end
  else undefined.

Definition store_multipool_slot (p i v : Z) : M unit := fun s =>
  if p =? NULL then Undefined
  else match multipools s !! p with
       | Some m =>
           if (0 <=? i) && (i <? MULTIPOOL_ENTRY_COUNT) then
             Ok tt (set_multipools <[p := mkMultiPool (<[Z.to_nat i := v]> (pools m))]> s)
           else Undefined
       | None => Undefined
       end.

Definition with_next (v : Z) (n : MemNode) : MemNode := mkMemNode v (data n) (pool n).
Definition with_data (v : Z) (n : MemNode) : MemNode := mkMemNode (next n) v (pool n).
Definition with_pool (v : Z) (n : MemNode) : MemNode := mkMemNode (next n) (data n) v.

Definition with_head (v : Z) (m : MemPool) : MemPool :=
  mkMemPool v (mem_size m) (num_allocs m) (num_available m).
Definition with_mem_size (v : Z) (m : MemPool) : MemPool :=
  mkMemPool (head m) v (num_allocs m) (num_available m).
Definition with_num_allocs (v : Z) (m : MemPool) : MemPool :=
  mkMemPool (head m) (mem_size m) v (num_available m).
Definition with_num_available (v : Z) (m : MemPool) : MemPool :=
  mkMemPool (head m) (mem_size m) (num_allocs m) v.

Definition with_owner_word (v : Z) (b : DataBuf) : DataBuf := mkDataBuf v (alloc_size b).

(** ** The system allocator *)

(** Does the next [malloc] succeed? Consumes one entry of the script. *)
Definition malloc_succeeds : M bool := fun s =>
  Ok (hd true (malloc_script s))
     (count_malloc (set_malloc_script (tl (malloc_script s)) s)).

(** A block of [size] bytes at the current break, 16-byte aligned. *)
Definition round_up16 (size : Z) : Z := 16 * ((size + 15) / 16).

Definition take_block (size : Z) : M Z := fun s =>
  Ok (brk s) (set_brk (brk s + Z.max 16 (round_up16 size)) s).

(** The contents of freshly allocated memory are indeterminate; the model
    puts zeros there, and the code writes every field before it reads it. *)
Definition sizeof_MemNode : Z := 24.
Definition sizeof_MultiPool : Z := MULTIPOOL_ENTRY_COUNT * 8.

Definition malloc_MemNode : M Z :=
  let* ok := malloc_succeeds in
  if ok : bool then
    let* p := take_block sizeof_MemNode in
    fun s => Ok p (set_nodes <[p := mkMemNode 0 0 0]> s)
  else ret NULL.

Definition malloc_buffer (size : Z) : M Z :=
  let* ok := malloc_succeeds in
  if ok : bool then
    let* p := take_block size in
    fun s => Ok p (set_buffers <[p := mkDataBuf 0 size]> s)
  else ret NULL.

Definition malloc_MemPool (size : Z) : M Z :=
  let* ok := malloc_succeeds in
  if ok : bool then
    let* p := take_block size in
    fun s => Ok p (set_mempools <[p := mkMemPool 0 0 0 0]> s)
  else ret NULL.

Definition malloc_MultiPool : M Z :=
  let* ok := malloc_succeeds in
  if ok : bool then
    let* p := take_block sizeof_MultiPool in
    fun s => Ok p (set_multipools
                     <[p := mkMultiPool (replicate (Z.to_nat MULTIPOOL_ENTRY_COUNT) 0)]> s)
  else ret NULL.

(** [free(p)]: nothing for [NULL], undefined for an address that is not live. *)
Definition free_node (p : Z) : M unit := fun s =>
  if p =? NULL then Ok tt s
  else match nodes s !! p with
       | Some _ => Ok tt (set_nodes (delete p) s)
       | None => Undefined
       end.

Definition free_buffer (p : Z) : M unit := fun s =>
  if p =? NULL then Ok tt s
  else match buffers s !! p with
       | Some _ => Ok tt (set_buffers (delete p) s)
       | None => Undefined
       end.

Definition free_pool (p : Z) : M unit := fun s =>
  if p =? NULL then Ok tt s
  else match mempools s !! p with
       | Some _ => Ok tt (set_mempools (delete p) s)
       | None => Undefined
       end.

Definition free_multipool (p : Z) : M unit := fun s =>
  if p =? NULL then Ok tt s
  else match multipools s !! p with
       | Some _ => Ok tt (set_multipools (delete p) s)
       | None => Undefined
       end.

(** ** Atomics (one thread)

    [__atomic_compare_exchange_n(&pool->head, &expected, desired, weak = true, ...)]:
    may fail spuriously; otherwise stores [desired] if the head equals
    [expected]. *)
Definition pop_cas_script : M bool := fun s =>
  Ok (hd true (cas_script s)) (set_cas_script (tl (cas_script s)) s).

Definition atomic_compare_exchange_head (pl expected desired : Z) : M bool :=
  let* genuine := pop_cas_script in
  if genuine : bool then
    let* m := load_pool pl in
    if head m =? expected then store_pool pl (with_head desired) ;; ret true
    else ret false
  else ret false.

(** ** The code of [dyn_mem_pool.h] *)

Section Program.

Variable cfg : Config.

(** [assert(cond)]: not evaluated under [NDEBUG]. *)
Definition assert (cond : M bool) : M unit :=
  if ndebug cfg then ret tt
  else let* b := cond in if b : bool then ret tt else abort.

Definition sizeof_MemPool : Z := if track_pool_usage cfg then 24 else 16.

Definition track_pool_usage_allocs (pl : Z) : M unit :=
  if track_pool_usage cfg then
    store_pool pl (fun m => with_num_allocs (wrap32 (num_allocs m + 1)) m)
  else ret tt.

Definition track_pool_usage_returned (pl : Z) : M unit :=
  if track_pool_usage cfg then
    store_pool pl (fun m => with_num_available (wrap32 (num_available m + 1)) m)
  else ret tt.

Definition track_pool_usage_memnode_unavailable (pl : Z) : M unit :=
  if track_pool_usage cfg then
    store_pool pl (fun m => with_num_available (wrap32 (num_available m - 1)) m)
  else ret tt.

(** [get_memnode_in_data]: the word just before the data pointer. *)
Definition get_memnode_in_data (data_p : Z) : M Z :=
  assert (ret (negb (data_p =? NULL))) ;;
  let* b := load_buffer (data_p - sizeof_ptrdiff) in
  ret (owner_word b).

Definition alloc_poolable_mem (pl : Z) : M Z :=
  assert (ret (negb (pl =? NULL))) ;;
  assert (let* m := load_pool pl in ret (negb (mem_size m =? 0))) ;;
  let* node := malloc_MemNode in
  if node =? NULL then ret NULL
  else
    store_node node (with_next NULL) ;;
    let* m := load_pool pl in
    let* ptr_data := malloc_buffer (mem_size m + sizeof_ptrdiff) in
    if ptr_data =? NULL then
      free_node node ;;
      ret NULL
    else
      store_buffer ptr_data (with_owner_word node) ;;
      store_node node (with_data (ptr_data + sizeof_ptrdiff)) ;;
      store_node node (with_pool pl) ;;
      ret node.

Definition free_poolable_mem (node : Z) : M unit :=
  assert (ret (negb (node =? NULL))) ;;
  let* n := load_node node in
  let node_data := data n - sizeof_ptrdiff in
  free_buffer node_data ;;
  free_node node.

Definition alloc_mem_pool (size : Z) : M Z :=
  let* pl := malloc_MemPool sizeof_MemPool in
  if pl =? NULL then ret NULL
  else
    store_pool pl (fun _ => mkMemPool 0 0 0 0) ;;
    store_pool pl (with_mem_size size) ;;
    ret pl.

(** The [while (node != NULL)] loop of [pool_mem_free_all]. Every turn frees
    a live node, so the number of live nodes bounds the number of turns. *)
Fixpoint pool_mem_free_all_loop (fuel : nat) (pl node : Z) : M unit :=
  if node =? NULL then ret tt
  else match fuel with
       | O => out_of_fuel
       | S fuel' =>
           let* n := load_node node in
           store_pool pl (with_head (next n)) ;;
           free_poolable_mem node ;;
           track_pool_usage_memnode_unavailable pl ;;
           let* m := load_pool pl in
           pool_mem_free_all_loop fuel' pl (head m)
       end.

Definition pool_mem_free_all (pl : Z) : M unit :=
  assert (ret (negb (pl =? NULL))) ;;
  let* m := load_pool pl in
  let* s := get in
  pool_mem_free_all_loop (S (size (nodes s))) pl (head m).

Definition free_mem_pool (pl : Z) : M unit :=
  assert (ret (negb (pl =? NULL))) ;;
  pool_mem_free_all pl ;;
  free_pool pl.

Definition pool_mem_try_alloc_data (pl : Z) : M Z :=
  assert (ret (negb (pl =? NULL))) ;;
  let* node := alloc_poolable_mem pl in
  if node =? NULL then ret NULL
  else
    track_pool_usage_allocs pl ;;
    let* n := load_node node in
    ret (data n).

(** The [while (true)] loop of [pool_mem_acquire]. With one thread a turn is
    repeated only after a spurious failure of the compare-and-swap, so the
    length of the script bounds the number of turns. *)
Fixpoint pool_mem_acquire_loop (fuel : nat) (pl : Z) : M Z :=
  match fuel with
  | O => out_of_fuel
  | S fuel' =>
      let* m := load_pool pl in
      let previous_head := head m in
      if previous_head =? NULL then pool_mem_try_alloc_data pl
      else
        let* n := load_node previous_head in
        let new_head := next n in
        let* swapped := atomic_compare_exchange_head pl previous_head new_head in
        if swapped : bool then
          track_pool_usage_memnode_unavailable pl ;;
          let* n' := load_node previous_head in
          ret (data n')
        else pool_mem_acquire_loop fuel' pl
  end.

Definition pool_mem_acquire (pl : Z) : M Z :=
  assert (ret (negb (pl =? NULL))) ;;
  let* s := get in
  pool_mem_acquire_loop (S (length (cas_script s))) pl.

(** The [while (true)] loop of [pool_mem_return]. *)
Fixpoint pool_mem_return_loop (fuel : nat) (pl new_head : Z) : M unit :=
  match fuel with
  | O => out_of_fuel
  | S fuel' =>
      let* m := load_pool pl in
      let previous_head := head m in
      store_node new_head (with_next previous_head) ;;
      let* swapped := atomic_compare_exchange_head pl previous_head new_head in
      if swapped : bool then track_pool_usage_returned pl
      else pool_mem_return_loop fuel' pl new_head
  end.

Definition pool_mem_return (data_p : Z) : M unit :=
  assert (ret (negb (data_p =? NULL))) ;;
  let* new_head := get_memnode_in_data data_p in
  let* n := load_node new_head in
  let pl := pool n in
  let* s := get in
  pool_mem_return_loop (S (length (cas_script s))) pl new_head.

(** The [for] loop of [multipool_create]; [i] is a [uint32_t]. *)
Fixpoint multipool_create_loop (fuel : nat) (multipool i : Z) : M unit :=
  if i <? MULTIPOOL_ENTRY_COUNT then
    match fuel with
    | O => out_of_fuel
    | S fuel' =>
        let size := wrap32 (Z.shiftl 1 (wrap32 (DynPoolMinMultiPoolMemNodeSizeBits + i))) in
        let* pl := alloc_mem_pool size in
        store_multipool_slot multipool i pl ;;
        multipool_create_loop fuel' multipool (wrap32 (i + 1))
    end
  else ret tt.

Definition multipool_create : M Z :=
  let* multipool := malloc_MultiPool in
  (if negb (multipool =? NULL) then
     multipool_create_loop (Z.to_nat MULTIPOOL_ENTRY_COUNT) multipool 0
   else ret tt) ;;
  ret multipool.

(** The [for] loop of [multipool_free]; [i] is an [int]. *)
Fixpoint multipool_free_loop (fuel : nat) (multipool i : Z) : M unit :=
  if i <? MULTIPOOL_ENTRY_COUNT then
    match fuel with
    | O => out_of_fuel
    | S fuel' =>
        let* pl := load_multipool_slot multipool i in
        free_mem_pool pl ;;
        multipool_free_loop fuel' multipool (i + 1)
    end
  else ret tt.

Definition multipool_free (multipool : Z) : M unit :=
  assert (ret (negb (multipool =? NULL))) ;;
  multipool_free_loop (Z.to_nat MULTIPOOL_ENTRY_COUNT) multipool 0 ;;
  free_multipool multipool.

Definition multipool_mem_acquire (multipool size : Z) : M Z :=
  assert (ret (negb (multipool =? NULL))) ;;
  let index := find_multipool_index_for_size size in
  assert (ret (index <? MULTIPOOL_ENTRY_COUNT)) ;;
  if MULTIPOOL_ENTRY_COUNT <=? index then ret NULL
  else
    let* pl := load_multipool_slot multipool index in
    pool_mem_acquire pl.

Definition global_multipool_create : M unit :=
  let* mp := multipool_create in
  fun s => Ok tt (set_global_multipool mp s).

Definition global_multipool_mem_acquire (size : Z) : M Z :=
  assert (let* s := get in ret (negb (_global_multipool s =? NULL))) ;;
  let* s := get in
  multipool_mem_acquire (_global_multipool s) size.

Definition global_multipool_free : M unit :=
  let* s := get in
  multipool_free (_global_multipool s).

End Program.

(** ** Well-formed heaps

    What holds of the heap between two calls, as long as no teardown function
    has run: every live object lies below the break; the word before a node's
    data buffer points back to the node; a node's pool is live; the [next]
    link of a node and the [head] of a pool are [NULL] or point to a live node
    of the same pool. *)

Definition below_brk (s : State) (a : Z) : bool := (0 <? a) && (a <? brk s).

Definition node_ok (s : State) (n : Z) (nd : MemNode) : bool :=
  below_brk s n
  && match buffers s !! (data nd - sizeof_ptrdiff) with
     | Some b => owner_word b =? n
     | None => false
     end
  && match mempools s !! pool nd with
     | Some _ => true
     | None => false
     end
  && ((next nd =? NULL)
      || match nodes s !! next nd with
         | Some nd' => pool nd' =? pool nd
         | None => false
         end).

Definition pool_ok (s : State) (p : Z) (m : MemPool) : bool :=
  below_brk s p
  && ((head m =? NULL)
      || match nodes s !! head m with
         | Some nd => pool nd =? p
         | None => false
         end).

Definition wf (s : State) : Prop :=
  map_Forall (fun n nd => node_ok s n nd = true) (nodes s) /\
  map_Forall (fun p m => pool_ok s p m = true) (mempools s) /\
  map_Forall (fun a (_ : DataBuf) => below_brk s a = true) (buffers s) /\
  map_Forall (fun a (_ : MultiPool) => below_brk s a = true) (multipools s) /\
  0 < brk s.

#[global] Instance wf_dec (s : State) : Decision (wf s).
Proof. unfold wf. apply _. Defined.

(** The block size behind a data pointer: what [malloc] was asked for, less
    the hidden word. *)
Definition payload_size (s : State) (data_p : Z) : option Z :=
  match buffers s !! (data_p - sizeof_ptrdiff) with
  | Some b => Some (alloc_size b - sizeof_ptrdiff)
  | None => None
  end.

(** The same conditions as propositions. *)
Definition node_inv (s : State) (n : Z) (nd : MemNode) : Prop :=
  0 < n < brk s /\
  (exists b, buffers s !! (data nd - sizeof_ptrdiff) = Some b /\ owner_word b = n) /\
  (exists m, mempools s !! pool nd = Some m) /\
  (next nd = NULL \/ exists nd', nodes s !! next nd = Some nd' /\ pool nd' = pool nd).

Definition pool_inv (s : State) (p : Z) (m : MemPool) : Prop :=
  0 < p < brk s /\
  (head m = NULL \/ exists nd, nodes s !! head m = Some nd /\ pool nd = p).

(** ** States reached by the paths of the code

    Each path of [pool_mem_acquire] and [pool_mem_return] is a function of
    the state it starts in; these are the states it ends in. *)

Definition node_block : Z := Z.max 16 (round_up16 sizeof_MemNode).

(** The state [alloc_poolable_mem] leaves when both allocations succeed. *)
Definition state_after_alloc (pl : Z) (m : MemPool) (s : State) : State :=
  let node := brk s in
  let ptr_data := brk s + node_block in
  mkState (<[node := mkMemNode NULL (ptr_data + sizeof_ptrdiff) pl]> (nodes s))
          (<[ptr_data := mkDataBuf node (mem_size m + sizeof_ptrdiff)]> (buffers s))
          (mempools s) (multipools s) (_global_multipool s)
          (ptr_data + Z.max 16 (round_up16 (mem_size m + sizeof_ptrdiff)))
          (tl (tl (malloc_script s))) (cas_script s) (S (S (malloc_calls s))).

(** The state after a [malloc] that failed (of a node, of a pool): only the
    script and the call count moved. *)
Definition state_after_malloc_failure (s : State) : State :=
  count_malloc (set_malloc_script (tl (malloc_script s)) s).

(** The state when the node was allocated, the data buffer could not be, and
    the node was freed again. *)
Definition state_after_buffer_failure (s : State) : State :=
  mkState (delete (brk s) (nodes s)) (buffers s) (mempools s) (multipools s)
          (_global_multipool s) (brk s + node_block)
          (tl (tl (malloc_script s))) (cas_script s) (S (S (malloc_calls s))).

(** [track_pool_usage_allocs] on the state, as a function. *)
Definition count_alloc (cfg : Config) (pl : Z) (m : MemPool) (s : State) : State :=
  if track_pool_usage cfg then
    set_mempools <[pl := with_num_allocs (wrap32 (num_allocs m + 1)) m]> s
  else s.

(** A weak compare-and-swap that finally goes through has used up the
    spurious failures before it, and its own entry of the script. *)
Fixpoint drop_spurious (script : list bool) : list bool :=
  match script with
  | false :: rest => drop_spurious rest
  | _ => script
  end.

Definition cas_settled (s : State) : State :=
  set_cas_script (tl (drop_spurious (cas_script s))) s.

(** [track_pool_usage_memnode_unavailable] and [track_pool_usage_returned]
    on a pool record. *)
Definition count_unavailable (cfg : Config) (m : MemPool) : MemPool :=
  if track_pool_usage cfg then with_num_available (wrap32 (num_available m - 1)) m else m.

Definition count_returned (cfg : Config) (m : MemPool) : MemPool :=
  if track_pool_usage cfg then with_num_available (wrap32 (num_available m + 1)) m else m.

(** A pop: the head moves to the successor of the old head. *)
Definition state_after_pop (cfg : Config) (pl : Z) (m : MemPool) (nd : MemNode)
    (s : State) : State :=
  set_mempools <[pl := count_unavailable cfg (with_head (next nd) m)]> (cas_settled s).

(** A push of node [n]: its [next] is the old head, and it is the new head. *)
Definition state_after_push (cfg : Config) (pl : Z) (m : MemPool) (n : Z) (nd : MemNode)
    (s : State) : State :=
  set_mempools <[pl := count_returned cfg (with_head n m)]>
    (set_nodes <[n := with_next (head m) nd]> (cas_settled s)).

(** ** A concrete pool

    The state after [alloc_mem_pool(4096)] at program start: one empty pool
    at address 4096. *)
Definition pool_4096 : MemPool := mkMemPool NULL 4096 0 0.

Definition pool_4096_state (mscript cscript : list bool) : State :=
  mkState ∅ ∅ {[4096 := pool_4096]} ∅ NULL 4112 mscript cscript 1.

Definition debug_build : Config := mkConfig false false.
Definition release_build : Config := mkConfig true false.

(** ** Outstanding pointers and histories of calls *)

(** [p] is a data pointer of pool [pl]: the word before it names a live node
    whose data is [p] and whose pool is [pl], and the pool is live. *)
Definition owned (s : State) (pl p : Z) : Prop :=
  exists b nd m,
    buffers s !! (p - sizeof_ptrdiff) = Some b /\
    nodes s !! owner_word b = Some nd /\
    data nd = p /\ pool nd = pl /\
    mempools s !! pl = Some m.

(** Any number of calls that returned, on any pools and pointers, none of
    them a teardown. *)
Inductive api_calls (cfg : Config) : State -> State -> Prop :=
| api_none (s : State) : api_calls cfg s s
| api_acquire (s s1 s2 : State) (pl p : Z) :
    api_calls cfg s s1 -> pool_mem_acquire cfg pl s1 = Ok p s2 -> api_calls cfg s s2
| api_return (s s1 s2 : State) (p : Z) :
    api_calls cfg s s1 -> pool_mem_return cfg p s1 = Ok tt s2 -> api_calls cfg s s2
| api_multipool_acquire (s s1 s2 : State) (multipool size p : Z) :
    api_calls cfg s s1 -> multipool_mem_acquire cfg multipool size s1 = Ok p s2 ->
    api_calls cfg s s2
| api_alloc_mem_pool (s s1 s2 : State) (size pl : Z) :
    api_calls cfg s s1 -> alloc_mem_pool cfg size s1 = Ok pl s2 -> api_calls cfg s s2
| api_multipool_create (s s1 s2 : State) (multipool : Z) :
    api_calls cfg s s1 -> multipool_create cfg s1 = Ok multipool s2 -> api_calls cfg s s2
| api_global_multipool_create (s s1 s2 : State) :
    api_calls cfg s s1 -> global_multipool_create cfg s1 = Ok tt s2 -> api_calls cfg s s2
| api_global_multipool_mem_acquire (s s1 s2 : State) (size p : Z) :
    api_calls cfg s s1 -> global_multipool_mem_acquire cfg size s1 = Ok p s2 ->
    api_calls cfg s s2.

(** The state after [global_multipool_create] at program start, and then
    after [global_multipool_free]. *)
Definition global_created_state : State :=
  match global_multipool_create debug_build (initial_state [] []) with
  | Ok _ s => s
  | _ => initial_state [] []
  end.

Definition global_torn_down_state : State :=
  match global_multipool_free debug_build global_created_state with
  | Ok _ s => s
  | _ => initial_state [] []
  end.

(** ** Frame conditions *)

(** What every call other than a teardown keeps: a buffer stays as it is (its
    owner word included); a node stays live with its data pointer and pool; a
    pool stays live with its block size; a multipool table stays as it is. *)
Definition heap_extends (s s' : State) : Prop :=
  (forall a b, buffers s !! a = Some b -> buffers s' !! a = Some b) /\
  (forall a nd, nodes s !! a = Some nd ->
     exists nd', nodes s' !! a = Some nd' /\ data nd' = data nd /\ pool nd' = pool nd) /\
  (forall q m, mempools s !! q = Some m ->
     exists m', mempools s' !! q = Some m' /\ mem_size m' = mem_size m) /\
  (forall a mp, multipools s !! a = Some mp -> multipools s' !! a = Some mp).

(** A call that, whenever it returns, leaves [_global_multipool] as it was. *)
Definition keeps_global {A} (c : M A) : Prop :=
  forall s a s', c s = Ok a s' -> _global_multipool s' = _global_multipool s.

(** A call whose loops never use up the fuel the model gives them. *)
Definition runs_in_fuel {A} (c : M A) : Prop := forall s, c s <> OutOfFuel.

(** ** States reached by construction *)

Definition pool_block (cfg : Config) : Z := Z.max 16 (round_up16 (sizeof_MemPool cfg)).
Definition multipool_block : Z := Z.max 16 (round_up16 sizeof_MultiPool).

(** After a successful [alloc_mem_pool(size)]: an empty pool at the old break. *)
Definition state_after_pool (cfg : Config) (size : Z) (s : State) : State :=
  mkState (nodes s) (buffers s) (<[brk s := mkMemPool NULL size 0 0]> (mempools s))
          (multipools s) (_global_multipool s) (brk s + pool_block cfg)
          (tl (malloc_script s)) (cas_script s) (S (malloc_calls s)).

(** After the successful [malloc] of [multipool_create]: a table at the old
    break, its entries not yet written. *)
Definition state_after_multipool (s : State) : State :=
  mkState (nodes s) (buffers s) (mempools s)
          (<[brk s := mkMultiPool (replicate (Z.to_nat MULTIPOOL_ENTRY_COUNT) 0)]> (multipools s))
          (_global_multipool s) (brk s + multipool_block)
          (tl (malloc_script s)) (cas_script s) (S (malloc_calls s)).

(** The next [n] calls to [malloc] all succeed. *)
Definition mallocs_succeed (n : nat) (s : State) : bool :=
  forallb (fun ok : bool => ok) (firstn n (malloc_script s)).

(** The block size of class [i]. *)
Definition class_size (i : Z) : Z := Z.shiftl 512 i.

(** ** Block sizes

    The buffer behind every live node was allocated with the block size of
    the node's pool (plus the hidden word). *)
Definition node_sized (s : State) (nd : MemNode) : bool :=
  match buffers s !! (data nd - sizeof_ptrdiff), mempools s !! pool nd with
  | Some b, Some m => alloc_size b =? mem_size m + sizeof_ptrdiff
  | _, _ => false
  end.

Definition block_sized (s : State) : Prop :=
  map_Forall (fun (_ : Z) nd => node_sized s nd = true) (nodes s).

#[global] Instance block_sized_dec (s : State) : Decision (block_sized s).
Proof. unfold block_sized. apply _. Defined.

(** A table whose entries are [NULL] or live pools of their class's size. *)
Definition table_ready (s : State) (mp : Z) : Prop :=
  mp <> NULL /\
  exists M, multipools s !! mp = Some M /\
    length (pools M) = Z.to_nat MULTIPOOL_ENTRY_COUNT /\
    forall i q, 0 <= i < MULTIPOOL_ENTRY_COUNT -> pools M !! Z.to_nat i = Some q -> q <> NULL ->
      exists m, mempools s !! q = Some m /\ mem_size m = class_size i.

(** [_global_multipool] is [NULL] or points to such a table. *)
Definition global_ready (s : State) : Prop :=
  _global_multipool s = NULL \/ table_ready s (_global_multipool s).

(** ** The allocator hooks of [gozlib.c] *)

Definition SIZE_MOD : Z := 2 ^ 64.

Section Hooks.

Variable cfg : Config.

(** [void *pool_alloc(size_t size)]: the cast to [uint32_t] keeps the low 32
    bits of [size]. *)
Definition pool_alloc (size : Z) : M Z :=
  global_multipool_mem_acquire cfg (wrap32 size).

(** [void pool_free(void *data)] *)
Definition pool_free (data_p : Z) : M unit :=
  pool_mem_return cfg data_p.

(** [zlib_custom_alloc(q, nmembers, msize)]: the product is computed in
    [unsigned int] and then widened to [size_t]. *)
Definition zlib_custom_alloc (q nmembers msize : Z) : M Z :=
  pool_alloc (wrap32 (nmembers * msize)).

(** [zlib_custom_free(q, p)] *)
Definition zlib_custom_free (q p : Z) : M unit :=
  pool_free p.

End Hooks.

(** Two blocks of the pool at 4096, both handed out: the state after two
    calls of [pool_mem_acquire] on the empty pool. The blocks are at 4152 and
    8296. *)
Definition two_blocks_state : State :=
  match (pool_mem_acquire debug_build 4096 ;; pool_mem_acquire debug_build 4096)%C
          (pool_4096_state [] []) with
  | Ok _ s => s
  | _ => initial_state [] []
  end.

(** ** Free lists and their teardown *)

(** [chain] lists the nodes of the free list that starts at [h], head first,
    up to the [NULL] that ends it. *)
Fixpoint free_list (s : State) (h : Z) (chain : list Z) : Prop :=
  match chain with
  | [] => h = NULL
  | n :: rest =>
      h = n /\ n <> NULL /\
      exists nd, nodes s !! n = Some nd /\ free_list s (next nd) rest
  end.

(** The address [free_poolable_mem] passes to [free] for the data of node [n]. *)
Definition buffer_of (s : State) (n : Z) : Z :=
  match nodes s !! n with
  | Some nd => data nd - sizeof_ptrdiff
  | None => NULL
  end.

(** One turn of the loop of [pool_mem_free_all], on node [n] of pool [pl]:
    the head moves on, the data buffer and the node are freed. *)
Definition state_after_free_turn (cfg : Config) (pl : Z) (m : MemPool) (n : Z) (nd : MemNode)
    (s : State) : State :=
  mkState (delete n (nodes s)) (delete (data nd - sizeof_ptrdiff) (buffers s))
          (<[pl := count_unavailable cfg (with_head (next nd) m)]> (mempools s))
          (multipools s) (_global_multipool s) (brk s)
          (malloc_script s) (cas_script s) (malloc_calls s).

(** The turns of the loop along a free list. *)
Fixpoint state_after_free_all (cfg : Config) (pl : Z) (chain : list Z) (s : State) : State :=
  match chain with
  | [] => s
  | n :: rest =>
      match nodes s !! n, mempools s !! pl with
      | Some nd, Some m =>
          state_after_free_all cfg pl rest (state_after_free_turn cfg pl m n nd s)
      | _, _ => s
      end
  end.

(** What the loop needs of the nodes of a free list: each is live, and the
    word before its data is a live buffer that names it. *)
Definition chain_live (s : State) (chain : list Z) : Prop :=
  forall n, n ∈ chain ->
    exists nd b, nodes s !! n = Some nd /\ data nd - sizeof_ptrdiff <> NULL /\
                 buffers s !! (data nd - sizeof_ptrdiff) = Some b /\ owner_word b = n.

(** The pool at 4096 with the block at 4152 returned to it and the block at
    8296 still handed out. *)
Definition one_cached_state : State :=
  match pool_mem_return debug_build 4152 two_blocks_state with
  | Ok _ s => s
  | _ => initial_state [] []
  end.

(** A call that, whenever it returns, leaves the part [proj] of the state as
    it was. *)
Definition keeps {A X} (proj : State -> X) (c : M A) : Prop :=
  forall s a s', c s = Ok a s' -> proj s' = proj s.

(** Pool [q] is live and [chain] is its free list. *)
Definition has_free_list (s : State) (q : Z) (chain : list Z) : Prop :=
  q <> NULL /\ exists m, mempools s !! q = Some m /\ free_list s (head m) chain.

(** [chains] gives the free list of every pool of the table [M], slot by
    slot. *)
Definition table_free_lists (s : State) (M : MultiPool) (chains : list (list Z)) : Prop :=
  Forall2 (has_free_list s) (pools M) chains.

(** What the teardown loop needs of a pool it has not reached yet. *)
Definition slot_ready (s : State) (q : Z) (chain : list Z) : Prop :=
  has_free_list s q chain /\ chain_live s chain.

(** No node is on two of the lists. *)
Fixpoint disjoint_chains (chains : list (list Z)) : Prop :=
  match chains with
  | [] => True
  | c :: rest => (forall n, n ∈ c -> n ∉ concat rest) /\ disjoint_chains rest
  end.

(** [s1] is [s] without pool [q], the nodes [c] and their data buffers. *)
Definition freed (s : State) (q : Z) (c : list Z) (s1 : State) : Prop :=
  (forall k, nodes s1 !! k = if decide (k ∈ c) then None else nodes s !! k) /\
  (forall a, buffers s1 !! a =
             if decide (a ∈ map (buffer_of s) c) then None else buffers s !! a) /\
  (forall q', mempools s1 !! q' = if decide (q' = q) then None else mempools s !! q') /\
  multipools s1 = multipools s /\ _global_multipool s1 = _global_multipool s /\
  brk s1 = brk s /\ malloc_script s1 = malloc_script s /\
  cas_script s1 = cas_script s /\ malloc_calls s1 = malloc_calls s.

(** [s1] is [s] without the pools [qs], the nodes of [chains] and their data
    buffers. *)
Definition freed_all (s : State) (qs : list Z) (chains : list (list Z)) (s1 : State) : Prop :=
  (forall k, nodes s1 !! k = if decide (k ∈ concat chains) then None else nodes s !! k) /\
  (forall a, buffers s1 !! a =
             if decide (a ∈ map (buffer_of s) (concat chains)) then None
             else buffers s !! a) /\
  (forall q', mempools s1 !! q' = if decide (q' ∈ qs) then None else mempools s !! q') /\
  multipools s1 = multipools s /\ _global_multipool s1 = _global_multipool s /\
  brk s1 = brk s /\ malloc_script s1 = malloc_script s /\
  cas_script s1 = cas_script s /\ malloc_calls s1 = malloc_calls s.

(** The global multipool after one block of class 3 (4096 bytes) was handed
    out and returned: the table is at 4096, its pools at 4208, 4224, ...,
    4416, and the node of the block, at 4432, is on the free list of the
    pool at 4256. *)
Definition table_cached_state : State :=
  match (multipool_mem_acquire debug_build 4096 3000 ;; pool_mem_return debug_build 4472)%C
          global_created_state with
  | Ok _ s => s
  | _ => initial_state [] []
  end.

Definition table_at_4096 : MultiPool :=
  mkMultiPool [4208; 4224; 4240; 4256; 4272; 4288; 4304; 4320; 4336; 4352; 4368; 4384;
               4400; 4416].

(** ** The pools of [gozlib.c]

    [gozlib.c] keeps three more pools in global variables, for its
    [ZStreamState], [z_stream] and [GoZLibTransformer] objects. The model
    passes the three pointers around in a record. [ZStreamState] is a struct
    of one pointer and [GoZLibTransformer] one of three pointers and a
    [uInt] (gozlib.h); [z_stream] is zlib's, and its size is left open. *)
Record PoolGlobals : Type := mkPoolGlobals {
  _zstreamstate_pool : Z;
  _z_stream_pool : Z;
  _gozlib_transformer_pool : Z
}.

Definition sizeof_ZStreamState : Z := 8.
Definition sizeof_GoZLibTransformer : Z := 32.

Section Globals.

Variable cfg : Config.
Variable sizeof_z_stream : Z.

(** The constructor: [size_t] sizes are converted to [uint32_t]. *)
Definition create_mem_pools : M PoolGlobals :=
  global_multipool_create cfg ;;
  let* zstreamstate_pool := alloc_mem_pool cfg (wrap32 sizeof_ZStreamState) in
  let* z_stream_pool := alloc_mem_pool cfg (wrap32 sizeof_z_stream) in
  let* gozlib_transformer_pool := alloc_mem_pool cfg (wrap32 sizeof_GoZLibTransformer) in
  ret (mkPoolGlobals zstreamstate_pool z_stream_pool gozlib_transformer_pool).

(** The destructor. *)
Definition free_mem_pools (g : PoolGlobals) : M unit :=
  global_multipool_free cfg ;;
  free_mem_pool cfg (_zstreamstate_pool g) ;;
  free_mem_pool cfg (_z_stream_pool g) ;;
  free_mem_pool cfg (_gozlib_transformer_pool g).

Definition pool_acquire_zstream_state (g : PoolGlobals) : M Z :=
  pool_mem_acquire cfg (_zstreamstate_pool g).

Definition pool_release_zstream_state (state : Z) : M unit :=
  pool_mem_return cfg state.

Definition pool_alloc_zstream (g : PoolGlobals) : M Z :=
  pool_mem_acquire cfg (_z_stream_pool g).

Definition pool_release_zstream (zs : Z) : M unit :=
  pool_mem_return cfg zs.

End Globals.

(** ** The usage counters

    With [TRACK_POOL_USAGE], [num_available] of a pool is the length of its
    free list, as a [uint32_t], whenever the free list is a list. *)
Definition available_counted (s : State) : Prop :=
  forall pl m chain,
    mempools s !! pl = Some m -> free_list s (head m) chain ->
    num_available m = wrap32 (Z.of_nat (length chain)).

(** A build with [TRACK_POOL_USAGE], and in it a pool of 4096-byte blocks at
    4096 to which its one block, at 4168, has been returned. *)
Definition tracking_build : Config := mkConfig false true.

Definition tracking_cached_state : State :=
  match (let* pl := alloc_mem_pool tracking_build 4096 in
         let* p := pool_mem_acquire tracking_build pl in
         pool_mem_return tracking_build p)%C (initial_state [] []) with
  | Ok _ s => s
  | _ => initial_state [] []
  end.

(** The live nodes of pool [pl]. With [TRACK_POOL_USAGE], [num_allocs] of a
    pool is their number, as a [uint32_t]. *)
Definition pool_nodes (s : State) (pl : Z) : gmap Z MemNode :=
  filter (fun kv : Z * MemNode => pool kv.2 = pl) (nodes s).

Definition allocs_counted (s : State) : Prop :=
  forall pl m, mempools s !! pl = Some m ->
    num_allocs m = wrap32 (Z.of_nat (size (pool_nodes s pl))).

(** ** The stream loops of [gozlib.c]

    zlib and the data handlers are outside the program: the model takes
    them as parameters, functions on the [z_stream] and on a world [W] that
    stands for everything else they can touch. The codes are those of zlib.h
    and gozlib.h. *)
Definition Z_OK : Z := 0.
Definition Z_STREAM_END : Z := 1.
Definition Z_NEED_DICT : Z := 2.
Definition Z_STREAM_ERROR : Z := -2.
Definition Z_DATA_ERROR : Z := -3.
Definition Z_MEM_ERROR : Z := -4.
Definition Z_BUF_ERROR : Z := -5.
Definition Z_NO_FLUSH : Z := 0.
Definition GOZLIB_CUSTOM_CODE_BASE : Z := 1024.
Definition GOZLIB_STREAM_OUTPUT_WRITE_ERROR : Z := - (GOZLIB_CUSTOM_CODE_BASE + 1).
Definition GOZLIB_STREAM_OUTPUT_HAS_MORE_DATA : Z := GOZLIB_CUSTOM_CODE_BASE + 1.

(** The fields of a [z_stream] that [gozlib.c] reads or writes. *)
Record z_stream : Type := mk_z_stream {
  next_in : Z;
  avail_in : Z;
  next_out : Z;
  avail_out : Z;
  total_out : Z
}.

Definition is_inflate_result_fatal (inf_code : Z) : bool :=
  (inf_code =? Z_DATA_ERROR) || (inf_code =? Z_STREAM_ERROR) ||
  (inf_code =? Z_MEM_ERROR) || (inf_code =? Z_NEED_DICT).

Section Streams.

Variable W : Type.

(** [inflate(zs, flush)] and [deflate(zs, flush)]: the code returned, and
    what the call leaves of [*zs] and of the world. *)
Variable inflate : z_stream -> Z -> W -> Z * z_stream * W.
Variable deflate : z_stream -> Z -> W -> Z * z_stream * W.

(** A [StreamDataHandler] is called with the state, a buffer and a length,
    and returns a [uInt]. *)
Definition StreamDataHandler : Type := Z -> Z -> Z -> W -> Z * W.

(** [zs->avail_out = output_len; zs->next_out = output_buf;] *)
Definition with_out (output_buf output_len : Z) (zs : z_stream) : z_stream :=
  mk_z_stream (next_in zs) (avail_in zs) output_buf output_len (total_out zs).

Definition uncompress_to_outstream_step (state : Z) (zs : z_stream)
    (output_handler : StreamDataHandler) (output_buf output_len : Z) (w : W)
    : Z * z_stream * W :=
  let zs := with_out output_buf output_len zs in
  let '(inf_code, zs, w) := inflate zs Z_NO_FLUSH w in
  if is_inflate_result_fatal inf_code then
    if inf_code =? Z_NEED_DICT then (Z_DATA_ERROR, zs, w) else (inf_code, zs, w)
  else
    let outstream_len := wrap32 (output_len - avail_out zs) in
    let '(written, w) :=
      if 0 <? outstream_len then
        let '(n, w) := output_handler state output_buf outstream_len w in
        (negb (n =? 0), w)
      else (true, w) in
    if written : bool then
      if 0 <? avail_out zs then (Z_OK, zs, w)
      else (GOZLIB_STREAM_OUTPUT_HAS_MORE_DATA, zs, w)
    else (GOZLIB_STREAM_OUTPUT_WRITE_ERROR, zs, w).

(** The [while] loop of [uncompress_to_outstream]; nothing bounds the number
    of its turns, the model stops when the fuel is used up. *)
Fixpoint uncompress_to_outstream (fuel : nat) (state : Z) (zs : z_stream)
    (output_handler : StreamDataHandler) (output_buf output_len : Z) (w : W)
    : option (Z * z_stream * W) :=
  match fuel with
  | O => None
  | S fuel' =>
      let '(output_code, zs, w) :=
        uncompress_to_outstream_step state zs output_handler output_buf output_len w in
      if output_code =? GOZLIB_STREAM_OUTPUT_HAS_MORE_DATA then
        uncompress_to_outstream fuel' state zs output_handler output_buf output_len w
      else Some (output_code, zs, w)
  end.

(** The [while (true)] loop of [compress_to_outstream]. *)
Fixpoint compress_to_outstream (fuel : nat) (state : Z) (zs : z_stream) (flush : Z)
    (output_handler : StreamDataHandler) (output_buf output_len : Z) (w : W)
    : option (Z * z_stream * W) :=
  match fuel with
  | O => None
  | S fuel' =>
      let zs := with_out output_buf output_len zs in
      let '(def_code, zs, w) := deflate zs flush w in
      if def_code =? Z_STREAM_ERROR then Some (def_code, zs, w)
      else
        let outstream_len := wrap32 (output_len - avail_out zs) in
        let '(written, w) :=
          if 0 <? outstream_len then
            let '(n, w) := output_handler state output_buf outstream_len w in
            (negb (n =? 0), w)
          else (true, w) in
        if written : bool then
          if 0 <? avail_out zs then Some (def_code, zs, w)
          else compress_to_outstream fuel' state zs flush output_handler
                 output_buf output_len w
        else Some (GOZLIB_STREAM_OUTPUT_WRITE_ERROR, zs, w)
  end.

End Streams.

Ltac state_simpl :=
  unfold set_nodes, set_buffers, set_mempools, set_multipools, set_global_multipool,
    set_brk, set_malloc_script, set_cas_script, count_malloc in *;
  cbn [nodes buffers mempools multipools _global_multipool brk malloc_script
       cas_script malloc_calls] in *.

Ltac record_simpl :=
  unfold with_next, with_data, with_pool, with_head, with_mem_size, with_num_allocs,
    with_num_available, with_owner_word in *;
  cbn [next data pool head mem_size num_allocs num_available owner_word alloc_size] in *.

(** ** Size-class arithmetic: lemmas *)

Lemma clz_scan_zero_high (n : nat) (x : Z) :
  0 <= x < 2 ^ Z.of_nat n -> 0 < x ->
  clz_scan n x = Z.of_nat n - 1 - Z.log2 x.
Proof.
  revert x. induction n as [|k IH]; intros x Hx Hpos.
  - simpl in Hx. lia.
  - cbn [clz_scan].
    destruct (Z.testbit x (Z.of_nat k)) eqn:Hb.
    + assert (Z.of_nat k <= Z.log2 x).
      { destruct (Z_lt_le_dec (Z.log2 x) (Z.of_nat k)) as [Hlt|]; [|lia].
        rewrite Z.bits_above_log2 in Hb by lia. discriminate. }
      assert (Z.log2 x < Z.of_nat (S k)) by (apply Z.log2_lt_pow2; lia).
      lia.
    + assert (x < 2 ^ Z.of_nat k).
      { destruct (Z_lt_le_dec x (2 ^ Z.of_nat k)) as [|Hge]; [lia|].
        assert (Hl : Z.log2 x = Z.of_nat k).
        { apply Z.log2_unique; [lia|].
          replace (Z.of_nat k + 1) with (Z.of_nat (S k)) by lia. lia. }
        rewrite <- Hl in Hb. rewrite Z.bit_log2 in Hb by lia. discriminate. }
      rewrite IH by lia. lia.
Qed.

Lemma builtin_clz_log2 (x : Z) :
  0 < x < UINT32_MOD -> builtin_clz x = 31 - Z.log2 x.
Proof.
  intros Hx. unfold builtin_clz.
  rewrite clz_scan_zero_high; [lia | | lia].
  change (2 ^ Z.of_nat 32) with UINT32_MOD. lia.
Qed.

(** The index is the bit length of [(size - 1) >> 9]. *)
Lemma find_multipool_index_bitlen (size : Z) :
  0 <= size < UINT32_MOD ->
  let v := wrap32 (size - 1) / 2 ^ 9 in
  find_multipool_index_for_size size = if v =? 0 then 0 else Z.log2 v + 1.
Proof.
  intros Hs v. unfold find_multipool_index_for_size.
  rewrite Z.shiftr_div_pow2 by (unfold DynPoolMinMultiPoolMemNodeSizeBits; lia).
  change (2 ^ DynPoolMinMultiPoolMemNodeSizeBits) with (2 ^ 9). fold v.
  destruct (v =? 0) eqn:Hv; [reflexivity|].
  apply Z.eqb_neq in Hv.
  assert (Hw : 0 <= wrap32 (size - 1) < UINT32_MOD)
    by (apply Z.mod_pos_bound; reflexivity).
  assert (Hv0 : 0 <= v) by (apply Z.div_pos; lia).
  assert (Hv1 : v < 2 ^ 23).
  { apply Z.div_lt_upper_bound; [lia|]. change (2 ^ 9 * 2 ^ 23) with UINT32_MOD. lia. }
  assert (Hlog : 0 <= Z.log2 v < 23).
  { split; [apply Z.log2_nonneg|]. apply Z.log2_lt_pow2; lia. }
  rewrite builtin_clz_log2 by (unfold UINT32_MOD; lia).
  unfold wrap32, sizeof_uint32, CHAR_BIT, UINT32_MOD.
  rewrite (Z.mod_small (31 - Z.log2 v)) by lia.
  rewrite Z.mod_small by lia. lia.
Qed.

Lemma wrap32_small (x : Z) : 0 <= x < UINT32_MOD -> wrap32 x = x.
Proof. intros H. unfold wrap32. apply Z.mod_small. exact H. Qed.

(** For a size of at least 1 the index [k] is the one class that fits:
    [size <= 512 * 2^k], and the class below (if any) is too small. *)
Lemma find_multipool_index_fits (size : Z) :
  1 <= size < UINT32_MOD ->
  let k := find_multipool_index_for_size size in
  0 <= k /\ size <= 512 * 2 ^ k /\ (0 < k -> 512 * 2 ^ (k - 1) < size).
Proof.
  intros Hs k. subst k.
  rewrite find_multipool_index_bitlen by lia.
  rewrite wrap32_small by lia. cbv zeta.
  change (2 ^ 9) with 512.
  pose proof (Z.div_mod (size - 1) 512 ltac:(lia)) as Hdm.
  pose proof (Z.mod_pos_bound (size - 1) 512 ltac:(lia)) as Hmod.
  set (v := (size - 1) / 512) in *.
  destruct (v =? 0) eqn:Hv.
  - apply Z.eqb_eq in Hv. rewrite Hv in Hdm. change (2 ^ 0) with 1. lia.
  - apply Z.eqb_neq in Hv.
    assert (Hvpos : 0 < v).
    { assert (0 <= v) by (apply Z.div_pos; lia). lia. }
    destruct (Z.log2_spec v Hvpos) as [Hlo Hhi].
    pose proof (Z.log2_nonneg v) as Hnn.
    replace (Z.log2 v + 1 - 1) with (Z.log2 v) by lia.
    replace (Z.succ (Z.log2 v)) with (Z.log2 v + 1) in Hhi by lia.
    repeat split; nia.
Qed.

Lemma ceil_log2_ratio_from_least (fuel : nat) (k0 k size m : Z) :
  0 <= k0 <= k ->
  (forall j, k0 <= j < k -> m * 2 ^ j < size) ->
  size <= m * 2 ^ k ->
  k - k0 < Z.of_nat fuel ->
  ceil_log2_ratio_from fuel k0 size m = k.
Proof.
  revert k0. induction fuel as [|f IH]; intros k0 Hk Hbelow Hfit Hfuel.
  - simpl in Hfuel. lia.
  - cbn [ceil_log2_ratio_from].
    destruct (size <=? m * 2 ^ k0) eqn:Hle.
    + apply Z.leb_le in Hle.
      destruct (Z.eq_dec k0 k) as [|Hne]; [assumption|].
      specialize (Hbelow k0 ltac:(lia)). lia.
    + apply Z.leb_gt in Hle.
      assert (k0 <> k) by (intros ->; lia).
      apply IH; [lia | | assumption | lia].
      intros j Hj. apply Hbelow. lia.
Qed.

Lemma pow2_le_mono (a b : Z) : 0 <= a <= b -> 2 ^ a <= 2 ^ b.
Proof. intros H. apply Z.pow_le_mono_r; lia. Qed.

Lemma find_multipool_index_upper (size : Z) :
  0 <= size < UINT32_MOD -> 0 <= find_multipool_index_for_size size <= 23.
Proof.
  intros Hs. rewrite find_multipool_index_bitlen by lia. cbv zeta.
  assert (Hw : 0 <= wrap32 (size - 1) < UINT32_MOD)
    by (apply Z.mod_pos_bound; reflexivity).
  set (v := wrap32 (size - 1) / 2 ^ 9).
  assert (Hv0 : 0 <= v) by (apply Z.div_pos; lia).
  assert (Hv1 : v < 2 ^ 23).
  { apply Z.div_lt_upper_bound; [lia|]. change (2 ^ 9 * 2 ^ 23) with UINT32_MOD. lia. }
  destruct (v =? 0) eqn:Hv; [lia|].
  apply Z.eqb_neq in Hv.
  assert (Z.log2 v < 23) by (apply Z.log2_lt_pow2; lia).
  pose proof (Z.log2_nonneg v). lia.
Qed.

(** C1. For every size [S] with [1 <= S <= 4194304] the index is 0 when
    [S <= 512] and [ceil (log2 (S / 512))] otherwise, that is the least [k]
    with [S <= 512 * 2^k]; at the boundaries of the 512-byte class,
    [index 512 = 0], [index 513 = 1], [index 1024 = 1], [index 1025 = 2]. *)
Theorem find_multipool_index_for_size_is_ceil_log2 (S : Z) :
  1 <= S <= 4194304 ->
  (S <= 512 -> find_multipool_index_for_size S = 0) /\
  find_multipool_index_for_size S = ceil_log2_ratio S 512 /\
  (let k := find_multipool_index_for_size S in
   S <= 512 * 2 ^ k /\ forall j, 0 <= j < k -> 512 * 2 ^ j < S) /\
  find_multipool_index_for_size 512 = 0 /\
  find_multipool_index_for_size 513 = 1 /\
  find_multipool_index_for_size 1024 = 1 /\
  find_multipool_index_for_size 1025 = 2.
Proof.
  intros HS.
  assert (Hr : 1 <= S < UINT32_MOD) by (unfold UINT32_MOD; lia).
  destruct (find_multipool_index_fits S Hr) as (Hk0 & Hfit & Hprev).
  pose proof (find_multipool_index_upper S ltac:(lia)) as Hup.
  set (k := find_multipool_index_for_size S) in *.
  assert (Hbelow : forall j, 0 <= j < k -> 512 * 2 ^ j < S).
  { intros j Hj. specialize (Hprev ltac:(lia)).
    pose proof (pow2_le_mono j (k - 1) ltac:(lia)). lia. }
  split; [|split; [|split]].
  - intros Hle. destruct (Z.eq_dec k 0) as [|Hne]; [assumption|].
    specialize (Hbelow 0 ltac:(lia)). change (2 ^ 0) with 1 in Hbelow. lia.
  - symmetry. unfold ceil_log2_ratio.
    apply ceil_log2_ratio_from_least; [lia | assumption | assumption | simpl; lia].
  - split; assumption.
  - repeat split; reflexivity.
Qed.

Lemma find_multipool_index_for_size_is_ceil_log2_witness :
  1 <= 4096 <= 4194304 /\
  find_multipool_index_for_size 4096 = ceil_log2_ratio 4096 512 /\
  find_multipool_index_for_size 4096 = 3.
Proof.
  split; [lia|].
  split; [apply (find_multipool_index_for_size_is_ceil_log2 4096); lia | reflexivity].
Defined.

(** C4. Size-class monotonicity: for [uint32_t] sizes [0 < S1 < S2], the index
    of [S1] is at most the index of [S2]. *)
Theorem find_multipool_index_for_size_monotone (S1 S2 : Z) :
  0 < S1 -> S1 < S2 -> S2 < UINT32_MOD ->
  find_multipool_index_for_size S1 <= find_multipool_index_for_size S2.
Proof.
  intros H1 H12 H2.
  rewrite !find_multipool_index_bitlen by lia. cbv zeta.
  rewrite !wrap32_small by lia.
  assert (Hle : (S1 - 1) / 2 ^ 9 <= (S2 - 1) / 2 ^ 9)
    by (apply Z.div_le_mono; lia).
  assert (H0 : 0 <= (S1 - 1) / 2 ^ 9) by (apply Z.div_pos; lia).
  destruct ((S1 - 1) / 2 ^ 9 =? 0) eqn:E1.
  - destruct ((S2 - 1) / 2 ^ 9 =? 0); [lia|].
    pose proof (Z.log2_nonneg ((S2 - 1) / 2 ^ 9)). lia.
  - apply Z.eqb_neq in E1.
    destruct ((S2 - 1) / 2 ^ 9 =? 0) eqn:E2.
    + apply Z.eqb_eq in E2. lia.
    + pose proof (Z.log2_le_mono _ _ Hle). lia.
Qed.

Lemma find_multipool_index_for_size_monotone_witness :
  (0 < 512 /\ 512 < 513 /\ 513 < UINT32_MOD) /\
  find_multipool_index_for_size 512 <= find_multipool_index_for_size 513.
Proof.
  split; [unfold UINT32_MOD; lia|].
  apply (find_multipool_index_for_size_monotone 512 513); unfold UINT32_MOD; lia.
Defined.

(** ** Out-of-range requests *)

Lemma find_multipool_index_out_of_range (size : Z) :
  4194304 < size < UINT32_MOD ->
  MULTIPOOL_ENTRY_COUNT <= find_multipool_index_for_size size.
Proof.
  intros Hs. unfold MULTIPOOL_ENTRY_COUNT.
  destruct (find_multipool_index_fits size ltac:(lia)) as (Hk0 & Hfit & _).
  destruct (Z_lt_le_dec (find_multipool_index_for_size size) 14) as [Hlt|]; [|assumption].
  pose proof (pow2_le_mono (find_multipool_index_for_size size) 13 ltac:(lia)) as Hp.
  change (2 ^ 13) with 8192 in Hp. lia.
Qed.

(** What [multipool_mem_acquire] does once the index is out of range: the
    guard returns [NULL] when assertions are compiled out, and the assertion
    on the index (or the one on the multipool) stops the call otherwise. The
    state is the one the call started in: no pool was consulted and nothing
    was allocated. *)
Lemma multipool_mem_acquire_index_out_of_range (cfg : Config) (multipool size : Z) (s : State) :
  MULTIPOOL_ENTRY_COUNT <= find_multipool_index_for_size size ->
  multipool_mem_acquire cfg multipool size s =
    if ndebug cfg then Ok NULL s else AssertFail.
Proof.
  intros Hidx.
  assert (Hlt : (find_multipool_index_for_size size <? MULTIPOOL_ENTRY_COUNT) = false)
    by (apply Z.ltb_ge; exact Hidx).
  assert (Hle : (MULTIPOOL_ENTRY_COUNT <=? find_multipool_index_for_size size) = true)
    by (apply Z.leb_le; exact Hidx).
  unfold multipool_mem_acquire, assert.
  destruct (ndebug cfg).
  - unfold bind, ret. rewrite Hle. reflexivity.
  - unfold bind, ret, abort. rewrite Hlt.
    destruct (negb (multipool =? NULL)); reflexivity.
Qed.

(** C2, as stated, fails on a build with assertions: on a multipool fresh from
    [multipool_create], a request of 4194305 bytes stops at
    [assert(index < MULTIPOOL_ENTRY_COUNT)] instead of returning [NULL]. *)
Lemma too_large_request_aborts_under_assertions :
  (let* multipool := multipool_create (mkConfig false false) in
   multipool_mem_acquire (mkConfig false false) multipool 4194305)
    (initial_state [] []) = AssertFail.
Proof. vm_compute. reflexivity. Qed.

(** C2 (amended). For every multipool and every [uint32_t] size above
    4194304, [multipool_mem_acquire] returns [NULL] when assertions are
    compiled out, and stops at an assertion when they are not; either way the
    state is untouched, so no pool was delegated to, no buffer was handed out
    and no allocation was made. *)
Theorem multipool_mem_acquire_too_large (cfg : Config) (multipool S : Z) (s : State) :
  4194304 < S < UINT32_MOD ->
  multipool_mem_acquire cfg multipool S s =
    if ndebug cfg then Ok NULL s else AssertFail.
Proof.
  intros HS. apply multipool_mem_acquire_index_out_of_range.
  apply find_multipool_index_out_of_range. exact HS.
Qed.

Lemma multipool_mem_acquire_too_large_witness :
  4194304 < 4194305 < UINT32_MOD /\
  multipool_mem_acquire (mkConfig true false) 4096 4194305 (initial_state [] []) =
    Ok NULL (initial_state [] []).
Proof.
  split; [unfold UINT32_MOD; lia|].
  apply (multipool_mem_acquire_too_large (mkConfig true false) 4096 4194305).
  unfold UINT32_MOD; lia.
Defined.

(** C9. A size of zero: [0 - 1] wraps to 4294967295, the index is 23, and
    with assertions compiled out [multipool_mem_acquire] returns [NULL] and
    leaves the whole state as it was. *)
Theorem multipool_mem_acquire_size_zero (cfg : Config) (multipool : Z) (s : State) :
  ndebug cfg = true ->
  wrap32 (0 - 1) = 4294967295 /\
  find_multipool_index_for_size 0 = 23 /\
  MULTIPOOL_ENTRY_COUNT <= 23 /\
  multipool_mem_acquire cfg multipool 0 s = Ok NULL s.
Proof.
  intros Hnd.
  split; [reflexivity|]. split; [reflexivity|]. split; [unfold MULTIPOOL_ENTRY_COUNT; lia|].
  rewrite multipool_mem_acquire_index_out_of_range.
  - rewrite Hnd. reflexivity.
  - change (find_multipool_index_for_size 0) with 23. unfold MULTIPOOL_ENTRY_COUNT. lia.
Qed.

Lemma multipool_mem_acquire_size_zero_witness :
  ndebug (mkConfig true false) = true /\
  multipool_mem_acquire (mkConfig true false) 4096 0 (initial_state [] []) =
    Ok NULL (initial_state [] []).
Proof.
  split; [reflexivity|].
  apply (multipool_mem_acquire_size_zero (mkConfig true false) 4096 (initial_state [] [])).
  reflexivity.
Defined.

(** ** Running the monad *)

Lemma bind_Ok {A B} (m : M A) (k : A -> M B) (s s' : State) (a : A) :
  m s = Ok a s' -> bind m k s = k a s'.
Proof. intros H. unfold bind. rewrite H. reflexivity. Qed.

Lemma bind_Ok_inv {A B} (m : M A) (k : A -> M B) (s s2 : State) (b : B) :
  bind m k s = Ok b s2 -> exists a s1, m s = Ok a s1 /\ k a s1 = Ok b s2.
Proof.
  unfold bind. destruct (m s) as [a s1| | |]; try discriminate.
  intros H. exists a, s1. split; [reflexivity | exact H].
Qed.

Lemma eqb_NULL_false (p : Z) : p <> NULL -> (p =? NULL) = false.
Proof. intros H. apply Z.eqb_neq. exact H. Qed.

Lemma load_node_live (p : Z) (nd : MemNode) (s : State) :
  p <> NULL -> nodes s !! p = Some nd -> load_node p s = Ok nd s.
Proof. intros Hp Hl. unfold load_node. rewrite eqb_NULL_false, Hl by exact Hp. reflexivity. Qed.

Lemma store_node_live (p : Z) (f : MemNode -> MemNode) (nd : MemNode) (s : State) :
  p <> NULL -> nodes s !! p = Some nd ->
  store_node p f s = Ok tt (set_nodes <[p := f nd]> s).
Proof. intros Hp Hl. unfold store_node. rewrite eqb_NULL_false, Hl by exact Hp. reflexivity. Qed.

Lemma load_buffer_live (p : Z) (b : DataBuf) (s : State) :
  p <> NULL -> buffers s !! p = Some b -> load_buffer p s = Ok b s.
Proof. intros Hp Hl. unfold load_buffer. rewrite eqb_NULL_false, Hl by exact Hp. reflexivity. Qed.

Lemma store_buffer_live (p : Z) (f : DataBuf -> DataBuf) (b : DataBuf) (s : State) :
  p <> NULL -> buffers s !! p = Some b ->
  store_buffer p f s = Ok tt (set_buffers <[p := f b]> s).
Proof. intros Hp Hl. unfold store_buffer. rewrite eqb_NULL_false, Hl by exact Hp. reflexivity. Qed.

Lemma load_pool_live (p : Z) (m : MemPool) (s : State) :
  p <> NULL -> mempools s !! p = Some m -> load_pool p s = Ok m s.
Proof. intros Hp Hl. unfold load_pool. rewrite eqb_NULL_false, Hl by exact Hp. reflexivity. Qed.

Lemma store_pool_live (p : Z) (f : MemPool -> MemPool) (m : MemPool) (s : State) :
  p <> NULL -> mempools s !! p = Some m ->
  store_pool p f s = Ok tt (set_mempools <[p := f m]> s).
Proof. intros Hp Hl. unfold store_pool. rewrite eqb_NULL_false, Hl by exact Hp. reflexivity. Qed.

Lemma load_pool_Ok_inv (p : Z) (m : MemPool) (s s' : State) :
  load_pool p s = Ok m s' -> s' = s /\ p <> NULL /\ mempools s !! p = Some m.
Proof.
  unfold load_pool. destruct (p =? NULL) eqn:E; [discriminate|].
  apply Z.eqb_neq in E. destruct (mempools s !! p); [|discriminate].
  intros H. inversion H. subst. auto.
Qed.

Lemma load_node_Ok_inv (p : Z) (nd : MemNode) (s s' : State) :
  load_node p s = Ok nd s' -> s' = s /\ p <> NULL /\ nodes s !! p = Some nd.
Proof.
  unfold load_node. destruct (p =? NULL) eqn:E; [discriminate|].
  apply Z.eqb_neq in E. destruct (nodes s !! p); [|discriminate].
  intros H. inversion H. subst. auto.
Qed.

(** [assert] passes when compiled out or when its condition holds. *)
Lemma assert_pass (cfg : Config) (cond : M bool) (s : State) :
  ndebug cfg = true \/ cond s = Ok true s -> assert cfg cond s = Ok tt s.
Proof.
  unfold assert. destruct (ndebug cfg); [reflexivity|].
  intros [H|H]; [discriminate|]. unfold bind. rewrite H. reflexivity.
Qed.

Lemma assert_nonnull_pass (cfg : Config) (p : Z) (s : State) :
  p <> NULL -> assert cfg (ret (negb (p =? NULL))) s = Ok tt s.
Proof.
  intros Hp. apply assert_pass. right. unfold ret.
  rewrite eqb_NULL_false by exact Hp. reflexivity.
Qed.

Lemma assert_Ok_inv (cfg : Config) (cond : M bool) (s s' : State) (u : unit) :
  (forall b s1, cond s = Ok b s1 -> s1 = s) ->
  assert cfg cond s = Ok u s' -> s' = s.
Proof.
  intros Hpure. unfold assert. destruct (ndebug cfg).
  - unfold ret. intros H. inversion H. reflexivity.
  - unfold bind. destruct (cond s) as [b s1| | |] eqn:E; try discriminate.
    destruct b; [|discriminate]. unfold ret. intros H. inversion H. subst.
    exact (Hpure _ _ eq_refl).
Qed.

(** ** The cache-miss path *)

Lemma node_block_eq : node_block = 32.
Proof. reflexivity. Qed.

Lemma alloc_poolable_mem_success (cfg : Config) (pl : Z) (m : MemPool) (s : State) :
  pl <> NULL -> mempools s !! pl = Some m ->
  ndebug cfg = true \/ mem_size m <> 0 ->
  0 < brk s ->
  hd true (malloc_script s) = true ->
  hd true (tl (malloc_script s)) = true ->
  alloc_poolable_mem cfg pl s = Ok (brk s) (state_after_alloc pl m s).
Proof.
  intros Hpl Hm Hsz Hbrk Hm1 Hm2. unfold alloc_poolable_mem.
  rewrite (bind_Ok _ _ s s tt) by (apply assert_nonnull_pass; exact Hpl).
  rewrite (bind_Ok _ _ s s tt).
  2:{ apply assert_pass. destruct Hsz as [Hsz|Hsz]; [left; exact Hsz|right].
      unfold bind. rewrite (load_pool_live pl m) by assumption.
      unfold ret. rewrite (proj2 (Z.eqb_neq _ _) Hsz). reflexivity. }
  unfold malloc_MemNode, malloc_succeeds, take_block, bind at 1 2 3.
  rewrite Hm1. state_simpl.
  rewrite eqb_NULL_false by (unfold NULL; lia).
  unfold bind at 1. erewrite store_node_live;
    [| unfold NULL; lia | state_simpl; apply lookup_insert_eq].
  unfold bind at 1. rewrite (load_pool_live pl m) by assumption.
  unfold malloc_buffer, malloc_succeeds, take_block, bind at 1 2 3.
  state_simpl. rewrite Hm2. state_simpl.
  fold node_block. rewrite node_block_eq.
  rewrite eqb_NULL_false by (unfold NULL; lia).
  unfold bind at 1. erewrite store_buffer_live;
    [| unfold NULL; lia | state_simpl; apply lookup_insert_eq].
  unfold bind at 1. erewrite store_node_live;
    [| unfold NULL; lia | state_simpl; apply lookup_insert_eq].
  unfold bind at 1. erewrite store_node_live;
    [| unfold NULL; lia | state_simpl; apply lookup_insert_eq].
  unfold ret, state_after_alloc. rewrite node_block_eq. state_simpl.
  record_simpl. rewrite !insert_insert_eq. reflexivity.
Qed.

Lemma alloc_poolable_mem_asserts (cfg : Config) (pl : Z) (m : MemPool) (s : State) :
  pl <> NULL -> mempools s !! pl = Some m ->
  ndebug cfg = true \/ mem_size m <> 0 ->
  alloc_poolable_mem cfg pl s =
    (let* node := malloc_MemNode in
     if node =? NULL then ret NULL
     else
       store_node node (with_next NULL) ;;
       let* m := load_pool pl in
       let* ptr_data := malloc_buffer (mem_size m + sizeof_ptrdiff) in
       if ptr_data =? NULL then
         free_node node ;;
         ret NULL
       else
         store_buffer ptr_data (with_owner_word node) ;;
         store_node node (with_data (ptr_data + sizeof_ptrdiff)) ;;
         store_node node (with_pool pl) ;;
         ret node) s.
Proof.
  intros Hpl Hm Hsz. unfold alloc_poolable_mem.
  rewrite (bind_Ok _ _ s s tt) by (apply assert_nonnull_pass; exact Hpl).
  rewrite (bind_Ok _ _ s s tt); [reflexivity|].
  apply assert_pass. destruct Hsz as [Hsz|Hsz]; [left; exact Hsz|right].
  unfold bind. rewrite (load_pool_live pl m) by assumption.
  unfold ret. rewrite (proj2 (Z.eqb_neq _ _) Hsz). reflexivity.
Qed.

Lemma alloc_poolable_mem_node_failure (cfg : Config) (pl : Z) (m : MemPool) (s : State) :
  pl <> NULL -> mempools s !! pl = Some m ->
  ndebug cfg = true \/ mem_size m <> 0 ->
  hd true (malloc_script s) = false ->
  alloc_poolable_mem cfg pl s = Ok NULL (state_after_malloc_failure s).
Proof.
  intros Hpl Hm Hsz Hm1.
  rewrite (alloc_poolable_mem_asserts cfg pl m) by assumption.
  unfold malloc_MemNode, malloc_succeeds, bind at 1 2.
  rewrite Hm1. reflexivity.
Qed.

Lemma alloc_poolable_mem_buffer_failure (cfg : Config) (pl : Z) (m : MemPool) (s : State) :
  pl <> NULL -> mempools s !! pl = Some m ->
  ndebug cfg = true \/ mem_size m <> 0 ->
  0 < brk s ->
  hd true (malloc_script s) = true ->
  hd true (tl (malloc_script s)) = false ->
  alloc_poolable_mem cfg pl s = Ok NULL (state_after_buffer_failure s).
Proof.
  intros Hpl Hm Hsz Hbrk Hm1 Hm2.
  rewrite (alloc_poolable_mem_asserts cfg pl m) by assumption.
  unfold malloc_MemNode, malloc_succeeds, take_block, bind at 1 2 3.
  rewrite Hm1. state_simpl.
  rewrite eqb_NULL_false by (unfold NULL; lia).
  unfold bind at 1. erewrite store_node_live;
    [| unfold NULL; lia | state_simpl; apply lookup_insert_eq].
  unfold bind at 1. rewrite (load_pool_live pl m) by assumption.
  unfold malloc_buffer, malloc_succeeds, bind at 1 2.
  state_simpl. rewrite Hm2.
  unfold ret at 1. rewrite Z.eqb_refl.
  unfold bind at 1, free_node. rewrite eqb_NULL_false by (unfold NULL; lia).
  state_simpl. rewrite lookup_insert_eq.
  unfold ret, state_after_buffer_failure. state_simpl.
  rewrite insert_insert_eq, delete_insert_eq. reflexivity.
Qed.

(** *** Facts read off a well-formed heap *)

Lemma below_brk_spec (s : State) (a : Z) : below_brk s a = true <-> 0 < a < brk s.
Proof. unfold below_brk. rewrite andb_true_iff, !Z.ltb_lt. tauto. Qed.

Lemma wf_brk_pos (s : State) : wf s -> 0 < brk s.
Proof. intros H. apply H. Qed.

Lemma wf_pool_below (s : State) (p : Z) (m : MemPool) :
  wf s -> mempools s !! p = Some m -> 0 < p < brk s.
Proof.
  intros (_ & Hp & _) Hl. specialize (Hp p m Hl). cbv beta in Hp.
  unfold pool_ok in Hp. apply andb_true_iff in Hp as [Hb _].
  apply below_brk_spec. exact Hb.
Qed.

Lemma wf_node_below (s : State) (n : Z) (nd : MemNode) :
  wf s -> nodes s !! n = Some nd -> 0 < n < brk s.
Proof.
  intros (Hn & _) Hl. specialize (Hn n nd Hl). cbv beta in Hn.
  unfold node_ok in Hn. rewrite !andb_true_iff in Hn.
  apply below_brk_spec. tauto.
Qed.

Lemma wf_buffer_below (s : State) (a : Z) (b : DataBuf) :
  wf s -> buffers s !! a = Some b -> 0 < a < brk s.
Proof.
  intros (_ & _ & Hb & _) Hl. specialize (Hb a b Hl). cbv beta in Hb.
  apply below_brk_spec. exact Hb.
Qed.

Lemma wf_multipool_below (s : State) (a : Z) (mp : MultiPool) :
  wf s -> multipools s !! a = Some mp -> 0 < a < brk s.
Proof.
  intros (_ & _ & _ & Hb & _) Hl. specialize (Hb a mp Hl). cbv beta in Hb.
  apply below_brk_spec. exact Hb.
Qed.

Lemma wf_node_fresh (s : State) (a : Z) : wf s -> brk s <= a -> nodes s !! a = None.
Proof.
  intros Hwf Ha. destruct (nodes s !! a) as [nd|] eqn:E; [|reflexivity].
  pose proof (wf_node_below s a nd Hwf E). lia.
Qed.


Lemma wf_pool_fresh (s : State) (a : Z) : wf s -> brk s <= a -> mempools s !! a = None.
Proof.
  intros Hwf Ha. destruct (mempools s !! a) as [m|] eqn:E; [|reflexivity].
  pose proof (wf_pool_below s a m Hwf E). lia.
Qed.

(** The parts of [node_ok] and [pool_ok], as propositions. *)
Lemma wf_node_inv (s : State) (n : Z) (nd : MemNode) :
  wf s -> nodes s !! n = Some nd ->
  (exists b, buffers s !! (data nd - sizeof_ptrdiff) = Some b /\ owner_word b = n) /\
  (exists m, mempools s !! pool nd = Some m) /\
  (next nd = NULL \/ exists nd', nodes s !! next nd = Some nd' /\ pool nd' = pool nd).
Proof.
  intros (Hn & _) Hl. specialize (Hn n nd Hl). cbv beta in Hn.
  unfold node_ok in Hn. rewrite !andb_true_iff, orb_true_iff in Hn.
  destruct Hn as (((_ & Hb) & Hp) & Hnx).
  split; [|split].
  - destruct (buffers s !! (data nd - sizeof_ptrdiff)) as [b|]; [|discriminate].
    exists b. split; [reflexivity | apply Z.eqb_eq; exact Hb].
  - destruct (mempools s !! pool nd) as [m|]; [|discriminate]. exists m. reflexivity.
  - destruct Hnx as [Hnx|Hnx]; [left; apply Z.eqb_eq; exact Hnx|right].
    destruct (nodes s !! next nd) as [nd'|]; [|discriminate].
    exists nd'. split; [reflexivity | apply Z.eqb_eq; exact Hnx].
Qed.

Lemma wf_pool_inv (s : State) (p : Z) (m : MemPool) :
  wf s -> mempools s !! p = Some m ->
  head m = NULL \/ exists nd, nodes s !! head m = Some nd /\ pool nd = p.
Proof.
  intros (_ & Hp & _) Hl. specialize (Hp p m Hl). cbv beta in Hp.
  unfold pool_ok in Hp. rewrite andb_true_iff, orb_true_iff in Hp.
  destruct Hp as (_ & [Hh|Hh]); [left; apply Z.eqb_eq; exact Hh|right].
  destruct (nodes s !! head m) as [nd|]; [|discriminate].
  exists nd. split; [reflexivity | apply Z.eqb_eq; exact Hh].
Qed.

(** *** [pool_mem_acquire] on an empty free list *)

Lemma pool_mem_acquire_empty (cfg : Config) (pl : Z) (m : MemPool) (s : State) :
  pl <> NULL -> mempools s !! pl = Some m -> head m = NULL ->
  pool_mem_acquire cfg pl s = pool_mem_try_alloc_data cfg pl s.
Proof.
  intros Hpl Hm Hh. unfold pool_mem_acquire.
  rewrite (bind_Ok _ _ s s tt) by (apply assert_nonnull_pass; exact Hpl).
  unfold bind at 1, get. cbn [pool_mem_acquire_loop].
  unfold bind at 1. rewrite (load_pool_live pl m) by assumption.
  rewrite Hh, Z.eqb_refl. reflexivity.
Qed.

Lemma pool_mem_try_alloc_data_failure (cfg : Config) (pl : Z) (s s1 : State) :
  pl <> NULL -> alloc_poolable_mem cfg pl s = Ok NULL s1 ->
  pool_mem_try_alloc_data cfg pl s = Ok NULL s1.
Proof.
  intros Hpl Ha. unfold pool_mem_try_alloc_data.
  rewrite (bind_Ok _ _ s s tt) by (apply assert_nonnull_pass; exact Hpl).
  rewrite (bind_Ok _ _ s s1 NULL) by exact Ha.
  rewrite Z.eqb_refl. reflexivity.
Qed.

Lemma pool_mem_try_alloc_data_success (cfg : Config) (pl : Z) (m : MemPool) (s : State) :
  pl <> NULL -> mempools s !! pl = Some m ->
  ndebug cfg = true \/ mem_size m <> 0 ->
  0 < brk s ->
  hd true (malloc_script s) = true ->
  hd true (tl (malloc_script s)) = true ->
  pool_mem_try_alloc_data cfg pl s =
    Ok (brk s + node_block + sizeof_ptrdiff)
       (count_alloc cfg pl m (state_after_alloc pl m s)).
Proof.
  intros Hpl Hm Hsz Hbrk Hm1 Hm2. unfold pool_mem_try_alloc_data.
  rewrite (bind_Ok _ _ s s tt) by (apply assert_nonnull_pass; exact Hpl).
  rewrite (bind_Ok _ _ _ _ _ (alloc_poolable_mem_success cfg pl m s Hpl Hm Hsz Hbrk Hm1 Hm2)).
  rewrite eqb_NULL_false by (unfold NULL; lia).
  assert (Hl : nodes (count_alloc cfg pl m (state_after_alloc pl m s)) !! brk s =
               Some (mkMemNode NULL (brk s + node_block + sizeof_ptrdiff) pl)).
  { unfold count_alloc, state_after_alloc.
    destruct (track_pool_usage cfg); state_simpl; apply lookup_insert_eq. }
  rewrite (bind_Ok _ _ _ (count_alloc cfg pl m (state_after_alloc pl m s)) tt).
  - assert (Hnn : brk s <> NULL) by (unfold NULL; lia).
    rewrite (bind_Ok _ _ _ _ _ (load_node_live _ _ _ Hnn Hl)).
    reflexivity.
  - unfold track_pool_usage_allocs, count_alloc.
    destruct (track_pool_usage cfg); [|reflexivity].
    rewrite (store_pool_live pl _ m) by assumption. reflexivity.
Qed.

(** ** Well-formedness, pointwise *)

Lemma node_ok_iff (s : State) (n : Z) (nd : MemNode) :
  node_ok s n nd = true <-> node_inv s n nd.
Proof.
  unfold node_ok, node_inv.
  rewrite !andb_true_iff, orb_true_iff, below_brk_spec, Z.eqb_eq.
  split.
  - intros (((Hb & Hbuf) & Hp) & Hnx). split; [exact Hb|]. split; [|split].
    + destruct (buffers s !! (data nd - sizeof_ptrdiff)) as [b|]; [|discriminate].
      exists b. split; [reflexivity | apply Z.eqb_eq; exact Hbuf].
    + destruct (mempools s !! pool nd) as [m|]; [|discriminate]. exists m. reflexivity.
    + destruct Hnx as [Hnx|Hnx]; [left; exact Hnx|right].
      destruct (nodes s !! next nd) as [nd'|]; [|discriminate].
      exists nd'. split; [reflexivity | apply Z.eqb_eq; exact Hnx].
  - intros (Hb & (b & Hbuf & Hown) & (m & Hm) & Hnx).
    rewrite Hbuf, Hm. split; [split; [split|]|].
    + exact Hb.
    + apply Z.eqb_eq. exact Hown.
    + reflexivity.
    + destruct Hnx as [Hnx|(nd' & Hl & Hp)]; [left; exact Hnx|right].
      rewrite Hl. apply Z.eqb_eq. exact Hp.
Qed.

Lemma pool_ok_iff (s : State) (p : Z) (m : MemPool) :
  pool_ok s p m = true <-> pool_inv s p m.
Proof.
  unfold pool_ok, pool_inv.
  rewrite andb_true_iff, orb_true_iff, below_brk_spec, Z.eqb_eq.
  split.
  - intros (Hb & Hh). split; [exact Hb|].
    destruct Hh as [Hh|Hh]; [left; exact Hh|right].
    destruct (nodes s !! head m) as [nd|]; [|discriminate].
    exists nd. split; [reflexivity | apply Z.eqb_eq; exact Hh].
  - intros (Hb & Hh). split; [exact Hb|].
    destruct Hh as [Hh|(nd & Hl & Hp)]; [left; exact Hh|right].
    rewrite Hl. apply Z.eqb_eq. exact Hp.
Qed.

Lemma wf_iff (s : State) :
  wf s <->
  (forall n nd, nodes s !! n = Some nd -> node_inv s n nd) /\
  (forall p m, mempools s !! p = Some m -> pool_inv s p m) /\
  (forall a b, buffers s !! a = Some b -> 0 < a < brk s) /\
  (forall a mp, multipools s !! a = Some mp -> 0 < a < brk s) /\
  0 < brk s.
Proof.
  unfold wf, map_Forall. split.
  - intros (Hn & Hp & Hb & Hmp & Hbrk).
    split; [|split; [|split; [|split]]]; [ | | | | exact Hbrk].
    + intros n nd Hl. apply node_ok_iff, Hn, Hl.
    + intros p m Hl. apply pool_ok_iff, Hp, Hl.
    + intros a b Hl. apply below_brk_spec, (Hb a b Hl).
    + intros a mp Hl. apply below_brk_spec, (Hmp a mp Hl).
  - intros (Hn & Hp & Hb & Hmp & Hbrk).
    split; [|split; [|split; [|split]]]; [ | | | | exact Hbrk].
    + intros n nd Hl. apply node_ok_iff, Hn, Hl.
    + intros p m Hl. apply pool_ok_iff, Hp, Hl.
    + intros a b Hl. apply below_brk_spec, (Hb a b Hl).
    + intros a mp Hl. apply below_brk_spec, (Hmp a mp Hl).
Qed.

Lemma wf_initial_state (mscript cscript : list bool) : wf (initial_state mscript cscript).
Proof.
  apply wf_iff. unfold initial_state. state_simpl.
  split; [|split; [|split; [|split]]];
    try (intros ? ? H; rewrite lookup_empty in H; discriminate); lia.
Qed.

(** ** Updates that keep the heap well formed *)

Lemma wf_same_heap (s s' : State) :
  nodes s' = nodes s -> buffers s' = buffers s -> mempools s' = mempools s ->
  multipools s' = multipools s -> brk s <= brk s' ->
  wf s -> wf s'.
Proof.
  intros Hn Hb Hp Hmp Hbrk Hwf.
  apply wf_iff in Hwf as (Wn & Wp & Wb & Wmp & Wbrk). apply wf_iff.
  split; [|split; [|split; [|split]]].
  - intros n nd Hl. rewrite Hn in Hl.
    destruct (Wn n nd Hl) as (H1 & H2 & H3 & H4).
    unfold node_inv. rewrite Hn, Hb, Hp. split; [lia|]. auto.
  - intros p m Hl. rewrite Hp in Hl. destruct (Wp p m Hl) as (H1 & H2).
    unfold pool_inv. rewrite Hn. split; [lia | exact H2].
  - intros a b Hl. rewrite Hb in Hl. specialize (Wb a b Hl). lia.
  - intros a mp Hl. rewrite Hmp in Hl. specialize (Wmp a mp Hl). lia.
  - lia.
Qed.

Lemma wf_set_pool (s : State) (p : Z) (m m' : MemPool) :
  mempools s !! p = Some m ->
  (head m' = NULL \/ exists nd, nodes s !! head m' = Some nd /\ pool nd = p) ->
  wf s -> wf (set_mempools <[p := m']> s).
Proof.
  intros Hm Hh Hwf.
  apply wf_iff in Hwf as (Wn & Wp & Wb & Wmp & Wbrk). apply wf_iff. state_simpl.
  split; [|split; [|split; [|split]]]; try assumption.
  - intros n nd Hl. destruct (Wn n nd Hl) as (H1 & H2 & (mq & H3) & H4).
    unfold node_inv. state_simpl. split; [exact H1|]. split; [exact H2|].
    split; [|exact H4].
    destruct (decide (p = pool nd)) as [->|Hne].
    + exists m'. apply lookup_insert_eq.
    + exists mq. rewrite lookup_insert_ne by exact Hne. exact H3.
  - intros q mq Hl. unfold pool_inv. state_simpl.
    destruct (decide (p = q)) as [->|Hne].
    + rewrite lookup_insert_eq in Hl. inversion Hl. subst mq.
      split; [apply (Wp q m Hm) | exact Hh].
    + rewrite lookup_insert_ne in Hl by exact Hne. apply (Wp q mq Hl).
Qed.

(** Rewriting the [next] link of a node changes neither its owner word nor
    its pool, so every other reference to it stays good. *)
Lemma lookup_with_next (nds : gmap Z MemNode) (n x y : Z) (nd ndy : MemNode) :
  nds !! n = Some nd -> nds !! y = Some ndy ->
  exists ndy', <[n := with_next x nd]> nds !! y = Some ndy' /\ pool ndy' = pool ndy.
Proof.
  intros Hn Hy. destruct (decide (n = y)) as [->|Hne].
  - rewrite lookup_insert_eq. rewrite Hn in Hy. inversion Hy. subst ndy.
    exists (with_next x nd). split; reflexivity.
  - rewrite lookup_insert_ne by exact Hne. exists ndy. split; [exact Hy | reflexivity].
Qed.

Lemma wf_set_next (s : State) (n x : Z) (nd : MemNode) :
  nodes s !! n = Some nd ->
  (x = NULL \/ exists nd', nodes s !! x = Some nd' /\ pool nd' = pool nd) ->
  wf s -> wf (set_nodes <[n := with_next x nd]> s).
Proof.
  intros Hn Hx Hwf.
  apply wf_iff in Hwf as (Wn & Wp & Wb & Wmp & Wbrk). apply wf_iff. state_simpl.
  split; [|split; [|split; [|split]]]; try assumption.
  - intros a nda Hl. unfold node_inv. state_simpl.
    destruct (decide (n = a)) as [->|Hne].
    + rewrite lookup_insert_eq in Hl. inversion Hl. subst nda. record_simpl.
      destruct (Wn a nd Hn) as (H1 & H2 & H3 & _).
      split; [exact H1|]. split; [exact H2|]. split; [exact H3|].
      destruct Hx as [Hx|(nd' & Hl' & Hp')]; [left; exact Hx|right].
      destruct (lookup_with_next (nodes s) a x x nd nd' Hn Hl') as (nd2 & Hl2 & Hp2).
      exists nd2. unfold with_next in Hl2. split; [exact Hl2 | congruence].
    + rewrite lookup_insert_ne in Hl by exact Hne.
      destruct (Wn a nda Hl) as (H1 & H2 & H3 & H4).
      split; [exact H1|]. split; [exact H2|]. split; [exact H3|].
      destruct H4 as [H4|(nd' & Hl' & Hp')]; [left; exact H4|right].
      destruct (lookup_with_next (nodes s) n x (next nda) nd nd' Hn Hl') as (nd2 & Hl2 & Hp2).
      exists nd2. unfold with_next in Hl2. split; [exact Hl2 | congruence].
  - intros q mq Hl. unfold pool_inv. state_simpl.
    destruct (Wp q mq Hl) as (H1 & H2). split; [exact H1|].
    destruct H2 as [H2|(nd' & Hl' & Hp')]; [left; exact H2|right].
    destruct (lookup_with_next (nodes s) n x (head mq) nd nd' Hn Hl') as (nd2 & Hl2 & Hp2).
    exists nd2. unfold with_next in Hl2. split; [exact Hl2 | congruence].
Qed.

Lemma wf_state_after_alloc (pl : Z) (m : MemPool) (s : State) :
  mempools s !! pl = Some m -> wf s -> wf (state_after_alloc pl m s).
Proof.
  intros Hm Hwf. pose proof Hwf as Hwf0.
  apply wf_iff in Hwf as (Wn & Wp & Wb & Wmp & Wbrk). apply wf_iff.
  unfold state_after_alloc. rewrite node_block_eq. state_simpl.
  assert (Hmax : 16 <= Z.max 16 (round_up16 (mem_size m + sizeof_ptrdiff))) by lia.
  split; [|split; [|split; [|split]]].
  - intros a nda Hl. unfold node_inv. state_simpl.
    destruct (decide (brk s = a)) as [<-|Hne].
    + rewrite lookup_insert_eq in Hl. inversion Hl. subst nda. record_simpl.
      split; [lia|]. split; [|split].
      * replace (brk s + 32 + sizeof_ptrdiff - sizeof_ptrdiff) with (brk s + 32) by lia.
        rewrite lookup_insert_eq. eexists. split; reflexivity.
      * exists m. exact Hm.
      * left. reflexivity.
    + rewrite lookup_insert_ne in Hl by exact Hne.
      destruct (Wn a nda Hl) as (H1 & (b & H2 & H2') & H3 & H4).
      split; [lia|]. split; [|split; [exact H3|]].
      * exists b. split; [|exact H2'].
        rewrite lookup_insert_ne; [exact H2|].
        specialize (Wb _ _ H2). lia.
      * destruct H4 as [H4|(nd' & Hl' & Hp')]; [left; exact H4|right].
        exists nd'. split; [|exact Hp'].
        rewrite lookup_insert_ne; [exact Hl'|].
        pose proof (wf_node_below s _ _ Hwf0 Hl'). lia.
  - intros q mq Hl. unfold pool_inv. state_simpl.
    destruct (Wp q mq Hl) as (H1 & H2). split; [lia|].
    destruct H2 as [H2|(nd' & Hl' & Hp')]; [left; exact H2|right].
    exists nd'. split; [|exact Hp'].
    rewrite lookup_insert_ne; [exact Hl'|].
    pose proof (wf_node_below s _ _ Hwf0 Hl'). lia.
  - intros a b Hl. destruct (decide (brk s + 32 = a)) as [<-|Hne].
    + lia.
    + rewrite lookup_insert_ne in Hl by exact Hne. specialize (Wb a b Hl). lia.
  - intros a mp Hl. specialize (Wmp a mp Hl). lia.
  - lia.
Qed.

Lemma wf_count_alloc (cfg : Config) (pl : Z) (m : MemPool) (s : State) :
  mempools s !! pl = Some m -> wf s -> wf (count_alloc cfg pl m s).
Proof.
  intros Hm Hwf. unfold count_alloc. destruct (track_pool_usage cfg); [|exact Hwf].
  apply (wf_set_pool s pl m); [exact Hm | | exact Hwf].
  record_simpl. apply (wf_pool_inv s pl m Hwf Hm).
Qed.

Lemma wf_state_after_malloc_failure (s : State) : wf s -> wf (state_after_malloc_failure s).
Proof. apply wf_same_heap; reflexivity. Qed.

Lemma state_after_buffer_failure_nodes (s : State) :
  wf s -> nodes (state_after_buffer_failure s) = nodes s.
Proof.
  intros Hwf. unfold state_after_buffer_failure. state_simpl.
  apply delete_id. apply wf_node_fresh; [exact Hwf | lia].
Qed.

Lemma wf_state_after_buffer_failure (s : State) : wf s -> wf (state_after_buffer_failure s).
Proof.
  intros Hwf. apply (wf_same_heap s); try reflexivity; try exact Hwf.
  - apply state_after_buffer_failure_nodes. exact Hwf.
  - unfold state_after_buffer_failure. state_simpl. rewrite node_block_eq. lia.
Qed.

(** ** Acquire on an empty free list: the two outcomes *)

Lemma mempools_count_alloc (cfg : Config) (pl : Z) (m : MemPool) (s : State) (q : Z) :
  mempools s !! pl = Some m ->
  exists m', mempools (count_alloc cfg pl m s) !! pl = Some m' /\
             head m' = head m /\ mem_size m' = mem_size m /\
             (q <> pl -> mempools (count_alloc cfg pl m s) !! q = mempools s !! q).
Proof.
  intros Hm. unfold count_alloc. destruct (track_pool_usage cfg); state_simpl.
  - eexists. split; [apply lookup_insert_eq|]. record_simpl.
    split; [reflexivity|]. split; [reflexivity|].
    intros Hne. apply lookup_insert_ne. congruence.
  - exists m. auto.
Qed.

(** C6. If [malloc] fails on the cache-miss path of [pool_mem_acquire], for
    the node or for its data buffer, the call returns [NULL]; the node that
    was allocated before the buffer failed is freed again, so the live heap is
    exactly what it was: the pool's head and block size are unchanged, and the
    heap is still well formed for the calls that follow. *)
Theorem pool_mem_acquire_allocation_failure
    (cfg : Config) (P : Z) (m : MemPool) (s : State) :
  wf s ->
  mempools s !! P = Some m -> head m = NULL ->
  ndebug cfg = true \/ mem_size m <> 0 ->
  hd true (malloc_script s) = false \/ hd true (tl (malloc_script s)) = false ->
  exists s',
    pool_mem_acquire cfg P s = Ok NULL s' /\
    nodes s' = nodes s /\ buffers s' = buffers s /\
    mempools s' = mempools s /\ multipools s' = multipools s /\
    mempools s' !! P = Some m /\
    wf s'.
Proof.
  intros Hwf Hm Hh Hsz Hfail.
  assert (HP : P <> NULL) by (pose proof (wf_pool_below s P m Hwf Hm); unfold NULL; lia).
  rewrite (pool_mem_acquire_empty cfg P m s HP Hm Hh).
  destruct (hd true (malloc_script s)) eqn:Hm1.
  - destruct Hfail as [Hfail|Hm2]; [discriminate|].
    exists (state_after_buffer_failure s). split.
    + apply pool_mem_try_alloc_data_failure; [exact HP|].
      apply (alloc_poolable_mem_buffer_failure cfg P m); try assumption.
      apply wf_brk_pos. exact Hwf.
    + split; [apply state_after_buffer_failure_nodes; exact Hwf|].
      repeat (split; [reflexivity|]).
      split; [exact Hm | apply wf_state_after_buffer_failure; exact Hwf].
  - exists (state_after_malloc_failure s). split.
    + apply pool_mem_try_alloc_data_failure; [exact HP|].
      apply (alloc_poolable_mem_node_failure cfg P m); assumption.
    + repeat (split; [reflexivity|]).
      split; [exact Hm | apply wf_state_after_malloc_failure; exact Hwf].
Qed.

(** The cache-miss path when [malloc] succeeds. *)
Lemma cache_miss_allocates_fresh_node
    (cfg : Config) (P : Z) (m : MemPool) (s : State) :
  wf s ->
  mempools s !! P = Some m -> head m = NULL ->
  ndebug cfg = true \/ mem_size m <> 0 ->
  hd true (malloc_script s) = true ->
  hd true (tl (malloc_script s)) = true ->
  exists p s',
    pool_mem_acquire cfg P s = Ok p s' /\ p <> NULL /\
    (exists m', mempools s' !! P = Some m' /\ head m' = NULL /\ mem_size m' = mem_size m) /\
    (forall q, q <> P -> mempools s' !! q = mempools s !! q) /\
    nodes s !! brk s = None /\
    nodes s' !! brk s = Some (mkMemNode NULL p P) /\
    payload_size s' p = Some (mem_size m) /\
    (forall a, a <> brk s -> nodes s' !! a = nodes s !! a) /\
    (forall q mq, mempools s' !! q = Some mq -> head mq <> brk s) /\
    (forall a nd, nodes s' !! a = Some nd -> next nd <> brk s) /\
    wf s'.
Proof.
  intros Hwf Hm Hh Hsz Hm1 Hm2.
  assert (HP : P <> NULL) by (pose proof (wf_pool_below s P m Hwf Hm); unfold NULL; lia).
  pose proof (wf_brk_pos s Hwf) as Hbrk.
  rewrite (pool_mem_acquire_empty cfg P m s HP Hm Hh).
  rewrite (pool_mem_try_alloc_data_success cfg P m s HP Hm Hsz Hbrk Hm1 Hm2).
  set (s1 := state_after_alloc P m s).
  assert (Hm1' : mempools s1 !! P = Some m) by exact Hm.
  assert (Hwf1 : wf s1) by (apply wf_state_after_alloc; assumption).
  assert (Hwf' : wf (count_alloc cfg P m s1)) by (apply wf_count_alloc; assumption).
  assert (Hnodes : nodes (count_alloc cfg P m s1) =
                   <[brk s := mkMemNode NULL (brk s + node_block + sizeof_ptrdiff) P]> (nodes s)).
  { unfold count_alloc. destruct (track_pool_usage cfg); reflexivity. }
  assert (Hbufs : buffers (count_alloc cfg P m s1) =
                  <[brk s + node_block := mkDataBuf (brk s) (mem_size m + sizeof_ptrdiff)]>
                    (buffers s)).
  { unfold count_alloc. destruct (track_pool_usage cfg); reflexivity. }
  assert (Hfresh : nodes s !! brk s = None) by (apply wf_node_fresh; [exact Hwf | lia]).
  eexists _, _. split; [reflexivity|].
  split; [rewrite node_block_eq; unfold NULL, sizeof_ptrdiff; lia|].
  destruct (mempools_count_alloc cfg P m s1 P Hm1') as (m' & Hl' & Hh' & Hs' & _).
  split; [exists m'; split; [exact Hl'|]; split; [congruence | exact Hs']|].
  split.
  { intros q Hq. destruct (mempools_count_alloc cfg P m s1 q Hm1') as (_ & _ & _ & _ & Hq').
    rewrite (Hq' Hq). reflexivity. }
  split; [exact Hfresh|].
  split; [rewrite Hnodes; apply lookup_insert_eq|].
  split.
  { unfold payload_size. rewrite Hbufs.
    replace (brk s + node_block + sizeof_ptrdiff - sizeof_ptrdiff) with (brk s + node_block) by lia.
    rewrite lookup_insert_eq. cbn [alloc_size]. f_equal. lia. }
  split; [intros a Ha; rewrite Hnodes; apply lookup_insert_ne; congruence|].
  split.
  { intros q mq Hq Hhead.
    destruct (decide (q = P)) as [->|Hne].
    - rewrite Hl' in Hq. inversion Hq. subst mq.
      rewrite Hh', Hh in Hhead. unfold NULL in Hhead. lia.
    - destruct (mempools_count_alloc cfg P m s1 q Hm1') as (_ & _ & _ & _ & Hq').
      rewrite (Hq' Hne) in Hq. change (mempools s1) with (mempools s) in Hq.
      destruct (wf_pool_inv s q mq Hwf Hq) as [H0|(nd & Hl & _)].
      + rewrite H0 in Hhead. unfold NULL in Hhead. lia.
      + rewrite Hhead, Hfresh in Hl. discriminate. }
  split; [|exact Hwf'].
  intros a nd Ha Hnext. rewrite Hnodes in Ha.
  destruct (decide (brk s = a)) as [<-|Hne].
  - rewrite lookup_insert_eq in Ha. inversion Ha. subst nd. cbn [next] in Hnext.
    unfold NULL in Hnext. lia.
  - rewrite lookup_insert_ne in Ha by exact Hne.
    destruct (wf_node_inv s a nd Hwf Ha) as (_ & _ & [H0|(nd' & Hl & _)]).
    + rewrite H0 in Hnext. unfold NULL in Hnext. lia.
    + rewrite Hnext, Hfresh in Hl. discriminate.
Qed.

Lemma alloc_mem_pool_4096 (mscript cscript : list bool) :
  alloc_mem_pool debug_build 4096 (initial_state (true :: mscript) cscript) =
    Ok 4096 (pool_4096_state mscript cscript).
Proof. reflexivity. Qed.

Lemma wf_pool_4096_state (mscript cscript : list bool) : wf (pool_4096_state mscript cscript).
Proof. apply (bool_decide_unpack _). vm_compute. exact I. Qed.

Lemma pool_mem_acquire_allocation_failure_witness :
  exists s',
    pool_mem_acquire debug_build 4096 (pool_4096_state [true; false] []) = Ok NULL s' /\
    mempools s' !! 4096 = Some pool_4096.
Proof.
  destruct (pool_mem_acquire_allocation_failure debug_build 4096 pool_4096
              (pool_4096_state [true; false] []))
    as (s' & Hrun & _ & _ & _ & _ & Hpool & _).
  - apply (bool_decide_unpack _). vm_compute. exact I.
  - reflexivity.
  - reflexivity.
  - right. vm_compute. discriminate.
  - right. reflexivity.
  - exists s'. split; [exact Hrun | exact Hpool].
Defined.

(** ** The weak compare-and-swap, one thread *)

Lemma drop_spurious_genuine (script : list bool) :
  hd true script = true -> drop_spurious script = script.
Proof. destruct script as [|[|] r]; [reflexivity | reflexivity | discriminate]. Qed.

Lemma drop_spurious_spurious (script : list bool) :
  hd true script = false ->
  drop_spurious script = drop_spurious (tl script) /\ (length (tl script) < length script)%nat.
Proof.
  destruct script as [|[|] r]; [discriminate | discriminate |].
  intros _. split; [reflexivity | simpl; lia].
Qed.

Lemma atomic_compare_exchange_head_genuine (pl expected desired : Z) (m : MemPool) (s : State) :
  hd true (cas_script s) = true ->
  pl <> NULL -> mempools s !! pl = Some m -> head m = expected ->
  atomic_compare_exchange_head pl expected desired s =
    Ok true (set_mempools <[pl := with_head desired m]> (cas_settled s)).
Proof.
  intros Hg Hpl Hm Hh. unfold atomic_compare_exchange_head, pop_cas_script, bind at 1.
  rewrite Hg. unfold bind at 1.
  rewrite (load_pool_live pl m) by assumption.
  rewrite Hh, Z.eqb_refl. unfold bind.
  rewrite (store_pool_live pl _ m) by assumption.
  unfold ret, cas_settled. rewrite (drop_spurious_genuine _ Hg). reflexivity.
Qed.

Lemma atomic_compare_exchange_head_spurious (pl expected desired : Z) (s : State) :
  hd true (cas_script s) = false ->
  atomic_compare_exchange_head pl expected desired s =
    Ok false (set_cas_script (tl (cas_script s)) s).
Proof.
  intros Hg. unfold atomic_compare_exchange_head, pop_cas_script, bind.
  rewrite Hg. reflexivity.
Qed.

Lemma cas_settled_spurious (s : State) :
  hd true (cas_script s) = false ->
  cas_settled (set_cas_script (tl (cas_script s)) s) = cas_settled s.
Proof.
  intros Hg. unfold cas_settled. state_simpl.
  rewrite (proj1 (drop_spurious_spurious _ Hg)). reflexivity.
Qed.

(** ** Pop: [pool_mem_acquire] on a non-empty free list *)

Lemma track_pool_usage_memnode_unavailable_run (cfg : Config) (pl : Z) (m : MemPool) (s : State) :
  pl <> NULL ->
  track_pool_usage_memnode_unavailable cfg pl (set_mempools <[pl := m]> s) =
    Ok tt (set_mempools <[pl := count_unavailable cfg m]> s).
Proof.
  intros Hpl. unfold track_pool_usage_memnode_unavailable, count_unavailable.
  destruct (track_pool_usage cfg); [|reflexivity].
  rewrite (store_pool_live pl _ m); [| exact Hpl | state_simpl; apply lookup_insert_eq].
  state_simpl. rewrite insert_insert_eq. reflexivity.
Qed.

Lemma track_pool_usage_returned_run (cfg : Config) (pl : Z) (m : MemPool) (s : State) :
  pl <> NULL ->
  track_pool_usage_returned cfg pl (set_mempools <[pl := m]> s) =
    Ok tt (set_mempools <[pl := count_returned cfg m]> s).
Proof.
  intros Hpl. unfold track_pool_usage_returned, count_returned.
  destruct (track_pool_usage cfg); [|reflexivity].
  rewrite (store_pool_live pl _ m); [| exact Hpl | state_simpl; apply lookup_insert_eq].
  state_simpl. rewrite insert_insert_eq. reflexivity.
Qed.

Lemma pool_mem_acquire_loop_pop (cfg : Config) (pl : Z) (m : MemPool) (nd : MemNode)
    (fuel : nat) (s : State) :
  pl <> NULL -> mempools s !! pl = Some m ->
  head m <> NULL -> nodes s !! head m = Some nd ->
  (length (cas_script s) < fuel)%nat ->
  pool_mem_acquire_loop cfg fuel pl s = Ok (data nd) (state_after_pop cfg pl m nd s).
Proof.
  intros Hpl. revert s. induction fuel as [|f IH]; intros s Hm Hh Hn Hfuel; [lia|].
  cbn [pool_mem_acquire_loop]. unfold bind at 1.
  rewrite (load_pool_live pl m) by assumption.
  rewrite eqb_NULL_false by exact Hh.
  unfold bind at 1. rewrite (load_node_live _ nd) by assumption.
  destruct (hd true (cas_script s)) eqn:Hg.
  - rewrite (bind_Ok _ _ _ _ _
               (atomic_compare_exchange_head_genuine pl (head m) (next nd) m s Hg Hpl Hm eq_refl)).
    rewrite (bind_Ok _ _ _ _ _ (track_pool_usage_memnode_unavailable_run cfg pl _ _ Hpl)).
    unfold bind at 1.
    rewrite (load_node_live (head m) nd); [reflexivity | exact Hh | exact Hn].
  - rewrite (bind_Ok _ _ _ _ _ (atomic_compare_exchange_head_spurious pl _ _ s Hg)).
    rewrite IH; try assumption.
    + unfold state_after_pop. rewrite (cas_settled_spurious s Hg). reflexivity.
    + state_simpl. pose proof (proj2 (drop_spurious_spurious _ Hg)). lia.
Qed.

Lemma pool_mem_acquire_pop (cfg : Config) (pl : Z) (m : MemPool) (nd : MemNode) (s : State) :
  pl <> NULL -> mempools s !! pl = Some m ->
  head m <> NULL -> nodes s !! head m = Some nd ->
  pool_mem_acquire cfg pl s = Ok (data nd) (state_after_pop cfg pl m nd s).
Proof.
  intros Hpl Hm Hh Hn. unfold pool_mem_acquire.
  rewrite (bind_Ok _ _ s s tt) by (apply assert_nonnull_pass; exact Hpl).
  unfold bind at 1, get.
  apply pool_mem_acquire_loop_pop; try assumption. lia.
Qed.

(** ** Push: [pool_mem_return] *)

Lemma with_next_idem (x : Z) (nd : MemNode) : with_next x (with_next x nd) = with_next x nd.
Proof. reflexivity. Qed.

Lemma pool_mem_return_loop_push (cfg : Config) (pl n : Z) (m : MemPool)
    (fuel : nat) (nd : MemNode) (s : State) :
  pl <> NULL -> n <> NULL -> mempools s !! pl = Some m ->
  nodes s !! n = Some nd ->
  (length (cas_script s) < fuel)%nat ->
  pool_mem_return_loop cfg fuel pl n s = Ok tt (state_after_push cfg pl m n nd s).
Proof.
  intros Hpl Hnn. revert nd s.
  induction fuel as [|f IH]; intros nd s Hm Hn Hfuel; [lia|].
  cbn [pool_mem_return_loop]. unfold bind at 1.
  rewrite (load_pool_live pl m) by assumption.
  rewrite (bind_Ok _ _ _ _ _ (store_node_live n (with_next (head m)) nd s Hnn Hn)).
  set (s1 := set_nodes <[n := with_next (head m) nd]> s).
  destruct (hd true (cas_script s)) eqn:Hg.
  - rewrite (bind_Ok _ _ _ _ _
               (atomic_compare_exchange_head_genuine pl (head m) n m s1 Hg Hpl Hm eq_refl)).
    rewrite track_pool_usage_returned_run by exact Hpl. reflexivity.
  - rewrite (bind_Ok _ _ _ _ _ (atomic_compare_exchange_head_spurious pl _ _ s1 Hg)).
    rewrite (IH (with_next (head m) nd)).
    + unfold state_after_push, s1.
      change (cas_settled (set_cas_script (tl (cas_script (set_nodes <[n := with_next (head m) nd]> s)))
                             (set_nodes <[n := with_next (head m) nd]> s)))
        with (set_nodes <[n := with_next (head m) nd]>
                (cas_settled (set_cas_script (tl (cas_script s)) s))).
      rewrite (cas_settled_spurious s Hg). state_simpl.
      rewrite insert_insert_eq. reflexivity.
    + exact Hm.
    + unfold s1. state_simpl. apply lookup_insert_eq.
    + unfold s1. state_simpl. pose proof (proj2 (drop_spurious_spurious _ Hg)). lia.
Qed.

Lemma pool_mem_return_push (cfg : Config) (p pl n : Z) (b : DataBuf) (nd : MemNode)
    (m : MemPool) (s : State) :
  p <> NULL -> p - sizeof_ptrdiff <> NULL ->
  buffers s !! (p - sizeof_ptrdiff) = Some b -> owner_word b = n ->
  n <> NULL -> nodes s !! n = Some nd -> pool nd = pl ->
  pl <> NULL -> mempools s !! pl = Some m ->
  pool_mem_return cfg p s = Ok tt (state_after_push cfg pl m n nd s).
Proof.
  intros Hp Hp8 Hb Hown Hnn Hn Hpool Hpl Hm. unfold pool_mem_return.
  rewrite (bind_Ok _ _ s s tt) by (apply assert_nonnull_pass; exact Hp).
  rewrite (bind_Ok _ _ s s n).
  2:{ unfold get_memnode_in_data.
      rewrite (bind_Ok _ _ s s tt) by (apply assert_nonnull_pass; exact Hp).
      rewrite (bind_Ok _ _ _ _ _ (load_buffer_live _ b s Hp8 Hb)).
      unfold ret. rewrite Hown. reflexivity. }
  rewrite (bind_Ok _ _ _ _ _ (load_node_live n nd s Hnn Hn)).
  unfold bind at 1, get. rewrite Hpool.
  apply pool_mem_return_loop_push; try assumption. lia.
Qed.

(** ** Pop and push keep the heap well formed *)

Lemma head_count_unavailable (cfg : Config) (m : MemPool) :
  head (count_unavailable cfg m) = head m /\ mem_size (count_unavailable cfg m) = mem_size m.
Proof. unfold count_unavailable. destruct (track_pool_usage cfg); split; reflexivity. Qed.

Lemma head_count_returned (cfg : Config) (m : MemPool) :
  head (count_returned cfg m) = head m /\ mem_size (count_returned cfg m) = mem_size m.
Proof. unfold count_returned. destruct (track_pool_usage cfg); split; reflexivity. Qed.

Lemma wf_cas_settled (s : State) : wf s -> wf (cas_settled s).
Proof. apply wf_same_heap; reflexivity. Qed.

Lemma wf_state_after_pop (cfg : Config) (pl : Z) (m : MemPool) (nd : MemNode) (s : State) :
  wf s -> mempools s !! pl = Some m ->
  head m <> NULL -> nodes s !! head m = Some nd ->
  wf (state_after_pop cfg pl m nd s).
Proof.
  intros Hwf Hm Hh Hn. unfold state_after_pop.
  apply (wf_set_pool (cas_settled s) pl m); [exact Hm | | apply wf_cas_settled; exact Hwf].
  rewrite (proj1 (head_count_unavailable cfg _)). cbn [head with_head].
  change (nodes (cas_settled s)) with (nodes s).
  destruct (wf_pool_inv s pl m Hwf Hm) as [H0|(nd0 & Hl0 & Hp0)]; [contradiction|].
  rewrite Hn in Hl0. inversion Hl0. subst nd0.
  destruct (wf_node_inv s (head m) nd Hwf Hn) as (_ & _ & [Hx|(nd' & Hl' & Hp')]).
  - left. exact Hx.
  - right. exists nd'. split; [exact Hl' | congruence].
Qed.

Lemma wf_state_after_push (cfg : Config) (pl n : Z) (m : MemPool) (nd : MemNode) (s : State) :
  wf s -> mempools s !! pl = Some m ->
  nodes s !! n = Some nd -> pool nd = pl ->
  wf (state_after_push cfg pl m n nd s).
Proof.
  intros Hwf Hm Hn Hp. unfold state_after_push.
  apply (wf_set_pool _ pl m); [exact Hm | |].
  - rewrite (proj1 (head_count_returned cfg _)). cbn [head with_head].
    right. exists (with_next (head m) nd). split; [|exact Hp].
    state_simpl. apply lookup_insert_eq.
  - apply (wf_set_next (cas_settled s) n (head m) nd);
      [exact Hn | | apply wf_cas_settled; exact Hwf].
    change (nodes (cas_settled s)) with (nodes s).
    destruct (wf_pool_inv s pl m Hwf Hm) as [H0|(nd0 & Hl0 & Hp0)].
    + left. exact H0.
    + right. exists nd0. split; [exact Hl0 | congruence].
Qed.

(** ** What a returning [pool_mem_acquire] did *)

Lemma pool_mem_acquire_Ok_live (cfg : Config) (pl p : Z) (s s1 : State) :
  pool_mem_acquire cfg pl s = Ok p s1 ->
  pl <> NULL /\ exists m, mempools s !! pl = Some m.
Proof.
  unfold pool_mem_acquire. intros H.
  apply bind_Ok_inv in H as ([] & s0 & Ha & H).
  apply assert_Ok_inv in Ha; [|intros b s' Hb; inversion Hb; reflexivity]. subst s0.
  unfold bind at 1, get in H. cbn [pool_mem_acquire_loop] in H.
  apply bind_Ok_inv in H as (m & s0 & Hl & _).
  apply load_pool_Ok_inv in Hl as (_ & Hpl & Hm).
  split; [exact Hpl | exists m; exact Hm].
Qed.

Lemma pool_mem_try_alloc_data_assert_fail (cfg : Config) (pl : Z) (m : MemPool) (s : State) :
  pl <> NULL -> mempools s !! pl = Some m ->
  ndebug cfg = false -> mem_size m = 0 ->
  pool_mem_try_alloc_data cfg pl s = AssertFail.
Proof.
  intros Hpl Hm Hnd Hsz.
  unfold pool_mem_try_alloc_data, alloc_poolable_mem, assert. rewrite Hnd.
  unfold bind, ret. rewrite eqb_NULL_false by exact Hpl. cbn [negb].
  rewrite (load_pool_live pl m) by assumption. rewrite Hsz. reflexivity.
Qed.

Lemma pool_mem_acquire_cases (cfg : Config) (pl p : Z) (s s1 : State) :
  wf s -> pool_mem_acquire cfg pl s = Ok p s1 ->
  exists m, mempools s !! pl = Some m /\
    ((head m = NULL /\ p = NULL /\
      (s1 = state_after_malloc_failure s \/ s1 = state_after_buffer_failure s)) \/
     (head m = NULL /\ p = brk s + node_block + sizeof_ptrdiff /\
      s1 = count_alloc cfg pl m (state_after_alloc pl m s)) \/
     (exists nd, head m <> NULL /\ nodes s !! head m = Some nd /\
                 p = data nd /\ s1 = state_after_pop cfg pl m nd s)).
Proof.
  intros Hwf H.
  destruct (pool_mem_acquire_Ok_live cfg pl p s s1 H) as (Hpl & m & Hm).
  exists m. split; [exact Hm|].
  destruct (Z.eq_dec (head m) NULL) as [Hh|Hh].
  - rewrite (pool_mem_acquire_empty cfg pl m s Hpl Hm Hh) in H.
    assert (Hsz : ndebug cfg = true \/ mem_size m <> 0).
    { destruct (ndebug cfg) eqn:Hnd; [left; reflexivity|right].
      intros Hz. rewrite (pool_mem_try_alloc_data_assert_fail cfg pl m s) in H by assumption.
      discriminate. }
    pose proof (wf_brk_pos s Hwf) as Hbrk.
    destruct (hd true (malloc_script s)) eqn:Hm1.
    + destruct (hd true (tl (malloc_script s))) eqn:Hm2.
      * rewrite (pool_mem_try_alloc_data_success cfg pl m s) in H by assumption.
        inversion H. right. left. auto.
      * rewrite (pool_mem_try_alloc_data_failure cfg pl s (state_after_buffer_failure s)) in H;
          [| exact Hpl | apply (alloc_poolable_mem_buffer_failure cfg pl m); assumption].
        inversion H. left. auto.
    + rewrite (pool_mem_try_alloc_data_failure cfg pl s (state_after_malloc_failure s)) in H;
        [| exact Hpl | apply (alloc_poolable_mem_node_failure cfg pl m); assumption].
      inversion H. left. auto.
  - destruct (wf_pool_inv s pl m Hwf Hm) as [H0|(nd & Hn & _)]; [contradiction|].
    rewrite (pool_mem_acquire_pop cfg pl m nd s Hpl Hm Hh Hn) in H.
    inversion H. right. right. exists nd. auto.
Qed.

Lemma wf_pool_mem_acquire (cfg : Config) (pl p : Z) (s s1 : State) :
  wf s -> pool_mem_acquire cfg pl s = Ok p s1 -> wf s1.
Proof.
  intros Hwf H.
  destruct (pool_mem_acquire_cases cfg pl p s s1 Hwf H)
    as (m & Hm & [(_ & _ & [->| ->]) | [(_ & _ & ->) | (nd & Hh & Hn & _ & ->)]]).
  - apply wf_state_after_malloc_failure. exact Hwf.
  - apply wf_state_after_buffer_failure. exact Hwf.
  - apply wf_count_alloc; [exact Hm | apply wf_state_after_alloc; assumption].
  - apply wf_state_after_pop; assumption.
Qed.

(** A pointer that [pool_mem_acquire] returned belongs to the pool. *)
Lemma pool_mem_acquire_owned (cfg : Config) (pl p : Z) (s s1 : State) :
  wf s -> pool_mem_acquire cfg pl s = Ok p s1 -> p <> NULL -> owned s1 pl p.
Proof.
  intros Hwf H Hp.
  destruct (pool_mem_acquire_cases cfg pl p s s1 Hwf H)
    as (m & Hm & [(_ & Hnull & _) | [(_ & -> & ->) | (nd & Hh & Hn & -> & ->)]]).
  - contradiction.
  - destruct (mempools_count_alloc cfg pl m (state_after_alloc pl m s) pl Hm)
      as (m' & Hm' & _).
    exists (mkDataBuf (brk s) (mem_size m + sizeof_ptrdiff)),
           (mkMemNode NULL (brk s + node_block + sizeof_ptrdiff) pl), m'.
    assert (Hnodes : nodes (count_alloc cfg pl m (state_after_alloc pl m s)) =
                     <[brk s := mkMemNode NULL (brk s + node_block + sizeof_ptrdiff) pl]> (nodes s))
      by (unfold count_alloc; destruct (track_pool_usage cfg); reflexivity).
    assert (Hbufs : buffers (count_alloc cfg pl m (state_after_alloc pl m s)) =
                    <[brk s + node_block := mkDataBuf (brk s) (mem_size m + sizeof_ptrdiff)]>
                      (buffers s))
      by (unfold count_alloc; destruct (track_pool_usage cfg); reflexivity).
    rewrite Hnodes, Hbufs.
    replace (brk s + node_block + sizeof_ptrdiff - sizeof_ptrdiff) with (brk s + node_block) by lia.
    rewrite lookup_insert_eq. cbn [owner_word]. rewrite lookup_insert_eq.
    repeat split; try reflexivity. exact Hm'.
  - destruct (wf_node_inv s (head m) nd Hwf Hn) as ((b & Hb & Hown) & _ & _).
    destruct (wf_pool_inv s pl m Hwf Hm) as [H0|(nd0 & Hl0 & Hp0)]; [contradiction|].
    rewrite Hn in Hl0. inversion Hl0. subst nd0.
    exists b, nd, (count_unavailable cfg (with_head (next nd) m)).
    unfold state_after_pop. state_simpl. rewrite Hown.
    split; [exact Hb|]. split; [exact Hn|]. split; [reflexivity|]. split; [exact Hp0|].
    apply lookup_insert_eq.
Qed.

(** ** The cache-miss path leaves the pool alone *)

(** C7. When [pool_mem_acquire] finds the free list empty, whatever it
    returns, the head of the pool is still [NULL] afterwards and the block
    size is unchanged; and when [malloc] succeeds it returns the data pointer
    of a fresh node of the pool's block size, which belongs to the pool and
    is linked from no head and no node: the free list does not receive it,
    and no other pool is touched. *)
Theorem pool_mem_acquire_cache_miss
    (cfg : Config) (P : Z) (m : MemPool) (s : State) :
  wf s ->
  mempools s !! P = Some m -> head m = NULL ->
  (forall p s', pool_mem_acquire cfg P s = Ok p s' ->
     exists m', mempools s' !! P = Some m' /\ head m' = NULL /\ mem_size m' = mem_size m) /\
  (ndebug cfg = true \/ mem_size m <> 0 ->
   hd true (malloc_script s) = true ->
   hd true (tl (malloc_script s)) = true ->
   exists p s',
     pool_mem_acquire cfg P s = Ok p s' /\ p <> NULL /\
     (forall q, q <> P -> mempools s' !! q = mempools s !! q) /\
     nodes s !! brk s = None /\
     nodes s' !! brk s = Some (mkMemNode NULL p P) /\
     payload_size s' p = Some (mem_size m) /\
     (forall a, a <> brk s -> nodes s' !! a = nodes s !! a) /\
     (forall q mq, mempools s' !! q = Some mq -> head mq <> brk s) /\
     (forall a nd, nodes s' !! a = Some nd -> next nd <> brk s) /\
     wf s').
Proof.
  intros Hwf Hm Hh. split.
  - intros p s' Hrun.
    destruct (pool_mem_acquire_cases cfg P p s s' Hwf Hrun)
      as (m0 & Hm0 & [(_ & _ & [->| ->]) | [(_ & _ & ->) | (nd & Hne & _)]]);
      rewrite Hm in Hm0; inversion Hm0; subst m0.
    + exists m. auto.
    + exists m. auto.
    + destruct (mempools_count_alloc cfg P m (state_after_alloc P m s) P Hm)
        as (m' & Hl' & Hh' & Hs' & _).
      exists m'. split; [exact Hl'|]. split; [congruence | exact Hs'].
    + contradiction.
  - intros Hsz Hm1 Hm2.
    destruct (cache_miss_allocates_fresh_node cfg P m s Hwf Hm Hh Hsz Hm1 Hm2)
      as (p & s' & H1 & H2 & _ & H4 & H5 & H6 & H7 & H8 & H9 & H10 & H11).
    exists p, s'. auto 12.
Qed.

Lemma pool_mem_acquire_cache_miss_witness :
  exists p s',
    pool_mem_acquire debug_build 4096 (pool_4096_state [] []) = Ok p s' /\ p <> NULL /\
    exists m', mempools s' !! 4096 = Some m' /\ head m' = NULL /\ mem_size m' = 4096.
Proof.
  destruct (pool_mem_acquire_cache_miss debug_build 4096 pool_4096 (pool_4096_state [] []))
    as (Hframe & Hgrow).
  - apply (bool_decide_unpack _). vm_compute. exact I.
  - reflexivity.
  - reflexivity.
  - destruct Hgrow as (p & s' & Hrun & Hp & _).
    + right. vm_compute. discriminate.
    + reflexivity.
    + reflexivity.
    + exists p, s'. split; [exact Hrun|]. split; [exact Hp|].
      apply (Hframe p s' Hrun).
Defined.

(** ** The frame of the calls *)

Lemma heap_extends_refl (s : State) : heap_extends s s.
Proof.
  split; [|split; [|split]]; try (intros; assumption).
  - intros a nd H. exists nd. auto.
  - intros q m H. exists m. auto.
Qed.

Lemma heap_extends_trans (s1 s2 s3 : State) :
  heap_extends s1 s2 -> heap_extends s2 s3 -> heap_extends s1 s3.
Proof.
  intros (B1 & N1 & P1 & M1) (B2 & N2 & P2 & M2).
  split; [|split; [|split]].
  - intros a b H. apply B2, B1, H.
  - intros a nd H. destruct (N1 a nd H) as (nd1 & H1 & D1 & Q1).
    destruct (N2 a nd1 H1) as (nd2 & H2 & D2 & Q2).
    exists nd2. split; [exact H2|]. split; congruence.
  - intros q m H. destruct (P1 q m H) as (m1 & H1 & S1).
    destruct (P2 q m1 H1) as (m2 & H2 & S2).
    exists m2. split; [exact H2 | congruence].
  - intros a mp H. apply M2, M1, H.
Qed.

Lemma heap_extends_same (s s' : State) :
  nodes s' = nodes s -> buffers s' = buffers s -> mempools s' = mempools s ->
  multipools s' = multipools s -> heap_extends s s'.
Proof.
  intros Hn Hb Hp Hm. unfold heap_extends. rewrite Hn, Hb, Hp, Hm.
  apply heap_extends_refl.
Qed.

(** Replacing a pool's record by one of the same block size. *)
Lemma heap_extends_set_pool (s : State) (pl : Z) (m m' : MemPool) :
  mempools s !! pl = Some m -> mem_size m' = mem_size m ->
  heap_extends s (set_mempools <[pl := m']> s).
Proof.
  intros Hm Hs. split; [|split; [|split]]; state_simpl; try (intros; assumption).
  - intros a nd H. exists nd. auto.
  - intros q mq H. destruct (decide (pl = q)) as [->|Hne].
    + rewrite lookup_insert_eq. exists m'. split; [reflexivity | congruence].
    + rewrite lookup_insert_ne by exact Hne. exists mq. auto.
Qed.

(** Rewriting a node's [next] link. *)
Lemma heap_extends_set_next (s : State) (n x : Z) (nd : MemNode) :
  nodes s !! n = Some nd -> heap_extends s (set_nodes <[n := with_next x nd]> s).
Proof.
  intros Hn. split; [|split; [|split]]; state_simpl; try (intros; assumption).
  - intros a nda H. destruct (decide (n = a)) as [->|Hne].
    + rewrite lookup_insert_eq. rewrite Hn in H. inversion H. subst nda.
      exists (with_next x nd). auto.
    + rewrite lookup_insert_ne by exact Hne. exists nda. auto.
  - intros q mq H. exists mq. auto.
Qed.

Lemma heap_extends_state_after_buffer_failure (s : State) :
  wf s -> heap_extends s (state_after_buffer_failure s).
Proof.
  intros Hwf. apply heap_extends_same; try reflexivity.
  apply state_after_buffer_failure_nodes. exact Hwf.
Qed.

Lemma heap_extends_state_after_alloc (pl : Z) (m : MemPool) (s : State) :
  wf s -> heap_extends s (state_after_alloc pl m s).
Proof.
  intros Hwf. unfold state_after_alloc.
  split; [|split; [|split]]; state_simpl; try (intros; assumption).
  - intros a b H. rewrite lookup_insert_ne; [exact H|].
    pose proof (wf_buffer_below s a b Hwf H). rewrite node_block_eq. lia.
  - intros a nd H. exists nd. split; [|auto].
    rewrite lookup_insert_ne; [exact H|].
    pose proof (wf_node_below s a nd Hwf H). lia.
  - intros q mq H. exists mq. auto.
Qed.

Lemma heap_extends_count_alloc (cfg : Config) (pl : Z) (m : MemPool) (s : State) :
  mempools s !! pl = Some m -> heap_extends s (count_alloc cfg pl m s).
Proof.
  intros Hm. unfold count_alloc. destruct (track_pool_usage cfg).
  - apply (heap_extends_set_pool s pl m); [exact Hm | reflexivity].
  - apply heap_extends_refl.
Qed.

Lemma heap_extends_state_after_pop (cfg : Config) (pl : Z) (m : MemPool) (nd : MemNode)
    (s : State) :
  mempools s !! pl = Some m -> heap_extends s (state_after_pop cfg pl m nd s).
Proof.
  intros Hm. unfold state_after_pop.
  apply (heap_extends_trans s (cas_settled s)).
  - apply heap_extends_same; reflexivity.
  - apply (heap_extends_set_pool (cas_settled s) pl m); [exact Hm|].
    rewrite (proj2 (head_count_unavailable cfg _)). reflexivity.
Qed.

Lemma heap_extends_state_after_push (cfg : Config) (pl n : Z) (m : MemPool) (nd : MemNode)
    (s : State) :
  mempools s !! pl = Some m -> nodes s !! n = Some nd ->
  heap_extends s (state_after_push cfg pl m n nd s).
Proof.
  intros Hm Hn. unfold state_after_push.
  apply (heap_extends_trans s (cas_settled s)); [apply heap_extends_same; reflexivity|].
  apply (heap_extends_trans _ (set_nodes <[n := with_next (head m) nd]> (cas_settled s))).
  - apply heap_extends_set_next. exact Hn.
  - apply (heap_extends_set_pool _ pl m); [exact Hm|].
    rewrite (proj2 (head_count_returned cfg _)). reflexivity.
Qed.

Lemma heap_extends_pool_mem_acquire (cfg : Config) (pl p : Z) (s s1 : State) :
  wf s -> pool_mem_acquire cfg pl s = Ok p s1 -> heap_extends s s1.
Proof.
  intros Hwf H.
  destruct (pool_mem_acquire_cases cfg pl p s s1 Hwf H)
    as (m & Hm & [(_ & _ & [->| ->]) | [(_ & _ & ->) | (nd & Hh & Hn & _ & ->)]]).
  - apply heap_extends_same; reflexivity.
  - apply heap_extends_state_after_buffer_failure. exact Hwf.
  - apply (heap_extends_trans s (state_after_alloc pl m s)).
    + apply heap_extends_state_after_alloc. exact Hwf.
    + apply heap_extends_count_alloc. exact Hm.
  - apply heap_extends_state_after_pop. exact Hm.
Qed.

Lemma owned_heap_extends (s s' : State) (pl p : Z) :
  heap_extends s s' -> owned s pl p -> owned s' pl p.
Proof.
  intros (B & N & P & _) (b & nd & m & Hb & Hn & Hd & Hp & Hm).
  destruct (N _ _ Hn) as (nd' & Hn' & Hd' & Hp').
  destruct (P _ _ Hm) as (m' & Hm' & _).
  exists b, nd', m'. split; [apply B; exact Hb|]. split; [exact Hn'|].
  split; [congruence|]. split; [congruence | exact Hm'].
Qed.

(** ** What a returning [pool_mem_return] did *)

Lemma load_buffer_Ok_inv (p : Z) (b : DataBuf) (s s' : State) :
  load_buffer p s = Ok b s' -> s' = s /\ p <> NULL /\ buffers s !! p = Some b.
Proof.
  unfold load_buffer. destruct (p =? NULL) eqn:E; [discriminate|].
  apply Z.eqb_neq in E. destruct (buffers s !! p); [|discriminate].
  intros H. inversion H. subst. auto.
Qed.

Lemma assert_ret_Ok_inv (cfg : Config) (b : bool) (u : unit) (s s' : State) :
  assert cfg (ret b) s = Ok u s' -> s' = s.
Proof. apply assert_Ok_inv. intros b' s1 H. inversion H. reflexivity. Qed.

Lemma pool_mem_return_cases (cfg : Config) (p : Z) (u : unit) (s s' : State) :
  wf s -> pool_mem_return cfg p s = Ok u s' ->
  exists b nd m,
    buffers s !! (p - sizeof_ptrdiff) = Some b /\
    nodes s !! owner_word b = Some nd /\
    mempools s !! pool nd = Some m /\
    s' = state_after_push cfg (pool nd) m (owner_word b) nd s.
Proof.
  intros Hwf H. pose proof H as H0. unfold pool_mem_return in H.
  apply bind_Ok_inv in H as ([] & s0 & Ha & H).
  apply assert_ret_Ok_inv in Ha. subst s0.
  apply bind_Ok_inv in H as (n & s0 & Hg & H).
  unfold get_memnode_in_data in Hg.
  apply bind_Ok_inv in Hg as ([] & s1 & Ha & Hg).
  apply assert_ret_Ok_inv in Ha. subst s1.
  apply bind_Ok_inv in Hg as (b & s1 & Hb & Hg).
  apply load_buffer_Ok_inv in Hb as (-> & Hp8 & Hb).
  inversion Hg. subst n s0. clear Hg.
  apply bind_Ok_inv in H as (nd & s0 & Hn & _).
  apply load_node_Ok_inv in Hn as (_ & Hnn & Hn).
  destruct (wf_node_inv s _ nd Hwf Hn) as (_ & (m & Hm) & _).
  pose proof (wf_pool_below s _ m Hwf Hm) as Hpl.
  pose proof (wf_buffer_below s _ b Hwf Hb) as Hbb.
  exists b, nd, m. split; [exact Hb|]. split; [exact Hn|]. split; [exact Hm|].
  rewrite (pool_mem_return_push cfg p (pool nd) (owner_word b) b nd m s) in H0;
    try assumption; try reflexivity.
  - inversion H0. reflexivity.
  - unfold NULL, sizeof_ptrdiff in *. lia.
  - unfold NULL. lia.
Qed.

Lemma wf_pool_mem_return (cfg : Config) (p : Z) (u : unit) (s s' : State) :
  wf s -> pool_mem_return cfg p s = Ok u s' -> wf s' /\ heap_extends s s'.
Proof.
  intros Hwf H.
  destruct (pool_mem_return_cases cfg p u s s' Hwf H) as (b & nd & m & Hb & Hn & Hm & ->).
  split.
  - apply wf_state_after_push; try assumption. reflexivity.
  - apply heap_extends_state_after_push; assumption.
Qed.

(** ** [alloc_mem_pool] *)

Lemma alloc_mem_pool_success (cfg : Config) (size : Z) (s : State) :
  0 < brk s -> hd true (malloc_script s) = true ->
  alloc_mem_pool cfg size s = Ok (brk s) (state_after_pool cfg size s).
Proof.
  intros Hbrk Hok.
  unfold alloc_mem_pool, malloc_MemPool, malloc_succeeds, take_block, bind at 1 2 3.
  rewrite Hok. state_simpl.
  rewrite eqb_NULL_false by (unfold NULL; lia).
  unfold bind at 1. erewrite store_pool_live;
    [| unfold NULL; lia | state_simpl; apply lookup_insert_eq].
  unfold bind at 1. erewrite store_pool_live;
    [| unfold NULL; lia | state_simpl; apply lookup_insert_eq].
  unfold ret, state_after_pool, pool_block. state_simpl. record_simpl.
  rewrite !insert_insert_eq. reflexivity.
Qed.

Lemma alloc_mem_pool_failure (cfg : Config) (size : Z) (s : State) :
  hd true (malloc_script s) = false ->
  alloc_mem_pool cfg size s = Ok NULL (state_after_malloc_failure s).
Proof.
  intros Hok.
  unfold alloc_mem_pool, malloc_MemPool, malloc_succeeds, bind at 1 2.
  rewrite Hok. reflexivity.
Qed.

Lemma pool_block_pos (cfg : Config) : 16 <= pool_block cfg.
Proof. unfold pool_block. lia. Qed.

Lemma wf_state_after_pool (cfg : Config) (size : Z) (s : State) :
  wf s -> wf (state_after_pool cfg size s).
Proof.
  intros Hwf. pose proof Hwf as Hwf0.
  apply wf_iff in Hwf as (Wn & Wp & Wb & Wmp & Wbrk). apply wf_iff.
  pose proof (pool_block_pos cfg) as Hblk.
  unfold state_after_pool. state_simpl.
  split; [|split; [|split; [|split]]].
  - intros a nd Hl. destruct (Wn a nd Hl) as (H1 & H2 & (mq & H3) & H4).
    unfold node_inv. state_simpl. split; [lia|]. split; [exact H2|]. split; [|exact H4].
    exists mq. rewrite lookup_insert_ne; [exact H3|].
    specialize (Wp _ _ H3). destruct Wp as (Hq & _). lia.
  - intros q mq Hl. unfold pool_inv. state_simpl.
    destruct (decide (brk s = q)) as [<-|Hne].
    + rewrite lookup_insert_eq in Hl. inversion Hl. subst mq. cbn [head].
      split; [lia | left; reflexivity].
    + rewrite lookup_insert_ne in Hl by exact Hne.
      destruct (Wp q mq Hl) as (H1 & H2). split; [lia | exact H2].
  - intros a b Hl. specialize (Wb a b Hl). lia.
  - intros a mp Hl. specialize (Wmp a mp Hl). lia.
  - lia.
Qed.

Lemma heap_extends_state_after_pool (cfg : Config) (size : Z) (s : State) :
  wf s -> heap_extends s (state_after_pool cfg size s).
Proof.
  intros Hwf. unfold state_after_pool.
  split; [|split; [|split]]; state_simpl; try (intros; assumption).
  - intros a nd H. exists nd. auto.
  - intros q mq H. exists mq. split; [|reflexivity].
    rewrite lookup_insert_ne; [exact H|].
    pose proof (wf_pool_below s q mq Hwf H). lia.
Qed.

Lemma alloc_mem_pool_cases (cfg : Config) (size pl : Z) (s s' : State) :
  wf s -> alloc_mem_pool cfg size s = Ok pl s' ->
  (pl = NULL /\ s' = state_after_malloc_failure s) \/
  (pl = brk s /\ s' = state_after_pool cfg size s).
Proof.
  intros Hwf H. destruct (hd true (malloc_script s)) eqn:Hok.
  - rewrite alloc_mem_pool_success in H; [| apply wf_brk_pos; exact Hwf | exact Hok].
    inversion H. right. auto.
  - rewrite alloc_mem_pool_failure in H by exact Hok. inversion H. left. auto.
Qed.

Lemma wf_alloc_mem_pool (cfg : Config) (size pl : Z) (s s' : State) :
  wf s -> alloc_mem_pool cfg size s = Ok pl s' -> wf s' /\ heap_extends s s'.
Proof.
  intros Hwf H.
  destruct (alloc_mem_pool_cases cfg size pl s s' Hwf H) as [(_ & ->)|(_ & ->)].
  - split; [apply wf_state_after_malloc_failure; exact Hwf|].
    apply heap_extends_same; reflexivity.
  - split; [apply wf_state_after_pool | apply heap_extends_state_after_pool]; exact Hwf.
Qed.

(** ** [multipool_mem_acquire] reduces to [pool_mem_acquire] *)

Lemma load_multipool_slot_Ok_inv (mp i q : Z) (s s' : State) :
  load_multipool_slot mp i s = Ok q s' -> s' = s.
Proof.
  unfold load_multipool_slot, bind, load_multipool.
  destruct (mp =? NULL); [discriminate|].
  destruct (multipools s !! mp) as [M|]; [|discriminate].
  destruct ((0 <=? i) && (i <? MULTIPOOL_ENTRY_COUNT)); [|discriminate].
  destruct (pools M !! Z.to_nat i); [|discriminate].
  unfold ret. intros H. inversion H. reflexivity.
Qed.

Lemma multipool_mem_acquire_cases (cfg : Config) (mp size p : Z) (s s' : State) :
  multipool_mem_acquire cfg mp size s = Ok p s' ->
  (p = NULL /\ s' = s) \/ exists pl, pool_mem_acquire cfg pl s = Ok p s'.
Proof.
  unfold multipool_mem_acquire. intros H.
  apply bind_Ok_inv in H as ([] & s0 & Ha & H).
  apply assert_ret_Ok_inv in Ha. subst s0.
  apply bind_Ok_inv in H as ([] & s0 & Ha & H).
  apply assert_ret_Ok_inv in Ha. subst s0.
  destruct (MULTIPOOL_ENTRY_COUNT <=? find_multipool_index_for_size size).
  - inversion H. left. auto.
  - apply bind_Ok_inv in H as (pl & s0 & Hl & H).
    apply load_multipool_slot_Ok_inv in Hl. subst s0.
    right. exists pl. exact H.
Qed.

(** ** Construction of a multipool *)

Lemma class_size_eq (i : Z) :
  0 <= i < MULTIPOOL_ENTRY_COUNT ->
  wrap32 (Z.shiftl 1 (wrap32 (DynPoolMinMultiPoolMemNodeSizeBits + i))) = class_size i.
Proof.
  unfold MULTIPOOL_ENTRY_COUNT, DynPoolMinMultiPoolMemNodeSizeBits, class_size. intros Hi.
  rewrite (wrap32_small (9 + i)) by (unfold UINT32_MOD; lia).
  rewrite !Z.shiftl_mul_pow2 by lia.
  rewrite Z.pow_add_r by lia. change (2 ^ 9) with 512.
  rewrite Z.mul_1_l.
  apply wrap32_small. unfold UINT32_MOD.
  pose proof (pow2_le_mono i 13 ltac:(lia)) as Hp. change (2 ^ 13) with 8192 in Hp.
  assert (0 < 2 ^ i) by (apply Z.pow_pos_nonneg; lia). lia.
Qed.

Lemma class_size_pow2 (i : Z) : 0 <= i -> class_size i = 512 * 2 ^ i.
Proof. intros Hi. unfold class_size. apply Z.shiftl_mul_pow2. exact Hi. Qed.

Lemma nth_tl_script (k : nat) (script : list bool) :
  nth (S k) script true = nth k (tl script) true.
Proof. destruct script as [|b r]; [destruct k|]; reflexivity. Qed.

Lemma nth_0_script (script : list bool) : nth 0 script true = hd true script.
Proof. destruct script; reflexivity. Qed.

Lemma store_multipool_slot_live (mp i v : Z) (M : MultiPool) (s : State) :
  mp <> NULL -> multipools s !! mp = Some M -> 0 <= i < MULTIPOOL_ENTRY_COUNT ->
  store_multipool_slot mp i v s =
    Ok tt (set_multipools <[mp := mkMultiPool (<[Z.to_nat i := v]> (pools M))]> s).
Proof.
  intros Hmp HM Hi. unfold store_multipool_slot.
  rewrite eqb_NULL_false, HM by exact Hmp.
  rewrite (proj2 (Z.leb_le 0 i)) by lia.
  rewrite (proj2 (Z.ltb_lt i MULTIPOOL_ENTRY_COUNT)) by lia.
  reflexivity.
Qed.

Lemma wf_set_multipool (s : State) (mp : Z) (M M' : MultiPool) :
  multipools s !! mp = Some M -> wf s -> wf (set_multipools <[mp := M']> s).
Proof.
  intros HM Hwf.
  apply wf_iff in Hwf as (Wn & Wp & Wb & Wmp & Wbrk). apply wf_iff. state_simpl.
  split; [|split; [|split; [|split]]]; try assumption.
  intros a mq Hl. destruct (decide (mp = a)) as [<-|Hne].
  - apply (Wmp mp M HM).
  - rewrite lookup_insert_ne in Hl by exact Hne. apply (Wmp a mq Hl).
Qed.

Lemma multipool_block_eq : multipool_block = 112.
Proof. reflexivity. Qed.

Lemma wf_state_after_multipool (s : State) : wf s -> wf (state_after_multipool s).
Proof.
  intros Hwf.
  apply wf_iff in Hwf as (Wn & Wp & Wb & Wmp & Wbrk). apply wf_iff.
  unfold state_after_multipool. rewrite multipool_block_eq. state_simpl.
  split; [|split; [|split; [|split]]].
  - intros a nd Hl. destruct (Wn a nd Hl) as (H1 & H2).
    unfold node_inv. state_simpl. split; [lia | exact H2].
  - intros q mq Hl. destruct (Wp q mq Hl) as (H1 & H2).
    unfold pool_inv. state_simpl. split; [lia | exact H2].
  - intros a b Hl. specialize (Wb a b Hl). lia.
  - intros a mq Hl. destruct (decide (brk s = a)) as [<-|Hne].
    + lia.
    + rewrite lookup_insert_ne in Hl by exact Hne. specialize (Wmp a mq Hl). lia.
  - lia.
Qed.

(** One turn of the loop of [multipool_create]: class [i] gets a pool, or
    [NULL] when [malloc] fails; the slot is written either way. *)
Lemma multipool_create_turn (cfg : Config) (mp i : Z) (M : MultiPool) (s : State) :
  wf s -> mp <> NULL -> multipools s !! mp = Some M ->
  0 <= i < MULTIPOOL_ENTRY_COUNT ->
  exists pl s1 s2,
    alloc_mem_pool cfg (class_size i) s = Ok pl s1 /\
    store_multipool_slot mp i pl s1 = Ok tt s2 /\
    wf s2 /\
    multipools s2 !! mp = Some (mkMultiPool (<[Z.to_nat i := pl]> (pools M))) /\
    malloc_script s2 = tl (malloc_script s) /\
    malloc_calls s2 = S (malloc_calls s) /\
    brk s <= brk s2 /\
    nodes s2 = nodes s /\ buffers s2 = buffers s /\
    _global_multipool s2 = _global_multipool s /\
    (forall a, a <> mp -> multipools s2 !! a = multipools s !! a) /\
    (forall q m, mempools s !! q = Some m -> mempools s2 !! q = Some m) /\
    (if hd true (malloc_script s)
     then pl = brk s /\ brk s < brk s2 /\
          mempools s2 !! pl = Some (mkMemPool NULL (class_size i) 0 0) /\
          mempools s !! pl = None
     else pl = NULL).
Proof.
  intros Hwf Hmp HM Hi. pose proof (wf_brk_pos s Hwf) as Hbrk.
  destruct (hd true (malloc_script s)) eqn:Hok.
  - exists (brk s), (state_after_pool cfg (class_size i) s),
      (set_multipools <[mp := mkMultiPool (<[Z.to_nat i := brk s]> (pools M))]>
         (state_after_pool cfg (class_size i) s)).
    split; [apply alloc_mem_pool_success; assumption|].
    split; [apply store_multipool_slot_live; assumption|].
    split; [apply (wf_set_multipool _ mp M); [exact HM | apply wf_state_after_pool; exact Hwf]|].
    split; [apply lookup_insert_eq|].
    split; [reflexivity|]. split; [reflexivity|].
    pose proof (pool_block_pos cfg) as Hblk.
    split; [unfold state_after_pool; state_simpl; lia|].
    split; [reflexivity|]. split; [reflexivity|]. split; [reflexivity|].
    split; [intros a Ha; state_simpl; apply lookup_insert_ne; congruence|].
    assert (Hfresh : mempools s !! brk s = None) by (apply wf_pool_fresh; [exact Hwf | lia]).
    split.
    { intros q m Hq. unfold state_after_pool. state_simpl.
      rewrite lookup_insert_ne; [exact Hq|]. congruence. }
    split; [reflexivity|].
    split; [unfold state_after_pool; state_simpl; lia|].
    split; [unfold state_after_pool; state_simpl; apply lookup_insert_eq | exact Hfresh].
  - exists NULL, (state_after_malloc_failure s),
      (set_multipools <[mp := mkMultiPool (<[Z.to_nat i := NULL]> (pools M))]>
         (state_after_malloc_failure s)).
    split; [apply alloc_mem_pool_failure; assumption|].
    split; [apply store_multipool_slot_live; assumption|].
    split; [apply (wf_set_multipool _ mp M);
            [exact HM | apply wf_state_after_malloc_failure; exact Hwf]|].
    split; [apply lookup_insert_eq|].
    split; [reflexivity|]. split; [reflexivity|].
    split; [unfold state_after_malloc_failure; state_simpl; lia|].
    split; [reflexivity|]. split; [reflexivity|]. split; [reflexivity|].
    split; [intros a Ha; state_simpl; apply lookup_insert_ne; congruence|].
    split; [intros q m Hq; exact Hq | reflexivity].
Qed.

(** The loop of [multipool_create] from class [i] on: the turn for class [j]
    uses entry [j - i] of the script. *)
Lemma multipool_create_loop_spec (cfg : Config) (mp : Z) (fuel : nat) :
  forall (i : Z) (s : State) (M : MultiPool),
  wf s -> mp <> NULL -> multipools s !! mp = Some M ->
  length (pools M) = Z.to_nat MULTIPOOL_ENTRY_COUNT ->
  0 <= i <= MULTIPOOL_ENTRY_COUNT -> Z.of_nat fuel = MULTIPOOL_ENTRY_COUNT - i ->
  exists s' M',
    multipool_create_loop cfg fuel mp i s = Ok tt s' /\ wf s' /\
    multipools s' !! mp = Some M' /\
    length (pools M') = Z.to_nat MULTIPOOL_ENTRY_COUNT /\
    brk s <= brk s' /\
    nodes s' = nodes s /\ buffers s' = buffers s /\
    _global_multipool s' = _global_multipool s /\
    malloc_calls s' = (malloc_calls s + fuel)%nat /\
    (forall a, a <> mp -> multipools s' !! a = multipools s !! a) /\
    (forall q m, mempools s !! q = Some m -> mempools s' !! q = Some m) /\
    (forall j, (j < Z.to_nat i)%nat -> pools M' !! j = pools M !! j) /\
    (forall j, i <= j < MULTIPOOL_ENTRY_COUNT ->
       exists q, pools M' !! Z.to_nat j = Some q /\
         if nth (Z.to_nat (j - i)) (malloc_script s) true
         then brk s <= q < brk s' /\
              mempools s' !! q = Some (mkMemPool NULL (class_size j) 0 0) /\
              mempools s !! q = None
         else q = NULL).
Proof.
  induction fuel as [|f IH]; intros i s M Hwf Hmp HM Hlen Hi Hfuel.
  - assert (i = MULTIPOOL_ENTRY_COUNT) by lia. subst i.
    exists s, M. cbn [multipool_create_loop]. rewrite Z.ltb_irrefl.
    split; [reflexivity|]. split; [exact Hwf|]. split; [exact HM|]. split; [exact Hlen|].
    split; [lia|]. split; [reflexivity|]. split; [reflexivity|]. split; [reflexivity|].
    split; [lia|]. split; [auto|]. split; [auto|]. split; [auto|].
    intros j Hj. lia.
  - assert (Hi' : 0 <= i < MULTIPOOL_ENTRY_COUNT) by lia.
    destruct (multipool_create_turn cfg mp i M s Hwf Hmp HM Hi')
      as (pl & s1 & s2 & Halloc & Hstore & Hwf2 & HM2 & Hscr & Hcalls & Hbrk2 & Hn2 & Hb2
          & Hg2 & Hother2 & Hkeep2 & Hpl).
    destruct (IH (i + 1) s2 _ Hwf2 Hmp HM2) as
      (s' & M' & Hrun & Hwf' & HM' & Hlen' & Hbrk' & Hn' & Hb' & Hg' & Hcalls' & Hother'
       & Hkeep' & Hlow & Hhigh).
    { cbn [pools]. rewrite length_insert. exact Hlen. }
    { lia. }
    { lia. }
    exists s', M'. split.
    { cbn [multipool_create_loop].
      rewrite (proj2 (Z.ltb_lt i MULTIPOOL_ENTRY_COUNT)) by lia.
      rewrite (class_size_eq i Hi').
      rewrite (bind_Ok _ _ _ _ _ Halloc), (bind_Ok _ _ _ _ _ Hstore).
      rewrite (wrap32_small (i + 1))
        by (unfold UINT32_MOD, MULTIPOOL_ENTRY_COUNT in *; lia).
      exact Hrun. }
    split; [exact Hwf'|]. split; [exact HM'|]. split; [exact Hlen'|].
    split; [lia|]. split; [congruence|]. split; [congruence|]. split; [congruence|].
    split; [lia|].
    split; [intros a Ha; rewrite (Hother' a Ha); apply Hother2; exact Ha|].
    split; [intros q m Hq; apply Hkeep', Hkeep2, Hq|].
    split.
    { intros j Hj. rewrite Hlow by lia. cbn [pools].
      apply list_lookup_insert_ne. lia. }
    intros j Hj. destruct (Z.eq_dec j i) as [->|Hne].
    + exists pl. split.
      { rewrite Hlow by lia. cbn [pools].
        apply list_lookup_insert_eq. rewrite Hlen. unfold MULTIPOOL_ENTRY_COUNT in *. lia. }
      rewrite Z.sub_diag. change (Z.to_nat 0) with 0%nat. rewrite nth_0_script.
      destruct (hd true (malloc_script s)).
      * destruct Hpl as (-> & Hlt & Hnew & Hfresh).
        split; [lia|]. split; [apply Hkeep', Hnew | exact Hfresh].
      * exact Hpl.
    + destruct (Hhigh j ltac:(lia)) as (q & Hq & Hslot).
      exists q. split; [exact Hq|].
      replace (Z.to_nat (j - i)) with (S (Z.to_nat (j - (i + 1)))) by lia.
      rewrite nth_tl_script, <- Hscr.
      destruct (nth (Z.to_nat (j - (i + 1))) (malloc_script s2) true).
      * destruct Hslot as (Hrange & Hnew & Hfresh).
        split; [lia|]. split; [exact Hnew|].
        destruct (mempools s !! q) as [m|] eqn:E; [|reflexivity].
        rewrite (Hkeep2 q m E) in Hfresh. discriminate.
      * exact Hslot.
Qed.

Lemma multipool_create_no_table (cfg : Config) (s : State) :
  hd true (malloc_script s) = false ->
  multipool_create cfg s = Ok NULL (state_after_malloc_failure s).
Proof.
  intros Hok. unfold multipool_create, malloc_MultiPool, malloc_succeeds, bind at 1 2.
  rewrite Hok. reflexivity.
Qed.

(** [multipool_create] once the table itself is allocated: the table is at
    the old break, and class [j] was served by entry [j + 1] of the script. *)
Lemma multipool_create_spec (cfg : Config) (s : State) :
  wf s -> hd true (malloc_script s) = true ->
  exists s' M,
    multipool_create cfg s = Ok (brk s) s' /\ brk s <> NULL /\ wf s' /\
    multipools s' !! brk s = Some M /\
    length (pools M) = Z.to_nat MULTIPOOL_ENTRY_COUNT /\
    nodes s' = nodes s /\ buffers s' = buffers s /\
    _global_multipool s' = _global_multipool s /\
    malloc_calls s' = (malloc_calls s + 15)%nat /\
    (forall a mp, multipools s !! a = Some mp -> multipools s' !! a = Some mp) /\
    (forall q m, mempools s !! q = Some m -> mempools s' !! q = Some m) /\
    (forall j, 0 <= j < MULTIPOOL_ENTRY_COUNT ->
       exists q, pools M !! Z.to_nat j = Some q /\
         if nth (S (Z.to_nat j)) (malloc_script s) true
         then q <> NULL /\
              mempools s' !! q = Some (mkMemPool NULL (class_size j) 0 0) /\
              mempools s !! q = None
         else q = NULL).
Proof.
  intros Hwf Hok. pose proof (wf_brk_pos s Hwf) as Hbrk.
  assert (Hnn : brk s <> NULL) by (unfold NULL; lia).
  destruct (multipool_create_loop_spec cfg (brk s) (Z.to_nat MULTIPOOL_ENTRY_COUNT) 0
              (state_after_multipool s)
              (mkMultiPool (replicate (Z.to_nat MULTIPOOL_ENTRY_COUNT) 0)))
    as (s' & M' & Hrun & Hwf' & HM' & Hlen' & Hbrk' & Hn' & Hb' & Hg' & Hcalls' & Hother'
        & Hkeep' & _ & Hhigh).
  { apply wf_state_after_multipool. exact Hwf. }
  { exact Hnn. }
  { unfold state_after_multipool. state_simpl. apply lookup_insert_eq. }
  { cbn [pools]. apply length_replicate. }
  { unfold MULTIPOOL_ENTRY_COUNT. lia. }
  { unfold MULTIPOOL_ENTRY_COUNT. lia. }
  exists s', M'. split.
  { unfold multipool_create, malloc_MultiPool, malloc_succeeds, take_block, bind at 1 2 3 4.
    rewrite Hok. state_simpl. rewrite eqb_NULL_false by exact Hnn. cbn [negb].
    fold multipool_block.
    change (mkState (nodes s) (buffers s) (mempools s) _ (_global_multipool s) _ _
              (cas_script s) _) with (state_after_multipool s).
    rewrite Hrun. reflexivity. }
  split; [exact Hnn|]. split; [exact Hwf'|]. split; [exact HM'|]. split; [exact Hlen'|].
  split; [exact Hn'|]. split; [exact Hb'|]. split; [exact Hg'|].
  split.
  { rewrite Hcalls'. unfold state_after_multipool. state_simpl.
    change (Z.to_nat MULTIPOOL_ENTRY_COUNT) with 14%nat. lia. }
  split.
  { intros a mp Ha. pose proof (wf_multipool_below s a mp Hwf Ha) as Hlt.
    rewrite Hother' by lia. unfold state_after_multipool. state_simpl.
    rewrite lookup_insert_ne by lia. exact Ha. }
  split; [exact Hkeep'|].
  intros j Hj. destruct (Hhigh j Hj) as (q & Hq & Hslot).
  exists q. split; [exact Hq|].
  rewrite nth_tl_script. rewrite Z.sub_0_r in Hslot.
  change (malloc_script (state_after_multipool s)) with (tl (malloc_script s)) in Hslot.
  destruct (nth (Z.to_nat j) (tl (malloc_script s)) true); [|exact Hslot].
  destruct Hslot as (Hrange & Hnew & Hfresh).
  split; [|split; [exact Hnew | exact Hfresh]].
  unfold state_after_multipool in Hrange. state_simpl.
  rewrite multipool_block_eq in Hrange. unfold NULL. lia.
Qed.

Lemma class_size_increasing (i : Z) : 0 <= i -> class_size i < class_size (i + 1).
Proof.
  intros Hi. rewrite !class_size_pow2 by lia.
  rewrite Z.pow_add_r by lia. change (2 ^ 1) with 2.
  assert (0 < 2 ^ i) by (apply Z.pow_pos_nonneg; lia). lia.
Qed.

Lemma class_size_inj (i j : Z) : 0 <= i -> 0 <= j -> class_size i = class_size j -> i = j.
Proof.
  intros Hi Hj. rewrite !class_size_pow2 by lia. intros H.
  apply (Z.pow_inj_r 2); lia.
Qed.

Lemma wf_multipool_create (cfg : Config) (mp : Z) (s s' : State) :
  wf s -> multipool_create cfg s = Ok mp s' -> wf s' /\ heap_extends s s'.
Proof.
  intros Hwf H. destruct (hd true (malloc_script s)) eqn:Hok.
  - destruct (multipool_create_spec cfg s Hwf Hok)
      as (s1 & M & Hrun & _ & Hwf1 & _ & _ & Hn & Hb & _ & _ & Hmps & Hkeep & _).
    rewrite Hrun in H. inversion H. subst s1.
    split; [exact Hwf1|].
    split; [|split; [|split]].
    + intros a b Ha. rewrite Hb. exact Ha.
    + intros a nd Ha. exists nd. rewrite Hn. auto.
    + intros q m Hq. exists m. split; [apply Hkeep; exact Hq | reflexivity].
    + exact Hmps.
  - rewrite (multipool_create_no_table cfg s Hok) in H. inversion H.
    split; [apply wf_state_after_malloc_failure; exact Hwf|].
    apply heap_extends_same; reflexivity.
Qed.

Lemma wf_global_multipool_create (cfg : Config) (s s' : State) :
  wf s -> global_multipool_create cfg s = Ok tt s' -> wf s' /\ heap_extends s s'.
Proof.
  intros Hwf H. unfold global_multipool_create in H.
  apply bind_Ok_inv in H as (mp & s1 & Hcreate & Hset).
  destruct (wf_multipool_create cfg mp s s1 Hwf Hcreate) as (Hwf1 & Hext).
  inversion Hset. split.
  - apply (wf_same_heap s1); try reflexivity. exact Hwf1.
  - apply (heap_extends_trans _ s1); [exact Hext|]. apply heap_extends_same; reflexivity.
Qed.

Lemma global_multipool_mem_acquire_Ok_inv (cfg : Config) (size p : Z) (s s' : State) :
  global_multipool_mem_acquire cfg size s = Ok p s' ->
  multipool_mem_acquire cfg (_global_multipool s) size s = Ok p s'.
Proof.
  unfold global_multipool_mem_acquire. intros H.
  apply bind_Ok_inv in H as ([] & s0 & Ha & H).
  apply assert_Ok_inv in Ha.
  - subst s0. exact H.
  - intros b s1 Hb. unfold bind, get, ret in Hb. inversion Hb. reflexivity.
Qed.

(** ** Histories of calls keep the heap well formed *)

Lemma api_calls_wf (cfg : Config) (s s' : State) :
  wf s -> api_calls cfg s s' -> wf s' /\ heap_extends s s'.
Proof.
  intros Hwf Hcalls. induction Hcalls as
    [s | s s1 s2 pl p _ IH Hop | s s1 s2 p _ IH Hop
       | s s1 s2 mp size p _ IH Hop | s s1 s2 size pl _ IH Hop
       | s s1 s2 mp _ IH Hop | s s1 s2 _ IH Hop | s s1 s2 size p _ IH Hop].
  - split; [exact Hwf | apply heap_extends_refl].
  - destruct (IH Hwf) as (Hwf1 & Hext). split.
    + apply (wf_pool_mem_acquire cfg pl p s1 s2 Hwf1 Hop).
    + apply (heap_extends_trans _ s1); [exact Hext|].
      apply (heap_extends_pool_mem_acquire cfg pl p s1 s2 Hwf1 Hop).
  - destruct (IH Hwf) as (Hwf1 & Hext).
    destruct (wf_pool_mem_return cfg p tt s1 s2 Hwf1 Hop) as (Hwf2 & Hext2).
    split; [exact Hwf2 | apply (heap_extends_trans _ s1); assumption].
  - destruct (IH Hwf) as (Hwf1 & Hext).
    destruct (multipool_mem_acquire_cases cfg mp size p s1 s2 Hop) as [(_ & ->)|(pl & Hop')].
    + split; assumption.
    + split.
      * apply (wf_pool_mem_acquire cfg pl p s1 s2 Hwf1 Hop').
      * apply (heap_extends_trans _ s1); [exact Hext|].
        apply (heap_extends_pool_mem_acquire cfg pl p s1 s2 Hwf1 Hop').
  - destruct (IH Hwf) as (Hwf1 & Hext).
    destruct (wf_alloc_mem_pool cfg size pl s1 s2 Hwf1 Hop) as (Hwf2 & Hext2).
    split; [exact Hwf2 | apply (heap_extends_trans _ s1); assumption].
  - destruct (IH Hwf) as (Hwf1 & Hext).
    destruct (wf_multipool_create cfg mp s1 s2 Hwf1 Hop) as (Hwf2 & Hext2).
    split; [exact Hwf2 | apply (heap_extends_trans _ s1); assumption].
  - destruct (IH Hwf) as (Hwf1 & Hext).
    destruct (wf_global_multipool_create cfg s1 s2 Hwf1 Hop) as (Hwf2 & Hext2).
    split; [exact Hwf2 | apply (heap_extends_trans _ s1); assumption].
  - destruct (IH Hwf) as (Hwf1 & Hext).
    apply global_multipool_mem_acquire_Ok_inv in Hop.
    destruct (multipool_mem_acquire_cases cfg _ size p s1 s2 Hop) as [(_ & ->)|(pl & Hop')].
    + split; assumption.
    + split.
      * apply (wf_pool_mem_acquire cfg pl p s1 s2 Hwf1 Hop').
      * apply (heap_extends_trans _ s1); [exact Hext|].
        apply (heap_extends_pool_mem_acquire cfg pl p s1 s2 Hwf1 Hop').
Qed.

(** Every state the library reaches from program start without a teardown
    is well formed. *)
Corollary wf_reachable (cfg : Config) (mscript cscript : list bool) (s : State) :
  api_calls cfg (initial_state mscript cscript) s -> wf s.
Proof. intros H. apply (api_calls_wf cfg _ s (wf_initial_state _ _) H). Qed.

(** ** Recycling *)

(** Returning an outstanding pointer and acquiring at once pops the node that
    was just pushed. *)
Lemma pool_mem_return_acquire_owned (cfg : Config) (P p : Z) (s1 : State) :
  wf s1 -> owned s1 P p -> p <> NULL ->
  exists s2 s3,
    pool_mem_return cfg p s1 = Ok tt s2 /\
    pool_mem_acquire cfg P s2 = Ok p s3 /\
    malloc_calls s3 = malloc_calls s1 /\ brk s3 = brk s1 /\
    buffers s3 = buffers s1 /\
    owned s3 P p /\ wf s3.
Proof.
  intros Hwf Hown Hp. pose proof Hown as (b & nd & m & Hb & Hn & Hd & Hpool & Hm).
  pose proof (wf_buffer_below s1 _ b Hwf Hb) as Hbb.
  pose proof (wf_node_below s1 _ nd Hwf Hn) as Hnb.
  pose proof (wf_pool_below s1 _ m Hwf Hm) as Hpb.
  assert (Hp8 : p - sizeof_ptrdiff <> NULL) by (unfold NULL; lia).
  assert (Hnn : owner_word b <> NULL) by (unfold NULL; lia).
  assert (HP : P <> NULL) by (unfold NULL; lia).
  set (n := owner_word b) in *.
  set (s2 := state_after_push cfg P m n nd s1).
  set (m2 := count_returned cfg (with_head n m)).
  set (nd2 := with_next (head m) nd).
  assert (Hm2 : mempools s2 !! P = Some m2) by (apply lookup_insert_eq).
  assert (Hh2 : head m2 = n)
    by (unfold m2; rewrite (proj1 (head_count_returned cfg _)); reflexivity).
  assert (Hn2 : nodes s2 !! head m2 = Some nd2).
  { rewrite Hh2. unfold s2, state_after_push. state_simpl. apply lookup_insert_eq. }
  assert (Hwf2 : wf s2) by (apply wf_state_after_push; assumption).
  exists s2, (state_after_pop cfg P m2 nd2 s2).
  split; [apply (pool_mem_return_push cfg p P n b nd m s1); auto|].
  split.
  { rewrite (pool_mem_acquire_pop cfg P m2 nd2 s2 HP Hm2); [| congruence | exact Hn2].
    unfold nd2. cbn [data with_next]. rewrite Hd. reflexivity. }
  split; [reflexivity|]. split; [reflexivity|]. split; [reflexivity|].
  split.
  - apply (owned_heap_extends s1).
    + apply (heap_extends_trans _ s2).
      * apply heap_extends_state_after_push; assumption.
      * apply heap_extends_state_after_pop. exact Hm2.
    + exact Hown.
  - apply wf_state_after_pop; try assumption. congruence.
Qed.

(** C3. Recycling round trip, one thread. Let [p] be a data pointer that
    [pool_mem_acquire P] returned at some earlier point (any calls that are
    not teardowns may have happened since). Then [pool_mem_return p] followed
    at once by [pool_mem_acquire P] returns the very pointer [p], behind
    which is the same node and buffer, and [malloc] is not called. *)
Theorem pool_mem_return_then_acquire_same_pointer
    (cfg : Config) (P p : Z) (s s0 s1 : State) :
  wf s ->
  pool_mem_acquire cfg P s = Ok p s0 -> p <> NULL ->
  api_calls cfg s0 s1 ->
  exists s2 s3,
    pool_mem_return cfg p s1 = Ok tt s2 /\
    pool_mem_acquire cfg P s2 = Ok p s3 /\
    malloc_calls s3 = malloc_calls s1 /\ brk s3 = brk s1 /\
    buffers s3 = buffers s1 /\
    owned s3 P p.
Proof.
  intros Hwf Hacq Hp Hcalls.
  pose proof (wf_pool_mem_acquire cfg P p s s0 Hwf Hacq) as Hwf0.
  pose proof (pool_mem_acquire_owned cfg P p s s0 Hwf Hacq Hp) as Hown0.
  destruct (api_calls_wf cfg s0 s1 Hwf0 Hcalls) as (Hwf1 & Hext).
  pose proof (owned_heap_extends s0 s1 P p Hext Hown0) as Hown1.
  destruct (pool_mem_return_acquire_owned cfg P p s1 Hwf1 Hown1 Hp)
    as (s2 & s3 & H1 & H2 & H3 & H4 & H5 & H6 & _).
  exists s2, s3. auto 10.
Qed.

Lemma pool_mem_return_then_acquire_same_pointer_witness :
  exists p s0 s2 s3,
    pool_mem_acquire debug_build 4096 (pool_4096_state [] [false; true; false]) = Ok p s0 /\
    p <> NULL /\
    pool_mem_return debug_build p s0 = Ok tt s2 /\
    pool_mem_acquire debug_build 4096 s2 = Ok p s3 /\
    malloc_calls s3 = malloc_calls s0.
Proof.
  set (s := pool_4096_state [] [false; true; false]).
  set (s0 := count_alloc debug_build 4096 pool_4096 (state_after_alloc 4096 pool_4096 s)).
  assert (Hacq : pool_mem_acquire debug_build 4096 s = Ok 4152 s0) by reflexivity.
  assert (Hwf : wf s) by (apply (bool_decide_unpack _); vm_compute; exact I).
  assert (Hp : 4152 <> NULL) by discriminate.
  destruct (pool_mem_return_then_acquire_same_pointer debug_build 4096 4152 s s0 s0
              Hwf Hacq Hp (api_none debug_build s0))
    as (s2 & s3 & Hret & Hacq2 & Hcalls & _).
  exists 4152, s0, s2, s3. auto.
Defined.

Lemma mallocs_succeed_nth (n : nat) (s : State) (k : nat) :
  mallocs_succeed n s = true -> (k < n)%nat -> nth k (malloc_script s) true = true.
Proof.
  unfold mallocs_succeed. generalize (malloc_script s) as script.
  revert k. induction n as [|n IH]; intros k script Hall Hk; [lia|].
  destruct script as [|b r]; [destruct k; reflexivity|].
  cbn [firstn forallb] in Hall. apply andb_true_iff in Hall as (Hb & Hr).
  destruct k as [|k]; [exact Hb|].
  cbn [nth]. apply IH; [exact Hr | lia].
Qed.

(** C8. Construction is not atomic: when the table itself is allocated but
    [alloc_mem_pool] fails for class [k], [multipool_create] still returns a
    non-[NULL] multipool; slot [k] holds [NULL], and every class whose own
    allocation succeeded, before or after [k], holds an empty pool of
    its block size [512 << j]. *)
Theorem multipool_create_partial (cfg : Config) (s : State) (k : Z) :
  wf s ->
  hd true (malloc_script s) = true ->
  0 <= k < MULTIPOOL_ENTRY_COUNT ->
  nth (S (Z.to_nat k)) (malloc_script s) true = false ->
  exists mp s' M,
    multipool_create cfg s = Ok mp s' /\ mp <> NULL /\
    multipools s' !! mp = Some M /\
    length (pools M) = Z.to_nat MULTIPOOL_ENTRY_COUNT /\
    pools M !! Z.to_nat k = Some NULL /\
    (forall j, 0 <= j < MULTIPOOL_ENTRY_COUNT ->
       nth (S (Z.to_nat j)) (malloc_script s) true = true ->
       exists q, pools M !! Z.to_nat j = Some q /\ q <> NULL /\
                 mempools s' !! q = Some (mkMemPool NULL (Z.shiftl 512 j) 0 0)) /\
    wf s'.
Proof.
  intros Hwf Hok Hk Hfail.
  destruct (multipool_create_spec cfg s Hwf Hok)
    as (s' & M & Hrun & Hnn & Hwf' & HM & Hlen & _ & _ & _ & _ & _ & _ & Hslots).
  exists (brk s), s', M.
  split; [exact Hrun|]. split; [exact Hnn|]. split; [exact HM|]. split; [exact Hlen|].
  split.
  - destruct (Hslots k Hk) as (q & Hq & Hslot). rewrite Hfail in Hslot. subst q. exact Hq.
  - split; [|exact Hwf'].
    intros j Hj Hsucc. destruct (Hslots j Hj) as (q & Hq & Hslot).
    rewrite Hsucc in Hslot. destruct Hslot as (Hqn & Hpool & _).
    exists q. split; [exact Hq|]. split; [exact Hqn | exact Hpool].
Qed.

Lemma multipool_create_partial_witness :
  exists mp s' M,
    multipool_create debug_build (initial_state [true; true; false] []) = Ok mp s' /\
    mp <> NULL /\ multipools s' !! mp = Some M /\ pools M !! 1%nat = Some NULL.
Proof.
  destruct (multipool_create_partial debug_build (initial_state [true; true; false] []) 1)
    as (mp & s' & M & Hrun & Hnn & HM & _ & Hslot & _).
  - apply (bool_decide_unpack _). vm_compute. exact I.
  - reflexivity.
  - unfold MULTIPOOL_ENTRY_COUNT. lia.
  - reflexivity.
  - exists mp, s', M. split; [exact Hrun|]. split; [exact Hnn|]. split; [exact HM | exact Hslot].
Defined.

(** C5. When every allocation succeeds, [multipool_create] builds a table of
    exactly 14 pools, all distinct and none [NULL], with 15 calls to [malloc]
    (the table and one per pool); the pool of class [i] has
    block size [512 << i], so the sizes increase strictly from 512 bytes to
    4 MiB; and after any later calls that acquire or return memory (or create
    further pools) the table is the same and every one of its pools still has
    the block size it was created with. *)
Theorem multipool_create_size_ladder (cfg : Config) (s : State) :
  wf s ->
  mallocs_succeed 15 s = true ->
  exists mp s' M,
    multipool_create cfg s = Ok mp s' /\ mp <> NULL /\
    multipools s' !! mp = Some M /\
    malloc_calls s' = (malloc_calls s + 15)%nat /\
    length (pools M) = 14%nat /\ NoDup (pools M) /\
    (forall i, 0 <= i < 14 ->
       exists q, pools M !! Z.to_nat i = Some q /\ q <> NULL /\
                 mempools s' !! q = Some (mkMemPool NULL (Z.shiftl 512 i) 0 0)) /\
    (forall i, 0 <= i < 13 -> Z.shiftl 512 i < Z.shiftl 512 (i + 1)) /\
    Z.shiftl 512 0 = 512 /\ Z.shiftl 512 13 = 4 * 1024 * 1024 /\
    (forall s'', api_calls cfg s' s'' ->
       multipools s'' !! mp = Some M /\
       forall i, 0 <= i < 14 ->
         exists q m, pools M !! Z.to_nat i = Some q /\
                     mempools s'' !! q = Some m /\ mem_size m = Z.shiftl 512 i).
Proof.
  intros Hwf Hall.
  assert (Hok : hd true (malloc_script s) = true).
  { rewrite <- nth_0_script. apply (mallocs_succeed_nth 15); [exact Hall | lia]. }
  destruct (multipool_create_spec cfg s Hwf Hok)
    as (s' & M & Hrun & Hnn & Hwf' & HM & Hlen & _ & _ & _ & Hcount & _ & _ & Hslots).
  change (Z.to_nat MULTIPOOL_ENTRY_COUNT) with 14%nat in Hlen.
  change MULTIPOOL_ENTRY_COUNT with 14 in Hslots.
  assert (Hbuilt : forall i, 0 <= i < 14 ->
            exists q, pools M !! Z.to_nat i = Some q /\ q <> NULL /\
                      mempools s' !! q = Some (mkMemPool NULL (Z.shiftl 512 i) 0 0)).
  { intros i Hi. destruct (Hslots i Hi) as (q & Hq & Hslot).
    rewrite (mallocs_succeed_nth 15 s _ Hall) in Hslot by lia.
    destruct Hslot as (Hqn & Hpool & _). exists q. auto. }
  exists (brk s), s', M.
  split; [exact Hrun|]. split; [exact Hnn|]. split; [exact HM|]. split; [exact Hcount|].
  split; [exact Hlen|].
  split.
  { apply NoDup_alt. intros i j x Hi Hj.
    pose proof (lookup_lt_Some _ _ _ Hi) as Hil. pose proof (lookup_lt_Some _ _ _ Hj) as Hjl.
    rewrite Hlen in Hil, Hjl.
    destruct (Hbuilt (Z.of_nat i) ltac:(lia)) as (qi & Hqi & _ & Hpi).
    destruct (Hbuilt (Z.of_nat j) ltac:(lia)) as (qj & Hqj & _ & Hpj).
    rewrite Nat2Z.id in Hqi, Hqj.
    assert (qi = x) by congruence. assert (qj = x) by congruence. subst qi qj.
    rewrite Hpi in Hpj. inversion Hpj as [Hsz].
    apply Nat2Z.inj. apply class_size_inj; [lia | lia | exact Hsz]. }
  split; [exact Hbuilt|].
  split; [intros i Hi; apply class_size_increasing; lia|].
  split; [reflexivity|]. split; [reflexivity|].
  intros s'' Hcalls.
  destruct (api_calls_wf cfg s' s'' Hwf' Hcalls) as (_ & (_ & _ & Hpools & Hmps)).
  split; [apply Hmps; exact HM|].
  intros i Hi. destruct (Hbuilt i Hi) as (q & Hq & _ & Hp).
  destruct (Hpools q _ Hp) as (m' & Hm' & Hsz').
  exists q, m'. split; [exact Hq|]. split; [exact Hm' | exact Hsz'].
Qed.

Lemma multipool_create_size_ladder_witness :
  exists mp s' M,
    multipool_create debug_build (initial_state [] []) = Ok mp s' /\ mp <> NULL /\
    multipools s' !! mp = Some M /\ length (pools M) = 14%nat /\ NoDup (pools M).
Proof.
  destruct (multipool_create_size_ladder debug_build (initial_state [] []))
    as (mp & s' & M & Hrun & Hnn & HM & _ & Hlen & Hnodup & _).
  - apply (bool_decide_unpack _). vm_compute. exact I.
  - reflexivity.
  - exists mp, s', M. auto.
Defined.

(** ** Teardown and the global pointer *)

Lemma keeps_global_ret {A} (a : A) : keeps_global (ret a).
Proof. intros s a' s' H. inversion H. reflexivity. Qed.

Lemma keeps_global_bind {A B} (m : M A) (k : A -> M B) :
  keeps_global m -> (forall a, keeps_global (k a)) -> keeps_global (bind m k).
Proof.
  intros Hm Hk s b s' H. apply bind_Ok_inv in H as (a & s1 & H1 & H2).
  rewrite (Hk a s1 b s' H2). apply (Hm s a s1 H1).
Qed.

Lemma keeps_global_undefined {A} : keeps_global (@undefined A).
Proof. intros s a s' H. discriminate. Qed.

Lemma keeps_global_abort {A} : keeps_global (@abort A).
Proof. intros s a s' H. discriminate. Qed.

Lemma keeps_global_out_of_fuel {A} : keeps_global (@out_of_fuel A).
Proof. intros s a s' H. discriminate. Qed.

Lemma keeps_global_get : keeps_global get.
Proof. intros s a s' H. inversion H. reflexivity. Qed.

Lemma keeps_global_assert (cfg : Config) (cond : M bool) :
  keeps_global cond -> keeps_global (assert cfg cond).
Proof.
  intros Hc. unfold assert. destruct (ndebug cfg); [apply keeps_global_ret|].
  apply keeps_global_bind; [exact Hc|].
  intros [|]; [apply keeps_global_ret | apply keeps_global_abort].
Qed.

Lemma keeps_global_load_node (p : Z) : keeps_global (load_node p).
Proof. intros s a s' H. apply load_node_Ok_inv in H as (-> & _). reflexivity. Qed.

Lemma keeps_global_load_pool (p : Z) : keeps_global (load_pool p).
Proof. intros s a s' H. apply load_pool_Ok_inv in H as (-> & _). reflexivity. Qed.

Lemma keeps_global_load_multipool_slot (p i : Z) : keeps_global (load_multipool_slot p i).
Proof. intros s a s' H. apply load_multipool_slot_Ok_inv in H. subst s'. reflexivity. Qed.

Lemma keeps_global_store_pool (p : Z) (f : MemPool -> MemPool) : keeps_global (store_pool p f).
Proof.
  intros s a s' H. unfold store_pool in H.
  destruct (p =? NULL); [discriminate|].
  destruct (mempools s !! p); [|discriminate]. inversion H. reflexivity.
Qed.

Lemma keeps_global_free_node (p : Z) : keeps_global (free_node p).
Proof.
  intros s a s' H. unfold free_node in H.
  destruct (p =? NULL); [inversion H; reflexivity|].
  destruct (nodes s !! p); [|discriminate]. inversion H. reflexivity.
Qed.

Lemma keeps_global_free_buffer (p : Z) : keeps_global (free_buffer p).
Proof.
  intros s a s' H. unfold free_buffer in H.
  destruct (p =? NULL); [inversion H; reflexivity|].
  destruct (buffers s !! p); [|discriminate]. inversion H. reflexivity.
Qed.

Lemma keeps_global_free_pool (p : Z) : keeps_global (free_pool p).
Proof.
  intros s a s' H. unfold free_pool in H.
  destruct (p =? NULL); [inversion H; reflexivity|].
  destruct (mempools s !! p); [|discriminate]. inversion H. reflexivity.
Qed.

Lemma keeps_global_free_multipool (p : Z) : keeps_global (free_multipool p).
Proof.
  intros s a s' H. unfold free_multipool in H.
  destruct (p =? NULL); [inversion H; reflexivity|].
  destruct (multipools s !! p); [|discriminate]. inversion H. reflexivity.
Qed.

Lemma keeps_global_track_unavailable (cfg : Config) (pl : Z) :
  keeps_global (track_pool_usage_memnode_unavailable cfg pl).
Proof.
  unfold track_pool_usage_memnode_unavailable.
  destruct (track_pool_usage cfg); [apply keeps_global_store_pool | apply keeps_global_ret].
Qed.

Lemma keeps_global_free_poolable_mem (cfg : Config) (node : Z) :
  keeps_global (free_poolable_mem cfg node).
Proof.
  unfold free_poolable_mem.
  apply keeps_global_bind; [apply keeps_global_assert, keeps_global_ret|]. intros _.
  apply keeps_global_bind; [apply keeps_global_load_node|]. intros n.
  apply keeps_global_bind; [apply keeps_global_free_buffer|]. intros _.
  apply keeps_global_free_node.
Qed.

Lemma keeps_global_pool_mem_free_all_loop (cfg : Config) (fuel : nat) (pl node : Z) :
  keeps_global (pool_mem_free_all_loop cfg fuel pl node).
Proof.
  revert node. induction fuel as [|f IH]; intros node; cbn [pool_mem_free_all_loop];
    (destruct (node =? NULL); [apply keeps_global_ret|]).
  - apply keeps_global_out_of_fuel.
  - apply keeps_global_bind; [apply keeps_global_load_node|]. intros n.
    apply keeps_global_bind; [apply keeps_global_store_pool|]. intros _.
    apply keeps_global_bind; [apply keeps_global_free_poolable_mem|]. intros _.
    apply keeps_global_bind; [apply keeps_global_track_unavailable|]. intros _.
    apply keeps_global_bind; [apply keeps_global_load_pool|]. intros m.
    apply IH.
Qed.

Lemma keeps_global_free_mem_pool (cfg : Config) (pl : Z) : keeps_global (free_mem_pool cfg pl).
Proof.
  unfold free_mem_pool.
  apply keeps_global_bind; [apply keeps_global_assert, keeps_global_ret|]. intros _.
  apply keeps_global_bind; [|intros _; apply keeps_global_free_pool].
  unfold pool_mem_free_all.
  apply keeps_global_bind; [apply keeps_global_assert, keeps_global_ret|]. intros _.
  apply keeps_global_bind; [apply keeps_global_load_pool|]. intros m.
  apply keeps_global_bind; [apply keeps_global_get|]. intros s0.
  apply keeps_global_pool_mem_free_all_loop.
Qed.

Lemma keeps_global_multipool_free_loop (cfg : Config) (fuel : nat) (mp i : Z) :
  keeps_global (multipool_free_loop cfg fuel mp i).
Proof.
  revert i. induction fuel as [|f IH]; intros i; cbn [multipool_free_loop];
    (destruct (i <? MULTIPOOL_ENTRY_COUNT); [|apply keeps_global_ret]).
  - apply keeps_global_out_of_fuel.
  - apply keeps_global_bind; [apply keeps_global_load_multipool_slot|]. intros pl.
    apply keeps_global_bind; [apply keeps_global_free_mem_pool|]. intros _.
    apply IH.
Qed.

Lemma keeps_global_multipool_free (cfg : Config) (mp : Z) :
  keeps_global (multipool_free cfg mp).
Proof.
  unfold multipool_free.
  apply keeps_global_bind; [apply keeps_global_assert, keeps_global_ret|]. intros _.
  apply keeps_global_bind; [apply keeps_global_multipool_free_loop|]. intros _.
  apply keeps_global_free_multipool.
Qed.

Lemma find_multipool_index_in_range (size : Z) :
  1 <= size <= 4194304 ->
  0 <= find_multipool_index_for_size size < MULTIPOOL_ENTRY_COUNT.
Proof.
  intros Hs. unfold MULTIPOOL_ENTRY_COUNT.
  destruct (find_multipool_index_fits size ltac:(unfold UINT32_MOD; lia)) as (Hk0 & _ & Hprev).
  split; [exact Hk0|].
  destruct (Z_lt_le_dec (find_multipool_index_for_size size) 14) as [|Hge]; [assumption|].
  specialize (Hprev ltac:(lia)).
  pose proof (pow2_le_mono 13 (find_multipool_index_for_size size - 1) ltac:(lia)) as Hp.
  change (2 ^ 13) with 8192 in Hp. lia.
Qed.

Lemma multipool_free_Ok_inv (cfg : Config) (mp : Z) (u : unit) (s s' : State) :
  multipool_free cfg mp s = Ok u s' -> mp <> NULL /\ multipools s' !! mp = None.
Proof.
  unfold multipool_free. intros H.
  apply bind_Ok_inv in H as ([] & s0 & Ha & H).
  apply assert_ret_Ok_inv in Ha. subst s0.
  apply bind_Ok_inv in H as ([] & s1 & Hloop & Hfree).
  assert (Hmp : mp <> NULL).
  { change (Z.to_nat MULTIPOOL_ENTRY_COUNT) with 14%nat in Hloop.
    cbn [multipool_free_loop] in Hloop.
    change (0 <? MULTIPOOL_ENTRY_COUNT) with true in Hloop. cbv iota in Hloop.
    apply bind_Ok_inv in Hloop as (pl & s2 & Hslot & _).
    unfold load_multipool_slot, bind, load_multipool in Hslot.
    destruct (mp =? NULL) eqn:E; [discriminate|]. apply Z.eqb_neq. exact E. }
  split; [exact Hmp|].
  unfold free_multipool in Hfree. rewrite eqb_NULL_false in Hfree by exact Hmp.
  destruct (multipools s1 !! mp); [|discriminate].
  inversion Hfree. state_simpl. apply lookup_delete_eq.
Qed.

(** C10. [global_multipool_free] destroys the multipool but leaves
    [_global_multipool] as it was: after a teardown that returned, the global
    pointer still holds its old, non-[NULL] value, nothing is live at that
    address, the assertion of [global_multipool_mem_acquire] passes, and an
    in-range request then reads the freed table (undefined behaviour) instead
    of stopping at the assertion. *)
Theorem global_multipool_free_leaves_stale_pointer (cfg : Config) (s s' : State) :
  global_multipool_free cfg s = Ok tt s' ->
  _global_multipool s' = _global_multipool s /\
  _global_multipool s' <> NULL /\
  multipools s' !! _global_multipool s' = None /\
  assert cfg (let* s0 := get in ret (negb (_global_multipool s0 =? NULL))) s' = Ok tt s' /\
  (forall size, 1 <= size <= 4194304 ->
     global_multipool_mem_acquire cfg size s' = Undefined).
Proof.
  intros H. unfold global_multipool_free, bind at 1, get in H.
  pose proof (keeps_global_multipool_free cfg _ s tt s' H) as Hkeep.
  destruct (multipool_free_Ok_inv cfg _ tt s s' H) as (Hnn & Hgone).
  rewrite <- Hkeep in Hnn, Hgone.
  assert (Hassert : assert cfg (let* s0 := get in ret (negb (_global_multipool s0 =? NULL))) s'
                    = Ok tt s').
  { apply assert_pass. right. unfold bind, get, ret.
    rewrite eqb_NULL_false by exact Hnn. reflexivity. }
  split; [exact Hkeep|]. split; [exact Hnn|]. split; [exact Hgone|]. split; [exact Hassert|].
  intros size Hsize. unfold global_multipool_mem_acquire.
  rewrite (bind_Ok _ _ _ _ _ Hassert). unfold bind at 1, get.
  unfold multipool_mem_acquire.
  rewrite (bind_Ok _ _ s' s' tt) by (apply assert_nonnull_pass; exact Hnn).
  destruct (find_multipool_index_in_range size Hsize) as (Hlo & Hhi).
  rewrite (bind_Ok _ _ s' s' tt).
  2:{ apply assert_pass. right. unfold ret.
      rewrite (proj2 (Z.ltb_lt _ _) Hhi). reflexivity. }
  rewrite (proj2 (Z.leb_gt _ _) Hhi).
  unfold bind, load_multipool_slot, bind, load_multipool.
  rewrite eqb_NULL_false by exact Hnn. rewrite Hgone. reflexivity.
Qed.

Lemma global_multipool_create_run :
  global_multipool_create debug_build (initial_state [] []) = Ok tt global_created_state.
Proof. vm_compute. reflexivity. Qed.

Lemma global_multipool_free_run :
  global_multipool_free debug_build global_created_state = Ok tt global_torn_down_state.
Proof. vm_compute. reflexivity. Qed.

Lemma global_multipool_free_leaves_stale_pointer_witness :
  global_multipool_free debug_build global_created_state = Ok tt global_torn_down_state /\
  _global_multipool global_torn_down_state = _global_multipool global_created_state /\
  _global_multipool global_torn_down_state <> NULL /\
  global_multipool_mem_acquire debug_build 4096 global_torn_down_state = Undefined.
Proof.
  assert (Hrun : global_multipool_free debug_build global_created_state
                 = Ok tt global_torn_down_state) by (vm_compute; reflexivity).
  destruct (global_multipool_free_leaves_stale_pointer debug_build
              global_created_state global_torn_down_state Hrun)
    as (Hsame & Hnn & _ & _ & Huse).
  split; [exact Hrun|]. split; [exact Hsame|]. split; [exact Hnn|].
  apply Huse. lia.
Defined.

(** ** The fuel of the loops suffices

    No call ever ends in [OutOfFuel]: the bounds the model puts on the loops
    of the code are never reached. *)

Lemma bind_in_fuel {A B} (m : M A) (k : A -> M B) (s : State) :
  m s <> OutOfFuel ->
  (forall a s1, m s = Ok a s1 -> k a s1 <> OutOfFuel) ->
  bind m k s <> OutOfFuel.
Proof.
  intros Hm Hk. unfold bind. destruct (m s) as [a s1| | |] eqn:E; try discriminate.
  - apply Hk. reflexivity.
  - contradiction.
Qed.

Lemma runs_in_fuel_bind {A B} (m : M A) (k : A -> M B) :
  runs_in_fuel m -> (forall a, runs_in_fuel (k a)) -> runs_in_fuel (bind m k).
Proof. intros Hm Hk s. apply bind_in_fuel; [apply Hm | intros a s1 _; apply Hk]. Qed.

Lemma runs_in_fuel_ret {A} (a : A) : runs_in_fuel (ret a).
Proof. intros s. discriminate. Qed.

Ltac runs_prim := intros s0; cbv beta delta
  [load_node store_node load_buffer store_buffer load_pool store_pool load_multipool
   store_multipool_slot free_node free_buffer free_pool free_multipool
   malloc_succeeds take_block pop_cas_script get undefined abort ret];
  repeat case_match; discriminate.

Lemma runs_in_fuel_load_node (p : Z) : runs_in_fuel (load_node p).
Proof. runs_prim. Qed.
Lemma runs_in_fuel_store_node (p : Z) (f : MemNode -> MemNode) : runs_in_fuel (store_node p f).
Proof. runs_prim. Qed.
Lemma runs_in_fuel_load_buffer (p : Z) : runs_in_fuel (load_buffer p).
Proof. runs_prim. Qed.
Lemma runs_in_fuel_store_buffer (p : Z) (f : DataBuf -> DataBuf) :
  runs_in_fuel (store_buffer p f).
Proof. runs_prim. Qed.
Lemma runs_in_fuel_load_pool (p : Z) : runs_in_fuel (load_pool p).
Proof. runs_prim. Qed.
Lemma runs_in_fuel_store_pool (p : Z) (f : MemPool -> MemPool) : runs_in_fuel (store_pool p f).
Proof. runs_prim. Qed.
Lemma runs_in_fuel_store_multipool_slot (p i v : Z) : runs_in_fuel (store_multipool_slot p i v).
Proof. runs_prim. Qed.
Lemma runs_in_fuel_free_node (p : Z) : runs_in_fuel (free_node p).
Proof. runs_prim. Qed.
Lemma runs_in_fuel_free_buffer (p : Z) : runs_in_fuel (free_buffer p).
Proof. runs_prim. Qed.
Lemma runs_in_fuel_free_pool (p : Z) : runs_in_fuel (free_pool p).
Proof. runs_prim. Qed.
Lemma runs_in_fuel_free_multipool (p : Z) : runs_in_fuel (free_multipool p).
Proof. runs_prim. Qed.
Lemma runs_in_fuel_get : runs_in_fuel get.
Proof. runs_prim. Qed.
Lemma runs_in_fuel_undefined {A} : runs_in_fuel (@undefined A).
Proof. runs_prim. Qed.
Lemma runs_in_fuel_abort {A} : runs_in_fuel (@abort A).
Proof. runs_prim. Qed.

Lemma runs_in_fuel_load_multipool_slot (p i : Z) : runs_in_fuel (load_multipool_slot p i).
Proof.
  unfold load_multipool_slot. apply runs_in_fuel_bind; [runs_prim|]. intros M.
  destruct ((0 <=? i) && (i <? MULTIPOOL_ENTRY_COUNT)); [|apply runs_in_fuel_undefined].
  destruct (pools M !! Z.to_nat i); [apply runs_in_fuel_ret | apply runs_in_fuel_undefined].
Qed.

Lemma runs_in_fuel_assert (cfg : Config) (cond : M bool) :
  runs_in_fuel cond -> runs_in_fuel (assert cfg cond).
Proof.
  intros Hc. unfold assert. destruct (ndebug cfg); [apply runs_in_fuel_ret|].
  apply runs_in_fuel_bind; [exact Hc|].
  intros [|]; [apply runs_in_fuel_ret | apply runs_in_fuel_abort].
Qed.

Lemma runs_in_fuel_malloc_MemNode : runs_in_fuel malloc_MemNode.
Proof.
  unfold malloc_MemNode. apply runs_in_fuel_bind; [runs_prim|].
  intros [|]; [|apply runs_in_fuel_ret].
  apply runs_in_fuel_bind; [runs_prim|]. intros p s. discriminate.
Qed.

Lemma runs_in_fuel_malloc_buffer (size : Z) : runs_in_fuel (malloc_buffer size).
Proof.
  unfold malloc_buffer. apply runs_in_fuel_bind; [runs_prim|].
  intros [|]; [|apply runs_in_fuel_ret].
  apply runs_in_fuel_bind; [runs_prim|]. intros p s. discriminate.
Qed.

Lemma runs_in_fuel_malloc_MemPool (size : Z) : runs_in_fuel (malloc_MemPool size).
Proof.
  unfold malloc_MemPool. apply runs_in_fuel_bind; [runs_prim|].
  intros [|]; [|apply runs_in_fuel_ret].
  apply runs_in_fuel_bind; [runs_prim|]. intros p s. discriminate.
Qed.

Lemma runs_in_fuel_malloc_MultiPool : runs_in_fuel malloc_MultiPool.
Proof.
  unfold malloc_MultiPool. apply runs_in_fuel_bind; [runs_prim|].
  intros [|]; [|apply runs_in_fuel_ret].
  apply runs_in_fuel_bind; [runs_prim|]. intros p s. discriminate.
Qed.

Ltac runs_step :=
  first
    [ apply runs_in_fuel_ret
    | apply runs_in_fuel_undefined
    | apply runs_in_fuel_abort
    | apply runs_in_fuel_get
    | apply runs_in_fuel_load_node
    | apply runs_in_fuel_store_node
    | apply runs_in_fuel_load_buffer
    | apply runs_in_fuel_store_buffer
    | apply runs_in_fuel_load_pool
    | apply runs_in_fuel_store_pool
    | apply runs_in_fuel_load_multipool_slot
    | apply runs_in_fuel_store_multipool_slot
    | apply runs_in_fuel_free_node
    | apply runs_in_fuel_free_buffer
    | apply runs_in_fuel_free_pool
    | apply runs_in_fuel_free_multipool
    | apply runs_in_fuel_malloc_MemNode
    | apply runs_in_fuel_malloc_buffer
    | apply runs_in_fuel_malloc_MemPool
    | apply runs_in_fuel_malloc_MultiPool
    | apply runs_in_fuel_assert
    | apply runs_in_fuel_bind; [|intros ?]
    | match goal with |- runs_in_fuel (if ?b then _ else _) => destruct b end ].

Lemma runs_in_fuel_track_allocs (cfg : Config) (pl : Z) :
  runs_in_fuel (track_pool_usage_allocs cfg pl).
Proof. unfold track_pool_usage_allocs. repeat runs_step. Qed.

Lemma runs_in_fuel_track_returned (cfg : Config) (pl : Z) :
  runs_in_fuel (track_pool_usage_returned cfg pl).
Proof. unfold track_pool_usage_returned. repeat runs_step. Qed.

Lemma runs_in_fuel_track_unavailable (cfg : Config) (pl : Z) :
  runs_in_fuel (track_pool_usage_memnode_unavailable cfg pl).
Proof. unfold track_pool_usage_memnode_unavailable. repeat runs_step. Qed.

Lemma runs_in_fuel_get_memnode_in_data (cfg : Config) (p : Z) :
  runs_in_fuel (get_memnode_in_data cfg p).
Proof. unfold get_memnode_in_data. repeat runs_step. Qed.

Lemma runs_in_fuel_alloc_poolable_mem (cfg : Config) (pl : Z) :
  runs_in_fuel (alloc_poolable_mem cfg pl).
Proof. unfold alloc_poolable_mem. repeat runs_step. Qed.

Lemma runs_in_fuel_free_poolable_mem (cfg : Config) (node : Z) :
  runs_in_fuel (free_poolable_mem cfg node).
Proof. unfold free_poolable_mem. repeat runs_step. Qed.

Lemma runs_in_fuel_alloc_mem_pool (cfg : Config) (size : Z) :
  runs_in_fuel (alloc_mem_pool cfg size).
Proof. unfold alloc_mem_pool. repeat runs_step. Qed.

Lemma runs_in_fuel_pool_mem_try_alloc_data (cfg : Config) (pl : Z) :
  runs_in_fuel (pool_mem_try_alloc_data cfg pl).
Proof.
  unfold pool_mem_try_alloc_data.
  repeat first [apply runs_in_fuel_alloc_poolable_mem | apply runs_in_fuel_track_allocs
               | runs_step].
Qed.

Lemma atomic_compare_exchange_head_runs (pl expected desired : Z) :
  runs_in_fuel (atomic_compare_exchange_head pl expected desired).
Proof.
  unfold atomic_compare_exchange_head.
  apply runs_in_fuel_bind; [runs_prim|]. intros genuine. repeat runs_step.
Qed.

Lemma atomic_compare_exchange_head_failed (pl expected desired : Z) (s s1 : State) :
  atomic_compare_exchange_head pl expected desired s = Ok false s1 ->
  (exists m, mempools s !! pl = Some m /\ head m = expected) ->
  hd true (cas_script s) = false /\ s1 = set_cas_script (tl (cas_script s)) s.
Proof.
  intros H (m & Hm & Hh).
  destruct (hd true (cas_script s)) eqn:Hg.
  - exfalso. unfold atomic_compare_exchange_head, pop_cas_script, bind at 1 in H.
    rewrite Hg in H. unfold bind at 1, load_pool in H. state_simpl.
    destruct (pl =? NULL); [discriminate|]. rewrite Hm, Hh, Z.eqb_refl in H.
    unfold bind, store_pool in H. state_simpl.
    destruct (pl =? NULL); [discriminate|]. rewrite Hm in H.
    unfold ret in H. discriminate.
  - rewrite atomic_compare_exchange_head_spurious in H by exact Hg.
    inversion H. auto.
Qed.

(** With one thread, a turn of the acquire loop is repeated only after a
    spurious failure, which shortens the script. *)
Lemma pool_mem_acquire_loop_in_fuel (cfg : Config) (pl : Z) (fuel : nat) (s : State) :
  (length (cas_script s) < fuel)%nat ->
  pool_mem_acquire_loop cfg fuel pl s <> OutOfFuel.
Proof.
  revert s. induction fuel as [|f IH]; intros s Hfuel; [lia|].
  cbn [pool_mem_acquire_loop].
  apply bind_in_fuel; [apply runs_in_fuel_load_pool|]. intros m s1 Hm.
  apply load_pool_Ok_inv in Hm as (-> & Hpl & Hm).
  destruct (head m =? NULL); [apply runs_in_fuel_pool_mem_try_alloc_data|].
  apply bind_in_fuel; [apply runs_in_fuel_load_node|]. intros n s1 Hn.
  apply load_node_Ok_inv in Hn as (-> & _ & _).
  apply bind_in_fuel; [apply atomic_compare_exchange_head_runs|]. intros [|] s1 Hcas.
  - apply runs_in_fuel_bind; [apply runs_in_fuel_track_unavailable|]. intros _.
    repeat runs_step.
  - apply atomic_compare_exchange_head_failed in Hcas as (Hg & ->);
      [| exists m; split; [exact Hm | reflexivity]].
    apply IH. state_simpl. pose proof (proj2 (drop_spurious_spurious _ Hg)). lia.
Qed.

Lemma pool_mem_acquire_in_fuel (cfg : Config) (pl : Z) : runs_in_fuel (pool_mem_acquire cfg pl).
Proof.
  intros s. unfold pool_mem_acquire.
  apply bind_in_fuel; [apply runs_in_fuel_assert, runs_in_fuel_ret|]. intros [] s1 Ha.
  apply assert_ret_Ok_inv in Ha. subst s1.
  unfold bind, get. apply pool_mem_acquire_loop_in_fuel. lia.
Qed.

Lemma store_node_Ok_inv (p : Z) (f : MemNode -> MemNode) (u : unit) (s s' : State) :
  store_node p f s = Ok u s' ->
  exists nd, nodes s !! p = Some nd /\ s' = set_nodes <[p := f nd]> s.
Proof.
  unfold store_node. destruct (p =? NULL); [discriminate|].
  destruct (nodes s !! p) as [nd|]; [|discriminate].
  intros H. inversion H. exists nd. auto.
Qed.

Lemma pool_mem_return_loop_in_fuel (cfg : Config) (pl new_head : Z) (fuel : nat) (s : State) :
  (length (cas_script s) < fuel)%nat ->
  pool_mem_return_loop cfg fuel pl new_head s <> OutOfFuel.
Proof.
  revert s. induction fuel as [|f IH]; intros s Hfuel; [lia|].
  cbn [pool_mem_return_loop].
  apply bind_in_fuel; [apply runs_in_fuel_load_pool|]. intros m s1 Hm.
  apply load_pool_Ok_inv in Hm as (-> & Hpl & Hm).
  apply bind_in_fuel; [apply runs_in_fuel_store_node|]. intros [] s1 Hst.
  apply store_node_Ok_inv in Hst as (nd & Hnd & ->).
  apply bind_in_fuel; [apply atomic_compare_exchange_head_runs|]. intros [|] s1 Hcas.
  - apply runs_in_fuel_track_returned.
  - apply atomic_compare_exchange_head_failed in Hcas as (Hg & ->);
      [| exists m; split; [exact Hm | reflexivity]].
    apply IH. state_simpl. pose proof (proj2 (drop_spurious_spurious _ Hg)). lia.
Qed.

Lemma pool_mem_return_in_fuel (cfg : Config) (p : Z) : runs_in_fuel (pool_mem_return cfg p).
Proof.
  intros s. unfold pool_mem_return.
  apply bind_in_fuel; [apply runs_in_fuel_assert, runs_in_fuel_ret|]. intros [] s1 Ha.
  apply assert_ret_Ok_inv in Ha. subst s1.
  apply bind_in_fuel; [apply runs_in_fuel_get_memnode_in_data|]. intros n s1 Hg.
  apply bind_in_fuel; [apply runs_in_fuel_load_node|]. intros nd s2 Hn.
  apply load_node_Ok_inv in Hn as (-> & _ & _).
  unfold bind, get. apply pool_mem_return_loop_in_fuel. lia.
Qed.

Lemma multipool_create_loop_in_fuel (cfg : Config) (mp : Z) (fuel : nat) (i : Z) :
  0 <= i -> MULTIPOOL_ENTRY_COUNT - i <= Z.of_nat fuel ->
  runs_in_fuel (multipool_create_loop cfg fuel mp i).
Proof.
  revert i. induction fuel as [|f IH]; intros i Hi Hfuel; cbn [multipool_create_loop];
    destruct (i <? MULTIPOOL_ENTRY_COUNT) eqn:E; try apply runs_in_fuel_ret.
  - apply Z.ltb_lt in E. lia.
  - apply Z.ltb_lt in E.
    apply runs_in_fuel_bind; [apply runs_in_fuel_alloc_mem_pool|]. intros pl.
    apply runs_in_fuel_bind; [apply runs_in_fuel_store_multipool_slot|]. intros _.
    rewrite wrap32_small by (unfold UINT32_MOD, MULTIPOOL_ENTRY_COUNT in *; lia).
    apply IH; lia.
Qed.

Lemma multipool_create_in_fuel (cfg : Config) : runs_in_fuel (multipool_create cfg).
Proof.
  unfold multipool_create.
  apply runs_in_fuel_bind; [apply runs_in_fuel_malloc_MultiPool|]. intros mp.
  apply runs_in_fuel_bind; [|intros _; apply runs_in_fuel_ret].
  destruct (negb (mp =? NULL)); [|apply runs_in_fuel_ret].
  apply multipool_create_loop_in_fuel; lia.
Qed.

Lemma multipool_mem_acquire_in_fuel (cfg : Config) (mp size : Z) :
  runs_in_fuel (multipool_mem_acquire cfg mp size).
Proof.
  unfold multipool_mem_acquire.
  repeat first [apply pool_mem_acquire_in_fuel | runs_step].
Qed.

Lemma free_buffer_Ok_nodes (p : Z) (u : unit) (s s' : State) :
  free_buffer p s = Ok u s' -> nodes s' = nodes s.
Proof.
  unfold free_buffer. destruct (p =? NULL); [intros H; inversion H; reflexivity|].
  destruct (buffers s !! p); [|discriminate]. intros H. inversion H. reflexivity.
Qed.

Lemma store_pool_Ok_nodes (p : Z) (f : MemPool -> MemPool) (u : unit) (s s' : State) :
  store_pool p f s = Ok u s' -> nodes s' = nodes s.
Proof.
  unfold store_pool. destruct (p =? NULL); [discriminate|].
  destruct (mempools s !! p); [|discriminate]. intros H. inversion H. reflexivity.
Qed.

Lemma track_unavailable_Ok_nodes (cfg : Config) (pl : Z) (u : unit) (s s' : State) :
  track_pool_usage_memnode_unavailable cfg pl s = Ok u s' -> nodes s' = nodes s.
Proof.
  unfold track_pool_usage_memnode_unavailable. destruct (track_pool_usage cfg).
  - apply store_pool_Ok_nodes.
  - intros H. inversion H. reflexivity.
Qed.

(** [free_poolable_mem] takes its node out of the heap. *)
Lemma free_poolable_mem_Ok_nodes (cfg : Config) (node : Z) (u : unit) (s s' : State) :
  free_poolable_mem cfg node s = Ok u s' ->
  is_Some (nodes s !! node) /\ nodes s' = delete node (nodes s).
Proof.
  unfold free_poolable_mem. intros H.
  apply bind_Ok_inv in H as ([] & s0 & Ha & H).
  apply assert_ret_Ok_inv in Ha. subst s0.
  apply bind_Ok_inv in H as (nd & s0 & Hn & H).
  apply load_node_Ok_inv in Hn as (-> & Hnn & Hn).
  apply bind_Ok_inv in H as ([] & s1 & Hb & H).
  apply free_buffer_Ok_nodes in Hb.
  unfold free_node in H. rewrite eqb_NULL_false in H by exact Hnn.
  rewrite Hb, Hn in H. inversion H. state_simpl.
  split; [exists nd; exact Hn | rewrite Hb; reflexivity].
Qed.

(** Every turn of the teardown loop frees a live node. *)
Lemma pool_mem_free_all_loop_in_fuel (cfg : Config) (pl : Z) (fuel : nat) (node : Z)
    (s : State) :
  (size (nodes s) < fuel)%nat ->
  pool_mem_free_all_loop cfg fuel pl node s <> OutOfFuel.
Proof.
  revert node s. induction fuel as [|f IH]; intros node s Hfuel; [lia|].
  cbn [pool_mem_free_all_loop].
  destruct (node =? NULL); [discriminate|].
  apply bind_in_fuel; [apply runs_in_fuel_load_node|]. intros n s1 Hn.
  apply load_node_Ok_inv in Hn as (-> & _ & _).
  apply bind_in_fuel; [apply runs_in_fuel_store_pool|]. intros [] s1 Hst.
  apply store_pool_Ok_nodes in Hst.
  apply bind_in_fuel; [apply runs_in_fuel_free_poolable_mem|]. intros [] s2 Hfree.
  apply free_poolable_mem_Ok_nodes in Hfree as (Hlive & Hdel).
  apply bind_in_fuel; [apply runs_in_fuel_track_unavailable|]. intros [] s3 Htr.
  apply track_unavailable_Ok_nodes in Htr.
  apply bind_in_fuel; [apply runs_in_fuel_load_pool|]. intros m s4 Hm.
  apply load_pool_Ok_inv in Hm as (-> & _ & _).
  apply IH. rewrite Htr, Hdel, map_size_delete_Some by exact Hlive.
  rewrite Hst in *. destruct Hlive as (nd & Hnd).
  assert (size (nodes s) <> 0%nat).
  { intros Hz. apply map_size_empty_inv in Hz. rewrite Hz, lookup_empty in Hnd. discriminate. }
  lia.
Qed.

Lemma pool_mem_free_all_in_fuel (cfg : Config) (pl : Z) : runs_in_fuel (pool_mem_free_all cfg pl).
Proof.
  intros s. unfold pool_mem_free_all.
  apply bind_in_fuel; [apply runs_in_fuel_assert, runs_in_fuel_ret|]. intros [] s1 Ha.
  apply assert_ret_Ok_inv in Ha. subst s1.
  apply bind_in_fuel; [apply runs_in_fuel_load_pool|]. intros m s1 Hm.
  apply load_pool_Ok_inv in Hm as (-> & _ & _).
  unfold bind, get. apply pool_mem_free_all_loop_in_fuel. lia.
Qed.

Lemma free_mem_pool_in_fuel (cfg : Config) (pl : Z) : runs_in_fuel (free_mem_pool cfg pl).
Proof.
  unfold free_mem_pool.
  repeat first [apply pool_mem_free_all_in_fuel | runs_step].
Qed.

Lemma multipool_free_loop_in_fuel (cfg : Config) (mp : Z) (fuel : nat) (i : Z) :
  MULTIPOOL_ENTRY_COUNT - i <= Z.of_nat fuel ->
  runs_in_fuel (multipool_free_loop cfg fuel mp i).
Proof.
  revert i. induction fuel as [|f IH]; intros i Hfuel; cbn [multipool_free_loop];
    destruct (i <? MULTIPOOL_ENTRY_COUNT) eqn:E; try apply runs_in_fuel_ret.
  - apply Z.ltb_lt in E. lia.
  - apply runs_in_fuel_bind; [apply runs_in_fuel_load_multipool_slot|]. intros pl.
    apply runs_in_fuel_bind; [apply free_mem_pool_in_fuel|]. intros _.
    apply IH. lia.
Qed.

Lemma multipool_free_in_fuel (cfg : Config) (mp : Z) : runs_in_fuel (multipool_free cfg mp).
Proof.
  unfold multipool_free.
  apply runs_in_fuel_bind; [apply runs_in_fuel_assert, runs_in_fuel_ret|]. intros _.
  apply runs_in_fuel_bind; [|intros _; apply runs_in_fuel_free_multipool].
  apply multipool_free_loop_in_fuel. lia.
Qed.

(** No function of the library runs out of fuel, in any state. *)
Theorem library_runs_in_fuel (cfg : Config) :
  (forall pl, runs_in_fuel (pool_mem_acquire cfg pl)) /\
  (forall p, runs_in_fuel (pool_mem_return cfg p)) /\
  (forall size, runs_in_fuel (alloc_mem_pool cfg size)) /\
  (forall pl, runs_in_fuel (free_mem_pool cfg pl)) /\
  runs_in_fuel (multipool_create cfg) /\
  (forall mp size, runs_in_fuel (multipool_mem_acquire cfg mp size)) /\
  (forall mp, runs_in_fuel (multipool_free cfg mp)) /\
  runs_in_fuel (global_multipool_create cfg) /\
  (forall size, runs_in_fuel (global_multipool_mem_acquire cfg size)) /\
  runs_in_fuel (global_multipool_free cfg).
Proof.
  split; [apply pool_mem_acquire_in_fuel|].
  split; [apply pool_mem_return_in_fuel|].
  split; [apply runs_in_fuel_alloc_mem_pool|].
  split; [apply free_mem_pool_in_fuel|].
  split; [apply multipool_create_in_fuel|].
  split; [apply multipool_mem_acquire_in_fuel|].
  split; [apply multipool_free_in_fuel|].
  split.
  { unfold global_multipool_create. apply runs_in_fuel_bind; [apply multipool_create_in_fuel|].
    intros mp s. discriminate. }
  split.
  { intros size. unfold global_multipool_mem_acquire.
    apply runs_in_fuel_bind; [apply runs_in_fuel_assert; repeat runs_step|]. intros _.
    apply runs_in_fuel_bind; [apply runs_in_fuel_get|]. intros s0.
    apply multipool_mem_acquire_in_fuel. }
  unfold global_multipool_free. apply runs_in_fuel_bind; [apply runs_in_fuel_get|].
  intros s0. apply multipool_free_in_fuel.
Qed.

(** ** Teardown of a multipool whose pools are idle and empty *)

Lemma free_mem_pool_empty (cfg : Config) (q : Z) (m : MemPool) (s : State) :
  q <> NULL -> mempools s !! q = Some m -> head m = NULL ->
  free_mem_pool cfg q s = Ok tt (set_mempools (delete q) s).
Proof.
  intros Hq Hm Hh. unfold free_mem_pool, pool_mem_free_all.
  rewrite (bind_Ok _ _ s s tt) by (apply assert_nonnull_pass; exact Hq).
  rewrite (bind_Ok _ _ s s tt).
  - unfold free_pool. rewrite eqb_NULL_false, Hm by exact Hq. reflexivity.
  - rewrite (bind_Ok _ _ s s tt) by (apply assert_nonnull_pass; exact Hq).
    rewrite (bind_Ok _ _ _ _ _ (load_pool_live q m s Hq Hm)).
    unfold bind, get. cbn [pool_mem_free_all_loop]. rewrite Hh, Z.eqb_refl. reflexivity.
Qed.

Lemma multipool_free_loop_empty (cfg : Config) (mp : Z) (M : MultiPool) (fuel : nat) :
  forall (i : Z) (s : State),
  mp <> NULL -> multipools s !! mp = Some M -> NoDup (pools M) ->
  0 <= i <= MULTIPOOL_ENTRY_COUNT -> Z.of_nat fuel = MULTIPOOL_ENTRY_COUNT - i ->
  (forall j, i <= j < MULTIPOOL_ENTRY_COUNT ->
     exists q m, pools M !! Z.to_nat j = Some q /\ q <> NULL /\
                 mempools s !! q = Some m /\ head m = NULL) ->
  exists s',
    multipool_free_loop cfg fuel mp i s = Ok tt s' /\
    multipools s' = multipools s /\
    _global_multipool s' = _global_multipool s.
Proof.
  induction fuel as [|f IH]; intros i s Hmp HM Hnd Hi Hfuel Hpools.
  - assert (i = MULTIPOOL_ENTRY_COUNT) by lia. subst i.
    exists s. cbn [multipool_free_loop]. rewrite Z.ltb_irrefl. auto.
  - assert (Hi' : 0 <= i < MULTIPOOL_ENTRY_COUNT) by lia.
    destruct (Hpools i ltac:(lia)) as (q & m & Hq & Hqn & Hm & Hh).
    destruct (IH (i + 1) (set_mempools (delete q) s)) as (s' & Hrun & Hmps & Hg);
      try assumption; try lia.
    { intros j Hj. destruct (Hpools j ltac:(lia)) as (qj & mj & Hqj & Hqjn & Hmj & Hhj).
      exists qj, mj. split; [exact Hqj|]. split; [exact Hqjn|]. split; [|exact Hhj].
      state_simpl. rewrite lookup_delete_ne; [exact Hmj|].
      intros ->. pose proof (proj1 (NoDup_alt _) Hnd _ _ _ Hq Hqj). lia. }
    exists s'. split; [|split; [exact Hmps | exact Hg]].
    cbn [multipool_free_loop].
    rewrite (proj2 (Z.ltb_lt i MULTIPOOL_ENTRY_COUNT)) by lia.
    rewrite (bind_Ok _ _ s s q).
    + rewrite (bind_Ok _ _ _ _ _ (free_mem_pool_empty cfg q m s Hqn Hm Hh)). exact Hrun.
    + unfold load_multipool_slot, bind, load_multipool.
      rewrite eqb_NULL_false, HM by exact Hmp.
      rewrite (proj2 (Z.leb_le 0 i)) by lia.
      rewrite (proj2 (Z.ltb_lt i MULTIPOOL_ENTRY_COUNT)) by lia.
      cbn [andb]. rewrite Hq. reflexivity.
Qed.

(** A global multipool that was created with every allocation succeeding can
    be torn down at once: the teardown returns, and the global pointer keeps
    the address of the table that was just freed. *)
Theorem global_multipool_create_then_free (cfg : Config) (s : State) :
  wf s -> mallocs_succeed 15 s = true ->
  exists s1 s2,
    global_multipool_create cfg s = Ok tt s1 /\
    global_multipool_free cfg s1 = Ok tt s2 /\
    _global_multipool s1 <> NULL /\
    is_Some (multipools s1 !! _global_multipool s1) /\
    _global_multipool s2 = _global_multipool s1 /\
    multipools s2 !! _global_multipool s2 = None.
Proof.
  intros Hwf Hall.
  assert (Hok : hd true (malloc_script s) = true).
  { rewrite <- nth_0_script. apply (mallocs_succeed_nth 15); [exact Hall | lia]. }
  destruct (multipool_create_spec cfg s Hwf Hok)
    as (s1 & M & Hrun & Hnn & Hwf1 & HM & Hlen & _ & _ & _ & _ & _ & _ & Hslots).
  set (s1g := set_global_multipool (brk s) s1).
  assert (Hbuilt : forall j, 0 <= j < MULTIPOOL_ENTRY_COUNT ->
            exists q m, pools M !! Z.to_nat j = Some q /\ q <> NULL /\
                        mempools s1g !! q = Some m /\ head m = NULL /\
                        mem_size m = class_size j).
  { intros j Hj. destruct (Hslots j Hj) as (q & Hq & Hslot).
    rewrite (mallocs_succeed_nth 15 s _ Hall) in Hslot
      by (unfold MULTIPOOL_ENTRY_COUNT in Hj; lia).
    destruct Hslot as (Hqn & Hpool & _). exists q, (mkMemPool NULL (class_size j) 0 0). auto. }
  assert (Hnd : NoDup (pools M)).
  { apply NoDup_alt. intros i j x Hi Hj.
    pose proof (lookup_lt_Some _ _ _ Hi) as Hil. pose proof (lookup_lt_Some _ _ _ Hj) as Hjl.
    rewrite Hlen in Hil, Hjl. change (Z.to_nat MULTIPOOL_ENTRY_COUNT) with 14%nat in Hil, Hjl.
    destruct (Hbuilt (Z.of_nat i)) as (qi & mi & Hqi & _ & Hpi & _ & Hsi);
      [unfold MULTIPOOL_ENTRY_COUNT; lia|].
    destruct (Hbuilt (Z.of_nat j)) as (qj & mj & Hqj & _ & Hpj & _ & Hsj);
      [unfold MULTIPOOL_ENTRY_COUNT; lia|].
    rewrite Nat2Z.id in Hqi, Hqj.
    assert (qi = x) by congruence. assert (qj = x) by congruence. subst qi qj.
    rewrite Hpi in Hpj. inversion Hpj. subst mj.
    apply Nat2Z.inj. apply class_size_inj; [lia | lia | congruence]. }
  destruct (multipool_free_loop_empty cfg (brk s) M (Z.to_nat MULTIPOOL_ENTRY_COUNT) 0 s1g)
    as (s2 & Hloop & Hmps & Hg); try assumption.
  { unfold MULTIPOOL_ENTRY_COUNT. lia. }
  { unfold MULTIPOOL_ENTRY_COUNT. lia. }
  { intros j Hj. destruct (Hbuilt j Hj) as (q & m & H1 & H2 & H3 & H4 & _).
    exists q, m. auto. }
  exists s1g, (set_multipools (delete (brk s)) s2).
  split; [unfold global_multipool_create; rewrite (bind_Ok _ _ _ _ _ Hrun); reflexivity|].
  split.
  { unfold global_multipool_free, bind at 1, get, multipool_free.
    change (_global_multipool s1g) with (brk s).
    rewrite (bind_Ok _ _ s1g s1g tt) by (apply assert_nonnull_pass; exact Hnn).
    rewrite (bind_Ok _ _ _ _ _ Hloop).
    unfold free_multipool. rewrite eqb_NULL_false by exact Hnn.
    rewrite Hmps. change (multipools s1g) with (multipools s1). rewrite HM. reflexivity. }
  split; [exact Hnn|].
  split; [exists M; exact HM|].
  split; [state_simpl; exact Hg|].
  state_simpl. rewrite Hg. apply lookup_delete_eq.
Qed.

(** ** The scenario of the specification, run

    A multipool with 14 classes from 512 bytes; 4096 bytes land in class 3;
    released and acquired again, the same pointer comes back, and the pool of
    class 3 has not called [malloc] in between. *)

Example scenario_class_of_4096 : find_multipool_index_for_size 4096 = 3.
Proof. reflexivity. Qed.

Example scenario_recycles_4096 :
  (let* mp := multipool_create debug_build in
   let* p1 := multipool_mem_acquire debug_build mp 4096 in
   let* s1 := get in
   pool_mem_return debug_build p1 ;;
   let* p2 := multipool_mem_acquire debug_build mp 4096 in
   let* s2 := get in
   ret (negb (p1 =? NULL), p1 =? p2, payload_size s1 p1,
        Nat.eqb (malloc_calls s1) (malloc_calls s2)))
    (initial_state [] [false; false; true; false])
  = Ok (true, true, Some 4096, true)
       (match
          (let* mp := multipool_create debug_build in
           let* p1 := multipool_mem_acquire debug_build mp 4096 in
           pool_mem_return debug_build p1 ;;
           multipool_mem_acquire debug_build mp 4096)
            (initial_state [] [false; false; true; false])
        with
        | Ok _ s => s
        | _ => initial_state [] []
        end).
Proof. vm_compute. reflexivity. Qed.

Example scenario_partial_table_breaks_teardown :
  (let* mp := multipool_create release_build in multipool_free release_build mp)
    (initial_state [true; true; false] []) = Undefined.
Proof. vm_compute. reflexivity. Qed.

(** * Further properties of the pool *)

(** ** The sizes a multipool serves *)

Lemma find_multipool_index_in_table (size : Z) :
  0 <= size < UINT32_MOD ->
  (find_multipool_index_for_size size < MULTIPOOL_ENTRY_COUNT <-> 1 <= size <= 4194304).
Proof.
  intros Hs. split.
  - intros Hlt. destruct (Z.eq_dec size 0) as [->|Hnz].
    + change (find_multipool_index_for_size 0) with 23 in Hlt.
      unfold MULTIPOOL_ENTRY_COUNT in Hlt. lia.
    + destruct (Z_le_gt_dec size 4194304) as [|Hbig]; [lia|].
      pose proof (find_multipool_index_out_of_range size ltac:(lia)). lia.
  - intros Hr. apply find_multipool_index_in_range. exact Hr.
Qed.

(** X1. The index is below [MULTIPOOL_ENTRY_COUNT] exactly for the sizes from
    1 byte to 4 MiB: size 0 and every size above 4 MiB fall outside the
    table. *)
Theorem find_multipool_index_in_table_iff (size : Z) :
  0 <= size < UINT32_MOD ->
  (find_multipool_index_for_size size < MULTIPOOL_ENTRY_COUNT <-> 1 <= size <= 4194304).
Proof. apply find_multipool_index_in_table. Qed.

Lemma find_multipool_index_in_table_iff_witness :
  0 <= 4194304 < UINT32_MOD /\
  (find_multipool_index_for_size 4194304 < MULTIPOOL_ENTRY_COUNT <-> 1 <= 4194304 <= 4194304).
Proof.
  split; [unfold UINT32_MOD; lia|].
  apply (find_multipool_index_in_table_iff 4194304). unfold UINT32_MOD. lia.
Defined.

Lemma class_size_fits (size : Z) :
  1 <= size <= 4194304 -> size <= class_size (find_multipool_index_for_size size).
Proof.
  intros Hs.
  destruct (find_multipool_index_fits size ltac:(unfold UINT32_MOD; lia)) as (Hk0 & Hfit & _).
  rewrite class_size_pow2 by exact Hk0. exact Hfit.
Qed.

(** X2. Rounding up to a class wastes less than half of the block: for a
    request above 512 bytes the class that serves it is smaller than twice
    the request (and at least the request); a request of at most 512 bytes
    gets the 512-byte class. *)
Theorem class_size_less_than_twice_request (size : Z) :
  1 <= size <= 4194304 ->
  size <= class_size (find_multipool_index_for_size size) /\
  (size <= 512 -> class_size (find_multipool_index_for_size size) = 512) /\
  (512 < size -> class_size (find_multipool_index_for_size size) < 2 * size).
Proof.
  intros Hs.
  destruct (find_multipool_index_fits size ltac:(unfold UINT32_MOD; lia)) as (Hk0 & Hfit & Hprev).
  set (k := find_multipool_index_for_size size) in *.
  rewrite class_size_pow2 by exact Hk0.
  split; [exact Hfit|]. split.
  - intros Hle. destruct (Z.eq_dec k 0) as [->|Hne]; [reflexivity|].
    specialize (Hprev ltac:(lia)).
    assert (1 <= 2 ^ (k - 1)) by (apply Z.lt_pred_le, Z.pow_pos_nonneg; lia). lia.
  - intros Hgt. destruct (Z.eq_dec k 0) as [Hz|Hne].
    + rewrite Hz. change (2 ^ 0) with 1. lia.
    + specialize (Hprev ltac:(lia)).
      replace k with (k - 1 + 1) at 1 by lia.
      rewrite Z.pow_add_r by lia. change (2 ^ 1) with 2. lia.
Qed.

Lemma class_size_less_than_twice_request_witness :
  1 <= 513 <= 4194304 /\
  513 <= class_size (find_multipool_index_for_size 513) /\
  class_size (find_multipool_index_for_size 513) = 1024.
Proof.
  split; [lia|].
  split; [apply (class_size_less_than_twice_request 513); lia | reflexivity].
Defined.

(** ** Every block has the size of its pool *)

Lemma block_sized_extends (s s' : State) :
  heap_extends s s' -> block_sized s ->
  (forall n nd', nodes s' !! n = Some nd' -> nodes s !! n = None -> node_sized s' nd' = true) ->
  block_sized s'.
Proof.
  intros (B & N & P & _) Hs Hnew n nd' Hn'. cbv beta.
  destruct (nodes s !! n) as [nd|] eqn:Hn; [|apply (Hnew n nd' Hn' Hn)].
  destruct (N n nd Hn) as (nd2 & Hn2 & Hd & Hp).
  rewrite Hn' in Hn2. inversion Hn2. subst nd2.
  specialize (Hs n nd Hn). cbv beta in Hs. unfold node_sized in *.
  rewrite Hd, Hp.
  destruct (buffers s !! (data nd - sizeof_ptrdiff)) as [b|] eqn:Hb; [|discriminate].
  destruct (mempools s !! pool nd) as [m|] eqn:Hm; [|discriminate].
  rewrite (B _ _ Hb). destruct (P _ _ Hm) as (m' & Hm' & Hsz).
  rewrite Hm', Hsz. exact Hs.
Qed.

Lemma block_sized_no_new_nodes (s s' : State) :
  heap_extends s s' -> block_sized s ->
  (forall n, nodes s !! n = None -> nodes s' !! n = None) ->
  block_sized s'.
Proof.
  intros Hext Hs Hold. apply (block_sized_extends s s' Hext Hs).
  intros n nd' Hn' Hn. rewrite (Hold n Hn) in Hn'. discriminate.
Qed.

Lemma block_sized_pool_mem_acquire (cfg : Config) (pl p : Z) (s s1 : State) :
  wf s -> block_sized s -> pool_mem_acquire cfg pl s = Ok p s1 -> block_sized s1.
Proof.
  intros Hwf Hs H.
  pose proof (heap_extends_pool_mem_acquire cfg pl p s s1 Hwf H) as Hext.
  destruct (pool_mem_acquire_cases cfg pl p s s1 Hwf H)
    as (m & Hm & [(_ & _ & [->| ->]) | [(_ & _ & ->) | (nd & Hh & Hn & _ & ->)]]).
  - apply (block_sized_no_new_nodes s _ Hext Hs). auto.
  - apply (block_sized_no_new_nodes s _ Hext Hs).
    intros n Hn. rewrite state_after_buffer_failure_nodes by exact Hwf. exact Hn.
  - apply (block_sized_extends s _ Hext Hs). intros n nd' Hn' Hn.
    assert (Hnodes : nodes (count_alloc cfg pl m (state_after_alloc pl m s)) =
                     <[brk s := mkMemNode NULL (brk s + node_block + sizeof_ptrdiff) pl]> (nodes s))
      by (unfold count_alloc; destruct (track_pool_usage cfg); reflexivity).
    assert (Hbufs : buffers (count_alloc cfg pl m (state_after_alloc pl m s)) =
                    <[brk s + node_block := mkDataBuf (brk s) (mem_size m + sizeof_ptrdiff)]>
                      (buffers s))
      by (unfold count_alloc; destruct (track_pool_usage cfg); reflexivity).
    rewrite Hnodes in Hn'.
    destruct (decide (brk s = n)) as [<-|Hne];
      [|rewrite lookup_insert_ne in Hn' by exact Hne; congruence].
    rewrite lookup_insert_eq in Hn'. inversion Hn'. subst nd'.
    unfold node_sized. cbn [data pool]. rewrite Hbufs.
    replace (brk s + node_block + sizeof_ptrdiff - sizeof_ptrdiff) with (brk s + node_block) by lia.
    rewrite lookup_insert_eq.
    destruct (mempools_count_alloc cfg pl m (state_after_alloc pl m s) pl Hm)
      as (m' & Hm' & _ & Hsz & _).
    rewrite Hm'. cbn [alloc_size]. rewrite Hsz. apply Z.eqb_refl.
  - apply (block_sized_no_new_nodes s _ Hext Hs). auto.
Qed.

Lemma block_sized_pool_mem_return (cfg : Config) (p : Z) (u : unit) (s s' : State) :
  wf s -> block_sized s -> pool_mem_return cfg p s = Ok u s' -> block_sized s'.
Proof.
  intros Hwf Hs H.
  destruct (wf_pool_mem_return cfg p u s s' Hwf H) as (_ & Hext).
  destruct (pool_mem_return_cases cfg p u s s' Hwf H) as (b & nd & m & Hb & Hn & Hm & ->).
  apply (block_sized_no_new_nodes s _ Hext Hs).
  intros n Hnone. unfold state_after_push. state_simpl.
  rewrite lookup_insert_ne; [exact Hnone | congruence].
Qed.

Lemma block_sized_alloc_mem_pool (cfg : Config) (size pl : Z) (s s' : State) :
  wf s -> block_sized s -> alloc_mem_pool cfg size s = Ok pl s' -> block_sized s'.
Proof.
  intros Hwf Hs H.
  destruct (wf_alloc_mem_pool cfg size pl s s' Hwf H) as (_ & Hext).
  apply (block_sized_no_new_nodes s _ Hext Hs).
  destruct (alloc_mem_pool_cases cfg size pl s s' Hwf H) as [(_ & ->)|(_ & ->)]; auto.
Qed.

Lemma multipool_create_nodes (cfg : Config) (mp : Z) (s s' : State) :
  wf s -> multipool_create cfg s = Ok mp s' ->
  nodes s' = nodes s /\ _global_multipool s' = _global_multipool s.
Proof.
  intros Hwf H. destruct (hd true (malloc_script s)) eqn:Hok.
  - destruct (multipool_create_spec cfg s Hwf Hok)
      as (s1 & M & Hrun & _ & _ & _ & _ & Hn & _ & Hg & _).
    rewrite Hrun in H. inversion H. subst. auto.
  - rewrite (multipool_create_no_table cfg s Hok) in H. inversion H. auto.
Qed.

Lemma block_sized_multipool_create (cfg : Config) (mp : Z) (s s' : State) :
  wf s -> block_sized s -> multipool_create cfg s = Ok mp s' -> block_sized s'.
Proof.
  intros Hwf Hs H.
  destruct (wf_multipool_create cfg mp s s' Hwf H) as (_ & Hext).
  apply (block_sized_no_new_nodes s _ Hext Hs).
  intros n Hn. rewrite (proj1 (multipool_create_nodes cfg mp s s' Hwf H)). exact Hn.
Qed.

Lemma block_sized_same_heap (s s' : State) :
  nodes s' = nodes s -> buffers s' = buffers s -> mempools s' = mempools s ->
  block_sized s -> block_sized s'.
Proof.
  intros Hn Hb Hp Hs. unfold block_sized, node_sized in *. rewrite Hn, Hb, Hp. exact Hs.
Qed.

(** Well-formedness and block sizes along a history of calls. *)
Lemma api_calls_block_sized (cfg : Config) (s s' : State) :
  wf s -> block_sized s -> api_calls cfg s s' -> wf s' /\ block_sized s'.
Proof.
  intros Hwf Hs Hcalls. induction Hcalls as
    [s | s s1 s2 pl p Hc IH Hop | s s1 s2 p Hc IH Hop
       | s s1 s2 mp size p Hc IH Hop | s s1 s2 size pl Hc IH Hop
       | s s1 s2 mp Hc IH Hop | s s1 s2 Hc IH Hop | s s1 s2 size p Hc IH Hop].
  - auto.
  - destruct (IH Hwf Hs) as (Hwf1 & Hs1). split.
    + apply (wf_pool_mem_acquire cfg pl p s1 s2 Hwf1 Hop).
    + apply (block_sized_pool_mem_acquire cfg pl p s1 s2 Hwf1 Hs1 Hop).
  - destruct (IH Hwf Hs) as (Hwf1 & Hs1). split.
    + apply (wf_pool_mem_return cfg p tt s1 s2 Hwf1 Hop).
    + apply (block_sized_pool_mem_return cfg p tt s1 s2 Hwf1 Hs1 Hop).
  - destruct (IH Hwf Hs) as (Hwf1 & Hs1).
    destruct (multipool_mem_acquire_cases cfg mp size p s1 s2 Hop) as [(_ & ->)|(pl & Hop')].
    + auto.
    + split.
      * apply (wf_pool_mem_acquire cfg pl p s1 s2 Hwf1 Hop').
      * apply (block_sized_pool_mem_acquire cfg pl p s1 s2 Hwf1 Hs1 Hop').
  - destruct (IH Hwf Hs) as (Hwf1 & Hs1). split.
    + apply (wf_alloc_mem_pool cfg size pl s1 s2 Hwf1 Hop).
    + apply (block_sized_alloc_mem_pool cfg size pl s1 s2 Hwf1 Hs1 Hop).
  - destruct (IH Hwf Hs) as (Hwf1 & Hs1). split.
    + apply (wf_multipool_create cfg mp s1 s2 Hwf1 Hop).
    + apply (block_sized_multipool_create cfg mp s1 s2 Hwf1 Hs1 Hop).
  - destruct (IH Hwf Hs) as (Hwf1 & Hs1). split.
    + apply (wf_global_multipool_create cfg s1 s2 Hwf1 Hop).
    + unfold global_multipool_create in Hop.
      apply bind_Ok_inv in Hop as (mp & s3 & Hcreate & Hset). inversion Hset.
      apply (block_sized_same_heap s3); try reflexivity.
      apply (block_sized_multipool_create cfg mp s1 s3 Hwf1 Hs1 Hcreate).
  - destruct (IH Hwf Hs) as (Hwf1 & Hs1).
    apply global_multipool_mem_acquire_Ok_inv in Hop.
    destruct (multipool_mem_acquire_cases cfg _ size p s1 s2 Hop) as [(_ & ->)|(pl & Hop')].
    + auto.
    + split.
      * apply (wf_pool_mem_acquire cfg pl p s1 s2 Hwf1 Hop').
      * apply (block_sized_pool_mem_acquire cfg pl p s1 s2 Hwf1 Hs1 Hop').
Qed.

Lemma block_sized_initial_state (mscript cscript : list bool) :
  block_sized (initial_state mscript cscript).
Proof. intros n nd H. unfold initial_state in H. state_simpl. rewrite lookup_empty in H. discriminate. Qed.

Lemma pool_mem_acquire_payload (cfg : Config) (P p : Z) (m : MemPool) (s s' : State) :
  wf s -> block_sized s -> mempools s !! P = Some m ->
  pool_mem_acquire cfg P s = Ok p s' -> p <> NULL ->
  payload_size s' p = Some (mem_size m).
Proof.
  intros Hwf Hs Hm H Hp.
  pose proof (block_sized_pool_mem_acquire cfg P p s s' Hwf Hs H) as Hs'.
  pose proof (heap_extends_pool_mem_acquire cfg P p s s' Hwf H) as (_ & _ & Hpools & _).
  destruct (pool_mem_acquire_owned cfg P p s s' Hwf H Hp)
    as (b & nd & m' & Hb & Hn & Hd & Hpool & Hm').
  specialize (Hs' _ _ Hn). cbv beta in Hs'. unfold node_sized in Hs'.
  rewrite Hd, Hpool, Hb, Hm' in Hs'. apply Z.eqb_eq in Hs'.
  destruct (Hpools P m Hm) as (m2 & Hm2 & Hsz). rewrite Hm' in Hm2. inversion Hm2. subst m2.
  unfold payload_size. rewrite Hb. f_equal. lia.
Qed.

(** X3. A pool never hands out a block of another size: in any state reached
    from program start without a teardown, a non-[NULL] pointer returned by
    [pool_mem_acquire], freshly allocated or recycled, is backed by a buffer
    of exactly the pool's [mem_size] bytes. *)
Theorem pool_mem_acquire_block_size
    (cfg : Config) (mscript cscript : list bool) (P p : Z) (m : MemPool) (s s' : State) :
  api_calls cfg (initial_state mscript cscript) s ->
  mempools s !! P = Some m ->
  pool_mem_acquire cfg P s = Ok p s' -> p <> NULL ->
  payload_size s' p = Some (mem_size m).
Proof.
  intros Hcalls Hm H Hp.
  destruct (api_calls_block_sized cfg _ s (wf_initial_state _ _)
              (block_sized_initial_state _ _) Hcalls) as (Hwf & Hs).
  apply (pool_mem_acquire_payload cfg P p m s s' Hwf Hs Hm H Hp).
Qed.

Lemma pool_mem_acquire_block_size_witness :
  api_calls debug_build (initial_state [true] []) (pool_4096_state [] []) /\
  exists s',
    pool_mem_acquire debug_build 4096 (pool_4096_state [] []) = Ok 4152 s' /\
    payload_size s' 4152 = Some 4096.
Proof.
  assert (Hcalls : api_calls debug_build (initial_state [true] []) (pool_4096_state [] [])).
  { apply (api_alloc_mem_pool debug_build _ (initial_state [true] []) _ 4096 4096).
    - apply api_none.
    - reflexivity. }
  split; [exact Hcalls|].
  exists (count_alloc debug_build 4096 pool_4096
            (state_after_alloc 4096 pool_4096 (pool_4096_state [] []))).
  split; [reflexivity|].
  apply (pool_mem_acquire_block_size debug_build [true] [] 4096 4152 pool_4096
           (pool_4096_state [] []) _ Hcalls); [reflexivity | reflexivity | discriminate].
Defined.

(** ** A multipool serves every request with a block that fits *)

Lemma table_ready_extends (s s' : State) (mp : Z) :
  heap_extends s s' -> table_ready s mp -> table_ready s' mp.
Proof.
  intros (_ & _ & P & T) (Hnn & M & HM & Hlen & Hslots).
  split; [exact Hnn|]. exists M. split; [apply T; exact HM|]. split; [exact Hlen|].
  intros i q Hi Hq Hqn. destruct (Hslots i q Hi Hq Hqn) as (m & Hm & Hsz).
  destruct (P q m Hm) as (m' & Hm' & Hsz'). exists m'. split; [exact Hm' | congruence].
Qed.

Lemma table_ready_multipool_create (cfg : Config) (mp : Z) (s s' : State) :
  wf s -> multipool_create cfg s = Ok mp s' -> mp <> NULL -> table_ready s' mp.
Proof.
  intros Hwf H Hnn. destruct (hd true (malloc_script s)) eqn:Hok.
  - destruct (multipool_create_spec cfg s Hwf Hok)
      as (s1 & M & Hrun & _ & _ & HM & Hlen & _ & _ & _ & _ & _ & _ & Hslots).
    rewrite Hrun in H. inversion H. subst mp s1.
    split; [exact Hnn|]. exists M. split; [exact HM|]. split; [exact Hlen|].
    intros i q Hi Hq Hqn. destruct (Hslots i Hi) as (q' & Hq' & Hslot).
    rewrite Hq in Hq'. inversion Hq'. subst q'.
    destruct (nth (S (Z.to_nat i)) (malloc_script s) true).
    + destruct Hslot as (_ & Hpool & _). eexists. split; [exact Hpool | reflexivity].
    + contradiction.
  - rewrite (multipool_create_no_table cfg s Hok) in H. inversion H. congruence.
Qed.

(** A returning [multipool_mem_acquire] with a block in hand went through
    the slot of the size's class. *)
Lemma multipool_mem_acquire_Ok_slot (cfg : Config) (mp size p : Z) (s s' : State) :
  multipool_mem_acquire cfg mp size s = Ok p s' -> p <> NULL ->
  find_multipool_index_for_size size < MULTIPOOL_ENTRY_COUNT /\ mp <> NULL /\
  exists M pl,
    multipools s !! mp = Some M /\
    pools M !! Z.to_nat (find_multipool_index_for_size size) = Some pl /\
    pool_mem_acquire cfg pl s = Ok p s'.
Proof.
  unfold multipool_mem_acquire. intros H Hp.
  apply bind_Ok_inv in H as ([] & s0 & Ha & H).
  apply assert_ret_Ok_inv in Ha. subst s0.
  apply bind_Ok_inv in H as ([] & s0 & Ha & H).
  apply assert_ret_Ok_inv in Ha. subst s0.
  destruct (MULTIPOOL_ENTRY_COUNT <=? find_multipool_index_for_size size) eqn:E.
  - inversion H. congruence.
  - apply Z.leb_gt in E. split; [exact E|].
    apply bind_Ok_inv in H as (pl & s0 & Hl & H).
    pose proof (load_multipool_slot_Ok_inv _ _ _ _ _ Hl). subst s0.
    unfold load_multipool_slot, bind, load_multipool in Hl.
    destruct (mp =? NULL) eqn:Hmp; [discriminate|]. apply Z.eqb_neq in Hmp.
    split; [exact Hmp|].
    destruct (multipools s !! mp) as [M|]; [|discriminate].
    destruct ((0 <=? find_multipool_index_for_size size)
              && (find_multipool_index_for_size size <? MULTIPOOL_ENTRY_COUNT)); [|discriminate].
    destruct (pools M !! Z.to_nat (find_multipool_index_for_size size)) as [q|] eqn:Hq;
      [|discriminate].
    inversion Hl. subst q. exists M, pl. auto.
Qed.

Lemma multipool_mem_acquire_payload (cfg : Config) (mp size p : Z) (s s' : State) :
  wf s -> block_sized s -> table_ready s mp ->
  0 <= size < UINT32_MOD ->
  multipool_mem_acquire cfg mp size s = Ok p s' -> p <> NULL ->
  1 <= size <= 4194304 /\
  payload_size s' p = Some (class_size (find_multipool_index_for_size size)) /\
  size <= class_size (find_multipool_index_for_size size).
Proof.
  intros Hwf Hs (Hnn & M & HM & Hlen & Hslots) Hsize H Hp.
  destruct (multipool_mem_acquire_Ok_slot cfg mp size p s s' H Hp)
    as (Hidx & _ & M' & pl & HM' & Hslot & Hacq).
  rewrite HM in HM'. inversion HM'. subst M'.
  pose proof (proj1 (find_multipool_index_in_table size Hsize) Hidx) as Hrange.
  split; [exact Hrange|].
  destruct (pool_mem_acquire_Ok_live cfg pl p s s' Hacq) as (Hpl & _).
  pose proof (find_multipool_index_upper size Hsize) as Hup.
  destruct (Hslots (find_multipool_index_for_size size) pl (conj (proj1 Hup) Hidx) Hslot Hpl)
    as (m & Hm & Hsz).
  rewrite (pool_mem_acquire_payload cfg pl p m s s' Hwf Hs Hm Hacq Hp), Hsz.
  split; [reflexivity|].
  apply (class_size_fits size Hrange).
Qed.

(** X4. A multipool serves a request with a block that fits: in any state
    reached without a teardown, a non-[NULL] pointer that
    [multipool_mem_acquire] returns for a multipool made by
    [multipool_create] is backed by exactly [512 << index] bytes, which is at
    least the requested size; and the request was between 1 byte and 4 MiB. *)
Theorem multipool_mem_acquire_block_fits
    (cfg : Config) (mscript cscript : list bool) (mp size p : Z) (s0 s1 s s' : State) :
  api_calls cfg (initial_state mscript cscript) s0 ->
  multipool_create cfg s0 = Ok mp s1 ->
  api_calls cfg s1 s ->
  0 <= size < UINT32_MOD ->
  multipool_mem_acquire cfg mp size s = Ok p s' -> p <> NULL ->
  1 <= size <= 4194304 /\
  payload_size s' p = Some (Z.shiftl 512 (find_multipool_index_for_size size)) /\
  size <= Z.shiftl 512 (find_multipool_index_for_size size).
Proof.
  intros Hcalls0 Hcreate Hcalls Hsize H Hp.
  destruct (api_calls_block_sized cfg _ s0 (wf_initial_state _ _)
              (block_sized_initial_state _ _) Hcalls0) as (Hwf0 & Hs0).
  destruct (wf_multipool_create cfg mp s0 s1 Hwf0 Hcreate) as (Hwf1 & _).
  pose proof (block_sized_multipool_create cfg mp s0 s1 Hwf0 Hs0 Hcreate) as Hs1.
  destruct (api_calls_block_sized cfg s1 s Hwf1 Hs1 Hcalls) as (Hwf & Hs).
  destruct (multipool_mem_acquire_Ok_slot cfg mp size p s s' H Hp) as (_ & Hnn & _).
  pose proof (table_ready_multipool_create cfg mp s0 s1 Hwf0 Hcreate Hnn) as Hready1.
  destruct (api_calls_wf cfg s1 s Hwf1 Hcalls) as (_ & Hext).
  pose proof (table_ready_extends s1 s mp Hext Hready1) as Hready.
  apply (multipool_mem_acquire_payload cfg mp size p s s' Hwf Hs Hready Hsize H Hp).
Qed.

Lemma multipool_mem_acquire_block_fits_witness :
  exists s1 s',
    multipool_create debug_build (initial_state [] []) = Ok 4096 s1 /\
    multipool_mem_acquire debug_build 4096 3000 s1 = Ok 4472 s' /\
    payload_size s' 4472 = Some 4096.
Proof.
  set (s1 := match multipool_create debug_build (initial_state [] []) with
             | Ok _ s => s | _ => initial_state [] [] end).
  set (s' := match multipool_mem_acquire debug_build 4096 3000 s1 with
             | Ok _ s => s | _ => initial_state [] [] end).
  assert (Hcreate : multipool_create debug_build (initial_state [] []) = Ok 4096 s1)
    by (vm_compute; reflexivity).
  assert (Hacq : multipool_mem_acquire debug_build 4096 3000 s1 = Ok 4472 s')
    by (vm_compute; reflexivity).
  exists s1, s'. split; [exact Hcreate|]. split; [exact Hacq|].
  apply (multipool_mem_acquire_block_fits debug_build [] [] 4096 3000 4472
           (initial_state [] []) s1 s1 s' (api_none _ _) Hcreate (api_none _ _)).
  - unfold UINT32_MOD. lia.
  - exact Hacq.
  - discriminate.
Defined.

(** ** The global multipool between creation and teardown *)

Lemma pool_mem_acquire_keeps_global (cfg : Config) (pl p : Z) (s s' : State) :
  wf s -> pool_mem_acquire cfg pl s = Ok p s' -> _global_multipool s' = _global_multipool s.
Proof.
  intros Hwf H.
  destruct (pool_mem_acquire_cases cfg pl p s s' Hwf H)
    as (m & Hm & [(_ & _ & [->| ->]) | [(_ & _ & ->) | (nd & Hh & Hn & _ & ->)]]);
    try reflexivity.
  unfold count_alloc. destruct (track_pool_usage cfg); reflexivity.
Qed.

Lemma multipool_mem_acquire_keeps_global (cfg : Config) (mp size p : Z) (s s' : State) :
  wf s -> multipool_mem_acquire cfg mp size s = Ok p s' ->
  _global_multipool s' = _global_multipool s.
Proof.
  intros Hwf H.
  destruct (multipool_mem_acquire_cases cfg mp size p s s' H) as [(_ & ->)|(pl & H')].
  - reflexivity.
  - apply (pool_mem_acquire_keeps_global cfg pl p s s' Hwf H').
Qed.

Lemma global_ready_step (s s' : State) :
  heap_extends s s' -> _global_multipool s' = _global_multipool s ->
  global_ready s -> global_ready s'.
Proof.
  intros Hext Hg [Hnull|Hready]; unfold global_ready; rewrite Hg.
  - left. exact Hnull.
  - right. apply (table_ready_extends s s' _ Hext Hready).
Qed.

Lemma api_calls_global_ready (cfg : Config) (s s' : State) :
  wf s -> global_ready s -> api_calls cfg s s' -> global_ready s'.
Proof.
  intros Hwf Hg Hcalls. induction Hcalls as
    [s | s s1 s2 pl p Hc IH Hop | s s1 s2 p Hc IH Hop
       | s s1 s2 mp size p Hc IH Hop | s s1 s2 size pl Hc IH Hop
       | s s1 s2 mp Hc IH Hop | s s1 s2 Hc IH Hop | s s1 s2 size p Hc IH Hop];
    [exact Hg | | | | | | |];
    destruct (api_calls_wf cfg s s1 Hwf Hc) as (Hwf1 & _); specialize (IH Hwf Hg).
  - apply (global_ready_step s1 s2); [| |exact IH].
    + apply (heap_extends_pool_mem_acquire cfg pl p s1 s2 Hwf1 Hop).
    + apply (pool_mem_acquire_keeps_global cfg pl p s1 s2 Hwf1 Hop).
  - destruct (pool_mem_return_cases cfg p tt s1 s2 Hwf1 Hop) as (b & nd & m & _ & _ & _ & Heq).
    apply (global_ready_step s1 s2); [| |exact IH].
    + apply (wf_pool_mem_return cfg p tt s1 s2 Hwf1 Hop).
    + rewrite Heq. reflexivity.
  - destruct (multipool_mem_acquire_cases cfg mp size p s1 s2 Hop) as [(_ & ->)|(pl & Hop')];
      [exact IH|].
    apply (global_ready_step s1 s2); [| |exact IH].
    + apply (heap_extends_pool_mem_acquire cfg pl p s1 s2 Hwf1 Hop').
    + apply (pool_mem_acquire_keeps_global cfg pl p s1 s2 Hwf1 Hop').
  - apply (global_ready_step s1 s2); [| |exact IH].
    + apply (wf_alloc_mem_pool cfg size pl s1 s2 Hwf1 Hop).
    + destruct (alloc_mem_pool_cases cfg size pl s1 s2 Hwf1 Hop) as [(_ & ->)|(_ & ->)];
        reflexivity.
  - apply (global_ready_step s1 s2); [| |exact IH].
    + apply (wf_multipool_create cfg mp s1 s2 Hwf1 Hop).
    + apply (multipool_create_nodes cfg mp s1 s2 Hwf1 Hop).
  - unfold global_multipool_create in Hop.
    apply bind_Ok_inv in Hop as (mp & s3 & Hcreate & Hset). inversion Hset.
    unfold global_ready. state_simpl.
    destruct (Z.eq_dec mp NULL) as [Hz|Hnz]; [left; exact Hz|right].
    pose proof (table_ready_multipool_create cfg mp s1 s3 Hwf1 Hcreate Hnz) as Hready.
    apply (table_ready_extends s3); [apply heap_extends_same; reflexivity | exact Hready].
  - apply global_multipool_mem_acquire_Ok_inv in Hop.
    destruct (multipool_mem_acquire_cases cfg _ size p s1 s2 Hop) as [(_ & ->)|(pl & Hop')];
      [exact IH|].
    apply (global_ready_step s1 s2); [| |exact IH].
    + apply (heap_extends_pool_mem_acquire cfg pl p s1 s2 Hwf1 Hop').
    + apply (pool_mem_acquire_keeps_global cfg pl p s1 s2 Hwf1 Hop').
Qed.

Lemma global_ready_initial_state (mscript cscript : list bool) :
  global_ready (initial_state mscript cscript).
Proof. left. reflexivity. Qed.

Lemma wrap32_range (x : Z) : 0 <= wrap32 x < UINT32_MOD.
Proof. apply Z.mod_pos_bound. reflexivity. Qed.

Lemma wrap32_idem (x : Z) : wrap32 (wrap32 x) = wrap32 x.
Proof. apply wrap32_small, wrap32_range. Qed.

(** What [pool_alloc] returns in a state reached without a teardown. *)
Lemma pool_alloc_payload (cfg : Config) (mscript cscript : list bool) (size p : Z)
    (s s' : State) :
  api_calls cfg (initial_state mscript cscript) s ->
  pool_alloc cfg size s = Ok p s' -> p <> NULL ->
  1 <= wrap32 size <= 4194304 /\
  payload_size s' p = Some (class_size (find_multipool_index_for_size (wrap32 size))) /\
  wrap32 size <= class_size (find_multipool_index_for_size (wrap32 size)).
Proof.
  intros Hcalls H Hp. unfold pool_alloc in H.
  apply global_multipool_mem_acquire_Ok_inv in H.
  destruct (api_calls_block_sized cfg _ s (wf_initial_state _ _)
              (block_sized_initial_state _ _) Hcalls) as (Hwf & Hs).
  pose proof (api_calls_global_ready cfg _ s (wf_initial_state _ _)
                (global_ready_initial_state _ _) Hcalls) as Hg.
  destruct (multipool_mem_acquire_Ok_slot cfg _ _ p s s' H Hp) as (_ & Hnn & _).
  destruct Hg as [Hnull|Hready]; [contradiction|].
  apply (multipool_mem_acquire_payload cfg _ _ p s s' Hwf Hs Hready (wrap32_range size) H Hp).
Qed.

Lemma class_size_at_most_4MiB (k : Z) :
  0 <= k < MULTIPOOL_ENTRY_COUNT -> class_size k <= 4194304.
Proof.
  intros Hk. unfold MULTIPOOL_ENTRY_COUNT in Hk. rewrite class_size_pow2 by lia.
  pose proof (pow2_le_mono k 13 ltac:(lia)) as Hp. change (2 ^ 13) with 8192 in Hp. lia.
Qed.

(** X5. [pool_alloc] takes a [size_t] but serves only its low 32 bits: a
    non-[NULL] result is a block of the class of [size mod 2^32]. It is at
    least [size] bytes when [size] fits in 32 bits, and smaller than [size]
    when it does not. *)
Theorem pool_alloc_truncates_size
    (cfg : Config) (mscript cscript : list bool) (size p : Z) (s s' : State) :
  api_calls cfg (initial_state mscript cscript) s ->
  0 <= size < SIZE_MOD ->
  pool_alloc cfg size s = Ok p s' -> p <> NULL ->
  exists bytes,
    payload_size s' p = Some bytes /\
    bytes = Z.shiftl 512 (find_multipool_index_for_size (size mod 2 ^ 32)) /\
    size mod 2 ^ 32 <= bytes <= 4194304 /\
    (size < 2 ^ 32 -> size <= bytes) /\
    (2 ^ 32 <= size -> bytes < size).
Proof.
  intros Hcalls Hsize H Hp.
  destruct (pool_alloc_payload cfg mscript cscript size p s s' Hcalls H Hp)
    as (Hrange & Hpay & Hfit).
  pose proof (find_multipool_index_in_range _ Hrange) as Hidx.
  pose proof (class_size_at_most_4MiB _ Hidx) as Hmax.
  eexists. split; [exact Hpay|]. split; [reflexivity|].
  change (size mod 2 ^ 32) with (wrap32 size). fold (class_size (find_multipool_index_for_size (wrap32 size))).
  split; [lia|]. split.
  - intros Hlt. pose proof (wrap32_small size ltac:(unfold UINT32_MOD; lia)) as E. lia.
  - intros Hge. lia.
Qed.

(** X6. [zlib_custom_alloc] multiplies [nmembers] by [msize] in 32 bits and
    does not check for overflow: a non-[NULL] result has room for
    [nmembers * msize] bytes when the product fits in 32 bits, and is smaller
    than [nmembers * msize] when the product overflows. *)
Theorem zlib_custom_alloc_block
    (cfg : Config) (mscript cscript : list bool) (q nmembers msize p : Z) (s s' : State) :
  api_calls cfg (initial_state mscript cscript) s ->
  0 <= nmembers < UINT32_MOD -> 0 <= msize < UINT32_MOD ->
  zlib_custom_alloc cfg q nmembers msize s = Ok p s' -> p <> NULL ->
  exists bytes,
    payload_size s' p = Some bytes /\
    (nmembers * msize) mod 2 ^ 32 <= bytes <= 4194304 /\
    (nmembers * msize < 2 ^ 32 -> nmembers * msize <= bytes) /\
    (2 ^ 32 <= nmembers * msize -> bytes < nmembers * msize).
Proof.
  intros Hcalls Hn Hm H Hp. unfold zlib_custom_alloc in H.
  destruct (pool_alloc_payload cfg mscript cscript _ p s s' Hcalls H Hp)
    as (Hrange & Hpay & Hfit).
  rewrite wrap32_idem in Hrange, Hpay, Hfit.
  pose proof (find_multipool_index_in_range _ Hrange) as Hidx.
  pose proof (class_size_at_most_4MiB _ Hidx) as Hmax.
  eexists. split; [exact Hpay|].
  change ((nmembers * msize) mod 2 ^ 32) with (wrap32 (nmembers * msize)).
  split; [lia|]. split.
  - intros Hlt.
    pose proof (wrap32_small (nmembers * msize) ltac:(unfold UINT32_MOD in *; nia)) as E. lia.
  - intros Hge. lia.
Qed.

Lemma global_created_state_reached :
  api_calls debug_build (initial_state [] []) global_created_state.
Proof.
  apply (api_global_multipool_create debug_build _ (initial_state [] []) _ (api_none _ _)).
  vm_compute. reflexivity.
Qed.

Lemma pool_alloc_truncates_size_witness :
  exists s',
    pool_alloc debug_build (2 ^ 32 + 3000) global_created_state = Ok 4472 s' /\
    exists bytes, payload_size s' 4472 = Some bytes /\
      bytes = Z.shiftl 512 (find_multipool_index_for_size ((2 ^ 32 + 3000) mod 2 ^ 32)) /\
      (2 ^ 32 + 3000) mod 2 ^ 32 <= bytes <= 4194304 /\
      (2 ^ 32 + 3000 < 2 ^ 32 -> 2 ^ 32 + 3000 <= bytes) /\
      (2 ^ 32 <= 2 ^ 32 + 3000 -> bytes < 2 ^ 32 + 3000).
Proof.
  set (s' := match pool_alloc debug_build (2 ^ 32 + 3000) global_created_state with
             | Ok _ s => s | _ => initial_state [] [] end).
  assert (Hacq : pool_alloc debug_build (2 ^ 32 + 3000) global_created_state = Ok 4472 s')
    by (vm_compute; reflexivity).
  exists s'. split; [exact Hacq|].
  apply (pool_alloc_truncates_size debug_build [] [] (2 ^ 32 + 3000) 4472
           global_created_state s' global_created_state_reached).
  - unfold SIZE_MOD. lia.
  - exact Hacq.
  - discriminate.
Defined.

Lemma zlib_custom_alloc_block_witness :
  exists s',
    zlib_custom_alloc debug_build 0 65536 65537 global_created_state = Ok 4472 s' /\
    exists bytes, payload_size s' 4472 = Some bytes /\
      (65536 * 65537) mod 2 ^ 32 <= bytes <= 4194304 /\
      (65536 * 65537 < 2 ^ 32 -> 65536 * 65537 <= bytes) /\
      (2 ^ 32 <= 65536 * 65537 -> bytes < 65536 * 65537).
Proof.
  set (s' := match zlib_custom_alloc debug_build 0 65536 65537 global_created_state with
             | Ok _ s => s | _ => initial_state [] [] end).
  assert (Hacq : zlib_custom_alloc debug_build 0 65536 65537 global_created_state = Ok 4472 s')
    by (vm_compute; reflexivity).
  exists s'. split; [exact Hacq|].
  apply (zlib_custom_alloc_block debug_build [] [] 0 65536 65537 4472
           global_created_state s' global_created_state_reached).
  - unfold UINT32_MOD. lia.
  - unfold UINT32_MOD. lia.
  - exact Hacq.
  - discriminate.
Defined.

(** ** The free list is a stack *)

Lemma owned_nonnull (s : State) (P p : Z) : wf s -> owned s P p -> p <> NULL.
Proof.
  intros Hwf (b & _ & _ & Hb & _).
  pose proof (wf_buffer_below s _ b Hwf Hb) as Hbb.
  unfold NULL, sizeof_ptrdiff in *. lia.
Qed.

(** Returning an owned pointer pushes its node. *)
Lemma pool_mem_return_owned (cfg : Config) (P p : Z) (s : State) :
  wf s -> owned s P p ->
  exists b nd m,
    owner_word b <> NULL /\ P <> NULL /\
    buffers s !! (p - sizeof_ptrdiff) = Some b /\
    nodes s !! owner_word b = Some nd /\ data nd = p /\ pool nd = P /\
    mempools s !! P = Some m /\
    pool_mem_return cfg p s = Ok tt (state_after_push cfg P m (owner_word b) nd s).
Proof.
  intros Hwf Hown. pose proof (owned_nonnull s P p Hwf Hown) as Hp.
  destruct Hown as (b & nd & m & Hb & Hn & Hd & Hpool & Hm).
  pose proof (wf_buffer_below s _ b Hwf Hb) as Hbb.
  pose proof (wf_node_below s _ nd Hwf Hn) as Hnb.
  pose proof (wf_pool_below s _ m Hwf Hm) as Hpb.
  assert (Hp8 : p - sizeof_ptrdiff <> NULL) by (unfold NULL; lia).
  assert (Hnn : owner_word b <> NULL) by (unfold NULL; lia).
  assert (HP : P <> NULL) by (unfold NULL; lia).
  exists b, nd, m.
  split; [exact Hnn|]. split; [exact HP|]. split; [exact Hb|]. split; [exact Hn|].
  split; [exact Hd|].
  split; [exact Hpool|]. split; [exact Hm|].
  apply (pool_mem_return_push cfg p P (owner_word b) b nd m s); auto.
Qed.

(** X7. The free list of a pool is a stack: after [pool_mem_return(a)] and
    then [pool_mem_return(b)] for two different blocks of the pool, the next
    [pool_mem_acquire] returns [b] and the one after it returns [a]; neither
    calls [malloc], and the pool's head is then what it was before. *)
Theorem pool_mem_acquire_last_returned_first
    (cfg : Config) (P a b : Z) (m : MemPool) (s : State) :
  wf s -> owned s P a -> owned s P b -> a <> b ->
  mempools s !! P = Some m ->
  exists s1 s2 s3 s4 m4,
    pool_mem_return cfg a s = Ok tt s1 /\
    pool_mem_return cfg b s1 = Ok tt s2 /\
    pool_mem_acquire cfg P s2 = Ok b s3 /\
    pool_mem_acquire cfg P s3 = Ok a s4 /\
    malloc_calls s4 = malloc_calls s /\
    mempools s4 !! P = Some m4 /\ head m4 = head m /\
    owned s4 P a /\ owned s4 P b.
Proof.
  intros Hwf Ha Hb Hab Hm.
  destruct (pool_mem_return_owned cfg P a s Hwf Ha)
    as (ba & nda & m0 & Hna & HP & _ & Hla & Hda & Hpa & Hm0 & Hret1).
  assert (m0 = m) by congruence. subst m0.
  set (na := owner_word ba) in *.
  set (s1 := state_after_push cfg P m na nda s) in *.
  assert (Hwf1 : wf s1) by (apply wf_state_after_push; assumption).
  assert (Hext1 : heap_extends s s1) by (apply heap_extends_state_after_push; assumption).
  pose proof (owned_heap_extends s s1 P b Hext1 Hb) as Hb1.
  destruct (pool_mem_return_owned cfg P b s1 Hwf1 Hb1)
    as (bb & ndb & m1 & Hnb & _ & _ & Hlb & Hdb & Hpb & Hm1 & Hret2).
  set (nb := owner_word bb) in *.
  set (s2 := state_after_push cfg P m1 nb ndb s1) in *.
  assert (Hm1' : m1 = count_returned cfg (with_head na m)).
  { unfold s1, state_after_push in Hm1. state_simpl.
    rewrite lookup_insert_eq in Hm1. congruence. }
  assert (Hla1 : nodes s1 !! na = Some (with_next (head m) nda)).
  { unfold s1, state_after_push. state_simpl. apply lookup_insert_eq. }
  assert (Hne : na <> nb).
  { intros E. rewrite <- E, Hla1 in Hlb. inversion Hlb. subst ndb.
    cbn [data with_next] in Hdb. congruence. }
  assert (Hwf2 : wf s2) by (apply wf_state_after_push; assumption).
  assert (Hext2 : heap_extends s1 s2) by (apply heap_extends_state_after_push; assumption).
  set (m2 := count_returned cfg (with_head nb m1)).
  set (ndb2 := with_next (head m1) ndb).
  assert (Hm2 : mempools s2 !! P = Some m2) by apply lookup_insert_eq.
  assert (Hh2 : head m2 = nb)
    by (unfold m2; rewrite (proj1 (head_count_returned cfg _)); reflexivity).
  assert (Hlb2 : nodes s2 !! head m2 = Some ndb2).
  { rewrite Hh2. unfold s2, state_after_push. state_simpl. apply lookup_insert_eq. }
  assert (Hh1 : head m1 = na)
    by (rewrite Hm1'; rewrite (proj1 (head_count_returned cfg _)); reflexivity).
  set (s3 := state_after_pop cfg P m2 ndb2 s2).
  assert (Hacq1 : pool_mem_acquire cfg P s2 = Ok b s3).
  { rewrite (pool_mem_acquire_pop cfg P m2 ndb2 s2 HP Hm2); [| congruence | exact Hlb2].
    unfold ndb2. cbn [data with_next]. rewrite Hdb. reflexivity. }
  assert (Hwf3 : wf s3) by (apply wf_state_after_pop; try assumption; congruence).
  assert (Hext3 : heap_extends s2 s3) by (apply heap_extends_state_after_pop; exact Hm2).
  set (m3 := count_unavailable cfg (with_head (next ndb2) m2)).
  assert (Hm3 : mempools s3 !! P = Some m3) by apply lookup_insert_eq.
  assert (Hh3 : head m3 = na).
  { unfold m3. rewrite (proj1 (head_count_unavailable cfg _)).
    unfold ndb2. cbn [head with_head next with_next]. exact Hh1. }
  set (nda3 := with_next (head m) nda).
  assert (Hla3 : nodes s3 !! head m3 = Some nda3).
  { rewrite Hh3. change (nodes s3) with (<[nb := ndb2]> (nodes s1)).
    rewrite lookup_insert_ne by congruence. exact Hla1. }
  set (s4 := state_after_pop cfg P m3 nda3 s3).
  assert (Hacq2 : pool_mem_acquire cfg P s3 = Ok a s4).
  { rewrite (pool_mem_acquire_pop cfg P m3 nda3 s3 HP Hm3); [| congruence | exact Hla3].
    unfold nda3. cbn [data with_next]. rewrite Hda. reflexivity. }
  assert (Hext4 : heap_extends s3 s4) by (apply heap_extends_state_after_pop; exact Hm3).
  assert (Hext : heap_extends s s4).
  { apply (heap_extends_trans _ s1); [exact Hext1|].
    apply (heap_extends_trans _ s2); [exact Hext2|].
    apply (heap_extends_trans _ s3); [exact Hext3 | exact Hext4]. }
  exists s1, s2, s3, s4, (count_unavailable cfg (with_head (next nda3) m3)).
  split; [exact Hret1|]. split; [exact Hret2|]. split; [exact Hacq1|].
  split; [exact Hacq2|]. split; [reflexivity|].
  split; [apply lookup_insert_eq|].
  split; [rewrite (proj1 (head_count_unavailable cfg _)); reflexivity|].
  split; apply (owned_heap_extends s s4); assumption.
Qed.

(** X8. A block returned twice is handed out twice: after two calls of
    [pool_mem_return(p)] the node of [p] is its own successor, so the next
    two calls of [pool_mem_acquire] both return [p] (without calling
    [malloc]), and the node is still at the head of the free list. *)
Theorem pool_mem_return_twice_issues_block_twice
    (cfg : Config) (P p : Z) (s : State) :
  wf s -> owned s P p ->
  exists s1 s2 s3 s4 m4 nd4,
    pool_mem_return cfg p s = Ok tt s1 /\
    pool_mem_return cfg p s1 = Ok tt s2 /\
    pool_mem_acquire cfg P s2 = Ok p s3 /\
    pool_mem_acquire cfg P s3 = Ok p s4 /\
    malloc_calls s4 = malloc_calls s /\
    mempools s4 !! P = Some m4 /\ head m4 <> NULL /\
    nodes s4 !! head m4 = Some nd4 /\ data nd4 = p /\ next nd4 = head m4.
Proof.
  intros Hwf Hown.
  destruct (pool_mem_return_owned cfg P p s Hwf Hown)
    as (b & nd & m & Hnn & HP & Hb & Hn & Hd & Hpool & Hm & Hret1).
  set (n := owner_word b) in *.
  set (s1 := state_after_push cfg P m n nd s) in *.
  assert (Hwf1 : wf s1) by (apply wf_state_after_push; assumption).
  assert (Hext1 : heap_extends s s1) by (apply heap_extends_state_after_push; assumption).
  pose proof (owned_heap_extends s s1 P p Hext1 Hown) as Hown1.
  destruct (pool_mem_return_owned cfg P p s1 Hwf1 Hown1)
    as (b1 & nd1 & m1 & _ & _ & Hb1 & Hn1 & Hd1 & Hpool1 & Hm1 & Hret2).
  assert (b1 = b) by (change (buffers s1) with (buffers s) in Hb1; congruence).
  subst b1. fold n in Hn1, Hret2.
  assert (Hm1' : m1 = count_returned cfg (with_head n m)).
  { unfold s1, state_after_push in Hm1. state_simpl.
    rewrite lookup_insert_eq in Hm1. congruence. }
  assert (Hh1 : head m1 = n)
    by (rewrite Hm1'; rewrite (proj1 (head_count_returned cfg _)); reflexivity).
  assert (Hnd1 : nd1 = with_next (head m) nd).
  { unfold s1, state_after_push in Hn1. state_simpl.
    rewrite lookup_insert_eq in Hn1. congruence. }
  set (s2 := state_after_push cfg P m1 n nd1 s1) in *.
  assert (Hwf2 : wf s2) by (apply wf_state_after_push; assumption).
  set (m2 := count_returned cfg (with_head n m1)).
  set (nd2 := with_next (head m1) nd1).
  assert (Hm2 : mempools s2 !! P = Some m2) by apply lookup_insert_eq.
  assert (Hh2 : head m2 = n)
    by (unfold m2; rewrite (proj1 (head_count_returned cfg _)); reflexivity).
  assert (Hn2 : nodes s2 !! head m2 = Some nd2).
  { rewrite Hh2. unfold s2, state_after_push. state_simpl. apply lookup_insert_eq. }
  assert (Hdata2 : data nd2 = p) by (unfold nd2; cbn [data with_next]; exact Hd1).
  assert (Hnext2 : next nd2 = n) by (unfold nd2; cbn [next with_next]; exact Hh1).
  set (s3 := state_after_pop cfg P m2 nd2 s2).
  assert (Hacq1 : pool_mem_acquire cfg P s2 = Ok p s3).
  { rewrite (pool_mem_acquire_pop cfg P m2 nd2 s2 HP Hm2); [| congruence | exact Hn2].
    rewrite Hdata2. reflexivity. }
  set (m3 := count_unavailable cfg (with_head (next nd2) m2)).
  assert (Hm3 : mempools s3 !! P = Some m3) by apply lookup_insert_eq.
  assert (Hh3 : head m3 = n).
  { unfold m3. rewrite (proj1 (head_count_unavailable cfg _)).
    cbn [head with_head]. exact Hnext2. }
  assert (Hn3 : nodes s3 !! head m3 = Some nd2).
  { rewrite Hh3, <- Hh2. exact Hn2. }
  set (s4 := state_after_pop cfg P m3 nd2 s3).
  assert (Hacq2 : pool_mem_acquire cfg P s3 = Ok p s4).
  { rewrite (pool_mem_acquire_pop cfg P m3 nd2 s3 HP Hm3); [| congruence | exact Hn3].
    rewrite Hdata2. reflexivity. }
  exists s1, s2, s3, s4, (count_unavailable cfg (with_head (next nd2) m3)), nd2.
  assert (Hh4 : head (count_unavailable cfg (with_head (next nd2) m3)) = n).
  { rewrite (proj1 (head_count_unavailable cfg _)). cbn [head with_head]. exact Hnext2. }
  split; [exact Hret1|]. split; [exact Hret2|]. split; [exact Hacq1|].
  split; [exact Hacq2|]. split; [reflexivity|].
  split; [apply lookup_insert_eq|].
  rewrite Hh4. split; [exact Hnn|]. split; [rewrite <- Hh3; exact Hn3|].
  split; [exact Hdata2 | exact Hnext2].
Qed.

Lemma wf_two_blocks_state : wf two_blocks_state.
Proof. apply (bool_decide_unpack _). vm_compute. exact I. Qed.

Lemma owned_two_blocks_state_first : owned two_blocks_state 4096 4152.
Proof.
  exists (mkDataBuf 4112 4104), (mkMemNode 0 4152 4096), pool_4096.
  split; [vm_compute; reflexivity|]. split; [vm_compute; reflexivity|].
  split; [reflexivity|]. split; [reflexivity | vm_compute; reflexivity].
Qed.

Lemma owned_two_blocks_state_second : owned two_blocks_state 4096 8296.
Proof.
  exists (mkDataBuf 8256 4104), (mkMemNode 0 8296 4096), pool_4096.
  split; [vm_compute; reflexivity|]. split; [vm_compute; reflexivity|].
  split; [reflexivity|]. split; [reflexivity | vm_compute; reflexivity].
Qed.

Lemma pool_mem_acquire_last_returned_first_witness :
  exists s1 s2 s3 s4 m4,
    pool_mem_return debug_build 4152 two_blocks_state = Ok tt s1 /\
    pool_mem_return debug_build 8296 s1 = Ok tt s2 /\
    pool_mem_acquire debug_build 4096 s2 = Ok 8296 s3 /\
    pool_mem_acquire debug_build 4096 s3 = Ok 4152 s4 /\
    malloc_calls s4 = malloc_calls two_blocks_state /\
    mempools s4 !! 4096 = Some m4 /\ head m4 = head pool_4096 /\
    owned s4 4096 4152 /\ owned s4 4096 8296.
Proof.
  apply (pool_mem_acquire_last_returned_first debug_build 4096 4152 8296 pool_4096
           two_blocks_state wf_two_blocks_state
           owned_two_blocks_state_first owned_two_blocks_state_second).
  - lia.
  - vm_compute. reflexivity.
Defined.

Lemma pool_mem_return_twice_issues_block_twice_witness :
  exists s1 s2 s3 s4 m4 nd4,
    pool_mem_return debug_build 4152 two_blocks_state = Ok tt s1 /\
    pool_mem_return debug_build 4152 s1 = Ok tt s2 /\
    pool_mem_acquire debug_build 4096 s2 = Ok 4152 s3 /\
    pool_mem_acquire debug_build 4096 s3 = Ok 4152 s4 /\
    malloc_calls s4 = malloc_calls two_blocks_state /\
    mempools s4 !! 4096 = Some m4 /\ head m4 <> NULL /\
    nodes s4 !! head m4 = Some nd4 /\ data nd4 = 4152 /\ next nd4 = head m4.
Proof.
  apply (pool_mem_return_twice_issues_block_twice debug_build 4096 4152
           two_blocks_state wf_two_blocks_state owned_two_blocks_state_first).
Defined.

(** ** Teardown of a pool with cached blocks *)

Lemma free_poolable_mem_run (cfg : Config) (n : Z) (nd : MemNode) (b : DataBuf) (s : State) :
  n <> NULL -> nodes s !! n = Some nd -> data nd - sizeof_ptrdiff <> NULL ->
  buffers s !! (data nd - sizeof_ptrdiff) = Some b ->
  free_poolable_mem cfg n s =
    Ok tt (set_nodes (delete n) (set_buffers (delete (data nd - sizeof_ptrdiff)) s)).
Proof.
  intros Hn Hnd Hd Hb. unfold free_poolable_mem.
  rewrite (bind_Ok _ _ s s tt) by (apply assert_nonnull_pass; exact Hn).
  rewrite (bind_Ok _ _ _ _ _ (load_node_live n nd s Hn Hnd)).
  unfold bind, free_buffer, free_node.
  rewrite (eqb_NULL_false _ Hd), Hb, (eqb_NULL_false _ Hn). state_simpl.
  rewrite Hnd. reflexivity.
Qed.

Lemma pool_mem_free_all_loop_turn (cfg : Config) (pl : Z) (fuel : nat) (n : Z)
    (nd : MemNode) (m : MemPool) (b : DataBuf) (s : State) :
  pl <> NULL -> n <> NULL -> mempools s !! pl = Some m -> nodes s !! n = Some nd ->
  data nd - sizeof_ptrdiff <> NULL -> buffers s !! (data nd - sizeof_ptrdiff) = Some b ->
  pool_mem_free_all_loop cfg (S fuel) pl n s =
    pool_mem_free_all_loop cfg fuel pl (next nd) (state_after_free_turn cfg pl m n nd s).
Proof.
  intros Hpl Hn Hm Hnd Hd Hb. cbn [pool_mem_free_all_loop].
  rewrite (eqb_NULL_false _ Hn).
  rewrite (bind_Ok _ _ _ _ _ (load_node_live n nd s Hn Hnd)).
  rewrite (bind_Ok _ _ _ _ _ (store_pool_live pl (with_head (next nd)) m s Hpl Hm)).
  rewrite (bind_Ok _ _ _ _ _
             (free_poolable_mem_run cfg n nd b
                (set_mempools <[pl := with_head (next nd) m]> s) Hn Hnd Hd Hb)).
  change (set_nodes (delete n)
            (set_buffers (delete (data nd - sizeof_ptrdiff))
               (set_mempools <[pl := with_head (next nd) m]> s)))
    with (set_mempools <[pl := with_head (next nd) m]>
            (set_nodes (delete n) (set_buffers (delete (data nd - sizeof_ptrdiff)) s))).
  rewrite (bind_Ok _ _ _ _ _ (track_pool_usage_memnode_unavailable_run cfg pl _ _ Hpl)).
  unfold bind at 1.
  rewrite (load_pool_live pl (count_unavailable cfg (with_head (next nd) m)));
    [| exact Hpl | apply lookup_insert_eq].
  rewrite (proj1 (head_count_unavailable cfg _)). reflexivity.
Qed.

Lemma free_list_delete (s s1 : State) (n : Z) (chain : list Z) (h : Z) :
  nodes s1 = delete n (nodes s) -> n ∉ chain ->
  free_list s h chain -> free_list s1 h chain.
Proof.
  intros Hnodes. revert h. induction chain as [|k rest IH]; intros h Hnot H.
  - exact H.
  - destruct H as (-> & Hk & nd & Hnd & Hrest).
    apply not_elem_of_cons in Hnot as (Hne & Hnot).
    split; [reflexivity|]. split; [exact Hk|]. exists nd. split.
    + rewrite Hnodes, lookup_delete_ne by congruence. exact Hnd.
    + apply IH; assumption.
Qed.

Lemma free_list_unique (s : State) (c1 : list Z) :
  forall c2 h, free_list s h c1 -> free_list s h c2 -> c1 = c2.
Proof.
  induction c1 as [|n rest IH]; intros [|n' rest'] h H1 H2.
  - reflexivity.
  - destruct H2 as (-> & Hn & _). contradiction.
  - destruct H1 as (-> & Hn & _). contradiction.
  - destruct H1 as (-> & _ & nd & Hnd & H1). destruct H2 as (<- & _ & nd' & Hnd' & H2).
    rewrite Hnd in Hnd'. inversion Hnd'. subst nd'.
    f_equal. apply (IH rest' (next nd)); assumption.
Qed.

Lemma free_list_suffix (s : State) (c1 : list Z) :
  forall h n c2, free_list s h (c1 ++ n :: c2) -> free_list s n (n :: c2).
Proof.
  induction c1 as [|k rest IH]; intros h n c2 H.
  - destruct H as (-> & H). split; [reflexivity | exact H].
  - destruct H as (_ & _ & nd & _ & H). apply (IH _ _ _ H).
Qed.

(** A list that reaches [NULL] visits no node twice. *)
Lemma free_list_NoDup (s : State) (chain : list Z) :
  forall h, free_list s h chain -> NoDup chain.
Proof.
  induction chain as [|n rest IH]; intros h H; [constructor|].
  pose proof H as (-> & _ & nd & _ & Hrest).
  constructor; [|apply (IH _ Hrest)].
  intros Hin. apply list_elem_of_split in Hin as (c1 & c2 & ->).
  pose proof (free_list_suffix s c1 _ _ _ Hrest) as Hsuf.
  pose proof (free_list_unique s _ _ _ H Hsuf) as Heq.
  apply (f_equal length) in Heq. cbn [length] in Heq. rewrite length_app in Heq.
  cbn [length] in Heq. lia.
Qed.

Lemma free_list_chain_live (s : State) (chain : list Z) :
  wf s -> forall h, free_list s h chain -> chain_live s chain.
Proof.
  intros Hwf. induction chain as [|n rest IH]; intros h H k Hk.
  - inversion Hk.
  - destruct H as (-> & Hn & nd & Hnd & Hrest).
    apply elem_of_cons in Hk as [->|Hk]; [|apply (IH _ Hrest _ Hk)].
    destruct (wf_node_inv s n nd Hwf Hnd) as ((b & Hb & Hown) & _).
    pose proof (wf_buffer_below s _ b Hwf Hb) as Hbb.
    exists nd, b. split; [exact Hnd|]. split; [unfold NULL; lia|]. split; assumption.
Qed.

Lemma chain_live_after_turn (cfg : Config) (pl : Z) (m : MemPool) (n : Z) (nd : MemNode)
    (rest : list Z) (s : State) :
  nodes s !! n = Some nd -> chain_live s (n :: rest) -> n ∉ rest ->
  chain_live (state_after_free_turn cfg pl m n nd s) rest.
Proof.
  intros Hnd Hlive Hnot k Hk.
  destruct (Hlive k ltac:(right; exact Hk)) as (ndk & bk & Hndk & Hdk & Hbk & Hok).
  destruct (Hlive n ltac:(left)) as (nd' & b & Hnd' & _ & Hb & Ho).
  assert (nd' = nd) by congruence. subst nd'.
  assert (Hne : k <> n) by (intros ->; contradiction).
  exists ndk, bk. cbn [state_after_free_turn nodes buffers].
  split; [rewrite lookup_delete_ne by congruence; exact Hndk|]. split; [exact Hdk|].
  split; [|exact Hok].
  rewrite lookup_delete_ne; [exact Hbk|].
  intros E. rewrite E in Hb. congruence.
Qed.

(** The loop of [pool_mem_free_all] along a free list: with fuel for every
    node it ends in [state_after_free_all]. *)
Lemma pool_mem_free_all_loop_chain (cfg : Config) (pl : Z) (chain : list Z) :
  pl <> NULL ->
  forall (fuel : nat) (h : Z) (m : MemPool) (s : State),
    mempools s !! pl = Some m -> free_list s h chain -> chain_live s chain ->
    pool_mem_free_all_loop cfg fuel pl h s = OutOfFuel \/
    pool_mem_free_all_loop cfg fuel pl h s = Ok tt (state_after_free_all cfg pl chain s).
Proof.
  intros Hpl. induction chain as [|n rest IH]; intros fuel h m s Hm Hlist Hlive.
  - cbn [free_list] in Hlist. subst h. right.
    destruct fuel; cbn [pool_mem_free_all_loop]; rewrite Z.eqb_refl; reflexivity.
  - pose proof (free_list_NoDup s _ _ Hlist) as Hnd.
    apply NoDup_cons in Hnd as (Hnot & _).
    destruct Hlist as (-> & Hn & nd & Hnode & Hrest).
    destruct (Hlive n ltac:(left)) as (nd' & b & Hnode' & Hd & Hb & _).
    assert (nd' = nd) by congruence. subst nd'.
    destruct fuel as [|fuel].
    + left. cbn [pool_mem_free_all_loop]. rewrite (eqb_NULL_false _ Hn). reflexivity.
    + rewrite (pool_mem_free_all_loop_turn cfg pl fuel n nd m b s) by assumption.
      cbn [state_after_free_all]. rewrite Hnode, Hm.
      apply (IH fuel (next nd) (count_unavailable cfg (with_head (next nd) m))).
      * apply lookup_insert_eq.
      * apply (free_list_delete s _ n); [reflexivity | exact Hnot | exact Hrest].
      * apply chain_live_after_turn; assumption.
Qed.

(** What the turns of the loop leave of the heap. *)
Lemma state_after_free_all_spec (cfg : Config) (pl : Z) (chain : list Z) :
  forall (h : Z) (m : MemPool) (s : State),
    mempools s !! pl = Some m -> free_list s h chain -> chain_live s chain ->
    let s' := state_after_free_all cfg pl chain s in
    (forall k, nodes s' !! k = if decide (k ∈ chain) then None else nodes s !! k) /\
    (forall a, buffers s' !! a =
               if decide (a ∈ map (buffer_of s) chain) then None else buffers s !! a) /\
    is_Some (mempools s' !! pl) /\
    delete pl (mempools s') = delete pl (mempools s) /\
    multipools s' = multipools s /\ _global_multipool s' = _global_multipool s /\
    brk s' = brk s /\ malloc_script s' = malloc_script s /\
    cas_script s' = cas_script s /\ malloc_calls s' = malloc_calls s.
Proof.
  induction chain as [|n rest IH]; intros h m s Hm Hlist Hlive; cbn zeta.
  - cbn [state_after_free_all map].
    split; [intros k; rewrite decide_False by apply not_elem_of_nil; reflexivity|].
    split; [intros k; rewrite decide_False by apply not_elem_of_nil; reflexivity|].
    split; [exists m; exact Hm|]. auto 10.
  - pose proof (free_list_NoDup s _ _ Hlist) as Hnd.
    apply NoDup_cons in Hnd as (Hnot & _).
    destruct Hlist as (-> & Hn & nd & Hnode & Hrest).
    destruct (Hlive n ltac:(left)) as (nd' & b & Hnode' & Hd & Hb & Hown).
    assert (nd' = nd) by congruence. subst nd'.
    cbn [state_after_free_all]. rewrite Hnode, Hm.
    set (s1 := state_after_free_turn cfg pl m n nd s).
    assert (Hlive1 : chain_live s1 rest) by (apply chain_live_after_turn; assumption).
    destruct (IH (next nd) (count_unavailable cfg (with_head (next nd) m)) s1)
      as (Hnodes & Hbufs & Hpool & Hpools & Hmp & Hg & Hbrk & Hms & Hcs & Hmc).
    { apply lookup_insert_eq. }
    { apply (free_list_delete s _ n); [reflexivity | exact Hnot | exact Hrest]. }
    { exact Hlive1. }
    assert (Hmap : map (buffer_of s1) rest = map (buffer_of s) rest).
    { apply map_ext_in. intros k Hk. apply list_elem_of_In in Hk.
      unfold buffer_of, s1. cbn [state_after_free_turn nodes].
      rewrite lookup_delete_ne; [reflexivity|]. intros ->. contradiction. }
    split; [|split; [|split; [exact Hpool|split]]].
    + intros k. rewrite Hnodes. unfold s1. cbn [state_after_free_turn nodes].
      destruct (decide (k = n)) as [->|Hne].
      * rewrite lookup_delete_eq.
        rewrite (decide_True (P := n ∈ n :: rest)) by left.
        destruct (decide (n ∈ rest)); reflexivity.
      * rewrite lookup_delete_ne by congruence.
        destruct (decide (k ∈ rest)) as [Hin|Hout].
        -- rewrite decide_True by (right; exact Hin). reflexivity.
        -- rewrite decide_False; [reflexivity|].
           intros Hin. apply elem_of_cons in Hin as [?|?]; contradiction.
    + intros a. rewrite Hbufs, Hmap. unfold s1. cbn [state_after_free_turn buffers map].
      assert (Hbo : buffer_of s n = data nd - sizeof_ptrdiff)
        by (unfold buffer_of; rewrite Hnode; reflexivity).
      rewrite Hbo.
      destruct (decide (a = data nd - sizeof_ptrdiff)) as [->|Hne].
      * rewrite lookup_delete_eq.
        rewrite (decide_True (P := _ ∈ _ :: _)) by left.
        destruct (decide (_ ∈ map (buffer_of s) rest)); reflexivity.
      * rewrite lookup_delete_ne by congruence.
        destruct (decide (a ∈ map (buffer_of s) rest)) as [Hin|Hout].
        -- rewrite decide_True by (right; exact Hin). reflexivity.
        -- rewrite decide_False; [reflexivity|].
           intros Hin. apply elem_of_cons in Hin as [?|?]; contradiction.
    + rewrite Hpools. unfold s1. cbn [state_after_free_turn mempools].
      apply delete_insert_eq.
    + rewrite Hmp, Hg, Hbrk, Hms, Hcs, Hmc. unfold s1. cbn. auto 10.
Qed.

Lemma free_mem_pool_free_list_run (cfg : Config) (pl : Z) (m : MemPool) (chain : list Z)
    (s : State) :
  wf s -> mempools s !! pl = Some m -> free_list s (head m) chain ->
  free_mem_pool cfg pl s =
    Ok tt (set_mempools (delete pl) (state_after_free_all cfg pl chain s)).
Proof.
  intros Hwf Hm Hlist.
  pose proof (wf_pool_below s _ m Hwf Hm) as Hpb.
  assert (Hpl : pl <> NULL) by (unfold NULL; lia).
  pose proof (free_list_chain_live s chain Hwf _ Hlist) as Hlive.
  destruct (state_after_free_all_spec cfg pl chain (head m) m s Hm Hlist Hlive)
    as (_ & _ & (m' & Hm') & _).
  unfold free_mem_pool, pool_mem_free_all.
  rewrite (bind_Ok _ _ s s tt) by (apply assert_nonnull_pass; exact Hpl).
  rewrite (bind_Ok _ _ s (state_after_free_all cfg pl chain s) tt).
  - unfold free_pool. rewrite (eqb_NULL_false _ Hpl), Hm'. reflexivity.
  - rewrite (bind_Ok _ _ s s tt) by (apply assert_nonnull_pass; exact Hpl).
    rewrite (bind_Ok _ _ _ _ _ (load_pool_live pl m s Hpl Hm)).
    unfold bind, get.
    destruct (pool_mem_free_all_loop_chain cfg pl chain Hpl (S (size (nodes s))) (head m) m s
                Hm Hlist Hlive) as [Hout|Hrun]; [|exact Hrun].
    exfalso. revert Hout. apply pool_mem_free_all_loop_in_fuel. lia.
Qed.

(** What [free_mem_pool] frees and what it leaves. *)
Lemma free_mem_pool_free_list_spec
    (cfg : Config) (pl : Z) (m : MemPool) (chain : list Z) (s : State) :
  wf s -> mempools s !! pl = Some m -> free_list s (head m) chain ->
  exists s',
    free_mem_pool cfg pl s = Ok tt s' /\
    mempools s' = delete pl (mempools s) /\
    (forall n nd, n ∈ chain -> nodes s !! n = Some nd ->
       nodes s' !! n = None /\ buffers s' !! (data nd - sizeof_ptrdiff) = None) /\
    (forall n nd, n ∉ chain -> nodes s !! n = Some nd ->
       nodes s' !! n = Some nd /\
       buffers s' !! (data nd - sizeof_ptrdiff) = buffers s !! (data nd - sizeof_ptrdiff)) /\
    multipools s' = multipools s /\ malloc_calls s' = malloc_calls s.
Proof.
  intros Hwf Hm Hlist.
  pose proof (free_list_chain_live s chain Hwf _ Hlist) as Hlive.
  destruct (state_after_free_all_spec cfg pl chain (head m) m s Hm Hlist Hlive)
    as (Hnodes & Hbufs & _ & Hpools & Hmp & _ & _ & _ & _ & Hmc).
  exists (set_mempools (delete pl) (state_after_free_all cfg pl chain s)).
  split; [apply (free_mem_pool_free_list_run cfg pl m chain s Hwf Hm Hlist)|].
  state_simpl.
  split.
  { exact Hpools. }
  split; [|split; [|split; [exact Hmp | exact Hmc]]].
  - intros n nd Hin Hnd. split.
    + rewrite Hnodes, decide_True by exact Hin. reflexivity.
    + rewrite Hbufs, decide_True; [reflexivity|].
      apply list_elem_of_fmap. exists n. split; [|exact Hin].
      unfold buffer_of. rewrite Hnd. reflexivity.
  - intros n nd Hout Hnd. split.
    + rewrite Hnodes, decide_False by exact Hout. exact Hnd.
    + rewrite Hbufs, decide_False; [reflexivity|].
      intros Hin. apply list_elem_of_fmap in Hin as (k & Hk & Hkin).
      destruct (Hlive k Hkin) as (ndk & bk & Hndk & _ & Hbk & Hok).
      unfold buffer_of in Hk. rewrite Hndk in Hk.
      destruct (wf_node_inv s n nd Hwf Hnd) as ((b & Hb & Hown) & _).
      rewrite Hk, Hbk in Hb. inversion Hb. subst b. apply Hout. congruence.
Qed.

(** X9. [free_mem_pool] on a pool whose free list ends in [NULL] returns,
    and frees the pool, every node of the free list and the data buffer of
    each. Nothing else is freed: a node that is not on the free list (a block
    that is still handed out) stays allocated, and so does its buffer. *)
Theorem free_mem_pool_releases_free_list
    (cfg : Config) (pl : Z) (m : MemPool) (chain : list Z) (s : State) :
  wf s -> mempools s !! pl = Some m -> free_list s (head m) chain ->
  exists s',
    free_mem_pool cfg pl s = Ok tt s' /\
    mempools s' = delete pl (mempools s) /\
    (forall n nd, n ∈ chain -> nodes s !! n = Some nd ->
       nodes s' !! n = None /\ buffers s' !! (data nd - sizeof_ptrdiff) = None) /\
    (forall n nd, n ∉ chain -> nodes s !! n = Some nd ->
       nodes s' !! n = Some nd /\
       buffers s' !! (data nd - sizeof_ptrdiff) = buffers s !! (data nd - sizeof_ptrdiff)) /\
    multipools s' = multipools s /\ malloc_calls s' = malloc_calls s.
Proof. apply free_mem_pool_free_list_spec. Qed.

Lemma wf_one_cached_state : wf one_cached_state.
Proof. apply (bool_decide_unpack _). vm_compute. exact I. Qed.

Lemma free_list_one_cached_state : free_list one_cached_state 4112 [4112].
Proof.
  split; [reflexivity|]. split; [discriminate|].
  exists (mkMemNode 0 4152 4096). split; [vm_compute; reflexivity | reflexivity].
Qed.

Lemma free_mem_pool_releases_free_list_witness :
  exists s',
    free_mem_pool debug_build 4096 one_cached_state = Ok tt s' /\
    mempools s' = delete 4096 (mempools one_cached_state) /\
    (forall n nd, n ∈ [4112] -> nodes one_cached_state !! n = Some nd ->
       nodes s' !! n = None /\ buffers s' !! (data nd - sizeof_ptrdiff) = None) /\
    (forall n nd, n ∉ [4112] -> nodes one_cached_state !! n = Some nd ->
       nodes s' !! n = Some nd /\
       buffers s' !! (data nd - sizeof_ptrdiff)
       = buffers one_cached_state !! (data nd - sizeof_ptrdiff)) /\
    multipools s' = multipools one_cached_state /\
    malloc_calls s' = malloc_calls one_cached_state.
Proof.
  apply (free_mem_pool_releases_free_list debug_build 4096 (mkMemPool 4112 4096 0 0) [4112]
           one_cached_state wf_one_cached_state).
  - vm_compute. reflexivity.
  - exact free_list_one_cached_state.
Defined.

(** X10. A block that is still handed out when its pool is freed can no
    longer be given back: [free_mem_pool] leaves the block and its node
    allocated, and [pool_mem_return] on it then reads the freed pool, which
    is undefined behaviour. *)
Theorem pool_mem_return_after_free_mem_pool
    (cfg : Config) (pl n : Z) (m : MemPool) (nd : MemNode) (chain : list Z) (s s' : State) :
  wf s -> mempools s !! pl = Some m -> free_list s (head m) chain ->
  nodes s !! n = Some nd -> pool nd = pl -> n ∉ chain ->
  free_mem_pool cfg pl s = Ok tt s' ->
  nodes s' !! n = Some nd /\
  is_Some (buffers s' !! (data nd - sizeof_ptrdiff)) /\
  pool_mem_return cfg (data nd) s' = Undefined.
Proof.
  intros Hwf Hm Hlist Hnd Hpool Hout Hfree.
  destruct (free_mem_pool_free_list_spec cfg pl m chain s Hwf Hm Hlist)
    as (s1 & Hrun & Hpools & _ & Hkeep & _).
  rewrite Hfree in Hrun. inversion Hrun. subst s1. clear Hrun.
  destruct (Hkeep n nd Hout Hnd) as (Hnd' & Hbuf').
  destruct (wf_node_inv s n nd Hwf Hnd) as ((b & Hb & Hown) & _).
  pose proof (wf_buffer_below s _ b Hwf Hb) as Hbb.
  pose proof (wf_node_below s _ nd Hwf Hnd) as Hnb.
  pose proof (wf_pool_below s _ m Hwf Hm) as Hpb.
  rewrite Hb in Hbuf'.
  split; [exact Hnd'|]. split; [exists b; exact Hbuf'|].
  assert (Hp : data nd <> NULL) by (unfold NULL, sizeof_ptrdiff in *; lia).
  assert (Hp8 : data nd - sizeof_ptrdiff <> NULL) by (unfold NULL; lia).
  assert (Hnn : n <> NULL) by (unfold NULL; lia).
  assert (Hpl : pl <> NULL) by (unfold NULL; lia).
  unfold pool_mem_return.
  rewrite (bind_Ok _ _ s' s' tt) by (apply assert_nonnull_pass; exact Hp).
  rewrite (bind_Ok _ _ s' s' n).
  2:{ unfold get_memnode_in_data.
      rewrite (bind_Ok _ _ s' s' tt) by (apply assert_nonnull_pass; exact Hp).
      rewrite (bind_Ok _ _ _ _ _ (load_buffer_live _ b s' Hp8 Hbuf')).
      unfold ret. rewrite Hown. reflexivity. }
  rewrite (bind_Ok _ _ _ _ _ (load_node_live n nd s' Hnn Hnd')).
  unfold bind at 1, get. cbn [pool_mem_return_loop]. unfold bind at 1, load_pool.
  rewrite Hpool, (eqb_NULL_false _ Hpl), Hpools, lookup_delete_eq. reflexivity.
Qed.

Lemma pool_mem_return_after_free_mem_pool_witness :
  exists s',
    free_mem_pool debug_build 4096 one_cached_state = Ok tt s' /\
    nodes s' !! 8256 = Some (mkMemNode 0 8296 4096) /\
    is_Some (buffers s' !! (8296 - sizeof_ptrdiff)) /\
    pool_mem_return debug_build 8296 s' = Undefined.
Proof.
  set (s' := match free_mem_pool debug_build 4096 one_cached_state with
             | Ok _ s => s | _ => initial_state [] [] end).
  assert (Hfree : free_mem_pool debug_build 4096 one_cached_state = Ok tt s')
    by (vm_compute; reflexivity).
  exists s'. split; [exact Hfree|].
  apply (pool_mem_return_after_free_mem_pool debug_build 4096 8256 (mkMemPool 4112 4096 0 0)
           (mkMemNode 0 8296 4096) [4112] one_cached_state s' wf_one_cached_state).
  - vm_compute. reflexivity.
  - exact free_list_one_cached_state.
  - vm_compute. reflexivity.
  - reflexivity.
  - intros Hin. apply list_elem_of_singleton in Hin. discriminate.
  - exact Hfree.
Defined.

(** The state two calls of [pool_mem_return] on the same block leave. *)
Lemma pool_mem_return_twice_state (cfg : Config) (P p : Z) (s : State) :
  wf s -> owned s P p ->
  exists s1 s2 b nd2 m2,
    pool_mem_return cfg p s = Ok tt s1 /\
    pool_mem_return cfg p s1 = Ok tt s2 /\
    P <> NULL /\ owner_word b <> NULL /\ p - sizeof_ptrdiff <> NULL /\
    buffers s2 !! (p - sizeof_ptrdiff) = Some b /\
    mempools s2 !! P = Some m2 /\ head m2 = owner_word b /\
    nodes s2 !! owner_word b = Some nd2 /\
    data nd2 = p /\ next nd2 = owner_word b.
Proof.
  intros Hwf Hown.
  destruct (pool_mem_return_owned cfg P p s Hwf Hown)
    as (b & nd & m & Hnn & HP & Hb & Hn & Hd & Hpool & Hm & Hret1).
  set (n := owner_word b) in *.
  set (s1 := state_after_push cfg P m n nd s) in *.
  assert (Hwf1 : wf s1) by (apply wf_state_after_push; assumption).
  assert (Hext1 : heap_extends s s1) by (apply heap_extends_state_after_push; assumption).
  pose proof (owned_heap_extends s s1 P p Hext1 Hown) as Hown1.
  destruct (pool_mem_return_owned cfg P p s1 Hwf1 Hown1)
    as (b1 & nd1 & m1 & _ & _ & Hb1 & Hn1 & Hd1 & Hpool1 & Hm1 & Hret2).
  assert (b1 = b) by (change (buffers s1) with (buffers s) in Hb1; congruence).
  subst b1. fold n in Hn1, Hret2.
  assert (Hh1 : head m1 = n).
  { unfold s1, state_after_push in Hm1. state_simpl.
    rewrite lookup_insert_eq in Hm1. inversion Hm1.
    rewrite (proj1 (head_count_returned cfg _)). reflexivity. }
  pose proof (wf_buffer_below s _ b Hwf Hb) as Hbb.
  exists s1, (state_after_push cfg P m1 n nd1 s1), b, (with_next (head m1) nd1),
    (count_returned cfg (with_head n m1)).
  split; [exact Hret1|]. split; [exact Hret2|]. split; [exact HP|]. split; [exact Hnn|].
  split; [unfold NULL; lia|]. split; [exact Hb|].
  split; [apply lookup_insert_eq|].
  split; [rewrite (proj1 (head_count_returned cfg _)); reflexivity|].
  split; [unfold state_after_push; state_simpl; apply lookup_insert_eq|].
  split; [exact Hd1 | exact Hh1].
Qed.

(** X11. After a block has been returned twice its node is its own
    successor on the free list, and tearing the pool down frees it twice:
    [free_mem_pool] is then undefined behaviour (in every build). *)
Theorem free_mem_pool_after_double_return
    (cfg : Config) (P p : Z) (s s1 s2 : State) :
  wf s -> owned s P p ->
  pool_mem_return cfg p s = Ok tt s1 ->
  pool_mem_return cfg p s1 = Ok tt s2 ->
  free_mem_pool cfg P s2 = Undefined.
Proof.
  intros Hwf Hown Hret1 Hret2.
  destruct (pool_mem_return_twice_state cfg P p s Hwf Hown)
    as (s1' & s2' & b & nd2 & m2 & Hr1 & Hr2 & HP & Hnn & Hp8 & Hb & Hm2 & Hh2 & Hn2 & Hd2 & Hx2).
  rewrite Hret1 in Hr1. inversion Hr1. subst s1'.
  rewrite Hret2 in Hr2. inversion Hr2. subst s2'. clear Hr1 Hr2.
  set (n := owner_word b) in *.
  assert (Hsize : exists f, size (nodes s2) = S f).
  { destruct (size (nodes s2)) as [|f] eqn:E; [|exists f; reflexivity].
    apply map_size_empty_inv in E. rewrite E, lookup_empty in Hn2. discriminate. }
  destruct Hsize as (f & Hsize).
  unfold free_mem_pool, pool_mem_free_all.
  rewrite (bind_Ok _ _ s2 s2 tt) by (apply assert_nonnull_pass; exact HP).
  unfold bind at 1.
  rewrite (bind_Ok _ _ s2 s2 tt) by (apply assert_nonnull_pass; exact HP).
  rewrite (bind_Ok _ _ _ _ _ (load_pool_live P m2 s2 HP Hm2)).
  unfold bind at 1, get. rewrite Hsize, Hh2.
  rewrite (pool_mem_free_all_loop_turn cfg P (S f) n nd2 m2 b s2 HP Hnn Hm2 Hn2)
    by (rewrite Hd2; assumption).
  rewrite Hx2. cbn [pool_mem_free_all_loop]. rewrite (eqb_NULL_false _ Hnn).
  unfold bind at 1, load_node. rewrite (eqb_NULL_false _ Hnn).
  cbn [state_after_free_turn nodes]. rewrite lookup_delete_eq. reflexivity.
Qed.

Lemma free_mem_pool_after_double_return_witness :
  exists s1 s2,
    pool_mem_return debug_build 4152 two_blocks_state = Ok tt s1 /\
    pool_mem_return debug_build 4152 s1 = Ok tt s2 /\
    free_mem_pool debug_build 4096 s2 = Undefined.
Proof.
  set (s1 := match pool_mem_return debug_build 4152 two_blocks_state with
             | Ok _ s => s | _ => initial_state [] [] end).
  set (s2 := match pool_mem_return debug_build 4152 s1 with
             | Ok _ s => s | _ => initial_state [] [] end).
  assert (H1 : pool_mem_return debug_build 4152 two_blocks_state = Ok tt s1)
    by (vm_compute; reflexivity).
  assert (H2 : pool_mem_return debug_build 4152 s1 = Ok tt s2)
    by (vm_compute; reflexivity).
  exists s1, s2. split; [exact H1|]. split; [exact H2|].
  apply (free_mem_pool_after_double_return debug_build 4096 4152 two_blocks_state s1 s2
           wf_two_blocks_state owned_two_blocks_state_first H1 H2).
Defined.

(** ** A table with an empty slot *)

Lemma keeps_ret {A X} (proj : State -> X) (a : A) : keeps proj (ret a).
Proof. intros s a' s' H. inversion H. reflexivity. Qed.

Lemma keeps_bind {A B X} (proj : State -> X) (m : M A) (k : A -> M B) :
  keeps proj m -> (forall a, keeps proj (k a)) -> keeps proj (bind m k).
Proof.
  intros Hm Hk s b s' H. apply bind_Ok_inv in H as (a & s1 & H1 & H2).
  rewrite (Hk a s1 b s' H2). apply (Hm s a s1 H1).
Qed.

Lemma keeps_assert {X} (proj : State -> X) (cfg : Config) (b : bool) :
  keeps proj (assert cfg (ret b)).
Proof. intros s a s' H. apply assert_ret_Ok_inv in H. subst s'. reflexivity. Qed.

Ltac keeps_prim :=
  intros s0 a0 s0'; cbv beta delta
    [load_node store_node load_buffer store_buffer load_pool store_pool
     free_node free_buffer free_pool get undefined abort out_of_fuel ret];
  repeat case_match; (let Hres := fresh "Hres" in intros Hres; inversion Hres; reflexivity).

Lemma keeps_multipools_load_node (p : Z) : keeps multipools (load_node p).
Proof. keeps_prim. Qed.
Lemma keeps_multipools_load_pool (p : Z) : keeps multipools (load_pool p).
Proof. keeps_prim. Qed.
Lemma keeps_multipools_store_pool (p : Z) (f : MemPool -> MemPool) :
  keeps multipools (store_pool p f).
Proof. keeps_prim. Qed.
Lemma keeps_multipools_free_node (p : Z) : keeps multipools (free_node p).
Proof. keeps_prim. Qed.
Lemma keeps_multipools_free_buffer (p : Z) : keeps multipools (free_buffer p).
Proof. keeps_prim. Qed.
Lemma keeps_multipools_free_pool (p : Z) : keeps multipools (free_pool p).
Proof. keeps_prim. Qed.
Lemma keeps_multipools_get : keeps multipools get.
Proof. keeps_prim. Qed.

Lemma keeps_multipools_track_unavailable (cfg : Config) (pl : Z) :
  keeps multipools (track_pool_usage_memnode_unavailable cfg pl).
Proof.
  unfold track_pool_usage_memnode_unavailable.
  destruct (track_pool_usage cfg); [apply keeps_multipools_store_pool | apply keeps_ret].
Qed.

Lemma keeps_multipools_free_poolable_mem (cfg : Config) (node : Z) :
  keeps multipools (free_poolable_mem cfg node).
Proof.
  unfold free_poolable_mem.
  apply keeps_bind; [apply keeps_assert|]. intros _.
  apply keeps_bind; [apply keeps_multipools_load_node|]. intros n.
  apply keeps_bind; [apply keeps_multipools_free_buffer|]. intros _.
  apply keeps_multipools_free_node.
Qed.

Lemma keeps_multipools_pool_mem_free_all_loop (cfg : Config) (fuel : nat) (pl node : Z) :
  keeps multipools (pool_mem_free_all_loop cfg fuel pl node).
Proof.
  revert node. induction fuel as [|f IH]; intros node; cbn [pool_mem_free_all_loop];
    (destruct (node =? NULL); [apply keeps_ret|]).
  - intros s a s' H. discriminate.
  - apply keeps_bind; [apply keeps_multipools_load_node|]. intros n.
    apply keeps_bind; [apply keeps_multipools_store_pool|]. intros _.
    apply keeps_bind; [apply keeps_multipools_free_poolable_mem|]. intros _.
    apply keeps_bind; [apply keeps_multipools_track_unavailable|]. intros _.
    apply keeps_bind; [apply keeps_multipools_load_pool|]. intros m.
    apply IH.
Qed.

(** [free_mem_pool] does not touch the tables of multipools. *)
Lemma keeps_multipools_free_mem_pool (cfg : Config) (pl : Z) :
  keeps multipools (free_mem_pool cfg pl).
Proof.
  unfold free_mem_pool.
  apply keeps_bind; [apply keeps_assert|]. intros _.
  apply keeps_bind; [|intros _; apply keeps_multipools_free_pool].
  unfold pool_mem_free_all.
  apply keeps_bind; [apply keeps_assert|]. intros _.
  apply keeps_bind; [apply keeps_multipools_load_pool|]. intros m.
  apply keeps_bind; [apply keeps_multipools_get|]. intros s0.
  apply keeps_multipools_pool_mem_free_all_loop.
Qed.

(** [free_mem_pool(NULL)] fails its assertion, or reads [NULL->head]. *)
Lemma free_mem_pool_NULL (cfg : Config) (s : State) :
  free_mem_pool cfg NULL s = if ndebug cfg then Undefined else AssertFail.
Proof.
  unfold free_mem_pool, pool_mem_free_all, assert, bind, ret.
  destruct (ndebug cfg); reflexivity.
Qed.

Lemma pool_mem_acquire_NULL (cfg : Config) (s : State) :
  pool_mem_acquire cfg NULL s = if ndebug cfg then Undefined else AssertFail.
Proof.
  unfold pool_mem_acquire, assert, bind, ret, get.
  destruct (ndebug cfg); reflexivity.
Qed.

Lemma multipool_free_loop_null_slot (cfg : Config) (mp : Z) (M : MultiPool) (k : Z)
    (fuel : nat) :
  0 <= k < MULTIPOOL_ENTRY_COUNT -> pools M !! Z.to_nat k = Some NULL ->
  forall (i : Z) (s : State) (u : unit) (s' : State),
    0 <= i <= k -> multipools s !! mp = Some M ->
    multipool_free_loop cfg fuel mp i s <> Ok u s'.
Proof.
  intros Hk Hslot. induction fuel as [|f IH]; intros i s u s' Hi HM H;
    cbn [multipool_free_loop] in H;
    assert (Hlt : (i <? MULTIPOOL_ENTRY_COUNT) = true) by (apply Z.ltb_lt; lia);
    rewrite Hlt in H; [discriminate|].
  apply bind_Ok_inv in H as (pl & s1 & Hload & H).
  pose proof Hload as Hsame. apply load_multipool_slot_Ok_inv in Hsame. subst s1.
  apply bind_Ok_inv in H as ([] & s2 & Hfree & H).
  destruct (Z.eq_dec i k) as [->|Hne].
  - assert (pl = NULL).
    { unfold load_multipool_slot, bind, load_multipool in Hload.
      destruct (mp =? NULL); [discriminate|]. rewrite HM in Hload.
      destruct ((0 <=? k) && (k <? MULTIPOOL_ENTRY_COUNT)); [|discriminate].
      rewrite Hslot in Hload. inversion Hload. reflexivity. }
    subst pl. rewrite free_mem_pool_NULL in Hfree. destruct (ndebug cfg); discriminate.
  - apply (IH (i + 1) s2 u s'); [lia | | exact H].
    rewrite (keeps_multipools_free_mem_pool cfg pl s tt s2 Hfree). exact HM.
Qed.

Lemma multipool_free_null_slot (cfg : Config) (mp : Z) (M : MultiPool) (k : Z) (s : State) :
  0 <= k < MULTIPOOL_ENTRY_COUNT -> pools M !! Z.to_nat k = Some NULL ->
  multipools s !! mp = Some M ->
  forall u s', multipool_free cfg mp s <> Ok u s'.
Proof.
  intros Hk Hslot HM u s' H. unfold multipool_free in H.
  apply bind_Ok_inv in H as ([] & s0 & Ha & H).
  apply assert_ret_Ok_inv in Ha. subst s0.
  apply bind_Ok_inv in H as ([] & s1 & Hloop & _).
  apply (multipool_free_loop_null_slot cfg mp M k _ Hk Hslot 0 s tt s1 ltac:(lia) HM Hloop).
Qed.

Lemma multipool_mem_acquire_null_slot (cfg : Config) (mp : Z) (M : MultiPool) (size : Z)
    (s : State) :
  find_multipool_index_for_size size < MULTIPOOL_ENTRY_COUNT ->
  pools M !! Z.to_nat (find_multipool_index_for_size size) = Some NULL ->
  multipools s !! mp = Some M ->
  forall p s', multipool_mem_acquire cfg mp size s <> Ok p s'.
Proof.
  intros Hidx Hslot HM p s' H.
  unfold multipool_mem_acquire in H.
  { 
    apply bind_Ok_inv in H as ([] & s0 & Ha & H).
    apply assert_ret_Ok_inv in Ha. subst s0.
    apply bind_Ok_inv in H as ([] & s0 & Ha & H).
    apply assert_ret_Ok_inv in Ha. subst s0.
    destruct (MULTIPOOL_ENTRY_COUNT <=? find_multipool_index_for_size size) eqn:E;
      [apply Z.leb_le in E; lia|].
    apply bind_Ok_inv in H as (q & s1 & Hload & Hacq').
    unfold load_multipool_slot, bind, load_multipool in Hload.
    destruct (mp =? NULL); [discriminate|]. rewrite HM in Hload.
    destruct ((0 <=? _) && (_ <? MULTIPOOL_ENTRY_COUNT)); [|discriminate].
    rewrite Hslot in Hload. inversion Hload. subst q s1.
    rewrite pool_mem_acquire_NULL in Hacq'. destruct (ndebug cfg); discriminate. }
Qed.

(** X12. A multipool that [multipool_create] built while a [malloc] for
    one of its pools failed is returned as if nothing had happened, but it
    can neither serve that size class nor be torn down: whatever calls
    follow, [multipool_mem_acquire] for a size of the class and
    [multipool_free] never return (they fail an assertion, or without
    assertions read through the [NULL] slot). *)
Theorem multipool_create_partial_table_unusable (cfg : Config) (s : State) (k : Z) :
  wf s ->
  hd true (malloc_script s) = true ->
  0 <= k < MULTIPOOL_ENTRY_COUNT ->
  nth (S (Z.to_nat k)) (malloc_script s) true = false ->
  exists mp s1,
    multipool_create cfg s = Ok mp s1 /\ mp <> NULL /\
    forall s2, api_calls cfg s1 s2 ->
      (forall u s3, multipool_free cfg mp s2 <> Ok u s3) /\
      (forall size p s3, find_multipool_index_for_size size = k ->
         multipool_mem_acquire cfg mp size s2 <> Ok p s3).
Proof.
  intros Hwf Hok Hk Hfail.
  destruct (multipool_create_spec cfg s Hwf Hok)
    as (s1 & M & Hrun & Hnn & Hwf1 & HM & Hlen & _ & _ & _ & _ & _ & _ & Hslots).
  assert (Hslot : pools M !! Z.to_nat k = Some NULL).
  { destruct (Hslots k Hk) as (q & Hq & Hs). rewrite Hfail in Hs. subst q. exact Hq. }
  exists (brk s), s1. split; [exact Hrun|]. split; [exact Hnn|].
  intros s2 Hcalls.
  destruct (api_calls_wf cfg s1 s2 Hwf1 Hcalls) as (_ & _ & _ & _ & Hmps).
  pose proof (Hmps _ _ HM) as HM2.
  split.
  - apply (multipool_free_null_slot cfg (brk s) M k s2 Hk Hslot HM2).
  - intros size p s3 Hidx.
    apply (multipool_mem_acquire_null_slot cfg (brk s) M size s2);
      [rewrite Hidx; lia | rewrite Hidx; exact Hslot | exact HM2].
Qed.

Lemma multipool_create_partial_table_unusable_witness :
  exists mp s1,
    multipool_create release_build (initial_state [true; true; false] []) = Ok mp s1 /\
    mp <> NULL /\
    forall s2, api_calls release_build s1 s2 ->
      (forall u s3, multipool_free release_build mp s2 <> Ok u s3) /\
      (forall size p s3, find_multipool_index_for_size size = 1 ->
         multipool_mem_acquire release_build mp size s2 <> Ok p s3).
Proof.
  apply (multipool_create_partial_table_unusable release_build
           (initial_state [true; true; false] []) 1).
  - apply (bool_decide_unpack _). vm_compute. exact I.
  - reflexivity.
  - unfold MULTIPOOL_ENTRY_COUNT. lia.
  - reflexivity.
Defined.

(** X13. When the first [malloc] of [global_multipool_create] fails, the
    call still returns and [_global_multipool] is [NULL]. With assertions
    every [pool_alloc] and [global_multipool_free] then aborts; without them
    [pool_alloc] returns [NULL] for a size outside 1..4 MiB and is undefined
    behaviour for a size inside, and [global_multipool_free] is undefined
    behaviour. *)
Theorem global_multipool_create_failure (cfg : Config) (s : State) :
  hd true (malloc_script s) = false ->
  exists s1,
    global_multipool_create cfg s = Ok tt s1 /\
    _global_multipool s1 = NULL /\
    nodes s1 = nodes s /\ buffers s1 = buffers s /\
    mempools s1 = mempools s /\ multipools s1 = multipools s /\
    (forall size,
       pool_alloc cfg size s1 =
         if ndebug cfg then
           if MULTIPOOL_ENTRY_COUNT <=? find_multipool_index_for_size (wrap32 size)
           then Ok NULL s1 else Undefined
         else AssertFail) /\
    global_multipool_free cfg s1 = if ndebug cfg then Undefined else AssertFail.
Proof.
  intros Hfail.
  exists (set_global_multipool NULL (state_after_malloc_failure s)).
  split.
  { unfold global_multipool_create, multipool_create, malloc_MultiPool, malloc_succeeds, bind.
    rewrite Hfail. reflexivity. }
  split; [reflexivity|]. split; [reflexivity|]. split; [reflexivity|].
  split; [reflexivity|]. split; [reflexivity|]. split.
  - intros size.
    unfold pool_alloc, global_multipool_mem_acquire, multipool_mem_acquire, assert,
      bind, ret, get.
    destruct (ndebug cfg); [|reflexivity].
    destruct (MULTIPOOL_ENTRY_COUNT <=? find_multipool_index_for_size (wrap32 size));
      reflexivity.
  - unfold global_multipool_free, multipool_free, assert, bind, ret, get.
    destruct (ndebug cfg); reflexivity.
Qed.

Lemma global_multipool_create_failure_witness :
  exists s1,
    global_multipool_create release_build (initial_state [false] []) = Ok tt s1 /\
    _global_multipool s1 = NULL /\
    nodes s1 = nodes (initial_state [false] []) /\
    buffers s1 = buffers (initial_state [false] []) /\
    mempools s1 = mempools (initial_state [false] []) /\
    multipools s1 = multipools (initial_state [false] []) /\
    (forall size,
       pool_alloc release_build size s1 =
         if ndebug release_build then
           if MULTIPOOL_ENTRY_COUNT <=? find_multipool_index_for_size (wrap32 size)
           then Ok NULL s1 else Undefined
         else AssertFail) /\
    global_multipool_free release_build s1 =
      if ndebug release_build then Undefined else AssertFail.
Proof.
  apply (global_multipool_create_failure release_build (initial_state [false] [])).
  reflexivity.
Defined.

(** ** Teardown of a multipool with cached blocks *)

Lemma free_mem_pool_chain_run (cfg : Config) (pl : Z) (m : MemPool) (chain : list Z)
    (s : State) :
  pl <> NULL -> mempools s !! pl = Some m ->
  free_list s (head m) chain -> chain_live s chain ->
  free_mem_pool cfg pl s =
    Ok tt (set_mempools (delete pl) (state_after_free_all cfg pl chain s)).
Proof.
  intros Hpl Hm Hlist Hlive.
  destruct (state_after_free_all_spec cfg pl chain (head m) m s Hm Hlist Hlive)
    as (_ & _ & (m' & Hm') & _).
  unfold free_mem_pool, pool_mem_free_all.
  rewrite (bind_Ok _ _ s s tt) by (apply assert_nonnull_pass; exact Hpl).
  rewrite (bind_Ok _ _ s (state_after_free_all cfg pl chain s) tt).
  - unfold free_pool. rewrite (eqb_NULL_false _ Hpl), Hm'. reflexivity.
  - rewrite (bind_Ok _ _ s s tt) by (apply assert_nonnull_pass; exact Hpl).
    rewrite (bind_Ok _ _ _ _ _ (load_pool_live pl m s Hpl Hm)).
    unfold bind, get.
    destruct (pool_mem_free_all_loop_chain cfg pl chain Hpl (S (size (nodes s))) (head m) m s
                Hm Hlist Hlive) as [Hout|Hrun]; [|exact Hrun].
    exfalso. revert Hout. apply pool_mem_free_all_loop_in_fuel. lia.
Qed.

Lemma free_mem_pool_slot_ready (cfg : Config) (q : Z) (c : list Z) (s : State) :
  slot_ready s q c ->
  exists s1, free_mem_pool cfg q s = Ok tt s1 /\ freed s q c s1.
Proof.
  intros ((Hq & m & Hm & Hlist) & Hlive).
  exists (set_mempools (delete q) (state_after_free_all cfg q c s)).
  split; [apply (free_mem_pool_chain_run cfg q m c s Hq Hm Hlist Hlive)|].
  destruct (state_after_free_all_spec cfg q c (head m) m s Hm Hlist Hlive)
    as (Hnodes & Hbufs & _ & Hpools & Hmp & Hg & Hbrk & Hms & Hcs & Hmc).
  unfold freed. state_simpl.
  split; [exact Hnodes|]. split; [exact Hbufs|].
  split; [|auto 10].
  intros q'. destruct (decide (q' = q)) as [->|Hne].
  - apply lookup_delete_eq.
  - rewrite lookup_delete_ne by congruence.
    rewrite <- (lookup_delete_ne (mempools (state_after_free_all cfg q c s)) q q')
      by congruence.
    rewrite Hpools. apply lookup_delete_ne. congruence.
Qed.

Lemma free_list_agree (s s1 : State) (chain : list Z) :
  (forall n, n ∈ chain -> nodes s1 !! n = nodes s !! n) ->
  forall h, free_list s h chain -> free_list s1 h chain.
Proof.
  induction chain as [|k rest IH]; intros Hagree h H; [exact H|].
  destruct H as (-> & Hk & nd & Hnd & Hrest).
  split; [reflexivity|]. split; [exact Hk|]. exists nd. split.
  - rewrite Hagree by left. exact Hnd.
  - apply IH; [|exact Hrest]. intros n Hn. apply Hagree. right. exact Hn.
Qed.

(** Freeing one pool leaves a pool with other nodes ready. *)
Lemma slot_ready_freed (s s1 : State) (q : Z) (c : list Z) (q' : Z) (c' : list Z) :
  freed s q c s1 -> chain_live s c ->
  q' <> q -> (forall n, n ∈ c -> n ∉ c') ->
  slot_ready s q' c' -> slot_ready s1 q' c'.
Proof.
  intros (Hnodes & Hbufs & Hpools & _) Hlive Hne Hdisj ((Hq' & m & Hm & Hlist) & Hlive').
  assert (Hagree : forall n, n ∈ c' -> nodes s1 !! n = nodes s !! n).
  { intros n Hn. rewrite Hnodes. rewrite decide_False; [reflexivity|].
    intros Hin. apply (Hdisj n Hin Hn). }
  split; [split; [exact Hq'|]|].
  - exists m. split; [rewrite Hpools, decide_False by exact Hne; exact Hm|].
    apply (free_list_agree s s1 c' Hagree _ Hlist).
  - intros n Hn. destruct (Hlive' n Hn) as (nd & b & Hnd & Hd & Hb & Hown).
    exists nd, b. split; [rewrite Hagree by exact Hn; exact Hnd|]. split; [exact Hd|].
    split; [|exact Hown].
    rewrite Hbufs, decide_False; [exact Hb|].
    intros Hin. apply list_elem_of_In, in_map_iff in Hin as (k & Hk & Hkin).
    apply list_elem_of_In in Hkin.
    destruct (Hlive k Hkin) as (ndk & bk & Hndk & _ & Hbk & Hok).
    unfold buffer_of in Hk. rewrite Hndk in Hk. rewrite Hk, Hb in Hbk.
    inversion Hbk. subst bk. apply (Hdisj k Hkin). rewrite <- Hok, Hown. exact Hn.
Qed.

Lemma buffer_of_agree (s s1 : State) (l : list Z) :
  (forall n, n ∈ l -> nodes s1 !! n = nodes s !! n) ->
  map (buffer_of s1) l = map (buffer_of s) l.
Proof.
  intros Hagree. apply map_ext_in. intros k Hk. apply list_elem_of_In in Hk.
  unfold buffer_of. rewrite (Hagree k Hk). reflexivity.
Qed.

Lemma freed_all_nil (s : State) : freed_all s [] [] s.
Proof.
  unfold freed_all. cbn [concat map].
  split; [intros k; rewrite decide_False by apply not_elem_of_nil; reflexivity|].
  split; [intros k; rewrite decide_False by apply not_elem_of_nil; reflexivity|].
  split; [intros k; rewrite decide_False by apply not_elem_of_nil; reflexivity|].
  auto 10.
Qed.

Lemma freed_all_cons (s s1 s2 : State) (q : Z) (c : list Z) (qs : list Z)
    (chains : list (list Z)) :
  freed s q c s1 -> freed_all s1 qs chains s2 ->
  (forall n, n ∈ c -> n ∉ concat chains) ->
  freed_all s (q :: qs) (c :: chains) s2.
Proof.
  intros (Hn1 & Hb1 & Hp1 & Hm1 & Hg1 & Hbrk1 & Hms1 & Hcs1 & Hmc1)
         (Hn2 & Hb2 & Hp2 & Hm2 & Hg2 & Hbrk2 & Hms2 & Hcs2 & Hmc2) Hdisj.
  assert (Hagree : forall n, n ∈ concat chains -> nodes s1 !! n = nodes s !! n).
  { intros n Hn. rewrite Hn1, decide_False; [reflexivity|].
    intros Hin. apply (Hdisj n Hin Hn). }
  unfold freed_all. cbn [concat].
  split; [|split; [|split]].
  - intros k. rewrite Hn2, Hn1.
    destruct (decide (k ∈ concat chains)) as [Hin|Hout].
    + rewrite decide_True by (apply elem_of_app; right; exact Hin). reflexivity.
    + destruct (decide (k ∈ c)) as [Hin|Hout'].
      * rewrite decide_True by (apply elem_of_app; left; exact Hin). reflexivity.
      * rewrite decide_False; [reflexivity|].
        intros Hin. apply elem_of_app in Hin as [?|?]; contradiction.
  - intros a. rewrite Hb2, Hb1, (buffer_of_agree s s1 _ Hagree), map_app.
    destruct (decide (a ∈ map (buffer_of s) (concat chains))) as [Hin|Hout].
    + rewrite decide_True by (apply elem_of_app; right; exact Hin). reflexivity.
    + destruct (decide (a ∈ map (buffer_of s) c)) as [Hin|Hout'].
      * rewrite decide_True by (apply elem_of_app; left; exact Hin). reflexivity.
      * rewrite decide_False; [reflexivity|].
        intros Hin. apply elem_of_app in Hin as [?|?]; contradiction.
  - intros q'. rewrite Hp2, Hp1.
    destruct (decide (q' ∈ qs)) as [Hin|Hout].
    + rewrite decide_True by (right; exact Hin). reflexivity.
    + destruct (decide (q' = q)) as [->|Hne].
      * rewrite decide_True by left. reflexivity.
      * rewrite decide_False; [reflexivity|].
        intros Hin. apply elem_of_cons in Hin as [?|?]; contradiction.
  - rewrite Hm2, Hg2, Hbrk2, Hms2, Hcs2, Hmc2. auto 10.
Qed.

Lemma load_multipool_slot_live (mp : Z) (M : MultiPool) (i : nat) (q : Z) (s : State) :
  mp <> NULL -> multipools s !! mp = Some M ->
  (i < Z.to_nat MULTIPOOL_ENTRY_COUNT)%nat -> pools M !! i = Some q ->
  load_multipool_slot mp (Z.of_nat i) s = Ok q s.
Proof.
  intros Hmp HM Hi Hq. unfold load_multipool_slot, bind, load_multipool.
  rewrite (eqb_NULL_false _ Hmp), HM.
  assert (Hr : (0 <=? Z.of_nat i) && (Z.of_nat i <? MULTIPOOL_ENTRY_COUNT) = true).
  { apply andb_true_iff. split; [apply Z.leb_le; lia | apply Z.ltb_lt].
    unfold MULTIPOOL_ENTRY_COUNT in *. lia. }
  rewrite Hr, Nat2Z.id, Hq. reflexivity.
Qed.

Lemma elem_of_concat {A} (x : A) (ls : list (list A)) :
  x ∈ concat ls <-> exists l, l ∈ ls /\ x ∈ l.
Proof.
  rewrite list_elem_of_In, in_concat. split; intros (l & H1 & H2); exists l.
  - split; apply list_elem_of_In; assumption.
  - split; apply list_elem_of_In; assumption.
Qed.

Lemma Forall2_impl_elem {A B} (P Q : A -> B -> Prop) (l : list A) (k : list B) :
  Forall2 P l k -> (forall x y, x ∈ l -> y ∈ k -> P x y -> Q x y) -> Forall2 Q l k.
Proof.
  induction 1 as [|x y l k H1 Hr IH]; intros Himpl; constructor.
  - apply Himpl; [left | left | exact H1].
  - apply IH. intros x' y' Hx Hy. apply Himpl; right; assumption.
Qed.

(** The loop of [multipool_free] from slot [i] on, over pools that are
    ready. *)
Lemma multipool_free_loop_ready (cfg : Config) (mp : Z) (M : MultiPool) :
  mp <> NULL ->
  forall (qs : list Z) (chains : list (list Z)) (fuel i : nat) (s : State),
    Forall2 (slot_ready s) qs chains -> NoDup qs -> disjoint_chains chains ->
    (forall j q, qs !! j = Some q -> pools M !! (i + j)%nat = Some q) ->
    (i + length qs)%nat = Z.to_nat MULTIPOOL_ENTRY_COUNT ->
    (length qs <= fuel)%nat ->
    multipools s !! mp = Some M ->
    exists s', multipool_free_loop cfg fuel mp (Z.of_nat i) s = Ok tt s' /\
               freed_all s qs chains s'.
Proof.
  intros Hmp. induction qs as [|q qs IH];
    intros chains fuel i s Hready Hnd Hdisj Hslots Hlen Hfuel HM.
  - apply Forall2_nil_inv_l in Hready. subst chains.
    exists s. split; [|apply freed_all_nil].
    cbn [length] in Hlen.
    assert (Hge : (Z.of_nat i <? MULTIPOOL_ENTRY_COUNT) = false).
    { apply Z.ltb_ge. unfold MULTIPOOL_ENTRY_COUNT in *. lia. }
    destruct fuel; cbn [multipool_free_loop]; rewrite Hge; reflexivity.
  - apply Forall2_cons_inv_l in Hready as (c & chains' & Hc & Hrest & ->).
    destruct Hdisj as (Hdisj & Hdisj').
    apply NoDup_cons in Hnd as (Hnotin & Hnd).
    cbn [length] in Hlen, Hfuel.
    destruct fuel as [|fuel]; [lia|].
    cbn [multipool_free_loop].
    assert (Hlt : (Z.of_nat i <? MULTIPOOL_ENTRY_COUNT) = true).
    { apply Z.ltb_lt. unfold MULTIPOOL_ENTRY_COUNT in *. lia. }
    rewrite Hlt.
    rewrite (bind_Ok _ _ _ _ _ (load_multipool_slot_live mp M i q s Hmp HM ltac:(lia)
                                  ltac:(rewrite <- (Nat.add_0_r i); apply Hslots; reflexivity))).
    destruct (free_mem_pool_slot_ready cfg q c s Hc) as (s1 & Hfree & Hfreed).
    rewrite (bind_Ok _ _ _ _ _ Hfree).
    destruct (IH chains' fuel (S i) s1) as (s' & Hloop & Hall).
    + destruct Hc as (_ & Hlive).
      apply (Forall2_impl_elem _ _ _ _ Hrest).
      intros q' c' Hq' Hc'. apply (slot_ready_freed s s1 q c q' c' Hfreed Hlive).
      * intros ->. contradiction.
      * intros n Hn Hn'. apply (Hdisj n Hn). apply elem_of_concat.
        exists c'. split; assumption.
    + exact Hnd.
    + exact Hdisj'.
    + intros j q' Hj. replace (S i + j)%nat with (i + S j)%nat by lia.
      apply Hslots. exact Hj.
    + lia.
    + lia.
    + destruct Hfreed as (_ & _ & _ & Hmps & _). rewrite Hmps. exact HM.
    + exists s'. split.
      * replace (Z.of_nat i + 1) with (Z.of_nat (S i)) by lia. exact Hloop.
      * apply (freed_all_cons s s1 s' q c qs chains' Hfreed Hall Hdisj).
Qed.

(** The nodes on the free list of a pool all name that pool. *)
Lemma free_list_pool (s : State) (q : Z) (chain : list Z) :
  wf s ->
  forall h, (h = NULL \/ exists nd, nodes s !! h = Some nd /\ pool nd = q) ->
    free_list s h chain ->
    forall n, n ∈ chain -> exists nd, nodes s !! n = Some nd /\ pool nd = q.
Proof.
  intros Hwf. induction chain as [|k rest IH]; intros h Hh H n Hn.
  - inversion Hn.
  - destruct H as (-> & Hk & nd & Hnd & Hrest).
    destruct Hh as [?|(nd' & Hnd' & Hp)]; [contradiction|].
    assert (nd' = nd) by congruence. subst nd'.
    apply elem_of_cons in Hn as [->|Hn]; [exists nd; split; assumption|].
    apply (IH (next nd)); [|exact Hrest | exact Hn].
    destruct (wf_node_inv s k nd Hwf Hnd) as (_ & _ & [Hx|(nx & Hnx & Hpx)]).
    + left. exact Hx.
    + right. exists nx. split; [exact Hnx | congruence].
Qed.

Lemma has_free_list_pool (s : State) (q : Z) (chain : list Z) :
  wf s -> has_free_list s q chain ->
  forall n, n ∈ chain -> exists nd, nodes s !! n = Some nd /\ pool nd = q.
Proof.
  intros Hwf (_ & m & Hm & Hlist).
  apply (free_list_pool s q chain Hwf (head m)); [|exact Hlist].
  apply (wf_pool_inv s q m Hwf Hm).
Qed.

Lemma has_free_list_ready (s : State) (q : Z) (chain : list Z) :
  wf s -> has_free_list s q chain -> slot_ready s q chain.
Proof.
  intros Hwf H. split; [exact H|]. destruct H as (_ & m & _ & Hlist).
  apply (free_list_chain_live s chain Hwf _ Hlist).
Qed.

Lemma table_disjoint_chains (s : State) (qs : list Z) (chains : list (list Z)) :
  wf s -> Forall2 (has_free_list s) qs chains -> NoDup qs -> disjoint_chains chains.
Proof.
  intros Hwf H. induction H as [|q c qs cs Hq Hrest IH]; intros Hnd; [exact I|].
  apply NoDup_cons in Hnd as (Hnotin & Hnd).
  split; [|apply IH; exact Hnd].
  intros n Hn Hin. apply elem_of_concat in Hin as (c' & Hc' & Hn').
  apply list_elem_of_lookup in Hc' as (i & Hi).
  destruct (Forall2_lookup_r _ _ _ _ _ Hrest Hi) as (q' & Hq' & Hfl').
  destruct (has_free_list_pool s q c Hwf Hq n Hn) as (nd & Hnode & Hp).
  destruct (has_free_list_pool s q' c' Hwf Hfl' n Hn') as (nd' & Hnode' & Hp').
  apply Hnotin. apply list_elem_of_lookup. exists i.
  rewrite Hq'. f_equal. congruence.
Qed.

(** What [multipool_free] frees and what it leaves. *)
Lemma multipool_free_spec (cfg : Config) (mp : Z) (M : MultiPool) (chains : list (list Z))
    (s : State) :
  wf s -> multipools s !! mp = Some M ->
  length (pools M) = Z.to_nat MULTIPOOL_ENTRY_COUNT -> NoDup (pools M) ->
  table_free_lists s M chains ->
  exists s1 s',
    multipool_free cfg mp s = Ok tt s' /\
    freed_all s (pools M) chains s1 /\
    s' = set_multipools (delete mp) s1.
Proof.
  intros Hwf HM Hlen Hnd Hlists.
  pose proof (wf_multipool_below s _ M Hwf HM) as Hmpb.
  assert (Hmp : mp <> NULL) by (unfold NULL; lia).
  destruct (multipool_free_loop_ready cfg mp M Hmp (pools M) chains
              (Z.to_nat MULTIPOOL_ENTRY_COUNT) 0 s) as (s1 & Hloop & Hall).
  - apply (Forall2_impl _ _ _ _ Hlists). intros q c. apply has_free_list_ready. exact Hwf.
  - exact Hnd.
  - apply (table_disjoint_chains s (pools M) chains Hwf Hlists Hnd).
  - intros j q Hj. exact Hj.
  - rewrite Hlen. reflexivity.
  - rewrite Hlen. lia.
  - exact HM.
  - exists s1, (set_multipools (delete mp) s1).
    split; [|split; [exact Hall | reflexivity]].
    unfold multipool_free.
    rewrite (bind_Ok _ _ s s tt) by (apply assert_nonnull_pass; exact Hmp).
    rewrite (bind_Ok _ _ _ _ _ Hloop).
    unfold free_multipool. rewrite (eqb_NULL_false _ Hmp).
    destruct Hall as (_ & _ & _ & Hmps & _). rewrite Hmps, HM. reflexivity.
Qed.

(** X14. [multipool_free] on a table of fourteen different live pools,
    each with a free list that ends in [NULL], returns and frees the table,
    the fourteen pools, every node on their free lists and the data buffer of
    each; pools outside the table, and nodes that are on none of the lists
    (blocks still handed out) with their buffers, stay allocated. *)
Theorem multipool_free_releases_table
    (cfg : Config) (mp : Z) (M : MultiPool) (chains : list (list Z)) (s : State) :
  wf s -> multipools s !! mp = Some M ->
  length (pools M) = Z.to_nat MULTIPOOL_ENTRY_COUNT -> NoDup (pools M) ->
  table_free_lists s M chains ->
  exists s',
    multipool_free cfg mp s = Ok tt s' /\
    multipools s' = delete mp (multipools s) /\
    (forall q, mempools s' !! q = if decide (q ∈ pools M) then None else mempools s !! q) /\
    (forall n nd, n ∈ concat chains -> nodes s !! n = Some nd ->
       nodes s' !! n = None /\ buffers s' !! (data nd - sizeof_ptrdiff) = None) /\
    (forall n nd, n ∉ concat chains -> nodes s !! n = Some nd ->
       nodes s' !! n = Some nd /\
       buffers s' !! (data nd - sizeof_ptrdiff) = buffers s !! (data nd - sizeof_ptrdiff)) /\
    malloc_calls s' = malloc_calls s.
Proof.
  intros Hwf HM Hlen Hnd Hlists.
  destruct (multipool_free_spec cfg mp M chains s Hwf HM Hlen Hnd Hlists)
    as (s1 & s' & Hrun & (Hnodes & Hbufs & Hpools & Hmps & _ & _ & _ & _ & Hmc) & ->).
  exists (set_multipools (delete mp) s1). split; [exact Hrun|]. state_simpl.
  split; [rewrite Hmps; reflexivity|]. split; [exact Hpools|].
  split; [|split; [|exact Hmc]].
  - intros n nd Hin Hnode. split.
    + rewrite Hnodes, decide_True by exact Hin. reflexivity.
    + rewrite Hbufs, decide_True; [reflexivity|].
      apply list_elem_of_In, in_map_iff. exists n.
      split; [unfold buffer_of; rewrite Hnode; reflexivity | apply list_elem_of_In; exact Hin].
  - intros n nd Hout Hnode. split.
    + rewrite Hnodes, decide_False by exact Hout. exact Hnode.
    + rewrite Hbufs, decide_False; [reflexivity|].
      intros Hin. apply list_elem_of_In, in_map_iff in Hin as (k & Hk & Hkin).
      apply list_elem_of_In in Hkin.
      pose proof Hkin as Hkc. apply elem_of_concat in Hkc as (c & Hc & Hkc).
      apply list_elem_of_lookup in Hc as (i & Hi).
      destruct (Forall2_lookup_r _ _ _ _ _ Hlists Hi) as (q & _ & _ & m & _ & Hlist).
      destruct (free_list_chain_live s c Hwf _ Hlist k Hkc) as (ndk & bk & Hndk & _ & Hbk & Hok).
      unfold buffer_of in Hk. rewrite Hndk in Hk.
      destruct (wf_node_inv s n nd Hwf Hnode) as ((b & Hb & Hown) & _).
      rewrite <- Hk, Hbk in Hb. inversion Hb. subst b. apply Hout. congruence.
Qed.

Lemma wf_table_cached_state : wf table_cached_state.
Proof. apply (bool_decide_unpack _). vm_compute. exact I. Qed.

Lemma table_free_lists_cached_state :
  table_free_lists table_cached_state table_at_4096
    [[]; []; []; [4432]; []; []; []; []; []; []; []; []; []; []].
Proof.
  unfold table_free_lists, table_at_4096. cbn [pools].
  repeat (apply Forall2_cons_2;
          [split; [discriminate | eexists; split; [vm_compute; reflexivity|]]|]);
    [..|apply Forall2_nil_2]; cbn [free_list head]; try reflexivity.
  split; [reflexivity|]. split; [discriminate|].
  eexists. split; [vm_compute; reflexivity | reflexivity].
Qed.

Lemma multipool_free_releases_table_witness :
  exists s',
    multipool_free debug_build 4096 table_cached_state = Ok tt s' /\
    multipools s' = delete 4096 (multipools table_cached_state) /\
    mempools s' !! 4256 = None /\
    nodes s' !! 4432 = None /\ buffers s' !! (4472 - sizeof_ptrdiff) = None /\
    malloc_calls s' = malloc_calls table_cached_state.
Proof.
  destruct (multipool_free_releases_table debug_build 4096 table_at_4096
              [[]; []; []; [4432]; []; []; []; []; []; []; []; []; []; []]
              table_cached_state wf_table_cached_state)
    as (s' & Hrun & Hmps & Hpools & Hfreed & _ & Hmc).
  - vm_compute. reflexivity.
  - reflexivity.
  - apply (bool_decide_unpack _). vm_compute. exact I.
  - exact table_free_lists_cached_state.
  - exists s'. split; [exact Hrun|]. split; [exact Hmps|].
    split; [rewrite Hpools; reflexivity|].
    destruct (Hfreed 4432 (mkMemNode 0 4472 4256)) as (H1 & H2).
    + cbn [concat app]. left.
    + vm_compute. reflexivity.
    + split; [exact H1|]. split; [exact H2 | exact Hmc].
Defined.

(** ** Creation and teardown together *)

Lemma alloc_mem_pool_origin (cfg : Config) (size pl : Z) (s s1 : State) :
  wf s -> alloc_mem_pool cfg size s = Ok pl s1 ->
  forall q m, mempools s1 !! q = Some m -> mempools s !! q = Some m \/ (q = pl /\ pl <> NULL).
Proof.
  intros Hwf H q m Hq.
  destruct (alloc_mem_pool_cases cfg size pl s s1 Hwf H) as [(_ & ->)|(-> & ->)].
  - left. exact Hq.
  - cbn [state_after_pool mempools] in Hq.
    destruct (Z.eq_dec q (brk s)) as [->|Hne].
    + right. split; [reflexivity|]. pose proof (wf_brk_pos s Hwf). unfold NULL. lia.
    + rewrite lookup_insert_ne in Hq by congruence. left. exact Hq.
Qed.

Lemma store_multipool_slot_Ok_mempools (mp i v : Z) (u : unit) (s s2 : State) :
  store_multipool_slot mp i v s = Ok u s2 -> mempools s2 = mempools s.
Proof.
  unfold store_multipool_slot. repeat case_match;
    (let Hres := fresh "Hres" in intros Hres; inversion Hres; reflexivity).
Qed.

(** Where the pools come from that are live after the loop of
    [multipool_create], and what it has used of the script. *)
Lemma multipool_create_loop_origin (cfg : Config) (mp : Z) (fuel : nat) :
  forall (i : Z) (s : State) (M : MultiPool),
  wf s -> mp <> NULL -> multipools s !! mp = Some M ->
  length (pools M) = Z.to_nat MULTIPOOL_ENTRY_COUNT ->
  0 <= i <= MULTIPOOL_ENTRY_COUNT -> Z.of_nat fuel = MULTIPOOL_ENTRY_COUNT - i ->
  forall s' M',
    multipool_create_loop cfg fuel mp i s = Ok tt s' -> multipools s' !! mp = Some M' ->
    malloc_script s' = drop fuel (malloc_script s) /\
    forall q m, mempools s' !! q = Some m ->
      mempools s !! q = Some m \/ (q <> NULL /\ q ∈ pools M').
Proof.
  induction fuel as [|f IH]; intros i s M Hwf Hmp HM Hlen Hi Hfuel s' M' Hrun HM'.
  - assert (i = MULTIPOOL_ENTRY_COUNT) by lia. subst i.
    cbn [multipool_create_loop] in Hrun. rewrite Z.ltb_irrefl in Hrun.
    inversion Hrun. subst s'. split; [reflexivity|]. intros q m Hq. left. exact Hq.
  - assert (Hi' : 0 <= i < MULTIPOOL_ENTRY_COUNT) by lia.
    destruct (multipool_create_turn cfg mp i M s Hwf Hmp HM Hi')
      as (pl & s1 & s2 & Halloc & Hstore & Hwf2 & HM2 & Hscr & _).
    assert (Hlen2 : length (pools (mkMultiPool (<[Z.to_nat i := pl]> (pools M))))
                    = Z.to_nat MULTIPOOL_ENTRY_COUNT)
      by (cbn [pools]; rewrite length_insert; exact Hlen).
    cbn [multipool_create_loop] in Hrun.
    rewrite (proj2 (Z.ltb_lt i MULTIPOOL_ENTRY_COUNT)) in Hrun by lia.
    rewrite (class_size_eq i Hi') in Hrun.
    rewrite (bind_Ok _ _ _ _ _ Halloc), (bind_Ok _ _ _ _ _ Hstore) in Hrun.
    rewrite (wrap32_small (i + 1)) in Hrun
      by (unfold UINT32_MOD, MULTIPOOL_ENTRY_COUNT in *; lia).
    destruct (IH (i + 1) s2 _ Hwf2 Hmp HM2 Hlen2 ltac:(lia) ltac:(lia) s' M' Hrun HM')
      as (Hscr' & Horigin).
    split.
    { rewrite Hscr', Hscr. destruct (malloc_script s); [apply drop_nil | reflexivity]. }
    intros q m Hq. destruct (Horigin q m Hq) as [Hq2|Hin]; [|right; exact Hin].
    rewrite (store_multipool_slot_Ok_mempools _ _ _ _ _ _ Hstore) in Hq2.
    destruct (alloc_mem_pool_origin cfg _ pl s s1 Hwf Halloc q m Hq2) as [Hold|(-> & Hnn)];
      [left; exact Hold|].
    right. split; [exact Hnn|].
    destruct (multipool_create_loop_spec cfg mp f (i + 1) s2 _ Hwf2 Hmp HM2 Hlen2
                ltac:(lia) ltac:(lia))
      as (s'' & M'' & Hrun'' & _ & HM'' & _ & _ & _ & _ & _ & _ & _ & _ & Hlow & _).
    rewrite Hrun in Hrun''. inversion Hrun''. subst s''.
    rewrite HM' in HM''. inversion HM''. subst M''.
    apply list_elem_of_lookup. exists (Z.to_nat i).
    rewrite Hlow by lia. cbn [pools].
    apply list_lookup_insert_eq. rewrite Hlen. unfold MULTIPOOL_ENTRY_COUNT in *. lia.
Qed.

(** [multipool_create] when its fifteen calls of [malloc] succeed: a table
    of fourteen different empty pools, all of them new, and nothing else
    new. *)
Lemma multipool_create_built (cfg : Config) (s : State) :
  wf s -> mallocs_succeed 15 s = true ->
  exists s1 M,
    multipool_create cfg s = Ok (brk s) s1 /\ brk s <> NULL /\ wf s1 /\
    multipools s1 !! brk s = Some M /\
    length (pools M) = Z.to_nat MULTIPOOL_ENTRY_COUNT /\ NoDup (pools M) /\
    (forall q, q ∈ pools M ->
       q <> NULL /\ mempools s !! q = None /\
       exists m, mempools s1 !! q = Some m /\ head m = NULL) /\
    (forall q, q ∉ pools M -> mempools s1 !! q = mempools s !! q) /\
    (forall a, a <> brk s -> multipools s1 !! a = multipools s !! a) /\
    multipools s !! brk s = None /\
    nodes s1 = nodes s /\ buffers s1 = buffers s /\
    _global_multipool s1 = _global_multipool s /\
    malloc_calls s1 = (malloc_calls s + 15)%nat /\
    malloc_script s1 = drop 15 (malloc_script s).
Proof.
  intros Hwf Hall.
  assert (Hok : hd true (malloc_script s) = true).
  { rewrite <- nth_0_script. apply (mallocs_succeed_nth 15); [exact Hall | lia]. }
  pose proof (wf_brk_pos s Hwf) as Hbrk.
  destruct (multipool_create_spec cfg s Hwf Hok)
    as (s1 & M & Hrun & Hnn & Hwf1 & HM & Hlen & Hn & Hb & Hg & Hmc & Hmps & Hkeep & Hslots).
  assert (Hbuilt : forall j, 0 <= j < MULTIPOOL_ENTRY_COUNT ->
            exists q, pools M !! Z.to_nat j = Some q /\ q <> NULL /\
                      mempools s1 !! q = Some (mkMemPool NULL (class_size j) 0 0) /\
                      mempools s !! q = None).
  { intros j Hj. destruct (Hslots j Hj) as (q & Hq & Hslot).
    rewrite (mallocs_succeed_nth 15 s _ Hall) in Hslot
      by (unfold MULTIPOOL_ENTRY_COUNT in Hj; lia).
    exists q. split; [exact Hq | exact Hslot]. }
  assert (Hin : forall q, q ∈ pools M ->
            exists j, 0 <= j < MULTIPOOL_ENTRY_COUNT /\ pools M !! Z.to_nat j = Some q).
  { intros q Hq. apply list_elem_of_lookup in Hq as (j & Hj).
    pose proof (lookup_lt_Some _ _ _ Hj) as Hjl. rewrite Hlen in Hjl.
    exists (Z.of_nat j). rewrite Nat2Z.id. split; [lia | exact Hj]. }
  assert (Hnd : NoDup (pools M)).
  { apply NoDup_alt. intros i j x Hi Hj.
    pose proof (lookup_lt_Some _ _ _ Hi) as Hil. pose proof (lookup_lt_Some _ _ _ Hj) as Hjl.
    rewrite Hlen in Hil, Hjl. change (Z.to_nat MULTIPOOL_ENTRY_COUNT) with 14%nat in Hil, Hjl.
    destruct (Hbuilt (Z.of_nat i)) as (qi & Hqi & _ & Hpi & _);
      [unfold MULTIPOOL_ENTRY_COUNT; lia|].
    destruct (Hbuilt (Z.of_nat j)) as (qj & Hqj & _ & Hpj & _);
      [unfold MULTIPOOL_ENTRY_COUNT; lia|].
    rewrite Nat2Z.id in Hqi, Hqj.
    assert (qi = x) by congruence. assert (qj = x) by congruence. subst qi qj.
    rewrite Hpi in Hpj. inversion Hpj as [Hcs].
    apply Nat2Z.inj. apply class_size_inj; [lia | lia | exact Hcs]. }
  (* the run once more, to read off the script and the origin of the pools *)
  pose proof Hrun as Hrun'.
  unfold multipool_create, malloc_MultiPool, malloc_succeeds, take_block,
    bind at 1 2 3 4 in Hrun'.
  rewrite Hok in Hrun'. state_simpl. rewrite eqb_NULL_false in Hrun' by exact Hnn.
  cbn [negb] in Hrun'. fold multipool_block in Hrun'.
  change (mkState (nodes s) (buffers s) (mempools s) _ (_global_multipool s) _ _
            (cas_script s) _) with (state_after_multipool s) in Hrun'.
  apply bind_Ok_inv in Hrun' as ([] & s1' & Hloop & Hret). inversion Hret. subst s1'.
  destruct (multipool_create_loop_origin cfg (brk s) (Z.to_nat MULTIPOOL_ENTRY_COUNT) 0
              (state_after_multipool s)
              (mkMultiPool (replicate (Z.to_nat MULTIPOOL_ENTRY_COUNT) 0))
              (wf_state_after_multipool s Hwf) Hnn) with (s' := s1) (M' := M)
    as (Hscript & Horigin).
  { unfold state_after_multipool. state_simpl. apply lookup_insert_eq. }
  { cbn [pools]. apply length_replicate. }
  { unfold MULTIPOOL_ENTRY_COUNT. lia. }
  { unfold MULTIPOOL_ENTRY_COUNT. lia. }
  { exact Hloop. }
  { exact HM. }
  exists s1, M. split; [exact Hrun|]. split; [exact Hnn|]. split; [exact Hwf1|].
  split; [exact HM|]. split; [exact Hlen|]. split; [exact Hnd|].
  split.
  { intros q Hq. destruct (Hin q Hq) as (j & Hj & Hlook).
    destruct (Hbuilt j Hj) as (q' & Hq' & Hqn & Hpool & Hfresh).
    assert (q' = q) by congruence. subst q'.
    split; [exact Hqn|]. split; [exact Hfresh|].
    exists (mkMemPool NULL (class_size j) 0 0). split; [exact Hpool | reflexivity]. }
  split.
  { intros q Hout. destruct (mempools s1 !! q) as [m|] eqn:E.
    - destruct (Horigin q m E) as [Hold|(_ & Hq)]; [|contradiction].
      symmetry. exact Hold.
    - destruct (mempools s !! q) as [m|] eqn:E'; [|reflexivity].
      rewrite (Hkeep q m E') in E. discriminate. }
  split.
  { intros a Ha. destruct (multipools s !! a) as [mp|] eqn:E.
    - apply Hmps. exact E.
    - destruct (multipool_create_loop_spec cfg (brk s) (Z.to_nat MULTIPOOL_ENTRY_COUNT) 0
                  (state_after_multipool s)
                  (mkMultiPool (replicate (Z.to_nat MULTIPOOL_ENTRY_COUNT) 0))
                  (wf_state_after_multipool s Hwf) Hnn)
        as (s'' & M'' & Hrun'' & _ & _ & _ & _ & _ & _ & _ & _ & Hother & _).
      { unfold state_after_multipool. state_simpl. apply lookup_insert_eq. }
      { cbn [pools]. apply length_replicate. }
      { unfold MULTIPOOL_ENTRY_COUNT. lia. }
      { unfold MULTIPOOL_ENTRY_COUNT. lia. }
      rewrite Hloop in Hrun''. inversion Hrun''. subst s''.
      rewrite (Hother a Ha). unfold state_after_multipool. state_simpl.
      rewrite lookup_insert_ne by congruence. exact E. }
  split.
  { destruct (multipools s !! brk s) as [mp|] eqn:E; [|reflexivity].
    pose proof (wf_multipool_below s _ mp Hwf E). lia. }
  split; [exact Hn|]. split; [exact Hb|]. split; [exact Hg|]. split; [exact Hmc|].
  rewrite Hscript. change (malloc_script (state_after_multipool s)) with (tl (malloc_script s)).
  change (Z.to_nat MULTIPOOL_ENTRY_COUNT) with 14%nat.
  destruct (malloc_script s); reflexivity.
Qed.

Lemma concat_replicate_nil {A} (n : nat) : concat (replicate n (@nil A)) = [].
Proof. induction n as [|n IH]; [reflexivity | exact IH]. Qed.

Lemma table_free_lists_empty (s : State) (qs : list Z) :
  (forall q, q ∈ qs -> q <> NULL /\ exists m, mempools s !! q = Some m /\ head m = NULL) ->
  Forall2 (has_free_list s) qs (replicate (length qs) []).
Proof.
  induction qs as [|q qs IH]; intros H; [constructor|].
  cbn [length replicate]. constructor.
  - destruct (H q ltac:(left)) as (Hq & m & Hm & Hh).
    split; [exact Hq|]. exists m. split; [exact Hm | exact Hh].
  - apply IH. intros q' Hq'. apply H. right. exact Hq'.
Qed.

(** [multipool_free] on a table of fourteen different empty pools. *)
Lemma multipool_free_empty_table (cfg : Config) (mp : Z) (M : MultiPool) (s : State) :
  wf s -> multipools s !! mp = Some M ->
  length (pools M) = Z.to_nat MULTIPOOL_ENTRY_COUNT -> NoDup (pools M) ->
  (forall q, q ∈ pools M ->
     q <> NULL /\ exists m, mempools s !! q = Some m /\ head m = NULL) ->
  exists s',
    multipool_free cfg mp s = Ok tt s' /\
    nodes s' = nodes s /\ buffers s' = buffers s /\
    (forall q, mempools s' !! q = if decide (q ∈ pools M) then None else mempools s !! q) /\
    multipools s' = delete mp (multipools s) /\
    _global_multipool s' = _global_multipool s /\ brk s' = brk s /\
    malloc_script s' = malloc_script s /\ cas_script s' = cas_script s /\
    malloc_calls s' = malloc_calls s.
Proof.
  intros Hwf HM Hlen Hnd Hempty.
  destruct (multipool_free_spec cfg mp M (replicate (length (pools M)) []) s Hwf HM Hlen Hnd
              (table_free_lists_empty s (pools M) Hempty))
    as (s1 & s' & Hrun & (Hnodes & Hbufs & Hpools & Hmps & Hg & Hbrk & Hms & Hcs & Hmc) & ->).
  rewrite concat_replicate_nil in Hnodes, Hbufs. cbn [map] in Hbufs.
  exists (set_multipools (delete mp) s1). split; [exact Hrun|]. state_simpl.
  split; [apply map_eq; intros k; rewrite Hnodes, decide_False by apply not_elem_of_nil;
          reflexivity|].
  split; [apply map_eq; intros k; rewrite Hbufs, decide_False by apply not_elem_of_nil;
          reflexivity|].
  split; [exact Hpools|]. split; [rewrite Hmps; reflexivity|]. auto 10.
Qed.

(** [multipool_create] and then [multipool_free]. *)
Lemma multipool_round_trip (cfg : Config) (s : State) :
  wf s -> mallocs_succeed 15 s = true ->
  exists s1 s2,
    multipool_create cfg s = Ok (brk s) s1 /\ brk s <> NULL /\
    multipool_free cfg (brk s) s1 = Ok tt s2 /\
    nodes s2 = nodes s /\ buffers s2 = buffers s /\
    mempools s2 = mempools s /\ multipools s2 = multipools s /\
    _global_multipool s2 = _global_multipool s /\
    malloc_calls s2 = (malloc_calls s + 15)%nat /\
    malloc_script s2 = drop 15 (malloc_script s) /\ brk s <= brk s2.
Proof.
  intros Hwf Hall.
  destruct (multipool_create_built cfg s Hwf Hall)
    as (s1 & M & Hrun & Hnn & Hwf1 & HM & Hlen & Hnd & Hpools & Hother & Hmps & Hfresh
        & Hn & Hb & Hg & Hmc & Hscr).
  destruct (multipool_free_empty_table cfg (brk s) M s1 Hwf1 HM Hlen Hnd)
    as (s2 & Hfree & Hn2 & Hb2 & Hp2 & Hm2 & Hg2 & Hbrk2 & Hms2 & _ & Hmc2).
  { intros q Hq. destruct (Hpools q Hq) as (Hqn & _ & Hm). split; [exact Hqn | exact Hm]. }
  exists s1, s2. split; [exact Hrun|]. split; [exact Hnn|]. split; [exact Hfree|].
  split; [congruence|]. split; [congruence|].
  split.
  { apply map_eq. intros q. rewrite Hp2. destruct (decide (q ∈ pools M)) as [Hin|Hout].
    - destruct (Hpools q Hin) as (_ & Hnone & _). symmetry. exact Hnone.
    - apply Hother. exact Hout. }
  split.
  { apply map_eq. intros a. rewrite Hm2. destruct (Z.eq_dec a (brk s)) as [->|Hne].
    - rewrite lookup_delete_eq. symmetry. exact Hfresh.
    - rewrite lookup_delete_ne by congruence. apply Hmps. exact Hne. }
  split; [congruence|]. split; [congruence|]. split; [congruence|].
  rewrite Hbrk2. destruct (wf_multipool_create cfg _ s s1 Hwf Hrun) as (_ & Hext).
  pose proof (wf_multipool_below s1 _ M Hwf1 HM). lia.
Qed.

(** X15. When its fifteen calls of [malloc] succeed, [multipool_create]
    followed by [multipool_free] returns and leaves the heap exactly as it
    was before: no node, buffer, pool or table more or less than at the
    start. *)
Theorem multipool_create_then_free_restores_heap (cfg : Config) (s : State) :
  wf s -> mallocs_succeed 15 s = true ->
  exists mp s1 s2,
    multipool_create cfg s = Ok mp s1 /\ mp <> NULL /\
    multipool_free cfg mp s1 = Ok tt s2 /\
    nodes s2 = nodes s /\ buffers s2 = buffers s /\
    mempools s2 = mempools s /\ multipools s2 = multipools s /\
    malloc_calls s2 = (malloc_calls s + 15)%nat.
Proof.
  intros Hwf Hall.
  destruct (multipool_round_trip cfg s Hwf Hall)
    as (s1 & s2 & H1 & H2 & H3 & H4 & H5 & H6 & H7 & _ & H8 & _).
  exists (brk s), s1, s2. auto 10.
Qed.

Lemma multipool_create_then_free_restores_heap_witness :
  exists mp s1 s2,
    multipool_create debug_build (pool_4096_state [] []) = Ok mp s1 /\ mp <> NULL /\
    multipool_free debug_build mp s1 = Ok tt s2 /\
    nodes s2 = nodes (pool_4096_state [] []) /\
    buffers s2 = buffers (pool_4096_state [] []) /\
    mempools s2 = mempools (pool_4096_state [] []) /\
    multipools s2 = multipools (pool_4096_state [] []) /\
    malloc_calls s2 = (malloc_calls (pool_4096_state [] []) + 15)%nat.
Proof.
  apply (multipool_create_then_free_restores_heap debug_build (pool_4096_state [] [])).
  - apply (bool_decide_unpack _). vm_compute. exact I.
  - reflexivity.
Defined.

(** ** The constructor and destructor of [gozlib.c] *)

Lemma alloc_mem_pool_fresh (cfg : Config) (size : Z) (s : State) :
  wf s -> hd true (malloc_script s) = true ->
  alloc_mem_pool cfg size s = Ok (brk s) (state_after_pool cfg size s) /\
  wf (state_after_pool cfg size s) /\ brk s <> NULL /\
  mempools s !! brk s = None /\ brk s < brk (state_after_pool cfg size s).
Proof.
  intros Hwf Hok. pose proof (wf_brk_pos s Hwf) as Hbrk.
  split; [apply alloc_mem_pool_success; assumption|].
  split; [apply wf_state_after_pool; exact Hwf|].
  split; [unfold NULL; lia|].
  split; [apply wf_pool_fresh; [exact Hwf | lia]|].
  cbn [state_after_pool brk]. pose proof (pool_block_pos cfg). lia.
Qed.

Lemma hd_drop_script (n : nat) (script : list bool) :
  hd true (drop n script) = nth n script true.
Proof.
  revert script. induction n as [|n IH]; intros [|b r]; try reflexivity. apply IH.
Qed.

(** The constructor when all its eighteen calls of [malloc] succeed, and the
    destructor after it. *)
Lemma create_free_mem_pools_run (cfg : Config) (zsize : Z) (s : State) :
  wf s -> mallocs_succeed 18 s = true ->
  exists g s1 s2,
    create_mem_pools cfg zsize s = Ok g s1 /\
    _zstreamstate_pool g <> NULL /\ _z_stream_pool g <> NULL /\
    _gozlib_transformer_pool g <> NULL /\
    _global_multipool s1 <> NULL /\ is_Some (multipools s1 !! _global_multipool s1) /\
    wf s1 /\
    free_mem_pools cfg g s1 = Ok tt s2 /\
    nodes s2 = nodes s /\ buffers s2 = buffers s /\
    mempools s2 = mempools s /\ multipools s2 = multipools s /\
    _global_multipool s2 = _global_multipool s1 /\
    malloc_calls s2 = (malloc_calls s + 18)%nat.
Proof.
  intros Hwf Hall.
  assert (Hall15 : mallocs_succeed 15 s = true).
  { unfold mallocs_succeed in *. apply forallb_forall. intros x Hx.
    apply (proj1 (forallb_forall _ _) Hall).
    rewrite <- (firstn_skipn 15 (firstn 18 (malloc_script s))).
    apply in_or_app. left. rewrite firstn_firstn. exact Hx. }
  destruct (multipool_create_built cfg s Hwf Hall15)
    as (s0 & M & Hrun & Hnn & Hwf0 & HM & Hlen & Hnd & Hpools & Hother & Hmps & Hfresh
        & Hn & Hb & Hg & Hmc & Hscr).
  pose proof (wf_multipool_below s0 _ M Hwf0 HM) as Hbrk0.
  set (sg := set_global_multipool (brk s) s0).
  assert (Hwfg : wf sg) by (apply (wf_same_heap s0); try reflexivity; exact Hwf0).
  assert (Hscript : forall k, (k < 3)%nat ->
            nth k (malloc_script sg) true = true).
  { intros k Hk. change (malloc_script sg) with (malloc_script s0). rewrite Hscr.
    rewrite <- hd_drop_script, drop_drop, hd_drop_script.
    apply (mallocs_succeed_nth 18 s _ Hall). lia. }
  set (sa := state_after_pool cfg (wrap32 sizeof_ZStreamState) sg).
  set (sb := state_after_pool cfg (wrap32 zsize) sa).
  set (sc := state_after_pool cfg (wrap32 sizeof_GoZLibTransformer) sb).
  destruct (alloc_mem_pool_fresh cfg (wrap32 sizeof_ZStreamState) sg Hwfg)
    as (Hra & Hwfa & Han & Haf & Hab).
  { rewrite <- nth_0_script. apply Hscript. lia. }
  fold sa in Hra, Hwfa, Hab.
  destruct (alloc_mem_pool_fresh cfg (wrap32 zsize) sa Hwfa)
    as (Hrb & Hwfb & Hbn & Hbf & Hbb).
  { change (malloc_script sa) with (tl (malloc_script sg)).
    rewrite <- nth_0_script, <- nth_tl_script. apply Hscript. lia. }
  fold sb in Hrb, Hwfb, Hbb.
  destruct (alloc_mem_pool_fresh cfg (wrap32 sizeof_GoZLibTransformer) sb Hwfb)
    as (Hrc & Hwfc & Hcn & Hcf & Hcb).
  { change (malloc_script sb) with (tl (tl (malloc_script sg))).
    rewrite <- nth_0_script, <- !nth_tl_script. apply Hscript. lia. }
  fold sc in Hrc, Hwfc, Hcb.
  set (a := brk sg) in *. set (b := brk sa) in *. set (c := brk sb) in *.
  assert (Hlive : forall q, q ∈ pools M -> q < a).
  { intros q Hq. destruct (Hpools q Hq) as (_ & _ & m & Hm & _).
    pose proof (wf_pool_below s0 q m Hwf0 Hm). unfold a. change (brk sg) with (brk s0). lia. }
  assert (Hmsc : mempools sc =
            <[c := mkMemPool NULL (wrap32 sizeof_GoZLibTransformer) 0 0]>
              (<[b := mkMemPool NULL (wrap32 zsize) 0 0]>
                 (<[a := mkMemPool NULL (wrap32 sizeof_ZStreamState) 0 0]> (mempools s0))))
    by reflexivity.
  assert (Hpc : forall q, q <> a -> q <> b -> q <> c -> mempools sc !! q = mempools s0 !! q).
  { intros q Ha Hb' Hc. rewrite Hmsc, !lookup_insert_ne by congruence. reflexivity. }
  destruct (multipool_free_empty_table cfg (brk s) M sc Hwfc HM Hlen Hnd)
    as (sf & Hfree & Hnf & Hbf' & Hpf & Hmf & Hgf & Hbrkf & Hmsf & _ & Hmcf).
  { intros q Hq. destruct (Hpools q Hq) as (Hqn & _ & m & Hm & Hh).
    split; [exact Hqn|]. exists m. split; [|exact Hh].
    pose proof (Hlive q Hq). rewrite Hpc by lia. exact Hm. }
  assert (Hfa : mempools sf !! a = Some (mkMemPool NULL (wrap32 sizeof_ZStreamState) 0 0)).
  { rewrite Hpf, decide_False by (intros Hin; pose proof (Hlive a Hin); lia).
    rewrite Hmsc, !lookup_insert_ne by lia. apply lookup_insert_eq. }
  assert (Hfb : mempools sf !! b = Some (mkMemPool NULL (wrap32 zsize) 0 0)).
  { rewrite Hpf, decide_False by (intros Hin; pose proof (Hlive b Hin); lia).
    rewrite Hmsc, lookup_insert_ne by lia. apply lookup_insert_eq. }
  assert (Hfc : mempools sf !! c
                = Some (mkMemPool NULL (wrap32 sizeof_GoZLibTransformer) 0 0)).
  { rewrite Hpf, decide_False by (intros Hin; pose proof (Hlive c Hin); lia).
    rewrite Hmsc. apply lookup_insert_eq. }
  set (s1 := set_mempools (delete a) sf).
  set (s2 := set_mempools (delete b) s1).
  set (s3 := set_mempools (delete c) s2).
  exists (mkPoolGlobals a b c), sc, s3.
  split.
  { unfold create_mem_pools, global_multipool_create.
    unfold bind at 1 2. rewrite Hrun. fold sg.
    rewrite (bind_Ok _ _ _ _ _ Hra), (bind_Ok _ _ _ _ _ Hrb), (bind_Ok _ _ _ _ _ Hrc).
    reflexivity. }
  cbn [_zstreamstate_pool _z_stream_pool _gozlib_transformer_pool].
  split; [exact Han|]. split; [exact Hbn|]. split; [exact Hcn|].
  split; [exact Hnn|]. split; [exists M; exact HM|]. split; [exact Hwfc|].
  split.
  { unfold free_mem_pools, global_multipool_free.
    cbn [_zstreamstate_pool _z_stream_pool _gozlib_transformer_pool].
    unfold bind at 1 2, get. change (_global_multipool sc) with (brk s). rewrite Hfree.
    rewrite (bind_Ok _ _ _ _ _ (free_mem_pool_empty cfg a _ sf Han Hfa eq_refl)). fold s1.
    assert (Hfb1 : mempools s1 !! b = Some (mkMemPool NULL (wrap32 zsize) 0 0)).
    { unfold s1. state_simpl. rewrite lookup_delete_ne by lia. exact Hfb. }
    rewrite (bind_Ok _ _ _ _ _ (free_mem_pool_empty cfg b _ s1 Hbn Hfb1 eq_refl)).
    fold s2.
    apply (free_mem_pool_empty cfg c (mkMemPool NULL (wrap32 sizeof_GoZLibTransformer) 0 0)
             s2 Hcn).
    - unfold s2, s1. state_simpl. rewrite !lookup_delete_ne by lia. exact Hfc.
    - reflexivity. }
  split; [exact (eq_trans Hnf Hn)|]. split; [exact (eq_trans Hbf' Hb)|].
  split.
  { apply map_eq. intros q. unfold s3, s2, s1. state_simpl.
    assert (Hbrk : brk s < a) by (unfold a; change (brk sg) with (brk s0); lia).
    destruct (Z.eq_dec q c) as [->|Hc];
      [rewrite lookup_delete_eq; symmetry; apply wf_pool_fresh; [exact Hwf | lia]|].
    rewrite lookup_delete_ne by congruence.
    destruct (Z.eq_dec q b) as [->|Hb'];
      [rewrite lookup_delete_eq; symmetry; apply wf_pool_fresh; [exact Hwf | lia]|].
    rewrite lookup_delete_ne by congruence.
    destruct (Z.eq_dec q a) as [->|Ha];
      [rewrite lookup_delete_eq; symmetry; apply wf_pool_fresh; [exact Hwf | lia]|].
    rewrite lookup_delete_ne by congruence.
    rewrite Hpf. destruct (decide (q ∈ pools M)) as [Hin|Hout].
    - destruct (Hpools q Hin) as (_ & Hnone & _). symmetry. exact Hnone.
    - rewrite Hpc by assumption. apply Hother. exact Hout. }
  split.
  { apply map_eq. intros x. unfold s3, s2, s1. state_simpl. rewrite Hmf.
    change (multipools sc) with (multipools s0).
    destruct (Z.eq_dec x (brk s)) as [->|Hne].
    - rewrite lookup_delete_eq. symmetry. exact Hfresh.
    - rewrite lookup_delete_ne by congruence. apply Hmps. exact Hne. }
  split; [exact Hgf|].
  unfold s3, s2, s1. state_simpl. rewrite Hmcf.
  unfold sc, sb, sa, sg, state_after_pool. state_simpl. rewrite Hmc. lia.
Qed.

(** X16. When its eighteen calls of [malloc] succeed, the constructor
    [create_mem_pools] sets up the global multipool and the three pools of
    [gozlib.c], and the destructor [free_mem_pools] right after it returns and
    leaves the heap exactly as it was before the constructor. *)
Theorem create_mem_pools_then_free_mem_pools (cfg : Config) (sizeof_z_stream : Z) (s : State) :
  wf s -> mallocs_succeed 18 s = true ->
  exists g s1 s2,
    create_mem_pools cfg sizeof_z_stream s = Ok g s1 /\
    _zstreamstate_pool g <> NULL /\ _z_stream_pool g <> NULL /\
    _gozlib_transformer_pool g <> NULL /\ _global_multipool s1 <> NULL /\
    free_mem_pools cfg g s1 = Ok tt s2 /\
    nodes s2 = nodes s /\ buffers s2 = buffers s /\
    mempools s2 = mempools s /\ multipools s2 = multipools s /\
    malloc_calls s2 = (malloc_calls s + 18)%nat.
Proof.
  intros Hwf Hall.
  destruct (create_free_mem_pools_run cfg sizeof_z_stream s Hwf Hall)
    as (g & s1 & s2 & H1 & H2 & H3 & H4 & H5 & _ & _ & H6 & H7 & H8 & H9 & H10 & _ & H11).
  exists g, s1, s2. auto 12.
Qed.

Lemma create_mem_pools_then_free_mem_pools_witness :
  exists g s1 s2,
    create_mem_pools debug_build 112 (initial_state [] []) = Ok g s1 /\
    _zstreamstate_pool g <> NULL /\ _z_stream_pool g <> NULL /\
    _gozlib_transformer_pool g <> NULL /\ _global_multipool s1 <> NULL /\
    free_mem_pools debug_build g s1 = Ok tt s2 /\
    nodes s2 = nodes (initial_state [] []) /\ buffers s2 = buffers (initial_state [] []) /\
    mempools s2 = mempools (initial_state [] []) /\
    multipools s2 = multipools (initial_state [] []) /\
    malloc_calls s2 = (malloc_calls (initial_state [] []) + 18)%nat.
Proof.
  apply (create_mem_pools_then_free_mem_pools debug_build 112 (initial_state [] [])).
  - apply wf_initial_state.
  - reflexivity.
Defined.

Lemma mallocs_succeed_false (n : nat) (s : State) :
  mallocs_succeed n s = false ->
  exists j, (j < n)%nat /\ nth j (malloc_script s) true = false.
Proof.
  unfold mallocs_succeed. generalize (malloc_script s) as script.
  induction n as [|n IH]; intros script H; [cbn in H; discriminate|].
  destruct script as [|b r]; [cbn in H; discriminate|].
  cbn [firstn forallb] in H. destruct b.
  - destruct (IH r H) as (j & Hj & Hnth). exists (S j). split; [lia | exact Hnth].
  - exists 0%nat. split; [lia | reflexivity].
Qed.

(** [alloc_mem_pool] always returns; its result is [NULL] when [malloc]
    failed. *)
Lemma alloc_mem_pool_returns (cfg : Config) (size : Z) (s : State) :
  wf s ->
  exists pl s1,
    alloc_mem_pool cfg size s = Ok pl s1 /\ wf s1 /\ heap_extends s s1 /\
    _global_multipool s1 = _global_multipool s /\
    malloc_script s1 = tl (malloc_script s) /\
    (hd true (malloc_script s) = false -> pl = NULL).
Proof.
  intros Hwf. destruct (hd true (malloc_script s)) eqn:Hok.
  - exists (brk s), (state_after_pool cfg size s).
    pose proof (alloc_mem_pool_success cfg size s (wf_brk_pos s Hwf) Hok) as Hrun.
    split; [exact Hrun|].
    destruct (wf_alloc_mem_pool cfg size _ s _ Hwf Hrun) as (Hwf1 & Hext).
    split; [exact Hwf1|]. split; [exact Hext|]. split; [reflexivity|].
    split; [reflexivity | discriminate].
  - exists NULL, (state_after_malloc_failure s).
    pose proof (alloc_mem_pool_failure cfg size s Hok) as Hrun.
    split; [exact Hrun|].
    destruct (wf_alloc_mem_pool cfg size _ s _ Hwf Hrun) as (Hwf1 & Hext).
    split; [exact Hwf1|]. split; [exact Hext|]. split; [reflexivity|].
    split; [reflexivity | reflexivity].
Qed.

(** The three calls of [alloc_mem_pool] of the constructor. *)
Lemma create_mem_pools_three_pools (cfg : Config) (zsize : Z) (s : State) :
  wf s ->
  exists g s1,
    (let* a := alloc_mem_pool cfg (wrap32 sizeof_ZStreamState) in
     let* b := alloc_mem_pool cfg (wrap32 zsize) in
     let* c := alloc_mem_pool cfg (wrap32 sizeof_GoZLibTransformer) in
     ret (mkPoolGlobals a b c)) s = Ok g s1 /\
    wf s1 /\ heap_extends s s1 /\ _global_multipool s1 = _global_multipool s /\
    (nth 0 (malloc_script s) true = false -> _zstreamstate_pool g = NULL) /\
    (nth 1 (malloc_script s) true = false -> _z_stream_pool g = NULL) /\
    (nth 2 (malloc_script s) true = false -> _gozlib_transformer_pool g = NULL).
Proof.
  intros Hwf.
  destruct (alloc_mem_pool_returns cfg (wrap32 sizeof_ZStreamState) s Hwf)
    as (a & sa & Hra & Hwfa & Hexta & Hga & Hsa & Hna).
  destruct (alloc_mem_pool_returns cfg (wrap32 zsize) sa Hwfa)
    as (b & sb & Hrb & Hwfb & Hextb & Hgb & Hsb & Hnb).
  destruct (alloc_mem_pool_returns cfg (wrap32 sizeof_GoZLibTransformer) sb Hwfb)
    as (c & sc & Hrc & Hwfc & Hextc & Hgc & Hsc & Hnc).
  exists (mkPoolGlobals a b c), sc.
  split.
  { rewrite (bind_Ok _ _ _ _ _ Hra), (bind_Ok _ _ _ _ _ Hrb), (bind_Ok _ _ _ _ _ Hrc).
    reflexivity. }
  split; [exact Hwfc|].
  split; [apply (heap_extends_trans _ sa); [exact Hexta|];
          apply (heap_extends_trans _ sb); assumption|].
  split; [congruence|].
  cbn [_zstreamstate_pool _z_stream_pool _gozlib_transformer_pool].
  split; [rewrite nth_0_script; exact Hna|].
  split.
  - intros H. apply Hnb. rewrite Hsa, <- nth_0_script, <- nth_tl_script. exact H.
  - intros H. apply Hnc. rewrite Hsb, Hsa, <- nth_0_script, <- !nth_tl_script. exact H.
Qed.

Lemma free_mem_pools_null_pool (cfg : Config) (g : PoolGlobals) (s : State) :
  _zstreamstate_pool g = NULL \/ _z_stream_pool g = NULL \/ _gozlib_transformer_pool g = NULL ->
  forall u s', free_mem_pools cfg g s <> Ok u s'.
Proof.
  intros Hnull u s' H. unfold free_mem_pools in H.
  apply bind_Ok_inv in H as ([] & s1 & _ & H).
  apply bind_Ok_inv in H as ([] & s2 & Ha & H).
  apply bind_Ok_inv in H as ([] & s3 & Hb & Hc).
  destruct Hnull as [E|[E|E]]; rewrite E in *.
  - rewrite free_mem_pool_NULL in Ha. destruct (ndebug cfg); discriminate.
  - rewrite free_mem_pool_NULL in Hb. destruct (ndebug cfg); discriminate.
  - rewrite free_mem_pool_NULL in Hc. destruct (ndebug cfg); discriminate.
Qed.

Lemma free_mem_pools_Ok_table (cfg : Config) (g : PoolGlobals) (u : unit) (s s' : State) :
  free_mem_pools cfg g s = Ok u s' ->
  exists s1, multipool_free cfg (_global_multipool s) s = Ok tt s1.
Proof.
  intros H. unfold free_mem_pools, global_multipool_free in H.
  apply bind_Ok_inv in H as ([] & s1 & Hfree & _).
  unfold bind, get in Hfree. exists s1. exact Hfree.
Qed.

(** X17. The constructor [create_mem_pools] never reports a failed
    [malloc]: it returns whatever the eighteen calls do. But if one of them
    fails, the destructor [free_mem_pools] cannot complete afterwards: it
    fails an assertion, or without assertions reads through a [NULL]
    pointer. *)
Theorem create_mem_pools_malloc_failure
    (cfg : Config) (sizeof_z_stream : Z) (s : State) (k : nat) :
  wf s -> (k < 18)%nat -> nth k (malloc_script s) true = false ->
  exists g s1,
    create_mem_pools cfg sizeof_z_stream s = Ok g s1 /\
    forall u s2, free_mem_pools cfg g s1 <> Ok u s2.
Proof.
  intros Hwf Hk Hfail. unfold create_mem_pools, global_multipool_create.
  destruct (hd true (malloc_script s)) eqn:Hok.
  - destruct (multipool_create_spec cfg s Hwf Hok)
      as (s0 & M & Hrun & Hnn & Hwf0 & HM & Hlen & _ & _ & _ & _ & _ & _ & Hslots).
    set (sg := set_global_multipool (brk s) s0).
    assert (Hwfg : wf sg) by (apply (wf_same_heap s0); try reflexivity; exact Hwf0).
    destruct (create_mem_pools_three_pools cfg sizeof_z_stream sg Hwfg)
      as (g & s1 & Hpools & Hwf1 & Hext & Hg1 & Hn0 & Hn1 & Hn2).
    exists g, s1. split.
    { unfold bind at 1 2. rewrite Hrun. fold sg. exact Hpools. }
    intros u s2 Hfree.
    destruct (mallocs_succeed 15 s) eqn:Hall.
    + (* the table is complete: the failure is in one of the three pools *)
      destruct (multipool_create_built cfg s Hwf Hall)
        as (s0' & _ & Hrun' & _ & _ & _ & _ & _ & _ & _ & _ & _ & _ & _ & _ & _ & Hscr).
      rewrite Hrun in Hrun'. inversion Hrun'. subst s0'.
      assert (Hk15 : (15 <= k)%nat).
      { destruct (le_lt_dec 15 k) as [|Hlt]; [assumption|].
        rewrite (mallocs_succeed_nth 15 s k Hall Hlt) in Hfail. discriminate. }
      assert (Hnth : nth (k - 15) (malloc_script sg) true = false).
      { change (malloc_script sg) with (malloc_script s0). rewrite Hscr.
        rewrite <- hd_drop_script, drop_drop, hd_drop_script.
        replace (15 + (k - 15))%nat with k by lia. exact Hfail. }
      apply (free_mem_pools_null_pool cfg g s1) with (u := u) (s' := s2); [|exact Hfree].
      destruct (k - 15)%nat as [|[|[|n]]] eqn:E; [auto | auto | auto | lia].
    + (* a slot of the table is empty *)
      destruct (mallocs_succeed_false 15 s Hall) as (j & Hj & Hjf).
      destruct j as [|j]; [rewrite nth_0_script, Hok in Hjf; discriminate|].
      destruct (Hslots (Z.of_nat j)) as (q & Hq & Hslot);
        [unfold MULTIPOOL_ENTRY_COUNT; lia|].
      rewrite Nat2Z.id, Hjf in Hslot. subst q.
      destruct (free_mem_pools_Ok_table cfg g u s1 s2 Hfree) as (s3 & Hmf).
      rewrite Hg1 in Hmf. change (_global_multipool sg) with (brk s) in Hmf.
      destruct Hext as (_ & _ & _ & Hmps).
      apply (multipool_free_null_slot cfg (brk s) M (Z.of_nat j) s1) with (u := tt) (s' := s3).
      * unfold MULTIPOOL_ENTRY_COUNT. lia.
      * exact Hq.
      * apply Hmps. exact HM.
      * exact Hmf.
  - (* no table at all *)
    pose proof (multipool_create_no_table cfg s Hok) as Hrun.
    set (sg := set_global_multipool NULL (state_after_malloc_failure s)).
    assert (Hwfg : wf sg)
      by (apply (wf_same_heap s); try reflexivity; exact Hwf).
    destruct (create_mem_pools_three_pools cfg sizeof_z_stream sg Hwfg)
      as (g & s1 & Hpools & Hwf1 & Hext & Hg1 & _).
    exists g, s1. split.
    { unfold bind at 1 2. rewrite Hrun. fold sg. exact Hpools. }
    intros u s2 Hfree.
    destruct (free_mem_pools_Ok_table cfg g u s1 s2 Hfree) as (s3 & Hmf).
    apply multipool_free_Ok_inv in Hmf as (Hmp & _). apply Hmp.
    rewrite Hg1. reflexivity.
Qed.

Lemma create_mem_pools_malloc_failure_witness :
  exists g s1,
    create_mem_pools release_build 112
      (initial_state (replicate 16 true ++ [false]) []) = Ok g s1 /\
    forall u s2, free_mem_pools release_build g s1 <> Ok u s2.
Proof.
  apply (create_mem_pools_malloc_failure release_build 112
           (initial_state (replicate 16 true ++ [false]) []) 16).
  - apply wf_initial_state.
  - lia.
  - reflexivity.
Defined.

(** ** Blocks and their hidden word *)

(** X18. The word stored just before a block names the node that owns
    the block: for every live node, after any calls that are not teardowns,
    [get_memnode_in_data(node->data)] returns the node, and the node's pool is
    live. *)
Theorem get_memnode_in_data_of_node_data
    (cfg : Config) (mscript cscript : list bool) (n : Z) (nd : MemNode) (s : State) :
  api_calls cfg (initial_state mscript cscript) s ->
  nodes s !! n = Some nd ->
  get_memnode_in_data cfg (data nd) s = Ok n s /\
  is_Some (mempools s !! pool nd) /\ pool nd <> NULL.
Proof.
  intros Hcalls Hn.
  destruct (api_calls_wf cfg _ s (wf_initial_state _ _) Hcalls) as (Hwf & _).
  destruct (wf_node_inv s n nd Hwf Hn) as ((b & Hb & Hown) & (m & Hm) & _).
  pose proof (wf_buffer_below s _ b Hwf Hb) as Hbb.
  pose proof (wf_pool_below s _ m Hwf Hm) as Hpb.
  split; [|split; [exists m; exact Hm | unfold NULL; lia]].
  unfold get_memnode_in_data.
  rewrite (bind_Ok _ _ s s tt)
    by (apply assert_nonnull_pass; unfold NULL, sizeof_ptrdiff in *; lia).
  assert (Hp8 : data nd - sizeof_ptrdiff <> NULL) by (unfold NULL; lia).
  rewrite (bind_Ok _ _ _ _ _ (load_buffer_live _ b s Hp8 Hb)).
  unfold ret. rewrite Hown. reflexivity.
Qed.

Lemma get_memnode_in_data_of_node_data_witness :
  api_calls debug_build (initial_state [] []) two_blocks_state /\
  get_memnode_in_data debug_build (data (mkMemNode 0 8296 4096)) two_blocks_state
    = Ok 8256 two_blocks_state /\
  is_Some (mempools two_blocks_state !! pool (mkMemNode 0 8296 4096)) /\
  pool (mkMemNode 0 8296 4096) <> NULL.
Proof.
  assert (Hcalls : api_calls debug_build (initial_state [] []) two_blocks_state).
  { set (s0 := pool_4096_state [] []).
    set (s1 := match pool_mem_acquire debug_build 4096 s0 with
               | Ok _ s => s | _ => initial_state [] [] end).
    apply (api_acquire debug_build _ s1 _ 4096 8296).
    - apply (api_acquire debug_build _ s0 _ 4096 4152).
      + apply (api_alloc_mem_pool debug_build _ (initial_state [] []) _ 4096 4096).
        * apply api_none.
        * vm_compute. reflexivity.
      + vm_compute. reflexivity.
    - vm_compute. reflexivity. }
  split; [exact Hcalls|].
  apply (get_memnode_in_data_of_node_data debug_build [] [] 8256 (mkMemNode 0 8296 4096)
           two_blocks_state Hcalls).
  vm_compute. reflexivity.
Defined.

(** X19. A block stays valid until a teardown: whatever calls other than
    teardowns follow the [pool_mem_acquire] that returned [p] (also returns
    of [p] itself), [p] still belongs to the pool, behind the same buffer of
    the same size. *)
Theorem acquired_block_stays_valid
    (cfg : Config) (mscript cscript : list bool) (P p : Z) (s0 s1 s : State) :
  api_calls cfg (initial_state mscript cscript) s0 ->
  pool_mem_acquire cfg P s0 = Ok p s1 -> p <> NULL ->
  api_calls cfg s1 s ->
  owned s P p /\
  buffers s !! (p - sizeof_ptrdiff) = buffers s1 !! (p - sizeof_ptrdiff) /\
  payload_size s p = payload_size s1 p.
Proof.
  intros Hcalls0 Hacq Hp Hcalls.
  destruct (api_calls_wf cfg _ s0 (wf_initial_state _ _) Hcalls0) as (Hwf0 & _).
  pose proof (wf_pool_mem_acquire cfg P p s0 s1 Hwf0 Hacq) as Hwf1.
  pose proof (pool_mem_acquire_owned cfg P p s0 s1 Hwf0 Hacq Hp) as Hown.
  destruct (api_calls_wf cfg s1 s Hwf1 Hcalls) as (_ & Hext).
  split; [apply (owned_heap_extends s1 s P p Hext Hown)|].
  destruct Hown as (b & _ & _ & Hb & _). destruct Hext as (Hbufs & _).
  assert (Hsame : buffers s !! (p - sizeof_ptrdiff) = buffers s1 !! (p - sizeof_ptrdiff))
    by (rewrite Hb; apply Hbufs; exact Hb).
  split; [exact Hsame|]. unfold payload_size. rewrite Hsame. reflexivity.
Qed.

Lemma acquired_block_stays_valid_witness :
  exists s1 s,
    pool_mem_acquire debug_build 4096 (pool_4096_state [] []) = Ok 4152 s1 /\
    pool_mem_acquire debug_build 4096 s1 = Ok 8296 s /\
    owned s 4096 4152 /\
    buffers s !! (4152 - sizeof_ptrdiff) = buffers s1 !! (4152 - sizeof_ptrdiff) /\
    payload_size s 4152 = payload_size s1 4152.
Proof.
  set (s0 := pool_4096_state [] []).
  set (s1 := match pool_mem_acquire debug_build 4096 s0 with
             | Ok _ s => s | _ => initial_state [] [] end).
  set (s := match pool_mem_acquire debug_build 4096 s1 with
            | Ok _ s => s | _ => initial_state [] [] end).
  assert (H1 : pool_mem_acquire debug_build 4096 s0 = Ok 4152 s1) by (vm_compute; reflexivity).
  assert (H2 : pool_mem_acquire debug_build 4096 s1 = Ok 8296 s) by (vm_compute; reflexivity).
  exists s1, s. split; [exact H1|]. split; [exact H2|].
  apply (acquired_block_stays_valid debug_build [] [] 4096 4152 s0 s1 s).
  - apply (api_alloc_mem_pool debug_build _ (initial_state [] []) _ 4096 4096).
    + apply api_none.
    + vm_compute. reflexivity.
  - exact H1.
  - discriminate.
  - apply (api_acquire debug_build _ s1 _ 4096 8296); [apply api_none | exact H2].
Defined.



(** ** Recycling through a multipool *)

Lemma multipool_mem_acquire_run (cfg : Config) (mp size pl : Z) (M : MultiPool) (s : State) :
  mp <> NULL -> multipools s !! mp = Some M ->
  0 <= find_multipool_index_for_size size < MULTIPOOL_ENTRY_COUNT ->
  pools M !! Z.to_nat (find_multipool_index_for_size size) = Some pl ->
  multipool_mem_acquire cfg mp size s = pool_mem_acquire cfg pl s.
Proof.
  intros Hmp HM Hidx Hslot. unfold multipool_mem_acquire.
  rewrite (bind_Ok _ _ s s tt) by (apply assert_nonnull_pass; exact Hmp).
  rewrite (bind_Ok _ _ s s tt).
  2:{ apply assert_pass. right. unfold ret.
      rewrite (proj2 (Z.ltb_lt _ _)) by lia. reflexivity. }
  rewrite (proj2 (Z.leb_gt _ _)) by lia.
  unfold bind at 1, load_multipool_slot, bind at 1, load_multipool.
  rewrite (eqb_NULL_false _ Hmp), HM.
  rewrite (proj2 (Z.leb_le 0 _)) by lia.
  rewrite (proj2 (Z.ltb_lt _ MULTIPOOL_ENTRY_COUNT)) by lia.
  cbn [andb]. rewrite Hslot. reflexivity.
Qed.

Lemma find_multipool_index_nonneg (size : Z) :
  0 <= size < UINT32_MOD -> 0 <= find_multipool_index_for_size size.
Proof.
  intros Hs. destruct (Z.eq_dec size 0) as [->|Hnz].
  - change (find_multipool_index_for_size 0) with 23. lia.
  - destruct (Z_le_gt_dec size 4194304) as [Hle|Hbig].
    + apply find_multipool_index_in_range. lia.
    + pose proof (find_multipool_index_out_of_range size ltac:(lia)).
      unfold MULTIPOOL_ENTRY_COUNT in *. lia.
Qed.

(** Return and acquire again through a multipool. *)
Lemma multipool_recycle_within_class
    (cfg : Config) (mscript cscript : list bool) (mp size1 size2 p : Z) (s s1 s2 : State) :
  api_calls cfg (initial_state mscript cscript) s ->
  0 <= size1 < UINT32_MOD ->
  multipool_mem_acquire cfg mp size1 s = Ok p s1 -> p <> NULL ->
  api_calls cfg s1 s2 ->
  find_multipool_index_for_size size2 = find_multipool_index_for_size size1 ->
  exists s3 s4,
    pool_mem_return cfg p s2 = Ok tt s3 /\
    multipool_mem_acquire cfg mp size2 s3 = Ok p s4 /\
    malloc_calls s4 = malloc_calls s2.
Proof.
  intros Hcalls Hsize Hacq Hp Hcalls1 Hclass.
  destruct (api_calls_wf cfg _ s (wf_initial_state _ _) Hcalls) as (Hwf & _).
  destruct (multipool_mem_acquire_Ok_slot cfg mp size1 p s s1 Hacq Hp)
    as (Hidx & Hmp & M & pl & HM & Hslot & Hpool).
  pose proof (wf_pool_mem_acquire cfg pl p s s1 Hwf Hpool) as Hwf1.
  pose proof (pool_mem_acquire_owned cfg pl p s s1 Hwf Hpool Hp) as Hown1.
  pose proof (heap_extends_pool_mem_acquire cfg pl p s s1 Hwf Hpool) as Hext01.
  destruct (api_calls_wf cfg s1 s2 Hwf1 Hcalls1) as (Hwf2 & Hext12).
  pose proof (owned_heap_extends s1 s2 pl p Hext12 Hown1) as Hown2.
  destruct (pool_mem_return_acquire_owned cfg pl p s2 Hwf2 Hown2 Hp)
    as (s3 & s4 & Hret & Hacq2 & Hmc & _).
  exists s3, s4. split; [exact Hret|]. split; [|exact Hmc].
  destruct (wf_pool_mem_return cfg p tt s2 s3 Hwf2 Hret) as (_ & Hext23).
  assert (HM3 : multipools s3 !! mp = Some M).
  { destruct Hext01 as (_ & _ & _ & H01). destruct Hext12 as (_ & _ & _ & H12).
    destruct Hext23 as (_ & _ & _ & H23). apply H23, H12, H01. exact HM. }
  rewrite (multipool_mem_acquire_run cfg mp size2 pl M s3 Hmp HM3).
  - exact Hacq2.
  - rewrite Hclass. split; [apply find_multipool_index_nonneg; exact Hsize | exact Hidx].
  - rewrite Hclass. exact Hslot.
Qed.

(** X21. A multipool recycles blocks across sizes of one class: a block
    that [multipool_mem_acquire] returned for [size1] and that is given back
    with [pool_mem_return] is what the next [multipool_mem_acquire] returns
    for any [size2] of the same class, without a call of [malloc]. *)
Theorem multipool_mem_acquire_recycles_within_class
    (cfg : Config) (mscript cscript : list bool) (mp size1 size2 p : Z) (s s1 s2 : State) :
  api_calls cfg (initial_state mscript cscript) s ->
  0 <= size1 < UINT32_MOD ->
  multipool_mem_acquire cfg mp size1 s = Ok p s1 -> p <> NULL ->
  api_calls cfg s1 s2 ->
  find_multipool_index_for_size size2 = find_multipool_index_for_size size1 ->
  exists s3 s4,
    pool_mem_return cfg p s2 = Ok tt s3 /\
    multipool_mem_acquire cfg mp size2 s3 = Ok p s4 /\
    malloc_calls s4 = malloc_calls s2.
Proof. apply multipool_recycle_within_class. Qed.

Lemma multipool_mem_acquire_recycles_within_class_witness :
  exists s1 s3 s4,
    multipool_mem_acquire debug_build 4096 3000 global_created_state = Ok 4472 s1 /\
    pool_mem_return debug_build 4472 s1 = Ok tt s3 /\
    multipool_mem_acquire debug_build 4096 2049 s3 = Ok 4472 s4 /\
    malloc_calls s4 = malloc_calls s1.
Proof.
  set (s1 := match multipool_mem_acquire debug_build 4096 3000 global_created_state with
             | Ok _ s => s | _ => initial_state [] [] end).
  assert (Hacq : multipool_mem_acquire debug_build 4096 3000 global_created_state
                 = Ok 4472 s1) by (vm_compute; reflexivity).
  destruct (multipool_mem_acquire_recycles_within_class debug_build [] [] 4096 3000 2049 4472
              global_created_state s1 s1 global_created_state_reached)
    as (s3 & s4 & H1 & H2 & H3).
  - unfold UINT32_MOD. lia.
  - exact Hacq.
  - discriminate.
  - apply api_none.
  - reflexivity.
  - exists s1, s3, s4. auto.
Defined.

(** ** A pool of blocks of size zero *)

(** X22. [alloc_mem_pool(0)] makes a pool like any other, but its first
    [pool_mem_acquire] fails the assertion [pool->mem_size != 0] of
    [alloc_poolable_mem]; without assertions it returns a block with no
    usable byte (when both calls of [malloc] succeed). *)
Theorem pool_mem_acquire_zero_size_pool (cfg : Config) (s : State) :
  wf s -> mallocs_succeed 3 s = true ->
  exists pl s1,
    alloc_mem_pool cfg 0 s = Ok pl s1 /\ pl <> NULL /\
    if ndebug cfg then
      exists p s2, pool_mem_acquire cfg pl s1 = Ok p s2 /\ p <> NULL /\
                   payload_size s2 p = Some 0
    else pool_mem_acquire cfg pl s1 = AssertFail.
Proof.
  intros Hwf Hall.
  assert (Hnth : forall k, (k < 3)%nat -> nth k (malloc_script s) true = true)
    by (intros k Hk; apply (mallocs_succeed_nth 3 s k Hall Hk)).
  pose proof (wf_brk_pos s Hwf) as Hbrk.
  assert (Hok : hd true (malloc_script s) = true)
    by (rewrite <- nth_0_script; apply Hnth; lia).
  destruct (alloc_mem_pool_fresh cfg 0 s Hwf Hok) as (Hrun & Hwf1 & Hnn & _ & Hlt).
  set (s1 := state_after_pool cfg 0 s) in *.
  set (m := mkMemPool NULL 0 0 0).
  assert (Hm : mempools s1 !! brk s = Some m) by apply lookup_insert_eq.
  exists (brk s), s1. split; [exact Hrun|]. split; [exact Hnn|].
  rewrite (pool_mem_acquire_empty cfg (brk s) m s1 Hnn Hm eq_refl).
  destruct (ndebug cfg) eqn:Hnd.
  - exists (brk s1 + node_block + sizeof_ptrdiff),
      (count_alloc cfg (brk s) m (state_after_alloc (brk s) m s1)).
    split.
    { apply (pool_mem_try_alloc_data_success cfg (brk s) m s1 Hnn Hm).
      - left. exact Hnd.
      - lia.
      - change (malloc_script s1) with (tl (malloc_script s)).
        rewrite <- nth_0_script, <- nth_tl_script. apply Hnth. lia.
      - change (malloc_script s1) with (tl (malloc_script s)).
        rewrite <- nth_0_script, <- !nth_tl_script. apply Hnth. lia. }
    split; [rewrite node_block_eq; unfold NULL, sizeof_ptrdiff; lia|].
    unfold payload_size.
    assert (Hbuf : buffers (count_alloc cfg (brk s) m (state_after_alloc (brk s) m s1))
                   = buffers (state_after_alloc (brk s) m s1))
      by (unfold count_alloc; destruct (track_pool_usage cfg); reflexivity).
    rewrite Hbuf. cbn [state_after_alloc buffers].
    replace (brk s1 + node_block + sizeof_ptrdiff - sizeof_ptrdiff)
      with (brk s1 + node_block) by lia.
    rewrite lookup_insert_eq. cbn [alloc_size mem_size m]. reflexivity.
  - apply (pool_mem_try_alloc_data_assert_fail cfg (brk s) m s1 Hnn Hm Hnd eq_refl).
Qed.

Lemma pool_mem_acquire_zero_size_pool_witness :
  exists pl s1,
    alloc_mem_pool debug_build 0 (initial_state [] []) = Ok pl s1 /\ pl <> NULL /\
    if ndebug debug_build then
      exists p s2, pool_mem_acquire debug_build pl s1 = Ok p s2 /\ p <> NULL /\
                   payload_size s2 p = Some 0
    else pool_mem_acquire debug_build pl s1 = AssertFail.
Proof.
  apply (pool_mem_acquire_zero_size_pool debug_build (initial_state [] [])).
  - apply wf_initial_state.
  - reflexivity.
Defined.

(** ** The object pools of [gozlib.c] *)

Lemma alloc_mem_pool_mem_size (cfg : Config) (size pl : Z) (s s1 : State) :
  wf s -> alloc_mem_pool cfg size s = Ok pl s1 -> pl <> NULL ->
  exists m, mempools s1 !! pl = Some m /\ mem_size m = size.
Proof.
  intros Hwf H Hpl.
  destruct (alloc_mem_pool_cases cfg size pl s s1 Hwf H) as [(-> & _)|(-> & ->)];
    [contradiction|].
  exists (mkMemPool NULL size 0 0). split; [apply lookup_insert_eq | reflexivity].
Qed.

(** What a returning constructor has set up. *)
Lemma create_mem_pools_Ok_inv (cfg : Config) (zsize : Z) (g : PoolGlobals) (s s1 : State) :
  wf s -> create_mem_pools cfg zsize s = Ok g s1 ->
  api_calls cfg s s1 /\
  (_zstreamstate_pool g <> NULL ->
   exists m, mempools s1 !! _zstreamstate_pool g = Some m /\
             mem_size m = wrap32 sizeof_ZStreamState) /\
  (_z_stream_pool g <> NULL ->
   exists m, mempools s1 !! _z_stream_pool g = Some m /\ mem_size m = wrap32 zsize) /\
  (_gozlib_transformer_pool g <> NULL ->
   exists m, mempools s1 !! _gozlib_transformer_pool g = Some m /\
             mem_size m = wrap32 sizeof_GoZLibTransformer).
Proof.
  intros Hwf H. unfold create_mem_pools in H.
  apply bind_Ok_inv in H as ([] & sg & Hg & H).
  apply bind_Ok_inv in H as (a & sa & Ha & H).
  apply bind_Ok_inv in H as (b & sb & Hb & H).
  apply bind_Ok_inv in H as (c & sc & Hc & H).
  inversion H. subst g s1. clear H.
  cbn [_zstreamstate_pool _z_stream_pool _gozlib_transformer_pool].
  destruct (wf_global_multipool_create cfg s sg Hwf Hg) as (Hwfg & _).
  destruct (wf_alloc_mem_pool cfg _ a sg sa Hwfg Ha) as (Hwfa & _).
  destruct (wf_alloc_mem_pool cfg _ b sa sb Hwfa Hb) as (Hwfb & Hextb).
  destruct (wf_alloc_mem_pool cfg _ c sb sc Hwfb Hc) as (Hwfc & Hextc).
  split.
  { eapply api_alloc_mem_pool; [|exact Hc].
    eapply api_alloc_mem_pool; [|exact Hb].
    eapply api_alloc_mem_pool; [|exact Ha].
    eapply api_global_multipool_create; [apply api_none | exact Hg]. }
  destruct Hextb as (_ & _ & Hpb & _). destruct Hextc as (_ & _ & Hpc & _).
  split; [|split].
  - intros Hnn. destruct (alloc_mem_pool_mem_size cfg _ a sg sa Hwfg Ha Hnn) as (m & Hm & Hsz).
    destruct (Hpb a m Hm) as (m1 & Hm1 & Hsz1).
    destruct (Hpc a m1 Hm1) as (m2 & Hm2 & Hsz2).
    exists m2. split; [exact Hm2 | congruence].
  - intros Hnn. destruct (alloc_mem_pool_mem_size cfg _ b sa sb Hwfa Hb Hnn) as (m & Hm & Hsz).
    destruct (Hpc b m Hm) as (m2 & Hm2 & Hsz2).
    exists m2. split; [exact Hm2 | congruence].
  - intros Hnn. apply (alloc_mem_pool_mem_size cfg _ c sb sc Hwfb Hc Hnn).
Qed.

(** X23. After the constructor, and whatever calls other than teardowns
    follow it, a non-[NULL] result of [pool_acquire_zstream_state] is a block
    of [sizeof(ZStreamState)] bytes and a non-[NULL] result of
    [pool_alloc_zstream] a block of [sizeof(z_stream)] bytes. *)
Theorem pool_acquire_zstream_state_block
    (cfg : Config) (sizeof_z_stream : Z) (mscript cscript : list bool)
    (g : PoolGlobals) (s0 s1 s : State) :
  api_calls cfg (initial_state mscript cscript) s0 ->
  create_mem_pools cfg sizeof_z_stream s0 = Ok g s1 ->
  api_calls cfg s1 s ->
  0 <= sizeof_z_stream < UINT32_MOD ->
  (forall p s', pool_acquire_zstream_state cfg g s = Ok p s' -> p <> NULL ->
     payload_size s' p = Some sizeof_ZStreamState) /\
  (forall p s', pool_alloc_zstream cfg g s = Ok p s' -> p <> NULL ->
     payload_size s' p = Some sizeof_z_stream).
Proof.
  intros Hcalls0 Hcreate Hcalls Hz.
  destruct (api_calls_block_sized cfg _ s0 (wf_initial_state _ _)
              (block_sized_initial_state _ _) Hcalls0) as (Hwf0 & Hs0).
  destruct (create_mem_pools_Ok_inv cfg sizeof_z_stream g s0 s1 Hwf0 Hcreate)
    as (Hcalls01 & Ha & Hb & _).
  destruct (api_calls_block_sized cfg s0 s1 Hwf0 Hs0 Hcalls01) as (Hwf1 & Hs1).
  destruct (api_calls_block_sized cfg s1 s Hwf1 Hs1 Hcalls) as (Hwf & Hs).
  destruct (api_calls_wf cfg s1 s Hwf1 Hcalls) as (_ & _ & _ & Hpools & _).
  split.
  - intros p s' Hacq Hp. unfold pool_acquire_zstream_state in Hacq.
    destruct (pool_mem_acquire_Ok_live cfg _ p s s' Hacq) as (Hnn & _).
    destruct (Ha Hnn) as (m & Hm & Hsz).
    destruct (Hpools _ m Hm) as (m' & Hm' & Hsz').
    rewrite (pool_mem_acquire_payload cfg _ p m' s s' Hwf Hs Hm' Hacq Hp).
    f_equal. rewrite Hsz', Hsz. reflexivity.
  - intros p s' Hacq Hp. unfold pool_alloc_zstream in Hacq.
    destruct (pool_mem_acquire_Ok_live cfg _ p s s' Hacq) as (Hnn & _).
    destruct (Hb Hnn) as (m & Hm & Hsz).
    destruct (Hpools _ m Hm) as (m' & Hm' & Hsz').
    rewrite (pool_mem_acquire_payload cfg _ p m' s s' Hwf Hs Hm' Hacq Hp).
    f_equal. rewrite Hsz', Hsz. apply wrap32_small. exact Hz.
Qed.

Lemma pool_acquire_zstream_state_block_witness :
  exists g s1,
    create_mem_pools debug_build 112 (initial_state [] []) = Ok g s1 /\
    (forall p s', pool_acquire_zstream_state debug_build g s1 = Ok p s' -> p <> NULL ->
       payload_size s' p = Some sizeof_ZStreamState) /\
    (forall p s', pool_alloc_zstream debug_build g s1 = Ok p s' -> p <> NULL ->
       payload_size s' p = Some 112).
Proof.
  set (g := mkPoolGlobals 4432 4448 4464).
  set (s1 := match create_mem_pools debug_build 112 (initial_state [] []) with
             | Ok _ s => s | _ => initial_state [] [] end).
  assert (Hrun : create_mem_pools debug_build 112 (initial_state [] []) = Ok g s1)
    by (vm_compute; reflexivity).
  exists g, s1. split; [exact Hrun|].
  apply (pool_acquire_zstream_state_block debug_build 112 [] [] g
           (initial_state [] []) s1 s1 (api_none _ _) Hrun (api_none _ _)).
  unfold UINT32_MOD. lia.
Defined.

(** ** The allocation hooks given to zlib *)

Lemma global_multipool_mem_acquire_run (cfg : Config) (size : Z) (s : State) :
  _global_multipool s <> NULL ->
  global_multipool_mem_acquire cfg size s
  = multipool_mem_acquire cfg (_global_multipool s) size s.
Proof.
  intros Hg. unfold global_multipool_mem_acquire.
  rewrite (bind_Ok _ _ s s tt).
  - reflexivity.
  - apply assert_pass. right. unfold bind, get, ret.
    rewrite (eqb_NULL_false _ Hg). reflexivity.
Qed.

(** X24. The hooks recycle: a block that [zlib_custom_alloc] returned
    and that [zlib_custom_free] gives back is what the next
    [zlib_custom_alloc] returns for a request of the same size class, without
    a call of [malloc] (as long as the global multipool has not been replaced
    in between). *)
Theorem zlib_custom_free_then_alloc_reuses_block
    (cfg : Config) (mscript cscript : list bool) (q n1 m1 n2 m2 p : Z) (s s1 s2 : State) :
  api_calls cfg (initial_state mscript cscript) s ->
  zlib_custom_alloc cfg q n1 m1 s = Ok p s1 -> p <> NULL ->
  api_calls cfg s1 s2 -> _global_multipool s2 = _global_multipool s ->
  find_multipool_index_for_size (wrap32 (n2 * m2))
  = find_multipool_index_for_size (wrap32 (n1 * m1)) ->
  exists s3 s4,
    zlib_custom_free cfg q p s2 = Ok tt s3 /\
    zlib_custom_alloc cfg q n2 m2 s3 = Ok p s4 /\
    malloc_calls s4 = malloc_calls s2.
Proof.
  intros Hcalls Hacq Hp Hcalls1 Hglobal Hclass.
  unfold zlib_custom_alloc, pool_alloc in Hacq. rewrite wrap32_idem in Hacq.
  apply global_multipool_mem_acquire_Ok_inv in Hacq.
  destruct (multipool_mem_acquire_Ok_slot cfg _ _ p s s1 Hacq Hp) as (_ & Hnn & _).
  destruct (multipool_recycle_within_class cfg mscript cscript (_global_multipool s)
              (wrap32 (n1 * m1)) (wrap32 (n2 * m2)) p s s1 s2 Hcalls
              (wrap32_range _) Hacq Hp Hcalls1 Hclass)
    as (s3 & s4 & Hret & Hacq2 & Hmc).
  exists s3, s4. split; [exact Hret|]. split; [|exact Hmc].
  destruct (api_calls_wf cfg _ s (wf_initial_state _ _) Hcalls) as (Hwf & _).
  assert (Hwf2 : wf s2).
  { destruct (multipool_mem_acquire_cases cfg _ _ p s s1 Hacq) as [(E & _)|(pl & Hpool)];
      [contradiction|].
    pose proof (wf_pool_mem_acquire cfg pl p s s1 Hwf Hpool) as Hwf1.
    apply (api_calls_wf cfg s1 s2 Hwf1 Hcalls1). }
  assert (Hg3 : _global_multipool s3 = _global_multipool s).
  { destruct (pool_mem_return_cases cfg p tt s2 s3 Hwf2 Hret) as (b & nd & m & _ & _ & _ & ->).
    exact Hglobal. }
  unfold zlib_custom_alloc, pool_alloc. rewrite wrap32_idem.
  rewrite global_multipool_mem_acquire_run by (rewrite Hg3; exact Hnn).
  rewrite Hg3. exact Hacq2.
Qed.

Lemma zlib_custom_free_then_alloc_reuses_block_witness :
  exists s1 s3 s4,
    zlib_custom_alloc debug_build 0 3 1000 global_created_state = Ok 4472 s1 /\
    zlib_custom_free debug_build 0 4472 s1 = Ok tt s3 /\
    zlib_custom_alloc debug_build 0 1 2049 s3 = Ok 4472 s4 /\
    malloc_calls s4 = malloc_calls s1.
Proof.
  set (s1 := match zlib_custom_alloc debug_build 0 3 1000 global_created_state with
             | Ok _ s => s | _ => initial_state [] [] end).
  assert (Hacq : zlib_custom_alloc debug_build 0 3 1000 global_created_state = Ok 4472 s1)
    by (vm_compute; reflexivity).
  destruct (zlib_custom_free_then_alloc_reuses_block debug_build [] [] 0 3 1000 1 2049 4472
              global_created_state s1 s1 global_created_state_reached)
    as (s3 & s4 & H1 & H2 & H3).
  - exact Hacq.
  - discriminate.
  - apply api_none.
  - vm_compute. reflexivity.
  - vm_compute. reflexivity.
  - exists s1, s3, s4. split; [exact Hacq|]. split; [exact H1|]. split; [exact H2 | exact H3].
Defined.

(** ** The usage counters *)

Lemma wrap32_add_l (a b : Z) : wrap32 (wrap32 a + b) = wrap32 (a + b).
Proof. unfold wrap32. apply Z.add_mod_idemp_l. unfold UINT32_MOD. lia. Qed.

Lemma wrap32_sub_l (a b : Z) : wrap32 (wrap32 a - b) = wrap32 (a - b).
Proof. unfold wrap32. apply Zminus_mod_idemp_l. Qed.

Lemma available_counted_same (s s' : State) :
  nodes s' = nodes s -> mempools s' = mempools s ->
  available_counted s -> available_counted s'.
Proof.
  intros Hn Hp Hinv pl m chain Hm Hlist. rewrite Hp in Hm.
  apply (Hinv pl m chain Hm).
  apply (free_list_agree s' s chain); [|exact Hlist].
  intros n _. rewrite Hn. reflexivity.
Qed.

(** A free list that starts at a node of the old heap does not reach a node
    allocated since. *)
Lemma free_list_old (s s' : State) (x : Z) (ndx : MemNode) (chain : list Z) :
  wf s -> nodes s' = <[x := ndx]> (nodes s) -> nodes s !! x = None ->
  forall h, (h = NULL \/ is_Some (nodes s !! h)) ->
    free_list s' h chain -> free_list s h chain.
Proof.
  intros Hwf Hnodes Hfresh. induction chain as [|n rest IH]; intros h Hh H; [exact H|].
  destruct H as (-> & Hn & nd & Hnd & Hrest).
  destruct Hh as [?|(nd0 & Hnd0)]; [contradiction|].
  assert (Hne : n <> x) by (intros ->; rewrite Hfresh in Hnd0; discriminate).
  rewrite Hnodes, lookup_insert_ne in Hnd by congruence.
  split; [reflexivity|]. split; [exact Hn|]. exists nd. split; [exact Hnd|].
  apply IH; [|exact Hrest].
  destruct (wf_node_inv s n nd Hwf Hnd) as (_ & _ & [Hx|(nx & Hnx & _)]).
  - left. exact Hx.
  - right. exists nx. exact Hnx.
Qed.

Lemma pool_head_old (s : State) (q : Z) (m : MemPool) :
  wf s -> mempools s !! q = Some m -> head m = NULL \/ is_Some (nodes s !! head m).
Proof.
  intros Hwf Hm. destruct (wf_pool_inv s q m Hwf Hm) as [H|(nd & Hnd & _)].
  - left. exact H.
  - right. exists nd. exact Hnd.
Qed.

Lemma available_counted_pool_mem_acquire (cfg : Config) (pl p : Z) (s s' : State) :
  track_pool_usage cfg = true -> wf s -> available_counted s ->
  pool_mem_acquire cfg pl s = Ok p s' -> available_counted s'.
Proof.
  intros Htrack Hwf Hinv H.
  destruct (pool_mem_acquire_cases cfg pl p s s' Hwf H)
    as (m & Hm & [(_ & _ & [->| ->]) | [(Hh & _ & ->) | (nd & Hh & Hn & _ & ->)]]).
  - apply (available_counted_same s); [reflexivity | reflexivity | exact Hinv].
  - apply (available_counted_same s);
      [apply state_after_buffer_failure_nodes; exact Hwf | reflexivity | exact Hinv].
  - intros q mq chain Hq Hlist.
    assert (Hnodes : nodes (count_alloc cfg pl m (state_after_alloc pl m s))
                     = <[brk s := mkMemNode NULL (brk s + node_block + sizeof_ptrdiff) pl]>
                         (nodes s))
      by (unfold count_alloc; rewrite Htrack; reflexivity).
    assert (Hfresh : nodes s !! brk s = None) by (apply wf_node_fresh; [exact Hwf | lia]).
    unfold count_alloc in Hq. rewrite Htrack in Hq.
    cbn [set_mempools mempools state_after_alloc] in Hq.
    destruct (Z.eq_dec q pl) as [->|Hne].
    + rewrite lookup_insert_eq in Hq. inversion Hq. subst mq.
      cbn [with_num_allocs head num_available] in *.
      apply (Hinv pl m chain Hm).
      apply (free_list_old s _ _ _ chain Hwf Hnodes Hfresh); [|exact Hlist].
      apply (pool_head_old s pl m Hwf Hm).
    + rewrite lookup_insert_ne in Hq by congruence.
      apply (Hinv q mq chain Hq).
      apply (free_list_old s _ _ _ chain Hwf Hnodes Hfresh); [|exact Hlist].
      apply (pool_head_old s q mq Hwf Hq).
  - intros q mq chain Hq Hlist.
    assert (Hlist' : free_list s (head mq) chain).
    { apply (free_list_agree (state_after_pop cfg pl m nd s) s chain); [|exact Hlist].
      intros n _. reflexivity. }
    unfold state_after_pop in Hq. cbn [set_mempools mempools] in Hq.
    change (mempools (cas_settled s)) with (mempools s) in Hq.
    destruct (Z.eq_dec q pl) as [->|Hne].
    + rewrite lookup_insert_eq in Hq. inversion Hq. subst mq.
      unfold count_unavailable in *. rewrite Htrack in *.
      cbn [with_num_available with_head head num_available] in *.
      assert (Hfull : free_list s (head m) (head m :: chain)).
      { split; [reflexivity|]. split; [exact Hh|]. exists nd. split; assumption. }
      rewrite (Hinv pl m _ Hm Hfull). cbn [length].
      rewrite wrap32_sub_l. f_equal. lia.
    + rewrite lookup_insert_ne in Hq by congruence.
      apply (Hinv q mq chain Hq Hlist').
Qed.

Lemma available_counted_pool_mem_return (cfg : Config) (p : Z) (s s' : State) :
  track_pool_usage cfg = true -> wf s -> available_counted s ->
  pool_mem_return cfg p s = Ok tt s' -> available_counted s'.
Proof.
  intros Htrack Hwf Hinv H.
  destruct (wf_pool_mem_return cfg p tt s s' Hwf H) as (Hwf' & _).
  destruct (pool_mem_return_cases cfg p tt s s' Hwf H) as (b & nd & m & Hb & Hn & Hm & ->).
  set (n := owner_word b) in *. set (pl := pool nd) in *.
  set (s' := state_after_push cfg pl m n nd s) in *.
  assert (Hnodes : nodes s' = <[n := with_next (head m) nd]> (nodes s)) by reflexivity.
  assert (Hn' : nodes s' !! n = Some (with_next (head m) nd))
    by (rewrite Hnodes; apply lookup_insert_eq).
  intros q mq chain Hq Hlist.
  assert (Hpools : mempools s' = <[pl := count_returned cfg (with_head n m)]> (mempools s))
    by reflexivity.
  rewrite Hpools in Hq.
  destruct (Z.eq_dec q pl) as [->|Hne].
  - rewrite lookup_insert_eq in Hq. inversion Hq. subst mq.
    unfold count_returned in *. rewrite Htrack in *.
    cbn [with_num_available with_head head num_available] in *.
    pose proof (free_list_NoDup s' _ _ Hlist) as Hnd.
    destruct chain as [|k rest].
    { cbn [free_list] in Hlist. pose proof (wf_node_below s n nd Hwf Hn). unfold NULL in *. lia. }
    destruct Hlist as (Hk & _ & nd' & Hnd' & Hrest). subst k.
    rewrite Hn' in Hnd'. inversion Hnd'. subst nd'. cbn [next with_next] in Hrest.
    apply NoDup_cons in Hnd as (Hnotin & _).
    assert (Hold : free_list s (head m) rest).
    { apply (free_list_agree s' s rest); [|exact Hrest].
      intros x Hx. rewrite Hnodes, lookup_insert_ne; [reflexivity|].
      intros E. rewrite <- E in Hx. contradiction. }
    rewrite (Hinv pl m rest Hm Hold). cbn [length].
    rewrite wrap32_add_l. f_equal. lia.
  - rewrite lookup_insert_ne in Hq by congruence.
    apply (Hinv q mq chain Hq).
    apply (free_list_agree s' s chain); [|exact Hlist].
    intros x Hx. rewrite Hnodes, lookup_insert_ne; [reflexivity|].
    intros E. rewrite <- E in Hx.
    assert (Hq' : mempools s' !! q = Some mq)
      by (rewrite Hpools, lookup_insert_ne by congruence; exact Hq).
    destruct (has_free_list_pool s' q chain Hwf') with (n := n) as (ndn & Hndn & Hpn).
    + split; [|exists mq; split; assumption].
      pose proof (wf_pool_below s' q mq Hwf' Hq'). unfold NULL. lia.
    + exact Hx.
    + rewrite Hn' in Hndn. inversion Hndn. subst ndn. cbn [pool with_next] in Hpn.
      apply Hne. symmetry. exact Hpn.
Qed.

Lemma available_counted_alloc_mem_pool (cfg : Config) (size pl : Z) (s s' : State) :
  wf s -> available_counted s ->
  alloc_mem_pool cfg size s = Ok pl s' -> available_counted s'.
Proof.
  intros Hwf Hinv H.
  destruct (alloc_mem_pool_cases cfg size pl s s' Hwf H) as [(_ & ->)|(_ & ->)].
  - apply (available_counted_same s); [reflexivity | reflexivity | exact Hinv].
  - intros q mq chain Hq Hlist.
    assert (Hlist' : free_list s (head mq) chain).
    { apply (free_list_agree (state_after_pool cfg size s) s chain); [|exact Hlist].
      intros n _. reflexivity. }
    cbn [state_after_pool mempools] in Hq.
    destruct (Z.eq_dec q (brk s)) as [->|Hne].
    + rewrite lookup_insert_eq in Hq. inversion Hq. subst mq.
      cbn [head num_available] in *.
      destruct chain as [|k rest]; [reflexivity|].
      destruct Hlist' as (<- & Hk & _). contradiction.
    + rewrite lookup_insert_ne in Hq by congruence.
      apply (Hinv q mq chain Hq Hlist').
Qed.

(** The pools [multipool_create] leaves: those that were there, and new
    empty ones. *)
Lemma multipool_create_pool_origin (cfg : Config) (mp : Z) (s s1 : State) :
  wf s -> multipool_create cfg s = Ok mp s1 ->
  forall q m, mempools s1 !! q = Some m ->
    mempools s !! q = Some m \/
    (head m = NULL /\ num_available m = 0 /\ num_allocs m = 0 /\ mempools s !! q = None).
Proof.
  intros Hwf Hrun q m Hq.
  destruct (hd true (malloc_script s)) eqn:Hok.
  - destruct (multipool_create_spec cfg s Hwf Hok)
      as (s1' & M & Hrun' & Hnn & _ & HM & Hlen & _ & _ & _ & _ & _ & _ & Hslots).
    rewrite Hrun in Hrun'. inversion Hrun'. subst mp s1'. clear Hrun'.
    unfold multipool_create, malloc_MultiPool, malloc_succeeds, take_block,
      bind at 1 2 3 4 in Hrun.
    rewrite Hok in Hrun. state_simpl. rewrite eqb_NULL_false in Hrun by exact Hnn.
    cbn [negb] in Hrun. fold multipool_block in Hrun.
    change (mkState (nodes s) (buffers s) (mempools s) _ (_global_multipool s) _ _
              (cas_script s) _) with (state_after_multipool s) in Hrun.
    apply bind_Ok_inv in Hrun as ([] & s1' & Hloop & Hret). inversion Hret. subst s1'.
    destruct (multipool_create_loop_origin cfg (brk s) (Z.to_nat MULTIPOOL_ENTRY_COUNT) 0
                (state_after_multipool s)
                (mkMultiPool (replicate (Z.to_nat MULTIPOOL_ENTRY_COUNT) 0))
                (wf_state_after_multipool s Hwf) Hnn) with (s' := s1) (M' := M)
      as (_ & Horigin).
    { unfold state_after_multipool. state_simpl. apply lookup_insert_eq. }
    { cbn [pools]. apply length_replicate. }
    { unfold MULTIPOOL_ENTRY_COUNT. lia. }
    { unfold MULTIPOOL_ENTRY_COUNT. lia. }
    { exact Hloop. }
    { exact HM. }
    destruct (Horigin q m Hq) as [Hold|(Hqn & Hin)]; [left; exact Hold|right].
    apply list_elem_of_lookup in Hin as (j & Hj).
    pose proof (lookup_lt_Some _ _ _ Hj) as Hjl.
    rewrite Hlen in Hjl.
    destruct (Hslots (Z.of_nat j)) as (q' & Hq' & Hslot);
      [unfold MULTIPOOL_ENTRY_COUNT in *; lia|].
    rewrite Nat2Z.id in Hq', Hslot. assert (q' = q) by congruence. subst q'.
    destruct (nth (S j) (malloc_script s) true).
    + destruct Hslot as (_ & Hnew & Hfresh). rewrite Hq in Hnew. inversion Hnew.
      split; [reflexivity|]. split; [reflexivity|]. split; [reflexivity | exact Hfresh].
    + contradiction.
  - rewrite (multipool_create_no_table cfg s Hok) in Hrun. inversion Hrun. subst mp s1.
    left. exact Hq.
Qed.

Lemma available_counted_multipool_create (cfg : Config) (mp : Z) (s s' : State) :
  wf s -> available_counted s ->
  multipool_create cfg s = Ok mp s' -> available_counted s'.
Proof.
  intros Hwf Hinv H q mq chain Hq Hlist.
  destruct (multipool_create_nodes cfg mp s s' Hwf H) as (Hnodes & _).
  assert (Hlist' : free_list s (head mq) chain).
  { apply (free_list_agree s' s chain); [|exact Hlist].
    intros n _. rewrite Hnodes. reflexivity. }
  destruct (multipool_create_pool_origin cfg mp s s' Hwf H q mq Hq) as [Hold|(Hh & Ha & _)].
  - apply (Hinv q mq chain Hold Hlist').
  - rewrite Ha. rewrite Hh in Hlist'.
    destruct chain as [|k rest]; [reflexivity|].
    destruct Hlist' as (<- & Hk & _). contradiction.
Qed.

Lemma api_calls_available_counted (cfg : Config) (s s' : State) :
  track_pool_usage cfg = true -> wf s -> available_counted s ->
  api_calls cfg s s' -> available_counted s'.
Proof.
  intros Htrack Hwf Hinv Hcalls. induction Hcalls as
    [s | s s1 s2 pl p Hc IH Hop | s s1 s2 p Hc IH Hop
       | s s1 s2 mp size p Hc IH Hop | s s1 s2 size pl Hc IH Hop
       | s s1 s2 mp Hc IH Hop | s s1 s2 Hc IH Hop | s s1 s2 size p Hc IH Hop];
    [exact Hinv | | | | | | |];
    destruct (api_calls_wf cfg s s1 Hwf Hc) as (Hwf1 & _); specialize (IH Hwf Hinv).
  - apply (available_counted_pool_mem_acquire cfg pl p s1 s2 Htrack Hwf1 IH Hop).
  - apply (available_counted_pool_mem_return cfg p s1 s2 Htrack Hwf1 IH Hop).
  - destruct (multipool_mem_acquire_cases cfg mp size p s1 s2 Hop) as [(_ & ->)|(pl & Hop')];
      [exact IH|].
    apply (available_counted_pool_mem_acquire cfg pl p s1 s2 Htrack Hwf1 IH Hop').
  - apply (available_counted_alloc_mem_pool cfg size pl s1 s2 Hwf1 IH Hop).
  - apply (available_counted_multipool_create cfg mp s1 s2 Hwf1 IH Hop).
  - unfold global_multipool_create in Hop.
    apply bind_Ok_inv in Hop as (mp & s3 & Hcreate & Hset). inversion Hset.
    apply (available_counted_same s3); [reflexivity | reflexivity|].
    apply (available_counted_multipool_create cfg mp s1 s3 Hwf1 IH Hcreate).
  - apply global_multipool_mem_acquire_Ok_inv in Hop.
    destruct (multipool_mem_acquire_cases cfg _ size p s1 s2 Hop) as [(_ & ->)|(pl & Hop')];
      [exact IH|].
    apply (available_counted_pool_mem_acquire cfg pl p s1 s2 Htrack Hwf1 IH Hop').
Qed.

(** X25. With [TRACK_POOL_USAGE], after any calls from program start
    that are not teardowns, [num_available] of a pool is the length of its
    free list (as a [uint32_t]), whenever the free list ends in [NULL]. *)
Theorem num_available_is_free_list_length
    (cfg : Config) (mscript cscript : list bool) (pl : Z) (m : MemPool) (chain : list Z)
    (s : State) :
  track_pool_usage cfg = true ->
  api_calls cfg (initial_state mscript cscript) s ->
  mempools s !! pl = Some m -> free_list s (head m) chain ->
  num_available m = wrap32 (Z.of_nat (length chain)).
Proof.
  intros Htrack Hcalls.
  apply (api_calls_available_counted cfg (initial_state mscript cscript) s Htrack
           (wf_initial_state _ _)); [|exact Hcalls].
  intros q mq c Hq. cbn [initial_state mempools] in Hq. rewrite lookup_empty in Hq.
  discriminate.
Qed.

Lemma tracking_cached_state_reached :
  api_calls tracking_build (initial_state [] []) tracking_cached_state.
Proof.
  set (s0 := match alloc_mem_pool tracking_build 4096 (initial_state [] []) with
             | Ok _ s => s | _ => initial_state [] [] end).
  set (s1 := match pool_mem_acquire tracking_build 4096 s0 with
             | Ok _ s => s | _ => initial_state [] [] end).
  apply (api_return tracking_build _ s1 _ 4168).
  - apply (api_acquire tracking_build _ s0 _ 4096 4168).
    + apply (api_alloc_mem_pool tracking_build _ (initial_state [] []) _ 4096 4096).
      * apply api_none.
      * vm_compute. reflexivity.
    + vm_compute. reflexivity.
  - vm_compute. reflexivity.
Qed.

Lemma num_available_is_free_list_length_witness :
  mempools tracking_cached_state !! 4096 = Some (mkMemPool 4128 4096 1 1) /\
  free_list tracking_cached_state (head (mkMemPool 4128 4096 1 1)) [4128] /\
  num_available (mkMemPool 4128 4096 1 1) = wrap32 (Z.of_nat (length [4128])).
Proof.
  assert (Hm : mempools tracking_cached_state !! 4096 = Some (mkMemPool 4128 4096 1 1))
    by (vm_compute; reflexivity).
  assert (Hlist : free_list tracking_cached_state (head (mkMemPool 4128 4096 1 1)) [4128]).
  { split; [reflexivity|]. split; [discriminate|].
    exists (mkMemNode 0 4168 4096). split; [vm_compute; reflexivity | reflexivity]. }
  split; [exact Hm|]. split; [exact Hlist|].
  apply (num_available_is_free_list_length tracking_build [] [] 4096
           (mkMemPool 4128 4096 1 1) [4128] tracking_cached_state eq_refl
           tracking_cached_state_reached Hm Hlist).
Defined.

Lemma allocs_counted_step (s s' : State) :
  (forall q, size (pool_nodes s' q) = size (pool_nodes s q)) ->
  (forall q m', mempools s' !! q = Some m' ->
     exists m, mempools s !! q = Some m /\ num_allocs m' = num_allocs m) ->
  allocs_counted s -> allocs_counted s'.
Proof.
  intros Hsize Hrec Hinv q m' Hq.
  destruct (Hrec q m' Hq) as (m & Hm & E). rewrite E, Hsize. apply (Hinv q m Hm).
Qed.

Lemma pool_nodes_same (s s' : State) (q : Z) :
  nodes s' = nodes s -> pool_nodes s' q = pool_nodes s q.
Proof. intros H. unfold pool_nodes. rewrite H. reflexivity. Qed.

(** A pool that is not live has no nodes. *)
Lemma pool_nodes_fresh (s : State) (q : Z) :
  wf s -> mempools s !! q = None -> pool_nodes s q = ∅.
Proof.
  intros Hwf Hq. apply map_empty_filter_2. intros n nd Hn Hp. cbn in Hp.
  destruct (wf_node_inv s n nd Hwf Hn) as (_ & (m & Hm) & _). congruence.
Qed.

Lemma pool_nodes_insert_other (s : State) (n : Z) (nd : MemNode) (q : Z) (ns : gmap Z MemNode) :
  ns = <[n := nd]> (nodes s) -> pool nd <> q ->
  (forall y, nodes s !! n = Some y -> pool y <> q) ->
  filter (fun kv : Z * MemNode => pool kv.2 = q) ns = pool_nodes s q.
Proof.
  intros -> Hne Hold. unfold pool_nodes.
  apply map_filter_insert_not'; [exact Hne | exact Hold].
Qed.

Lemma allocs_counted_pool_mem_acquire (cfg : Config) (pl p : Z) (s s' : State) :
  track_pool_usage cfg = true -> wf s -> allocs_counted s ->
  pool_mem_acquire cfg pl s = Ok p s' -> allocs_counted s'.
Proof.
  intros Htrack Hwf Hinv H.
  destruct (pool_mem_acquire_cases cfg pl p s s' Hwf H)
    as (m & Hm & [(_ & _ & [->| ->]) | [(Hh & _ & ->) | (nd & Hh & Hn & _ & ->)]]).
  - apply (allocs_counted_step s); [reflexivity | | exact Hinv].
    intros q m' Hq. exists m'. split; [exact Hq | reflexivity].
  - apply (allocs_counted_step s); [| | exact Hinv].
    + intros q. rewrite (pool_nodes_same s _ q); [reflexivity|].
      apply state_after_buffer_failure_nodes. exact Hwf.
    + intros q m' Hq. exists m'. split; [exact Hq | reflexivity].
  - intros q mq Hq.
    set (nd := mkMemNode NULL (brk s + node_block + sizeof_ptrdiff) pl).
    assert (Hnodes : nodes (count_alloc cfg pl m (state_after_alloc pl m s))
                     = <[brk s := nd]> (nodes s))
      by (unfold count_alloc; rewrite Htrack; reflexivity).
    assert (Hfresh : nodes s !! brk s = None) by (apply wf_node_fresh; [exact Hwf | lia]).
    unfold count_alloc in Hq. rewrite Htrack in Hq.
    cbn [set_mempools mempools state_after_alloc] in Hq.
    unfold pool_nodes at 1. rewrite Hnodes.
    destruct (Z.eq_dec q pl) as [->|Hne].
    + rewrite lookup_insert_eq in Hq. inversion Hq. subst mq.
      cbn [with_num_allocs num_allocs].
      rewrite map_filter_insert_True by reflexivity.
      rewrite map_size_insert_None.
      * fold (pool_nodes s pl). rewrite (Hinv pl m Hm), wrap32_add_l. f_equal. lia.
      * destruct (filter _ (nodes s) !! brk s) as [y|] eqn:E; [|reflexivity].
        apply map_lookup_filter_Some_1_1 in E. congruence.
    + rewrite lookup_insert_ne in Hq by congruence.
      rewrite (pool_nodes_insert_other s (brk s) nd q _ eq_refl).
      * apply (Hinv q mq Hq).
      * cbn. congruence.
      * intros y Hy. congruence.
  - apply (allocs_counted_step s); [| | exact Hinv].
    + intros q. reflexivity.
    + intros q m' Hq. unfold state_after_pop in Hq. cbn [set_mempools mempools] in Hq.
      change (mempools (cas_settled s)) with (mempools s) in Hq.
      destruct (Z.eq_dec q pl) as [->|Hne].
      * rewrite lookup_insert_eq in Hq. inversion Hq. exists m. split; [exact Hm|].
        unfold count_unavailable. destruct (track_pool_usage cfg); reflexivity.
      * rewrite lookup_insert_ne in Hq by congruence. exists m'. auto.
Qed.

Lemma allocs_counted_pool_mem_return (cfg : Config) (p : Z) (s s' : State) :
  wf s -> allocs_counted s ->
  pool_mem_return cfg p s = Ok tt s' -> allocs_counted s'.
Proof.
  intros Hwf Hinv H.
  destruct (pool_mem_return_cases cfg p tt s s' Hwf H) as (b & nd & m & Hb & Hn & Hm & ->).
  apply (allocs_counted_step s); [| | exact Hinv].
  - intros q. unfold pool_nodes at 1.
    change (nodes (state_after_push cfg (pool nd) m (owner_word b) nd s))
      with (<[owner_word b := with_next (head m) nd]> (nodes s)).
    destruct (Z.eq_dec q (pool nd)) as [->|Hne].
    + rewrite map_filter_insert_True by reflexivity.
      apply map_size_insert_Some. exists nd.
      apply map_lookup_filter_Some_2; [exact Hn | reflexivity].
    + rewrite (pool_nodes_insert_other s (owner_word b) _ q _ eq_refl); [reflexivity | |].
      * cbn. congruence.
      * intros y Hy. rewrite Hn in Hy. inversion Hy. subst y. congruence.
  - intros q m' Hq. unfold state_after_push in Hq. cbn [set_mempools mempools] in Hq.
    change (mempools (set_nodes _ (cas_settled s))) with (mempools s) in Hq.
    destruct (Z.eq_dec q (pool nd)) as [->|Hne].
    + rewrite lookup_insert_eq in Hq. inversion Hq. exists m. split; [exact Hm|].
      unfold count_returned. destruct (track_pool_usage cfg); reflexivity.
    + rewrite lookup_insert_ne in Hq by congruence. exists m'. auto.
Qed.

Lemma allocs_counted_new_pools (s s' : State) :
  wf s -> nodes s' = nodes s ->
  (forall q m, mempools s' !! q = Some m ->
     mempools s !! q = Some m \/ (num_allocs m = 0 /\ mempools s !! q = None)) ->
  allocs_counted s -> allocs_counted s'.
Proof.
  intros Hwf Hnodes Horigin Hinv q m Hq.
  rewrite (pool_nodes_same s s' q Hnodes).
  destruct (Horigin q m Hq) as [Hold|(Hz & Hfresh)].
  - apply (Hinv q m Hold).
  - rewrite Hz, (pool_nodes_fresh s q Hwf Hfresh), map_size_empty. reflexivity.
Qed.

Lemma allocs_counted_alloc_mem_pool (cfg : Config) (size pl : Z) (s s' : State) :
  wf s -> allocs_counted s ->
  alloc_mem_pool cfg size s = Ok pl s' -> allocs_counted s'.
Proof.
  intros Hwf Hinv H. apply (allocs_counted_new_pools s); [exact Hwf | | | exact Hinv].
  - destruct (alloc_mem_pool_cases cfg size pl s s' Hwf H) as [(_ & ->)|(_ & ->)];
      reflexivity.
  - intros q m Hq.
    destruct (alloc_mem_pool_cases cfg size pl s s' Hwf H) as [(_ & ->)|(_ & ->)].
    + left. exact Hq.
    + cbn [state_after_pool mempools] in Hq.
      destruct (Z.eq_dec q (brk s)) as [->|Hne].
      * rewrite lookup_insert_eq in Hq. inversion Hq. right.
        split; [reflexivity | apply wf_pool_fresh; [exact Hwf | lia]].
      * rewrite lookup_insert_ne in Hq by congruence. left. exact Hq.
Qed.

Lemma allocs_counted_multipool_create (cfg : Config) (mp : Z) (s s' : State) :
  wf s -> allocs_counted s ->
  multipool_create cfg s = Ok mp s' -> allocs_counted s'.
Proof.
  intros Hwf Hinv H. apply (allocs_counted_new_pools s); [exact Hwf | | | exact Hinv].
  - apply (multipool_create_nodes cfg mp s s' Hwf H).
  - intros q m Hq.
    destruct (multipool_create_pool_origin cfg mp s s' Hwf H q m Hq)
      as [Hold|(_ & _ & Hz & Hfresh)]; [left; exact Hold | right; auto].
Qed.

Lemma api_calls_allocs_counted (cfg : Config) (s s' : State) :
  track_pool_usage cfg = true -> wf s -> allocs_counted s ->
  api_calls cfg s s' -> allocs_counted s'.
Proof.
  intros Htrack Hwf Hinv Hcalls. induction Hcalls as
    [s | s s1 s2 pl p Hc IH Hop | s s1 s2 p Hc IH Hop
       | s s1 s2 mp size p Hc IH Hop | s s1 s2 size pl Hc IH Hop
       | s s1 s2 mp Hc IH Hop | s s1 s2 Hc IH Hop | s s1 s2 size p Hc IH Hop];
    [exact Hinv | | | | | | |];
    destruct (api_calls_wf cfg s s1 Hwf Hc) as (Hwf1 & _); specialize (IH Hwf Hinv).
  - apply (allocs_counted_pool_mem_acquire cfg pl p s1 s2 Htrack Hwf1 IH Hop).
  - apply (allocs_counted_pool_mem_return cfg p s1 s2 Hwf1 IH Hop).
  - destruct (multipool_mem_acquire_cases cfg mp size p s1 s2 Hop) as [(_ & ->)|(pl & Hop')];
      [exact IH|].
    apply (allocs_counted_pool_mem_acquire cfg pl p s1 s2 Htrack Hwf1 IH Hop').
  - apply (allocs_counted_alloc_mem_pool cfg size pl s1 s2 Hwf1 IH Hop).
  - apply (allocs_counted_multipool_create cfg mp s1 s2 Hwf1 IH Hop).
  - unfold global_multipool_create in Hop.
    apply bind_Ok_inv in Hop as (mp & s3 & Hcreate & Hset). inversion Hset.
    apply (allocs_counted_step s3); [reflexivity | |].
    + intros q m' Hq. exists m'. split; [exact Hq | reflexivity].
    + apply (allocs_counted_multipool_create cfg mp s1 s3 Hwf1 IH Hcreate).
  - apply global_multipool_mem_acquire_Ok_inv in Hop.
    destruct (multipool_mem_acquire_cases cfg _ size p s1 s2 Hop) as [(_ & ->)|(pl & Hop')];
      [exact IH|].
    apply (allocs_counted_pool_mem_acquire cfg pl p s1 s2 Htrack Hwf1 IH Hop').
Qed.

(** X26. With [TRACK_POOL_USAGE], after any calls from program start
    that are not teardowns, [num_allocs] of a pool is the number of live
    nodes of the pool (as a [uint32_t]): every block that was allocated for
    the pool, handed out or cached. *)
Theorem num_allocs_is_node_count
    (cfg : Config) (mscript cscript : list bool) (pl : Z) (m : MemPool) (s : State) :
  track_pool_usage cfg = true ->
  api_calls cfg (initial_state mscript cscript) s ->
  mempools s !! pl = Some m ->
  num_allocs m = wrap32 (Z.of_nat (size (pool_nodes s pl))).
Proof.
  intros Htrack Hcalls.
  apply (api_calls_allocs_counted cfg (initial_state mscript cscript) s Htrack
           (wf_initial_state _ _)); [|exact Hcalls].
  intros q mq Hq. cbn [initial_state mempools] in Hq. rewrite lookup_empty in Hq.
  discriminate.
Qed.

Lemma num_allocs_is_node_count_witness :
  mempools tracking_cached_state !! 4096 = Some (mkMemPool 4128 4096 1 1) /\
  num_allocs (mkMemPool 4128 4096 1 1)
  = wrap32 (Z.of_nat (size (pool_nodes tracking_cached_state 4096))).
Proof.
  assert (Hm : mempools tracking_cached_state !! 4096 = Some (mkMemPool 4128 4096 1 1))
    by (vm_compute; reflexivity).
  split; [exact Hm|].
  apply (num_allocs_is_node_count tracking_build [] [] 4096 (mkMemPool 4128 4096 1 1)
           tracking_cached_state eq_refl tracking_cached_state_reached Hm).
Defined.

(** ** Emptying a pool *)

Lemma state_after_free_all_pool (cfg : Config) (pl : Z) (chain : list Z) :
  forall (m : MemPool) (s : State),
    mempools s !! pl = Some m -> free_list s (head m) chain -> chain_live s chain ->
    exists m', mempools (state_after_free_all cfg pl chain s) !! pl = Some m' /\
               head m' = NULL /\ mem_size m' = mem_size m.
Proof.
  induction chain as [|n rest IH]; intros m s Hm Hlist Hlive.
  - exists m. cbn [state_after_free_all]. split; [exact Hm|]. split; [exact Hlist | reflexivity].
  - pose proof (free_list_NoDup s _ _ Hlist) as Hnd.
    apply NoDup_cons in Hnd as (Hnot & _).
    destruct Hlist as (Hh & Hn & nd & Hnode & Hrest).
    cbn [state_after_free_all]. rewrite Hnode, Hm.
    set (m1 := count_unavailable cfg (with_head (next nd) m)).
    assert (Hh1 : head m1 = next nd)
      by (unfold m1; rewrite (proj1 (head_count_unavailable cfg _)); reflexivity).
    assert (Hs1 : mem_size m1 = mem_size m)
      by (unfold m1; rewrite (proj2 (head_count_unavailable cfg _)); reflexivity).
    destruct (IH m1 (state_after_free_turn cfg pl m n nd s)) as (m' & Hm' & Hh' & Hs').
    + apply lookup_insert_eq.
    + rewrite Hh1. apply (free_list_delete s _ n); [reflexivity | exact Hnot | exact Hrest].
    + apply chain_live_after_turn; assumption.
    + exists m'. split; [exact Hm'|]. split; [exact Hh' | congruence].
Qed.

(** X27. [pool_mem_free_all] on a pool whose free list ends in [NULL]
    returns, frees every cached node and its buffer, and leaves the pool
    live and empty with its block size; other pools are untouched. Unlike
    after [free_mem_pool], a block of the pool that is still handed out can
    be given back afterwards. *)
Theorem pool_mem_free_all_empties_pool
    (cfg : Config) (pl : Z) (m : MemPool) (chain : list Z) (s : State) :
  wf s -> mempools s !! pl = Some m -> free_list s (head m) chain ->
  exists s' m',
    pool_mem_free_all cfg pl s = Ok tt s' /\
    mempools s' !! pl = Some m' /\ head m' = NULL /\ mem_size m' = mem_size m /\
    (forall q, q <> pl -> mempools s' !! q = mempools s !! q) /\
    (forall n nd, n ∈ chain -> nodes s !! n = Some nd ->
       nodes s' !! n = None /\ buffers s' !! (data nd - sizeof_ptrdiff) = None) /\
    (forall n nd, n ∉ chain -> nodes s !! n = Some nd -> pool nd = pl ->
       exists s'', pool_mem_return cfg (data nd) s' = Ok tt s'').
Proof.
  intros Hwf Hm Hlist.
  pose proof (wf_pool_below s _ m Hwf Hm) as Hpb.
  assert (Hpl : pl <> NULL) by (unfold NULL; lia).
  pose proof (free_list_chain_live s chain Hwf _ Hlist) as Hlive.
  destruct (state_after_free_all_spec cfg pl chain (head m) m s Hm Hlist Hlive)
    as (Hnodes & Hbufs & _ & Hpools & _).
  destruct (state_after_free_all_pool cfg pl chain m s Hm Hlist Hlive)
    as (m' & Hm' & Hh' & Hs').
  set (s' := state_after_free_all cfg pl chain s) in *.
  exists s', m'. split.
  { unfold pool_mem_free_all.
    rewrite (bind_Ok _ _ s s tt) by (apply assert_nonnull_pass; exact Hpl).
    rewrite (bind_Ok _ _ _ _ _ (load_pool_live pl m s Hpl Hm)).
    unfold bind, get.
    destruct (pool_mem_free_all_loop_chain cfg pl chain Hpl (S (size (nodes s))) (head m) m s
                Hm Hlist Hlive) as [Hout|Hrun]; [|exact Hrun].
    exfalso. revert Hout. apply pool_mem_free_all_loop_in_fuel. lia. }
  split; [exact Hm'|]. split; [exact Hh'|]. split; [exact Hs'|].
  split.
  { intros q Hne. rewrite <- (lookup_delete_ne (mempools s') pl q) by congruence.
    rewrite Hpools. apply lookup_delete_ne. congruence. }
  split.
  - intros n nd Hin Hnd. split.
    + rewrite Hnodes, decide_True by exact Hin. reflexivity.
    + rewrite Hbufs, decide_True; [reflexivity|].
      apply list_elem_of_In, in_map_iff. exists n.
      split; [unfold buffer_of; rewrite Hnd; reflexivity | apply list_elem_of_In; exact Hin].
  - intros n nd Hout Hnd Hpool.
    destruct (wf_node_inv s n nd Hwf Hnd) as ((b & Hb & Hown) & _).
    pose proof (wf_buffer_below s _ b Hwf Hb) as Hbb.
    pose proof (wf_node_below s _ nd Hwf Hnd) as Hnb.
    assert (Hb' : buffers s' !! (data nd - sizeof_ptrdiff) = Some b).
    { rewrite Hbufs, decide_False; [exact Hb|].
      intros Hin. apply list_elem_of_In, in_map_iff in Hin as (k & Hk & Hkin).
      apply list_elem_of_In in Hkin.
      destruct (Hlive k Hkin) as (ndk & bk & Hndk & _ & Hbk & Hok).
      unfold buffer_of in Hk. rewrite Hndk in Hk. rewrite Hk, Hb in Hbk.
      inversion Hbk. subst bk. apply Hout. congruence. }
    assert (Hnd' : nodes s' !! n = Some nd)
      by (rewrite Hnodes, decide_False by exact Hout; exact Hnd).
    eexists.
    apply (pool_mem_return_push cfg (data nd) pl n b nd m' s');
      try assumption; unfold NULL, sizeof_ptrdiff in *; lia.
Qed.

Lemma pool_mem_free_all_empties_pool_witness :
  exists s' m',
    pool_mem_free_all debug_build 4096 one_cached_state = Ok tt s' /\
    mempools s' !! 4096 = Some m' /\ head m' = NULL /\
    mem_size m' = mem_size (mkMemPool 4112 4096 0 0) /\
    (forall q, q <> 4096 -> mempools s' !! q = mempools one_cached_state !! q) /\
    (forall n nd, n ∈ [4112] -> nodes one_cached_state !! n = Some nd ->
       nodes s' !! n = None /\ buffers s' !! (data nd - sizeof_ptrdiff) = None) /\
    (forall n nd, n ∉ [4112] -> nodes one_cached_state !! n = Some nd -> pool nd = 4096 ->
       exists s'', pool_mem_return debug_build (data nd) s' = Ok tt s'').
Proof.
  apply (pool_mem_free_all_empties_pool debug_build 4096 (mkMemPool 4112 4096 0 0) [4112]
           one_cached_state wf_one_cached_state).
  - vm_compute. reflexivity.
  - exact free_list_one_cached_state.
Defined.

(** * The stream loops of [gozlib.c] *)

Lemma is_inflate_result_fatal_spec (c : Z) :
  is_inflate_result_fatal c = true <->
  c = Z_DATA_ERROR \/ c = Z_STREAM_ERROR \/ c = Z_MEM_ERROR \/ c = Z_NEED_DICT.
Proof.
  unfold is_inflate_result_fatal. rewrite !orb_true_iff, !Z.eqb_eq. tauto.
Qed.

(** What [uncompress_to_outstream_step] can return. *)
Lemma uncompress_to_outstream_step_result {W : Type}
    (inflate : z_stream -> Z -> W -> Z * z_stream * W)
    (state : Z) (zs : z_stream) (output_handler : StreamDataHandler W)
    (output_buf output_len : Z) (w : W) (code : Z) (zs' : z_stream) (w' : W) :
  uncompress_to_outstream_step W inflate state zs output_handler output_buf output_len w
  = (code, zs', w') ->
  exists inf_code w0,
    inflate (with_out output_buf output_len zs) Z_NO_FLUSH w = (inf_code, zs', w0) /\
    ((inf_code = Z_NEED_DICT /\ code = Z_DATA_ERROR /\ w' = w0) \/
     (is_inflate_result_fatal inf_code = true /\ inf_code <> Z_NEED_DICT /\
      code = inf_code /\ w' = w0) \/
     (is_inflate_result_fatal inf_code = false /\
      (code = GOZLIB_STREAM_OUTPUT_WRITE_ERROR /\ 0 < wrap32 (output_len - avail_out zs') \/
       code = Z_OK /\ 0 < avail_out zs' \/
       code = GOZLIB_STREAM_OUTPUT_HAS_MORE_DATA /\ avail_out zs' <= 0))).
Proof.
  unfold uncompress_to_outstream_step.
  destruct (inflate (with_out output_buf output_len zs) Z_NO_FLUSH w)
    as [[inf_code zs1] w0] eqn:Hinf.
  destruct (is_inflate_result_fatal inf_code) eqn:Hfatal.
  - destruct (inf_code =? Z_NEED_DICT) eqn:Hd; intros H; injection H as <- <- <-;
      exists inf_code, w0; (split; [reflexivity|]).
    + left. apply Z.eqb_eq in Hd. auto.
    + right. left. apply Z.eqb_neq in Hd. auto.
  - destruct (0 <? wrap32 (output_len - avail_out zs1)) eqn:Hlen.
    + destruct (output_handler state output_buf (wrap32 (output_len - avail_out zs1)) w0)
        as [n w1].
      destruct (n =? 0); cbn [negb].
      * intros H. injection H as <- <- <-. exists inf_code, w0. split; [reflexivity|].
        right. right. split; [exact Hfatal|]. left.
        apply Z.ltb_lt in Hlen. auto.
      * destruct (0 <? avail_out zs1) eqn:Hroom; intros H; injection H as <- <- <-;
          exists inf_code, w0; (split; [reflexivity|]); right; right;
          (split; [exact Hfatal|]); right.
        -- left. apply Z.ltb_lt in Hroom. auto.
        -- right. apply Z.ltb_ge in Hroom. auto.
    + destruct (0 <? avail_out zs1) eqn:Hroom; intros H; injection H as <- <- <-;
        exists inf_code, w0; (split; [reflexivity|]); right; right;
        (split; [exact Hfatal|]); right.
      * left. apply Z.ltb_lt in Hroom. auto.
      * right. apply Z.ltb_ge in Hroom. auto.
Qed.

Lemma uncompress_to_outstream_step_code_set {W : Type}
    (inflate : z_stream -> Z -> W -> Z * z_stream * W)
    (state : Z) (zs : z_stream) (output_handler : StreamDataHandler W)
    (output_buf output_len : Z) (w : W) (code : Z) (zs' : z_stream) (w' : W) :
  uncompress_to_outstream_step W inflate state zs output_handler output_buf output_len w
  = (code, zs', w') ->
  code = Z_DATA_ERROR \/ code = Z_STREAM_ERROR \/ code = Z_MEM_ERROR \/
  code = GOZLIB_STREAM_OUTPUT_WRITE_ERROR \/ code = Z_OK \/
  code = GOZLIB_STREAM_OUTPUT_HAS_MORE_DATA.
Proof.
  intros H.
  destruct (uncompress_to_outstream_step_result inflate _ _ _ _ _ _ _ _ _ H)
    as (c & w0 & _ & [(_ & -> & _) | [(Hf & Hnd & -> & _)
                                     | (_ & [(-> & _)|[(-> & _)|(-> & _)]])]]);
    auto 7.
  apply is_inflate_result_fatal_spec in Hf as [->|[->|[->| ->]]]; auto. contradiction.
Qed.

(** X28. Whatever [inflate] and the output handler do,
    [uncompress_to_outstream_step] returns one of [Z_DATA_ERROR],
    [Z_STREAM_ERROR], [Z_MEM_ERROR], the write error, [Z_OK] and the
    has-more-data code. It never returns [Z_STREAM_END], [Z_NEED_DICT] or
    [Z_BUF_ERROR]: the end of the stream is reported as [Z_OK] or as more
    data, and a missing dictionary as [Z_DATA_ERROR]. *)
Theorem uncompress_to_outstream_step_codes {W : Type}
    (inflate : z_stream -> Z -> W -> Z * z_stream * W)
    (state : Z) (zs : z_stream) (output_handler : StreamDataHandler W)
    (output_buf output_len : Z) (w : W) (code : Z) (zs' : z_stream) (w' : W) :
  uncompress_to_outstream_step W inflate state zs output_handler output_buf output_len w
  = (code, zs', w') ->
  (code = Z_DATA_ERROR \/ code = Z_STREAM_ERROR \/ code = Z_MEM_ERROR \/
   code = GOZLIB_STREAM_OUTPUT_WRITE_ERROR \/ code = Z_OK \/
   code = GOZLIB_STREAM_OUTPUT_HAS_MORE_DATA) /\
  code <> Z_STREAM_END /\ code <> Z_NEED_DICT /\ code <> Z_BUF_ERROR.
Proof.
  intros H.
  pose proof (uncompress_to_outstream_step_code_set inflate _ _ _ _ _ _ _ _ _ H) as Hcodes.
  split; [exact Hcodes|].
  unfold Z_DATA_ERROR, Z_STREAM_ERROR, Z_MEM_ERROR, GOZLIB_STREAM_OUTPUT_WRITE_ERROR,
    GOZLIB_STREAM_OUTPUT_HAS_MORE_DATA, GOZLIB_CUSTOM_CODE_BASE, Z_OK, Z_STREAM_END,
    Z_NEED_DICT, Z_BUF_ERROR in *.
  lia.
Qed.

Lemma uncompress_to_outstream_step_codes_witness :
  uncompress_to_outstream_step unit (fun zs _ w => (Z_STREAM_END, zs, w)) 0
    (mk_z_stream 0 0 0 0 0) (fun _ _ n w => (n, w)) 4096 16 tt
  = (Z_OK, mk_z_stream 0 0 4096 16 0, tt) /\
  (Z_OK = Z_DATA_ERROR \/ Z_OK = Z_STREAM_ERROR \/ Z_OK = Z_MEM_ERROR \/
   Z_OK = GOZLIB_STREAM_OUTPUT_WRITE_ERROR \/ Z_OK = Z_OK \/
   Z_OK = GOZLIB_STREAM_OUTPUT_HAS_MORE_DATA) /\
  Z_OK <> Z_STREAM_END /\ Z_OK <> Z_NEED_DICT /\ Z_OK <> Z_BUF_ERROR.
Proof.
  split; [reflexivity|].
  apply (uncompress_to_outstream_step_codes (fun zs _ w => (Z_STREAM_END, zs, w)) 0
           (mk_z_stream 0 0 0 0 0) (fun _ _ n w => (n, w)) 4096 16 tt
           Z_OK (mk_z_stream 0 0 4096 16 0) tt).
  reflexivity.
Defined.

Lemma uncompress_to_outstream_result {W : Type}
    (inflate : z_stream -> Z -> W -> Z * z_stream * W)
    (state : Z) (output_handler : StreamDataHandler W) (output_buf output_len : Z)
    (fuel : nat) :
  forall (zs : z_stream) (w : W) (code : Z) (zs' : z_stream) (w' : W),
    uncompress_to_outstream W inflate fuel state zs output_handler output_buf output_len w
    = Some (code, zs', w') ->
    exists zs0 w0,
      uncompress_to_outstream_step W inflate state zs0 output_handler output_buf output_len w0
      = (code, zs', w') /\
      code <> GOZLIB_STREAM_OUTPUT_HAS_MORE_DATA.
Proof.
  induction fuel as [|f IH]; intros zs w code zs' w' H; [discriminate|].
  cbn [uncompress_to_outstream] in H.
  destruct (uncompress_to_outstream_step W inflate state zs output_handler output_buf
              output_len w) as [[c zs1] w1] eqn:Hstep.
  destruct (c =? GOZLIB_STREAM_OUTPUT_HAS_MORE_DATA) eqn:Hmore.
  - apply (IH zs1 w1). exact H.
  - injection H as <- <- <-. exists zs, w. split; [exact Hstep|].
    apply Z.eqb_neq. exact Hmore.
Qed.

(** X29. When [uncompress_to_outstream] returns, its result is
    [Z_DATA_ERROR], [Z_STREAM_ERROR], [Z_MEM_ERROR], the write error or
    [Z_OK]: never the has-more-data code, and never [Z_STREAM_END] (the end
    of the stream reaches the caller as [Z_OK]). *)
Theorem uncompress_to_outstream_codes {W : Type}
    (inflate : z_stream -> Z -> W -> Z * z_stream * W)
    (fuel : nat) (state : Z) (zs : z_stream) (output_handler : StreamDataHandler W)
    (output_buf output_len : Z) (w : W) (code : Z) (zs' : z_stream) (w' : W) :
  uncompress_to_outstream W inflate fuel state zs output_handler output_buf output_len w
  = Some (code, zs', w') ->
  (code = Z_DATA_ERROR \/ code = Z_STREAM_ERROR \/ code = Z_MEM_ERROR \/
   code = GOZLIB_STREAM_OUTPUT_WRITE_ERROR \/ code = Z_OK) /\
  code <> Z_STREAM_END /\ code <> GOZLIB_STREAM_OUTPUT_HAS_MORE_DATA.
Proof.
  intros H.
  destruct (uncompress_to_outstream_result inflate _ _ _ _ _ _ _ _ _ _ H)
    as (zs0 & w0 & Hstep & Hmore).
  pose proof (uncompress_to_outstream_step_code_set inflate _ _ _ _ _ _ _ _ _ Hstep)
    as Hcodes.
  split; [tauto|]. split; [|exact Hmore].
  unfold Z_DATA_ERROR, Z_STREAM_ERROR, Z_MEM_ERROR, GOZLIB_STREAM_OUTPUT_WRITE_ERROR,
    GOZLIB_STREAM_OUTPUT_HAS_MORE_DATA, GOZLIB_CUSTOM_CODE_BASE, Z_OK, Z_STREAM_END in *.
  lia.
Qed.

Lemma uncompress_to_outstream_codes_witness :
  uncompress_to_outstream unit (fun zs _ w => (Z_STREAM_END, zs, w)) 1 0
    (mk_z_stream 0 0 0 0 0) (fun _ _ n w => (n, w)) 4096 16 tt
  = Some (Z_OK, mk_z_stream 0 0 4096 16 0, tt) /\
  (Z_OK = Z_DATA_ERROR \/ Z_OK = Z_STREAM_ERROR \/ Z_OK = Z_MEM_ERROR \/
   Z_OK = GOZLIB_STREAM_OUTPUT_WRITE_ERROR \/ Z_OK = Z_OK) /\
  Z_OK <> Z_STREAM_END /\ Z_OK <> GOZLIB_STREAM_OUTPUT_HAS_MORE_DATA.
Proof.
  split; [reflexivity|].
  apply (uncompress_to_outstream_codes (fun zs _ w => (Z_STREAM_END, zs, w)) 1 0
           (mk_z_stream 0 0 0 0 0) (fun _ _ n w => (n, w)) 4096 16 tt
           Z_OK (mk_z_stream 0 0 4096 16 0) tt).
  reflexivity.
Defined.

Lemma compress_to_outstream_zero_length {W : Type}
    (deflate : z_stream -> Z -> W -> Z * z_stream * W)
    (state flush : Z) (output_handler : StreamDataHandler W) (output_buf : Z) (fuel : nat) :
  (forall zs f w, avail_out zs = 0 -> avail_out (snd (fst (deflate zs f w))) = 0) ->
  forall (zs : z_stream) (w : W) (code : Z) (zs' : z_stream) (w' : W),
    compress_to_outstream W deflate fuel state zs flush output_handler output_buf 0 w
    = Some (code, zs', w') ->
    code = Z_STREAM_ERROR.
Proof.
  intros Hkeep. induction fuel as [|f IH]; intros zs w code zs' w' H; [discriminate|].
  cbn [compress_to_outstream] in H.
  pose proof (Hkeep (with_out output_buf 0 zs) flush w eq_refl) as Hout.
  destruct (deflate (with_out output_buf 0 zs) flush w) as [[c zs1] w1].
  cbn [fst snd] in Hout.
  destruct (c =? Z_STREAM_ERROR) eqn:Herr.
  - injection H as <- <- <-. apply Z.eqb_eq. exact Herr.
  - rewrite Hout in H. change (wrap32 (0 - 0)) with 0 in H.
    change (0 <? 0) with false in H. cbv iota in H.
    apply (IH zs1 w1 code zs' w' H).
Qed.

(** X30. With an output buffer of length zero the stream loops can only
    end on an error of zlib: as long as [inflate] and [deflate] leave
    [avail_out] at zero when it is zero, [uncompress_to_outstream] returns
    nothing but [Z_DATA_ERROR], [Z_STREAM_ERROR] or [Z_MEM_ERROR] and
    [compress_to_outstream] nothing but [Z_STREAM_ERROR]; on any other code,
    also [Z_STREAM_END] and [Z_BUF_ERROR], they do not return. *)
Theorem stream_loops_zero_length_buffer {W : Type}
    (inflate deflate : z_stream -> Z -> W -> Z * z_stream * W)
    (fuel : nat) (state flush : Z) (zs : z_stream) (output_handler : StreamDataHandler W)
    (output_buf : Z) (w : W) (code : Z) (zs' : z_stream) (w' : W) :
  (forall zs f w, avail_out zs = 0 -> avail_out (snd (fst (inflate zs f w))) = 0) ->
  (forall zs f w, avail_out zs = 0 -> avail_out (snd (fst (deflate zs f w))) = 0) ->
  (uncompress_to_outstream W inflate fuel state zs output_handler output_buf 0 w
   = Some (code, zs', w') ->
   code = Z_DATA_ERROR \/ code = Z_STREAM_ERROR \/ code = Z_MEM_ERROR) /\
  (compress_to_outstream W deflate fuel state zs flush output_handler output_buf 0 w
   = Some (code, zs', w') ->
   code = Z_STREAM_ERROR).
Proof.
  intros Hinf Hdef. split.
  - intros H.
    destruct (uncompress_to_outstream_result inflate _ _ _ _ _ _ _ _ _ _ H)
      as (zs0 & w0 & Hstep & Hmore).
    destruct (uncompress_to_outstream_step_result inflate _ _ _ _ _ _ _ _ _ Hstep)
      as (c & w1 & Hrun & Hcases).
    pose proof (Hinf (with_out output_buf 0 zs0) Z_NO_FLUSH w0 eq_refl) as Hout.
    rewrite Hrun in Hout. cbn [fst snd] in Hout.
    destruct Hcases as [(_ & -> & _) | [(Hf & Hnd & -> & _) | (_ & Hrest)]].
    + left. reflexivity.
    + apply is_inflate_result_fatal_spec in Hf as [->|[->|[->| ->]]]; auto. contradiction.
    + exfalso. rewrite Hout in Hrest. change (wrap32 (0 - 0)) with 0 in Hrest.
      destruct Hrest as [(_ & Hlt)|[(_ & Hlt)|(-> & _)]]; [lia | lia | contradiction].
  - apply (compress_to_outstream_zero_length deflate state flush output_handler output_buf
             fuel Hdef zs w code zs' w').
Qed.

Lemma stream_loops_zero_length_buffer_witness :
  uncompress_to_outstream unit (fun zs _ w => (Z_STREAM_ERROR, zs, w)) 1 0
    (mk_z_stream 0 0 0 0 0) (fun _ _ n w => (n, w)) 4096 0 tt
  = Some (Z_STREAM_ERROR, mk_z_stream 0 0 4096 0 0, tt) /\
  compress_to_outstream unit (fun zs _ w => (Z_STREAM_ERROR, zs, w)) 1 0
    (mk_z_stream 0 0 0 0 0) 0 (fun _ _ n w => (n, w)) 4096 0 tt
  = Some (Z_STREAM_ERROR, mk_z_stream 0 0 4096 0 0, tt) /\
  (Z_STREAM_ERROR = Z_DATA_ERROR \/ Z_STREAM_ERROR = Z_STREAM_ERROR \/
   Z_STREAM_ERROR = Z_MEM_ERROR) /\
  Z_STREAM_ERROR = Z_STREAM_ERROR.
Proof.
  split; [reflexivity|]. split; [reflexivity|].
  destruct (stream_loops_zero_length_buffer
              (fun zs (_ : Z) (w : unit) => (Z_STREAM_ERROR, zs, w))
              (fun zs (_ : Z) (w : unit) => (Z_STREAM_ERROR, zs, w))
              1 0 0 (mk_z_stream 0 0 0 0 0) (fun _ _ n w => (n, w)) 4096 tt
              Z_STREAM_ERROR (mk_z_stream 0 0 4096 0 0) tt) as (H1 & H2).
  - intros zs f w H. exact H.
  - intros zs f w H. exact H.
  - split; [apply H1; reflexivity | apply H2; reflexivity].
Defined.
